(** * CineFlare investment settlement engine

    A shallow embedding of the Solidity contracts of the repository
    (ClaimSBT, RewardNFT, StakeManager, OracleAdapter, ProjectVault and the
    MockFLR token revenue is paid in) and the properties of the engine that
    the specification states about them.

    Conventions of the embedding:
    - [uint256], [address] and [bytes32] values are binary naturals [N];
      Solidity 0.8 checked arithmetic is written out ([Panic] on overflow,
      underflow and division by zero);
    - a Solidity [mapping] is a finite map read through a getter that
      returns the zero value of the value type on a missing key;
    - a Solidity [string] is a [string] of bytes, and [keccak256] is
      Keccak-256 itself, executable and checked against known digests;
    - a call either commits ([Ok]) or fails ([Revert] with the reason string
      of the failing [require], or [Panic]); a failed call leaves the whole
      world as it was, as the EVM does;
    - [msg.sender] and [block.timestamp] are explicit arguments, and a
      contract calling another passes its own address as the sender;
    - calls run one at a time, so the [nonReentrant] modifier is always
      passed; token receivers are externally owned accounts;
    - the events of the vault and the [Transfer] events of the token are
      recorded, the other events are not; price feeds and
      [setOracleAdapter] are left out;
    - signature recovery (the [ecrecover] precompile) is a parameter.

    Two functions the contracts call are absent from the sources,
    [ClaimSBT.mintClaim] and [RewardNFT.claimOf]; they are modelled from the
    specification and marked so. *)

From Stdlib Require Import NArith ZArith Lia List Ascii String Bool.
From stdpp Require Import gmap strings list fin_maps.

Close Scope string_scope.
Local Open Scope N_scope.

(* ===================================================================== *)
(** ** EVM values, results and checked arithmetic *)
(* ===================================================================== *)

Module EVM.

(** The EVM value types, all read as binary naturals. *)
Abbreviation uint256 := N (only parsing).
Abbreviation address := N (only parsing).
Abbreviation bytes32 := N (only parsing).
Abbreviation bytes := (list N) (only parsing).

Definition MAX_UINT256 : N := 2 ^ 256 - 1.

(** Outcome of a message call. *)
Inductive Result (A : Type) : Type :=
| Ok (a : A)
| Revert (reason : string)
| Panic (code : N).
Arguments Ok {A} a.
Arguments Revert {A} reason.
Arguments Panic {A} code.

Definition bind {A B} (r : Result A) (k : A -> Result B) : Result B :=
  match r with
  | Ok a => k a
  | Revert s => Revert s
  | Panic c => Panic c
  end.

Definition require (b : bool) (reason : string) : Result unit :=
  if b then Ok tt else Revert reason.

Definition is_ok {A} (r : Result A) : bool :=
  match r with Ok _ => true | _ => false end.

(** Solidity 0.8 arithmetic: Panic(0x11) on overflow or underflow,
    Panic(0x12) on division by zero. *)
Definition add (a b : uint256) : Result uint256 :=
  if a + b <=? MAX_UINT256 then Ok (a + b) else Panic 17.
Definition sub (a b : uint256) : Result uint256 :=
  if b <=? a then Ok (a - b) else Panic 17.
Definition mul (a b : uint256) : Result uint256 :=
  if a * b <=? MAX_UINT256 then Ok (a * b) else Panic 17.
Definition div (a b : uint256) : Result uint256 :=
  if b =? 0 then Panic 18 else Ok (a / b).

(** The bytes of a Solidity [string] (one [ascii] per byte). *)
Definition bytes_of_string (s : string) : bytes :=
  List.map N_of_ascii (list_ascii_of_string s).

(** Big-endian encoding of [v] on [n] bytes. *)
Fixpoint be_bytes (n : nat) (v : N) : bytes :=
  match n with
  | O => []
  | S n' => be_bytes n' (v / 256) ++ [v mod 256]
  end.

Definition of_be_bytes (bs : bytes) : N :=
  fold_left (fun acc b => acc * 256 + b) bs 0.

(** [abi.encodePacked] of one [uint256]: 32 bytes, big-endian. *)
Definition encode_uint256 (v : uint256) : bytes := be_bytes 32 v.

End EVM.
Export EVM.

(** [Result] is a monad; the stdpp notations [x ← c; k] and [c;; k] sequence
    calls and stop at the first failure. *)
#[export] Instance Result_ret : MRet Result := fun _ a => Ok a.
#[export] Instance Result_bind : MBind Result := fun _ _ k r => EVM.bind r k.
#[export] Instance Result_fmap : FMap Result :=
  fun _ _ f r => EVM.bind r (fun a => Ok (f a)).

(* ===================================================================== *)
(** ** Keccak-256, the EVM hash behind [keccak256(...)] *)
(* ===================================================================== *)

Module Keccak.

Definition mask64 : N := 2 ^ 64 - 1.

Definition rotl64 (x n : N) : N :=
  N.land (N.lor (N.shiftl x n) (N.shiftr x (64 - n))) mask64.

Definition round_constants : list N :=
  [ 0x0000000000000001; 0x0000000000008082; 0x800000000000808A;
    0x8000000080008000; 0x000000000000808B; 0x0000000080000001;
    0x8000000080008081; 0x8000000000008009; 0x000000000000008A;
    0x0000000000000088; 0x0000000080008009; 0x000000008000000A;
    0x000000008000808B; 0x800000000000008B; 0x8000000000008089;
    0x8000000000008003; 0x8000000000008002; 0x8000000000000080;
    0x000000000000800A; 0x800000008000000A; 0x8000000080008081;
    0x8000000000008080; 0x0000000080000001; 0x8000000080008008 ].

(** Rotation offsets, lane (x, y) at index x + 5 y. *)
Definition rotation_offsets : list N :=
  [  0;  1; 62; 28; 27;
    36; 44;  6; 55; 20;
     3; 10; 43; 25; 39;
    41; 45; 15; 21;  8;
    18;  2; 61; 56; 14 ].

Definition lane (A : list N) (x y : nat) : N :=
  nth ((x mod 5) + 5 * (y mod 5))%nat A 0.

Definition lanes (f : nat -> nat -> N) : list N :=
  List.map (fun i => f (i mod 5)%nat (i / 5)%nat) (seq 0 25).

Definition theta (A : list N) : list N :=
  let C x := N.lxor (lane A x 0) (N.lxor (lane A x 1) (N.lxor (lane A x 2)
               (N.lxor (lane A x 3) (lane A x 4)))) in
  let D x := N.lxor (C (x + 4)%nat) (rotl64 (C (x + 1)%nat) 1) in
  lanes (fun x y => N.lxor (lane A x y) (D x)).

Definition rho_pi (A : list N) : list N :=
  lanes (fun X Y =>
    let x := ((X + 3 * Y) mod 5)%nat in
    rotl64 (lane A x X) (nth (x + 5 * X)%nat rotation_offsets 0)).

Definition chi (B : list N) : list N :=
  lanes (fun x y =>
    N.lxor (lane B x y)
      (N.land (N.lxor (lane B (x + 1) y) mask64) (lane B (x + 2) y))).

Definition iota (rc : N) (A : list N) : list N :=
  match A with
  | a :: rest => N.lxor a rc :: rest
  | [] => []
  end.

Definition round (A : list N) (rc : N) : list N :=
  iota rc (chi (rho_pi (theta A))).

Definition keccak_f (A : list N) : list N :=
  fold_left round round_constants A.

(** Little-endian value of at most eight bytes. *)
Definition le_lane (bs : list N) : N :=
  fold_right (fun b acc => b + 256 * acc) 0 bs.

Fixpoint le_bytes (n : nat) (v : N) : list N :=
  match n with
  | O => []
  | S n' => (v mod 256) :: le_bytes n' (v / 256)
  end.

Fixpoint chunks (fuel k : nat) (bs : list N) : list (list N) :=
  match fuel with
  | O => []
  | S fuel' =>
      match bs with
      | [] => []
      | _ => firstn k bs :: chunks fuel' k (skipn k bs)
      end
  end.

Definition rate : nat := 136.

(** Keccak padding (domain byte 0x01, final bit 0x80). *)
Definition pad (msg : list N) : list N :=
  let q := (rate - (length msg mod rate))%nat in
  if (q =? 1)%nat then msg ++ [0x81]
  else msg ++ [0x01] ++ repeat 0 (q - 2) ++ [0x80].

Definition absorb_block (A : list N) (block : list N) : list N :=
  let ls := List.map le_lane (chunks 17 8 block) in
  keccak_f (List.map (fun i => N.lxor (nth i A 0) (nth i ls 0)) (seq 0 25)).

Definition keccak256_bytes (msg : list N) : list N :=
  let p := pad msg in
  let A := fold_left absorb_block (chunks (length p) rate p) (repeat 0 25) in
  flat_map (le_bytes 8) (firstn 4 A).

Definition keccak256 (msg : list N) : bytes32 :=
  of_be_bytes (keccak256_bytes msg).

End Keccak.

Definition keccak256 := Keccak.keccak256.

(* ===================================================================== *)
(** ** Storage mappings *)
(* ===================================================================== *)

(** [m[k]] of a Solidity mapping whose value type has zero value [d]. *)
Definition mget `{Countable K} {V} (d : V) (m : gmap K V) (k : K) : V :=
  default d (m !! k).

(* ===================================================================== *)
(** ** OpenZeppelin 4.x base contracts the repository inherits from *)
(* ===================================================================== *)

(** [Ownable]: the [onlyOwner] modifier. *)
Definition onlyOwner (owner sender : address) : Result unit :=
  require (sender =? owner) "Ownable: caller is not the owner".

(** [ERC721]: token ownership, balances and approvals.  Receivers are
    externally owned accounts, so the [onERC721Received] acceptance check of
    [_safeMint] is not modelled; the [_beforeTokenTransfer] hook a contract
    overrides is passed as [hook]. *)
Module ERC721.

Record State := mkState {
  _owners : gmap N address;
  _balances : gmap address N;
  _tokenApprovals : gmap N address;
  _operatorApprovals : gmap (address * address) bool
}.

Definition empty : State := mkState ∅ ∅ ∅ ∅.

Definition Hook := address -> address -> uint256 -> Result unit.
Definition no_hook : Hook := fun _ _ _ => Ok tt.

Definition _ownerOf (st : State) (tokenId : uint256) : address :=
  mget 0 (_owners st) tokenId.

Definition _exists (st : State) (tokenId : uint256) : bool :=
  negb (_ownerOf st tokenId =? 0).

Definition ownerOf (st : State) (tokenId : uint256) : Result address :=
  let owner := _ownerOf st tokenId in
  require (negb (owner =? 0)) "ERC721: invalid token ID";;
  Ok owner.

Definition balanceOf (st : State) (a : address) : uint256 :=
  mget 0 (_balances st) a.

Definition getApproved (st : State) (tokenId : uint256) : address :=
  mget 0 (_tokenApprovals st) tokenId.

Definition isApprovedForAll (st : State) (owner operator : address) : bool :=
  mget false (_operatorApprovals st) (owner, operator).

Definition _safeMint (hook : Hook) (to : address) (tokenId : uint256)
    (st : State) : Result State :=
  require (negb (to =? 0)) "ERC721: mint to the zero address";;
  require (negb (_exists st tokenId)) "ERC721: token already minted";;
  hook 0 to tokenId;;
  Ok (mkState (<[tokenId := to]> (_owners st))
              (<[to := balanceOf st to + 1]> (_balances st))
              (_tokenApprovals st) (_operatorApprovals st)).

Definition _burn (hook : Hook) (tokenId : uint256) (st : State)
    : Result State :=
  owner ← ownerOf st tokenId;
  hook owner 0 tokenId;;
  Ok (mkState (delete tokenId (_owners st))
              (<[owner := balanceOf st owner - 1]> (_balances st))
              (delete tokenId (_tokenApprovals st))
              (_operatorApprovals st)).

Definition _isApprovedOrOwner (st : State) (spender : address)
    (tokenId : uint256) : Result bool :=
  owner ← ownerOf st tokenId;
  Ok ((spender =? owner) || isApprovedForAll st owner spender
      || (getApproved st tokenId =? spender)).

Definition transferFrom (hook : Hook) (sender from to : address)
    (tokenId : uint256) (st : State) : Result State :=
  ok ← _isApprovedOrOwner st sender tokenId;
  require ok "ERC721: caller is not token owner or approved";;
  owner ← ownerOf st tokenId;
  require (owner =? from) "ERC721: transfer from incorrect owner";;
  require (negb (to =? 0)) "ERC721: transfer to the zero address";;
  hook from to tokenId;;
  let bals := <[from := balanceOf st from - 1]> (_balances st) in
  Ok (mkState (<[tokenId := to]> (_owners st))
              (<[to := mget 0 bals to + 1]> bals)
              (delete tokenId (_tokenApprovals st))
              (_operatorApprovals st)).

Definition approve (sender to : address) (tokenId : uint256) (st : State)
    : Result State :=
  owner ← ownerOf st tokenId;
  require (negb (to =? owner)) "ERC721: approval to current owner";;
  require ((sender =? owner) || isApprovedForAll st owner sender)
    "ERC721: approve caller is not token owner or approved for all";;
  Ok (mkState (_owners st) (_balances st)
              (<[tokenId := to]> (_tokenApprovals st))
              (_operatorApprovals st)).

Definition setApprovalForAll (sender operator : address) (approved : bool)
    (st : State) : Result State :=
  require (negb (sender =? operator)) "ERC721: approve to caller";;
  Ok (mkState (_owners st) (_balances st) (_tokenApprovals st)
              (<[(sender, operator) := approved]> (_operatorApprovals st))).

End ERC721.

(* ===================================================================== *)
(** ** ClaimSBT: the claim registry (ClaimSBT.sol, in src/lib/xrpl.ts) *)
(* ===================================================================== *)

Module ClaimSBT.

Inductive ClaimStatus := Active | Staked | Slashed.

Definition status_eqb (a b : ClaimStatus) : bool :=
  match a, b with
  | Active, Active | Staked, Staked | Slashed, Slashed => true
  | _, _ => false
  end.

Record Claim := mkClaim {
  projectId : uint256;
  basisPoints : uint256;   (* share in basis points, 10000 = 100% *)
  status : ClaimStatus;
  joinPrice : uint256;
  xrplSourceTx : string;
  timestamp : uint256
}.

(** The value a mapping returns for a token that was never written. *)
Definition zeroClaim : Claim := mkClaim 0 0 Active 0 "" 0.

Record State := mkState {
  owner : address;                         (* Ownable._owner *)
  erc721 : ERC721.State;
  _tokenIdCounter : uint256;
  claims : gmap N Claim;
  userClaims : gmap address (list N);
  projectClaims : gmap N (list N)
}.

(** State right after [constructor()], deployed by [deployer]. *)
Definition deploy (deployer : address) : State :=
  mkState deployer ERC721.empty 0 ∅ ∅ ∅.

Definition claim (st : State) (tokenId : uint256) : Claim :=
  mget zeroClaim (claims st) tokenId.

Definition getUserClaims (st : State) (user : address) : list N :=
  mget [] (userClaims st) user.

Definition getProjectClaims (st : State) (pid : uint256) : list N :=
  mget [] (projectClaims st) pid.

Definition _exists (st : State) (tokenId : uint256) : bool :=
  ERC721._exists (erc721 st) tokenId.

Definition ownerOf (st : State) (tokenId : uint256) : Result address :=
  ERC721.ownerOf (erc721 st) tokenId.

(** [_beforeTokenTransfer]: only mints and burns pass. *)
Definition _beforeTokenTransfer : ERC721.Hook := fun from to _ =>
  require ((from =? 0) || (to =? 0)) "SBT: Token is non-transferable".

Definition set_status (s : ClaimStatus) (c : Claim) : Claim :=
  mkClaim (projectId c) (basisPoints c) s (joinPrice c) (xrplSourceTx c)
          (timestamp c).

Definition set_basisPoints (bp : uint256) (c : Claim) : Claim :=
  mkClaim (projectId c) bp (status c) (joinPrice c) (xrplSourceTx c)
          (timestamp c).

Definition set_claim (tokenId : uint256) (c : Claim) (st : State) : State :=
  mkState (owner st) (erc721 st) (_tokenIdCounter st)
          (<[tokenId := c]> (claims st)) (userClaims st) (projectClaims st).

(** The loop of [mintOrTopUp]: the first of the user's token ids whose
    claim is Active, 0 when there is none. *)
Fixpoint firstActive (st : State) (userTokenIds : list N) : uint256 :=
  match userTokenIds with
  | [] => 0
  | id :: rest =>
      if status_eqb (status (claim st id)) Active then id
      else firstActive st rest
  end.

(** A new token: [_tokenIdCounter++], [_safeMint], the claim record and the
    two index pushes ([projectClaims[0]] in [mintOrTopUp]). *)
Definition mintNew (to : address) (newClaim : Result Claim)
    (pid : uint256) (st : State) : Result (uint256 * State) :=
  let tokenId := _tokenIdCounter st in
  counter' ← EVM.add tokenId 1;
  e' ← ERC721._safeMint _beforeTokenTransfer to tokenId (erc721 st);
  c ← newClaim;
  Ok (tokenId,
      mkState (owner st) e' counter'
              (<[tokenId := c]> (claims st))
              (<[to := getUserClaims st to ++ [tokenId]]> (userClaims st))
              (<[pid := getProjectClaims st pid ++ [tokenId]]>
                 (projectClaims st))).

Definition mintOrTopUp (sender : address) (now : uint256) (to : address)
    (amount : uint256) (st : State) : Result (uint256 * State) :=
  onlyOwner (owner st) sender;;
  require (0 <? amount) "Invalid amount";;
  let userTokenIds := getUserClaims st to in
  let existingTokenId := firstActive st userTokenIds in
  if 0 <? existingTokenId then
    p ← EVM.mul amount 10000;
    inc ← EVM.div p 1000000;
    bp ← EVM.add (basisPoints (claim st existingTokenId)) inc;
    Ok (existingTokenId,
        set_claim existingTokenId
          (set_basisPoints bp (claim st existingTokenId)) st)
  else
    mintNew to
      (p ← EVM.mul amount 10000;
       bp ← EVM.div p 1000000;
       Ok (mkClaim 0 bp Active 0 "" now))
      0 st.

(** Modelled from the spec: [mintClaim] is called by
    [ProjectVault.processPayment] and declared in the front end's
    [ClaimSBTABI], but its body is not in the sources.  Specification 4.1:
    [mintClaim(owner, projectId, basisPoints, joinPrice, paymentRef)]
    returns the new claim id, fails with [InvalidShare] if
    [basisPoints == 0], appends the id to the per-owner and per-project
    indexes, and is not a public operation (here: [onlyOwner], as every
    other mutator of the registry).  The new claim is Active, and its id is
    allocated as [mintOrTopUp] allocates it. *)
Definition mintClaim (sender : address) (now : uint256) (to : address)
    (pid bp price : uint256) (xrplTx : string) (st : State)
    : Result (uint256 * State) :=
  onlyOwner (owner st) sender;;
  require (0 <? bp) "InvalidShare";;
  mintNew to (Ok (mkClaim pid bp Active price xrplTx now)) pid st.

Definition pause (sender : address) (tokenId : uint256) (st : State)
    : Result State :=
  onlyOwner (owner st) sender;;
  require (_exists st tokenId) "Token does not exist";;
  Ok (set_claim tokenId (set_status Staked (claim st tokenId)) st).

Definition unpause (sender : address) (tokenId : uint256) (st : State)
    : Result State :=
  onlyOwner (owner st) sender;;
  require (_exists st tokenId) "Token does not exist";;
  Ok (set_claim tokenId (set_status Active (claim st tokenId)) st).

Definition getClaimData (st : State) (tokenId : uint256) : Result Claim :=
  require (_exists st tokenId) "Token does not exist";;
  Ok (claim st tokenId).

(** The overridden approval and transfer entry points. *)
Definition approve (sender to : address) (tokenId : uint256) (st : State)
    : Result State := Revert "SBT: Token is non-transferable".

Definition setApprovalForAll (sender operator : address) (approved : bool)
    (st : State) : Result State := Revert "SBT: Token is non-transferable".

Definition transferFrom (sender from to : address) (tokenId : uint256)
    (st : State) : Result State := Revert "SBT: Token is non-transferable".

Definition safeTransferFrom (sender from to : address) (tokenId : uint256)
    (st : State) : Result State := Revert "SBT: Token is non-transferable".

Definition safeTransferFromData (sender from to : address)
    (tokenId : uint256) (data : bytes) (st : State) : Result State :=
  Revert "SBT: Token is non-transferable".

(** [Ownable.transferOwnership] and [renounceOwnership]. *)
Definition transferOwnership (sender newOwner : address) (st : State)
    : Result State :=
  onlyOwner (owner st) sender;;
  require (negb (newOwner =? 0)) "Ownable: new owner is the zero address";;
  Ok (mkState newOwner (erc721 st) (_tokenIdCounter st) (claims st)
              (userClaims st) (projectClaims st)).

Definition renounceOwnership (sender : address) (st : State)
    : Result State :=
  onlyOwner (owner st) sender;;
  Ok (mkState 0 (erc721 st) (_tokenIdCounter st) (claims st)
              (userClaims st) (projectClaims st)).

End ClaimSBT.

(* ===================================================================== *)
(** ** RewardNFT: the transferable reward
       (RewardNFT.sol, in src/contracts/ProjectFactory.sol) *)
(* ===================================================================== *)

Module RewardNFT.

Record RewardData := mkReward {
  claimTokenId : uint256;   (* the claim the reward was minted from *)
  projectId : uint256;
  basisPoints : uint256;
  mintTimestamp : uint256;
  isActive : bool
}.

Definition zeroReward : RewardData := mkReward 0 0 0 0 false.

Record State := mkState {
  owner : address;
  erc721 : ERC721.State;
  _tokenIdCounter : uint256;
  rewards : gmap N RewardData;
  claimToReward : gmap N N      (* claimTokenId => rewardTokenId *)
}.

Definition deploy (deployer : address) : State :=
  mkState deployer ERC721.empty 0 ∅ ∅.

Definition reward (st : State) (tokenId : uint256) : RewardData :=
  mget zeroReward (rewards st) tokenId.

Definition getRewardForClaim (st : State) (claimId : uint256) : uint256 :=
  mget 0 (claimToReward st) claimId.

Definition _exists (st : State) (tokenId : uint256) : bool :=
  ERC721._exists (erc721 st) tokenId.

Definition ownerOf (st : State) (tokenId : uint256) : Result address :=
  ERC721.ownerOf (erc721 st) tokenId.

Definition mintReward (sender : address) (now : uint256) (to : address)
    (claimId pid bp : uint256) (st : State) : Result (uint256 * State) :=
  onlyOwner (owner st) sender;;
  require (getRewardForClaim st claimId =? 0)
    "Reward already exists for this claim";;
  let tokenId := _tokenIdCounter st in
  counter' ← EVM.add tokenId 1;
  e' ← ERC721._safeMint ERC721.no_hook to tokenId (erc721 st);
  Ok (tokenId,
      mkState (owner st) e' counter'
              (<[tokenId := mkReward claimId pid bp now true]> (rewards st))
              (<[claimId := tokenId]> (claimToReward st))).

Definition burnReward (sender : address) (tokenId : uint256) (st : State)
    : Result State :=
  onlyOwner (owner st) sender;;
  require (_exists st tokenId) "Token does not exist";;
  require (isActive (reward st tokenId)) "Reward already burned";;
  let r := reward st tokenId in
  let claimId := claimTokenId r in
  e' ← ERC721._burn ERC721.no_hook tokenId (erc721 st);
  Ok (mkState (owner st) e' (_tokenIdCounter st)
              (<[tokenId := mkReward (claimTokenId r) (projectId r)
                              (basisPoints r) (mintTimestamp r) false]>
                 (rewards st))
              (<[claimId := 0]> (claimToReward st))).

Definition getRewardData (st : State) (tokenId : uint256)
    : Result RewardData :=
  require (_exists st tokenId) "Token does not exist";;
  Ok (reward st tokenId).

Definition hasActiveReward (st : State) (claimId : uint256) : bool :=
  let rewardTokenId := getRewardForClaim st claimId in
  negb (rewardTokenId =? 0) && isActive (reward st rewardTokenId).

(** Modelled from the spec: [claimOf] is called by
    [StakeManager.burnReward] but RewardNFT.sol does not define it.
    Specification 3: a Reward records "the claim identifier it is paired
    with", which is the [claimTokenId] field of the stored reward. *)
Definition claimOf (st : State) (rewardId : uint256) : uint256 :=
  claimTokenId (reward st rewardId).

Definition with_erc721 (e : ERC721.State) (st : State) : State :=
  mkState (owner st) e (_tokenIdCounter st) (rewards st) (claimToReward st).

(** The inherited, unrestricted ERC-721 transfer and approval functions
    ([_beforeTokenTransfer] only calls [super]). *)
Definition transferFrom (sender from to : address) (tokenId : uint256)
    (st : State) : Result State :=
  e' ← ERC721.transferFrom ERC721.no_hook sender from to tokenId (erc721 st);
  Ok (with_erc721 e' st).

Definition approve (sender to : address) (tokenId : uint256) (st : State)
    : Result State :=
  e' ← ERC721.approve sender to tokenId (erc721 st);
  Ok (with_erc721 e' st).

Definition setApprovalForAll (sender operator : address) (approved : bool)
    (st : State) : Result State :=
  e' ← ERC721.setApprovalForAll sender operator approved (erc721 st);
  Ok (with_erc721 e' st).

Definition transferOwnership (sender newOwner : address) (st : State)
    : Result State :=
  onlyOwner (owner st) sender;;
  require (negb (newOwner =? 0)) "Ownable: new owner is the zero address";;
  Ok (mkState newOwner (erc721 st) (_tokenIdCounter st) (rewards st)
              (claimToReward st)).

Definition renounceOwnership (sender : address) (st : State)
    : Result State :=
  onlyOwner (owner st) sender;;
  Ok (mkState 0 (erc721 st) (_tokenIdCounter st) (rewards st)
              (claimToReward st)).

End RewardNFT.

(* ===================================================================== *)
(** ** StakeManager (src/contracts/StakeManager.sol) *)
(* ===================================================================== *)

Module StakeManager.

Record StakeInfo := mkStake {
  claimTokenId : uint256;
  staker : address;
  stakeTimestamp : uint256;
  isStaked : bool
}.

Definition zeroStake : StakeInfo := mkStake 0 0 0 false.

Record State := mkState {
  stakes : gmap N StakeInfo;          (* claimTokenId => StakeInfo *)
  userStakes : gmap address (list N)
}.

Definition deploy : State := mkState ∅ ∅.

Definition getStakeInfo (st : State) (claimId : uint256) : StakeInfo :=
  mget zeroStake (stakes st) claimId.

Definition isClaimStaked (st : State) (claimId : uint256) : bool :=
  isStaked (getStakeInfo st claimId).

Definition getUserStakes (st : State) (user : address) : list N :=
  mget [] (userStakes st) user.

(** The three contracts a call of the manager touches; [this] is the
    manager's own address, the [msg.sender] of its calls to the others. *)
Abbreviation Ctx := (ClaimSBT.State * RewardNFT.State * State)%type.

Definition stakeAndMintReward (this sender : address) (now : uint256)
    (claimId : uint256) (ctx : Ctx) : Result (uint256 * Ctx) :=
  let '(sbt, rnft, sm) := ctx in
  o ← ClaimSBT.ownerOf sbt claimId;
  require (o =? sender) "Not claim owner";;
  require (negb (isStaked (getStakeInfo sm claimId)))
    "Claim already staked";;
  require (negb (RewardNFT.hasActiveReward rnft claimId))
    "Reward NFT already exists";;
  claimData ← ClaimSBT.getClaimData sbt claimId;
  require (ClaimSBT.status_eqb (ClaimSBT.status claimData) ClaimSBT.Active)
    "Claim not active";;
  sbt' ← ClaimSBT.pause this claimId sbt;
  let sm' :=
    mkState (<[claimId := mkStake claimId sender now true]> (stakes sm))
            (<[sender := getUserStakes sm sender ++ [claimId]]>
               (userStakes sm)) in
  '(rewardTokenId, rnft') ←
    RewardNFT.mintReward this now sender claimId
      (ClaimSBT.projectId claimData) (ClaimSBT.basisPoints claimData) rnft;
  Ok (rewardTokenId, (sbt', rnft', sm')).

Definition burnReward (this sender : address) (rewardId : uint256)
    (ctx : Ctx) : Result Ctx :=
  let '(sbt, rnft, sm) := ctx in
  o ← RewardNFT.ownerOf rnft rewardId;
  require (o =? sender) "Not reward NFT owner";;
  let claimId := RewardNFT.claimOf rnft rewardId in
  require (negb (claimId =? 0)) "Invalid reward NFT";;
  rnft' ← RewardNFT.burnReward this rewardId rnft;
  sbt' ← ClaimSBT.unpause this claimId sbt;
  let s := getStakeInfo sm claimId in
  Ok (sbt', rnft',
      mkState (<[claimId := mkStake (claimTokenId s) (staker s)
                              (stakeTimestamp s) false]> (stakes sm))
              (userStakes sm)).

End StakeManager.

(* ===================================================================== *)
(** ** OracleAdapter: the attestation verifier
       (src/contracts/OracleAdapter.sol) *)
(* ===================================================================== *)

Module OracleAdapter.

Record MilestoneAttestation := mkAttestation {
  projectId : uint256;
  milestoneIndex : uint256;
  milestoneName : string;
  description : string;
  proofHash : string;
  timestamp : uint256;
  verifier : address;
  verified : bool
}.

Definition zeroAttestation : MilestoneAttestation :=
  mkAttestation 0 0 "" "" "" 0 0 false.

Record XRPLPaymentProof := mkProof {
  txHash : string;
  sender : address;
  recipient : address;
  amount : uint256;
  proofTimestamp : uint256;
  blockNumber : uint256;
  proofVerified : bool
}.

Definition zeroProof : XRPLPaymentProof := mkProof "" 0 0 0 0 0 false.

Record State := mkState {
  owner : address;
  authorizedVerifiers : gmap address bool;
  milestoneAttestations : gmap N MilestoneAttestation;
  xrplPaymentProofs : gmap string XRPLPaymentProof
}.

Definition deploy (deployer : address) : State := mkState deployer ∅ ∅ ∅.

Definition isAuthorized (st : State) (a : address) : bool :=
  mget false (authorizedVerifiers st) a.

Definition getMilestoneAttestation (st : State) (key : bytes32)
    : MilestoneAttestation :=
  mget zeroAttestation (milestoneAttestations st) key.

Definition getXRPLPaymentProof (st : State) (tx : string)
    : XRPLPaymentProof :=
  mget zeroProof (xrplPaymentProofs st) tx.

Definition setVerifierAuthorization (caller v : address) (authorized : bool)
    (st : State) : Result State :=
  onlyOwner (owner st) caller;;
  Ok (mkState (owner st) (<[v := authorized]> (authorizedVerifiers st))
              (milestoneAttestations st) (xrplPaymentProofs st)).

(** [keccak256(abi.encodePacked(projectId, milestoneIndex, milestoneName,
    description, proofHash, block.timestamp))] *)
Definition messageHash (pid idx : uint256) (name desc proof : string)
    (now : uint256) : bytes32 :=
  keccak256 (encode_uint256 pid ++ encode_uint256 idx
             ++ bytes_of_string name ++ bytes_of_string desc
             ++ bytes_of_string proof ++ encode_uint256 now).

(** [keccak256(abi.encodePacked(projectId, milestoneIndex, proofHash,
    block.timestamp))], the key of the stored attestation. *)
Definition attestationKey (pid idx : uint256) (proof : string)
    (now : uint256) : bytes32 :=
  keccak256 (encode_uint256 pid ++ encode_uint256 idx
             ++ bytes_of_string proof ++ encode_uint256 now).

(** [ECDSA.toEthSignedMessageHash]: the digest of
    ["\x19Ethereum Signed Message:\n32"] followed by the 32-byte hash. *)
Definition toEthSignedMessageHash (h : bytes32) : bytes32 :=
  keccak256 ([25] ++ bytes_of_string "Ethereum Signed Message:" ++ [10]
             ++ bytes_of_string "32" ++ be_bytes 32 h).

Section WithECDSA.

(** Public-key recovery on secp256k1 (the [ecrecover] precompile behind
    OpenZeppelin's [ECDSA.recover]): [None] for a malformed signature. *)
Variable tryRecover : bytes32 -> bytes -> option address.

(** [ECDSA.recover] reverts on a malformed signature and on a recovered
    zero address. *)
Definition recover (h : bytes32) (signature : bytes) : Result address :=
  match tryRecover h signature with
  | Some a =>
      if a =? 0 then Revert "ECDSA: invalid signature" else Ok a
  | None => Revert "ECDSA: invalid signature"
  end.

Definition createMilestoneAttestation (now : uint256)
    (pid idx : uint256) (name desc proof : string) (signature : bytes)
    (st : State) : Result (bytes32 * State) :=
  let mh := messageHash pid idx name desc proof now in
  signer ← recover (toEthSignedMessageHash mh) signature;
  require (isAuthorized st signer) "Unauthorized verifier";;
  let attestationHash := attestationKey pid idx proof now in
  Ok (attestationHash,
      mkState (owner st) (authorizedVerifiers st)
        (<[attestationHash :=
             mkAttestation pid idx name desc proof now signer true]>
           (milestoneAttestations st))
        (xrplPaymentProofs st)).

End WithECDSA.

Definition verifyMilestoneAttestation (st : State) (key : bytes32) : bool :=
  let attestation := getMilestoneAttestation st key in
  verified attestation && negb (verifier attestation =? 0).

Definition store_proof (tx : string) (p : XRPLPaymentProof) (st : State)
    : State :=
  mkState (owner st) (authorizedVerifiers st) (milestoneAttestations st)
          (<[tx := p]> (xrplPaymentProofs st)).

Definition isXRPLPaymentVerified (st : State) (tx : string) : bool :=
  proofVerified (getXRPLPaymentProof st tx).

Definition verifyXRPLPayment (caller : address) (tx : string)
    (sndr rcpt : address) (amt ts blk : uint256) (st : State)
    : Result (bool * State) :=
  onlyOwner (owner st) caller;;
  require (negb (isXRPLPaymentVerified st tx)) "Payment already verified";;
  Ok (true, store_proof tx (mkProof tx sndr rcpt amt ts blk true) st).

(** One iteration of the loop of [batchVerifyXRPLPayments]. *)
Definition batchStep (txHashes : list string) (senders recipients : list N)
    (amounts timestamps blockNumbers : list N) (st : State) (i : nat)
    : State :=
  let tx := nth i txHashes "" in
  if negb (isXRPLPaymentVerified st tx) then
    store_proof tx
      (mkProof tx (nth i senders 0) (nth i recipients 0) (nth i amounts 0)
               (nth i timestamps 0) (nth i blockNumbers 0) true) st
  else st.

Definition batchVerifyXRPLPayments (caller : address)
    (txHashes : list string) (senders recipients : list N)
    (amounts timestamps blockNumbers : list N) (st : State)
    : Result State :=
  onlyOwner (owner st) caller;;
  let n := length txHashes in
  require (n =? length senders)%nat "Array length mismatch";;
  require (n =? length recipients)%nat "Array length mismatch";;
  require (n =? length amounts)%nat "Array length mismatch";;
  require (n =? length timestamps)%nat "Array length mismatch";;
  require (n =? length blockNumbers)%nat "Array length mismatch";;
  Ok (fold_left
        (batchStep txHashes senders recipients amounts timestamps
                   blockNumbers)
        (seq 0 n) st).

Definition transferOwnership (caller newOwner : address) (st : State)
    : Result State :=
  onlyOwner (owner st) caller;;
  require (negb (newOwner =? 0)) "Ownable: new owner is the zero address";;
  Ok (mkState newOwner (authorizedVerifiers st) (milestoneAttestations st)
              (xrplPaymentProofs st)).

End OracleAdapter.

(* ===================================================================== *)
(** ** MockFLR: the ERC-20 asset revenue is paid in
       (src/contracts/MockFLR.sol) *)
(* ===================================================================== *)

Module ERC20.

Record State := mkState {
  owner : address;
  _balances : gmap address N;
  _totalSupply : uint256;
  transfers : list (address * address * uint256)   (* Transfer events *)
}.

Definition balanceOf (st : State) (a : address) : uint256 :=
  mget 0 (_balances st) a.

(** [constructor()]: one million tokens to the deployer. *)
Definition deploy (deployer : address) : State :=
  mkState deployer {[ deployer := 1000000 * 10 ^ 18 ]} (1000000 * 10 ^ 18)
          [(0, deployer, 1000000 * 10 ^ 18)].

(** OpenZeppelin's [_transfer], reached through [transfer] and through
    [SafeERC20.safeTransfer]. *)
Definition transfer (from to : address) (amount : uint256) (st : State)
    : Result State :=
  require (negb (from =? 0)) "ERC20: transfer from the zero address";;
  require (negb (to =? 0)) "ERC20: transfer to the zero address";;
  let fromBalance := balanceOf st from in
  require (amount <=? fromBalance) "ERC20: transfer amount exceeds balance";;
  let bals := <[from := fromBalance - amount]> (_balances st) in
  Ok (mkState (owner st) (<[to := mget 0 bals to + amount]> bals)
              (_totalSupply st) (transfers st ++ [(from, to, amount)])).

Definition mint (caller to : address) (amount : uint256) (st : State)
    : Result State :=
  onlyOwner (owner st) caller;;
  require (negb (to =? 0)) "ERC20: mint to the zero address";;
  supply ← EVM.add (_totalSupply st) amount;
  Ok (mkState (owner st) (<[to := balanceOf st to + amount]> (_balances st))
              supply (transfers st ++ [(0, to, amount)])).

End ERC20.

(* ===================================================================== *)
(** ** ProjectVault: payment intake, milestones and revenue
       (ProjectVault.sol, in src/lib/xrpl.ts) *)
(* ===================================================================== *)

Module ProjectVault.

Inductive MilestoneStatus := Pending | Unlocked | Completed.

Definition mstatus_eqb (a b : MilestoneStatus) : bool :=
  match a, b with
  | Pending, Pending | Unlocked, Unlocked | Completed, Completed => true
  | _, _ => false
  end.

Record Project := mkProject {
  projectId : uint256;
  title : string;
  description : string;
  creator : address;
  totalFunding : uint256;
  totalRaised : uint256;
  isActive : bool;
  createdAt : uint256
}.

Record Milestone := mkMilestone {
  name : string;
  mdescription : string;
  unlockAmount : uint256;
  status : MilestoneStatus;
  unlockTimestamp : uint256;
  attestationHash : string
}.

Record RevenueEntry := mkEntry {
  amount : uint256;
  timestamp : uint256;
  source : string
}.

(** The events the vault emits, in emission order. *)
Inductive Event :=
| ProjectCreated (pid : uint256) (title : string) (creator : address)
    (totalFunding : uint256)
| PaymentProcessed (investor : address) (amount basisPoints : uint256)
    (xrplTxHash : string)
| MilestoneAdded (pid index : uint256) (name : string)
    (unlockAmount : uint256)
| MilestoneUnlocked (pid index : uint256) (attestationHash : string)
| RevenueAdded (pid amount : uint256) (source : string)
| RevenueDistributed (pid totalAmount activeClaims : uint256).

Record State := mkState {
  owner : address;
  project : Project;
  milestones : list Milestone;
  revenueEntries : list RevenueEntry;
  userContributions : gmap address N;
  processedPayments : gmap N bool;     (* keyed by keccak256 of the hash *)
  events : list Event
}.

Definition deploy (deployer : address) (now : uint256) (pid : uint256)
    (ttl desc : string) (crt : address) (funding : uint256) : State :=
  mkState deployer (mkProject pid ttl desc crt funding 0 true now) [] []
          ∅ ∅ [ProjectCreated pid ttl crt funding].

Definition paymentKey (xrplTxHash : string) : bytes32 :=
  keccak256 (bytes_of_string xrplTxHash).

Definition isPaymentProcessed (st : State) (xrplTxHash : string) : bool :=
  mget false (processedPayments st) (paymentKey xrplTxHash).

Definition contribution (st : State) (a : address) : uint256 :=
  mget 0 (userContributions st) a.

Definition addMilestone (sender : address) (nm desc : string)
    (amt : uint256) (st : State) : Result State :=
  onlyOwner (owner st) sender;;
  require (isActive (project st)) "Project not active";;
  require (0 <? amt) "Invalid unlock amount";;
  let ms := milestones st ++ [mkMilestone nm desc amt Pending 0 ""] in
  Ok (mkState (owner st) (project st) ms (revenueEntries st)
        (userContributions st) (processedPayments st)
        (events st ++ [MilestoneAdded (projectId (project st))
                         (N.of_nat (length ms) - 1) nm amt])).

(** [this] is the vault's own address, the [msg.sender] of its call to the
    registry. *)
Definition processPayment (this sender : address) (now : uint256)
    (investor : address) (xrpAmount : uint256) (xrplTxHash : string)
    (xrpPrice : uint256)
    (ctx : State * ClaimSBT.State * OracleAdapter.State)
    : Result (State * ClaimSBT.State * OracleAdapter.State) :=
  let '(st, sbt, oracle) := ctx in
  let p := project st in
  onlyOwner (owner st) sender;;
  require (isActive p) "Project not active";;
  require (negb (isPaymentProcessed st xrplTxHash))
    "Payment already processed";;
  require (0 <? xrpAmount) "Invalid amount";;
  require (OracleAdapter.isXRPLPaymentVerified oracle xrplTxHash)
    "XRPL payment not verified";;
  scaled ← EVM.mul xrpAmount 10000;
  basisPoints ← EVM.div scaled (totalFunding p);
  require (0 <? basisPoints) "Contribution too small";;
  raised ← EVM.add (totalRaised p) xrpAmount;
  contributed ← EVM.add (contribution st investor) xrpAmount;
  '(_, sbt') ← ClaimSBT.mintClaim this now investor (projectId p)
                 basisPoints xrpPrice xrplTxHash sbt;
  Ok (mkState (owner st)
        (mkProject (projectId p) (title p) (description p) (creator p)
                   (totalFunding p) raised (isActive p) (createdAt p))
        (milestones st) (revenueEntries st)
        (<[investor := contributed]> (userContributions st))
        (<[paymentKey xrplTxHash := true]> (processedPayments st))
        (events st
           ++ [PaymentProcessed investor xrpAmount basisPoints xrplTxHash]),
      sbt', oracle).

Definition unlockMilestone (sender : address) (now : uint256)
    (milestoneIndex : uint256) (attestation : string)
    (ctx : State * OracleAdapter.State) : Result State :=
  let '(st, oracle) := ctx in
  onlyOwner (owner st) sender;;
  require (milestoneIndex <? N.of_nat (length (milestones st)))
    "Invalid milestone";;
  let i := N.to_nat milestoneIndex in
  let m := nth i (milestones st) (mkMilestone "" "" 0 Pending 0 "") in
  require (mstatus_eqb (status m) Pending) "Milestone already unlocked";;
  let attestationBytes := keccak256 (bytes_of_string attestation) in
  require (OracleAdapter.verifyMilestoneAttestation oracle attestationBytes)
    "Invalid attestation";;
  Ok (mkState (owner st) (project st)
        (<[i := mkMilestone (name m) (mdescription m) (unlockAmount m)
                  Unlocked now attestation]> (milestones st))
        (revenueEntries st) (userContributions st) (processedPayments st)
        (events st ++ [MilestoneUnlocked (projectId (project st))
                         milestoneIndex attestation])).

Definition addRevenue (sender : address) (now : uint256) (amt : uint256)
    (src : string) (st : State) : Result State :=
  onlyOwner (owner st) sender;;
  require (0 <? amt) "Invalid amount";;
  Ok (mkState (owner st) (project st) (milestones st)
        (revenueEntries st ++ [mkEntry amt now src])
        (userContributions st) (processedPayments st)
        (events st ++ [RevenueAdded (projectId (project st)) amt src])).

(** First loop of [distributeRevenue]: the checked sum of the entries. *)
Fixpoint sumRevenue (acc : uint256) (entries : list RevenueEntry)
    : Result uint256 :=
  match entries with
  | [] => Ok acc
  | e :: rest => acc' ← EVM.add acc (amount e); sumRevenue acc' rest
  end.

(** Second loop: the number of Active claims and their total share. *)
Fixpoint countActive (sbt : ClaimSBT.State) (ids : list N)
    (activeClaims totalActiveBasisPoints : uint256)
    : Result (uint256 * uint256) :=
  match ids with
  | [] => Ok (activeClaims, totalActiveBasisPoints)
  | id :: rest =>
      claimData ← ClaimSBT.getClaimData sbt id;
      if ClaimSBT.status_eqb (ClaimSBT.status claimData) ClaimSBT.Active
      then
        n ← EVM.add activeClaims 1;
        t ← EVM.add totalActiveBasisPoints (ClaimSBT.basisPoints claimData);
        countActive sbt rest n t
      else countActive sbt rest activeClaims totalActiveBasisPoints
  end.

(** Third loop: the proportional transfers out of the vault's balance. *)
Fixpoint payOut (this : address) (sbt : ClaimSBT.State) (ids : list N)
    (totalRevenue totalActiveBasisPoints : uint256) (tok : ERC20.State)
    : Result ERC20.State :=
  match ids with
  | [] => Ok tok
  | id :: rest =>
      claimData ← ClaimSBT.getClaimData sbt id;
      if ClaimSBT.status_eqb (ClaimSBT.status claimData) ClaimSBT.Active
      then
        scaled ← EVM.mul totalRevenue (ClaimSBT.basisPoints claimData);
        share ← EVM.div scaled totalActiveBasisPoints;
        if 0 <? share then
          holder ← ClaimSBT.ownerOf sbt id;
          tok' ← ERC20.transfer this holder share tok;
          payOut this sbt rest totalRevenue totalActiveBasisPoints tok'
        else payOut this sbt rest totalRevenue totalActiveBasisPoints tok
      else payOut this sbt rest totalRevenue totalActiveBasisPoints tok
  end.

Definition distributeRevenue (this sender : address)
    (ctx : State * ClaimSBT.State * ERC20.State)
    : Result (State * ERC20.State) :=
  let '(st, sbt, tok) := ctx in
  onlyOwner (owner st) sender;;
  require (0 <? N.of_nat (length (revenueEntries st)))
    "No revenue to distribute";;
  totalRevenue ← sumRevenue 0 (revenueEntries st);
  require (0 <? totalRevenue) "No revenue available";;
  let claimTokenIds :=
    ClaimSBT.getProjectClaims sbt (projectId (project st)) in
  '(activeClaims, totalActiveBasisPoints) ←
    countActive sbt claimTokenIds 0 0;
  require (0 <? activeClaims) "No active claims";;
  tok' ← payOut this sbt claimTokenIds totalRevenue totalActiveBasisPoints
           tok;
  Ok (mkState (owner st) (project st) (milestones st) []
        (userContributions st) (processedPayments st)
        (events st ++ [RevenueDistributed (projectId (project st))
                         totalRevenue activeClaims]),
      tok').

Definition transferOwnership (sender newOwner : address) (st : State)
    : Result State :=
  onlyOwner (owner st) sender;;
  require (negb (newOwner =? 0)) "Ownable: new owner is the zero address";;
  Ok (mkState newOwner (project st) (milestones st) (revenueEntries st)
        (userContributions st) (processedPayments st) (events st)).

End ProjectVault.

(* ===================================================================== *)
(** ** The deployed engine: one instance of each contract *)
(* ===================================================================== *)

Module Engine.

Record World := mkWorld {
  claimSBT : ClaimSBT.State;
  rewardNFT : RewardNFT.State;
  stakeManager : StakeManager.State;
  oracleAdapter : OracleAdapter.State;
  vault : ProjectVault.State;
  flareToken : ERC20.State;
  stakeManagerAddr : address;    (* address(this) inside StakeManager *)
  vaultAddr : address            (* address(this) inside ProjectVault *)
}.

(** The transaction context of an external call. *)
Record Env := mkEnv {
  msg_sender : address;
  block_timestamp : uint256
}.

(** The externally callable, state-changing functions. *)
Inductive Call :=
(* ClaimSBT *)
| Claim_mintOrTopUp (to : address) (amount : uint256)
| Claim_mintClaim (to : address) (pid bp price : uint256) (xrplTx : string)
| Claim_pause (tokenId : uint256)
| Claim_unpause (tokenId : uint256)
| Claim_approve (to : address) (tokenId : uint256)
| Claim_setApprovalForAll (operator : address) (approved : bool)
| Claim_transferFrom (from to : address) (tokenId : uint256)
| Claim_safeTransferFrom (from to : address) (tokenId : uint256)
| Claim_safeTransferFromData (from to : address) (tokenId : uint256)
    (data : bytes)
| Claim_transferOwnership (newOwner : address)
| Claim_renounceOwnership
(* RewardNFT *)
| Reward_mintReward (to : address) (claimId pid bp : uint256)
| Reward_burnReward (tokenId : uint256)
| Reward_transferFrom (from to : address) (tokenId : uint256)
| Reward_approve (to : address) (tokenId : uint256)
| Reward_setApprovalForAll (operator : address) (approved : bool)
| Reward_transferOwnership (newOwner : address)
| Reward_renounceOwnership
(* StakeManager *)
| Stake_stakeAndMintReward (claimId : uint256)
| Stake_burnReward (rewardId : uint256)
(* OracleAdapter *)
| Oracle_setVerifierAuthorization (v : address) (authorized : bool)
| Oracle_createMilestoneAttestation (pid idx : uint256)
    (name desc proof : string) (signature : bytes)
| Oracle_verifyXRPLPayment (tx : string) (sndr rcpt : address)
    (amt ts blk : uint256)
| Oracle_batchVerifyXRPLPayments (txHashes : list string)
    (senders recipients : list N) (amounts timestamps blockNumbers : list N)
| Oracle_transferOwnership (newOwner : address)
(* ProjectVault *)
| Vault_addMilestone (name desc : string) (unlockAmount : uint256)
| Vault_processPayment (investor : address) (xrpAmount : uint256)
    (xrplTxHash : string) (xrpPrice : uint256)
| Vault_unlockMilestone (milestoneIndex : uint256) (attestation : string)
| Vault_addRevenue (amount : uint256) (source : string)
| Vault_distributeRevenue
| Vault_transferOwnership (newOwner : address)
(* MockFLR *)
| Token_transfer (to : address) (amount : uint256)
| Token_mint (to : address) (amount : uint256).

Definition with_claimSBT (s : ClaimSBT.State) (w : World) : World :=
  mkWorld s (rewardNFT w) (stakeManager w) (oracleAdapter w) (vault w)
          (flareToken w) (stakeManagerAddr w) (vaultAddr w).

Definition with_rewardNFT (r : RewardNFT.State) (w : World) : World :=
  mkWorld (claimSBT w) r (stakeManager w) (oracleAdapter w) (vault w)
          (flareToken w) (stakeManagerAddr w) (vaultAddr w).

Definition with_staking (ctx : StakeManager.Ctx) (w : World) : World :=
  let '(s, r, m) := ctx in
  mkWorld s r m (oracleAdapter w) (vault w) (flareToken w)
          (stakeManagerAddr w) (vaultAddr w).

Definition with_oracle (o : OracleAdapter.State) (w : World) : World :=
  mkWorld (claimSBT w) (rewardNFT w) (stakeManager w) o (vault w)
          (flareToken w) (stakeManagerAddr w) (vaultAddr w).

Definition with_vault (v : ProjectVault.State) (w : World) : World :=
  mkWorld (claimSBT w) (rewardNFT w) (stakeManager w) (oracleAdapter w) v
          (flareToken w) (stakeManagerAddr w) (vaultAddr w).

Definition with_token (t : ERC20.State) (w : World) : World :=
  mkWorld (claimSBT w) (rewardNFT w) (stakeManager w) (oracleAdapter w)
          (vault w) t (stakeManagerAddr w) (vaultAddr w).

Definition staking_ctx (w : World) : StakeManager.Ctx :=
  (claimSBT w, rewardNFT w, stakeManager w).

Section WithECDSA.

Variable tryRecover : bytes32 -> bytes -> option address.

(** One external call: the new world when it commits. *)
Definition call (e : Env) (c : Call) (w : World) : Result World :=
  let sender := msg_sender e in
  let now := block_timestamp e in
  let onClaim (r : Result ClaimSBT.State) :=
    s ← r; Ok (with_claimSBT s w) in
  let onReward (r : Result RewardNFT.State) :=
    s ← r; Ok (with_rewardNFT s w) in
  let onOracle (r : Result OracleAdapter.State) :=
    s ← r; Ok (with_oracle s w) in
  let onVault (r : Result ProjectVault.State) :=
    s ← r; Ok (with_vault s w) in
  let onToken (r : Result ERC20.State) :=
    s ← r; Ok (with_token s w) in
  match c with
  | Claim_mintOrTopUp to amount =>
      onClaim (snd <$> ClaimSBT.mintOrTopUp sender now to amount
                         (claimSBT w))
  | Claim_mintClaim to pid bp price tx =>
      onClaim (snd <$> ClaimSBT.mintClaim sender now to pid bp price tx
                         (claimSBT w))
  | Claim_pause id => onClaim (ClaimSBT.pause sender id (claimSBT w))
  | Claim_unpause id => onClaim (ClaimSBT.unpause sender id (claimSBT w))
  | Claim_approve to id =>
      onClaim (ClaimSBT.approve sender to id (claimSBT w))
  | Claim_setApprovalForAll op b =>
      onClaim (ClaimSBT.setApprovalForAll sender op b (claimSBT w))
  | Claim_transferFrom from to id =>
      onClaim (ClaimSBT.transferFrom sender from to id (claimSBT w))
  | Claim_safeTransferFrom from to id =>
      onClaim (ClaimSBT.safeTransferFrom sender from to id (claimSBT w))
  | Claim_safeTransferFromData from to id data =>
      onClaim (ClaimSBT.safeTransferFromData sender from to id data
                 (claimSBT w))
  | Claim_transferOwnership a =>
      onClaim (ClaimSBT.transferOwnership sender a (claimSBT w))
  | Claim_renounceOwnership =>
      onClaim (ClaimSBT.renounceOwnership sender (claimSBT w))
  | Reward_mintReward to claimId pid bp =>
      onReward (snd <$> RewardNFT.mintReward sender now to claimId pid bp
                          (rewardNFT w))
  | Reward_burnReward id =>
      onReward (RewardNFT.burnReward sender id (rewardNFT w))
  | Reward_transferFrom from to id =>
      onReward (RewardNFT.transferFrom sender from to id (rewardNFT w))
  | Reward_approve to id =>
      onReward (RewardNFT.approve sender to id (rewardNFT w))
  | Reward_setApprovalForAll op b =>
      onReward (RewardNFT.setApprovalForAll sender op b (rewardNFT w))
  | Reward_transferOwnership a =>
      onReward (RewardNFT.transferOwnership sender a (rewardNFT w))
  | Reward_renounceOwnership =>
      onReward (RewardNFT.renounceOwnership sender (rewardNFT w))
  | Stake_stakeAndMintReward claimId =>
      r ← StakeManager.stakeAndMintReward (stakeManagerAddr w) sender now
            claimId (staking_ctx w);
      Ok (with_staking (snd r) w)
  | Stake_burnReward rewardId =>
      ctx ← StakeManager.burnReward (stakeManagerAddr w) sender rewardId
              (staking_ctx w);
      Ok (with_staking ctx w)
  | Oracle_setVerifierAuthorization v b =>
      onOracle (OracleAdapter.setVerifierAuthorization sender v b
                  (oracleAdapter w))
  | Oracle_createMilestoneAttestation pid idx name desc proof sig =>
      onOracle (snd <$> OracleAdapter.createMilestoneAttestation
                          tryRecover now pid idx name desc proof sig
                          (oracleAdapter w))
  | Oracle_verifyXRPLPayment tx sndr rcpt amt ts blk =>
      onOracle (snd <$> OracleAdapter.verifyXRPLPayment sender tx sndr
                          rcpt amt ts blk (oracleAdapter w))
  | Oracle_batchVerifyXRPLPayments txs sndrs rcpts amts tss blks =>
      onOracle (OracleAdapter.batchVerifyXRPLPayments sender txs sndrs
                  rcpts amts tss blks (oracleAdapter w))
  | Oracle_transferOwnership a =>
      onOracle (OracleAdapter.transferOwnership sender a
                  (oracleAdapter w))
  | Vault_addMilestone nm desc amt =>
      onVault (ProjectVault.addMilestone sender nm desc amt (vault w))
  | Vault_processPayment investor amt tx price =>
      '(v, s, _) ← ProjectVault.processPayment (vaultAddr w) sender now
                     investor amt tx price
                     (vault w, claimSBT w, oracleAdapter w);
      Ok (with_claimSBT s (with_vault v w))
  | Vault_unlockMilestone idx att =>
      onVault (ProjectVault.unlockMilestone sender now idx att
                 (vault w, oracleAdapter w))
  | Vault_addRevenue amt src =>
      onVault (ProjectVault.addRevenue sender now amt src (vault w))
  | Vault_distributeRevenue =>
      '(v, t) ← ProjectVault.distributeRevenue (vaultAddr w) sender
                  (vault w, claimSBT w, flareToken w);
      Ok (with_token t (with_vault v w))
  | Vault_transferOwnership a =>
      onVault (ProjectVault.transferOwnership sender a (vault w))
  | Token_transfer to amt =>
      onToken (ERC20.transfer sender to amt (flareToken w))
  | Token_mint to amt =>
      onToken (ERC20.mint sender to amt (flareToken w))
  end.

(** A transaction commits its changes or leaves the world as it was. *)
Definition step (e : Env) (c : Call) (w : World) : World :=
  match call e c w with
  | Ok w' => w'
  | _ => w
  end.

(** A sequence of transactions, in order. *)
Definition run (txs : list (Env * Call)) (w : World) : World :=
  fold_left (fun w tx => step (fst tx) (snd tx) w) txs w.

End WithECDSA.

End Engine.

(* ===================================================================== *)
(** ** Concrete deployments used by the examples *)
(* ===================================================================== *)

Module Scenario.
  Import Engine.

Definition admin : address := 0xAD.
Definition alice : address := 0xA1.
Definition bob : address := 0xB0.
Definition carol : address := 0xC0.
Definition managerAddr : address := 0x5A.
Definition vaultAddress : address := 0x7A.

(** No signature is accepted: enough for the scenarios that do not create
    attestations. *)
Definition noSigner : bytes32 -> bytes -> option address := fun _ _ => None.

(** Every signature recovers to [carol]. *)
Definition carolSigns : bytes32 -> bytes -> option address :=
  fun _ _ => Some carol.

(** All contracts deployed by [admin]; project 1 seeks [funding]. *)
Definition genesis (funding : uint256) : World :=
  mkWorld (ClaimSBT.deploy admin) (RewardNFT.deploy admin)
          StakeManager.deploy (OracleAdapter.deploy admin)
          (ProjectVault.deploy admin 0 1 "Film" "A film" admin funding)
          (ERC20.deploy admin) managerAddr vaultAddress.

Definition tx (a : address) (c : Call) : Env * Call := (mkEnv a 1000, c).

End Scenario.

Module ScenarioSlashed.
Import Engine Scenario.

(** The registry after [admin] minted claim 0 to [alice] ... *)
Definition minted_once : World :=
  run noSigner [tx admin (Claim_mintOrTopUp alice 1000000)] (genesis 100000).

(** ... and the same world with that claim's stored status Slashed. *)
Definition slashed : World :=
  with_claimSBT
    (ClaimSBT.set_claim 0
       (ClaimSBT.set_status ClaimSBT.Slashed
          (ClaimSBT.claim (claimSBT minted_once) 0))
       (claimSBT minted_once))
    minted_once.

End ScenarioSlashed.

Module ScenarioPayment.
Import Engine Scenario.

(** Project 1 seeks 100000; the registry is handed to the vault and the
    oracle has verified the external payment "tx1". *)
Definition funded : World :=
  run noSigner
    [ tx admin (Claim_transferOwnership vaultAddress);
      tx admin (Oracle_verifyXRPLPayment "tx1" 1 2 25000 5 6) ]
    (genesis 100000).

(** ... and the vault has processed "tx1": 25000 from [alice]. *)
Definition paid : World :=
  step noSigner (mkEnv admin 1000) (Vault_processPayment alice 25000 "tx1" 62)
    funded.

End ScenarioPayment.

Module ScenarioRevenue.
Import Engine Scenario.

(** Three investors fund project 1 (target [funding]) with [a], [b] and [c];
    the vault holds [cash] tokens and has [revenue] pending. *)
Definition shared (funding a b c cash revenue : uint256) : World :=
  run noSigner
    [ tx admin (Claim_transferOwnership vaultAddress);
      tx admin (Oracle_batchVerifyXRPLPayments ["t1"; "t2"; "t3"]
                  [1; 1; 1] [2; 2; 2] [a; b; c] [5; 5; 5] [6; 6; 6]);
      tx admin (Vault_processPayment alice a "t1" 62);
      tx admin (Vault_processPayment bob b "t2" 62);
      tx admin (Vault_processPayment carol c "t3" 62);
      tx admin (Token_transfer vaultAddress cash);
      tx admin (Vault_addRevenue revenue "box_office") ]
    (genesis funding).

Definition distributed (w : World) : World :=
  step noSigner (mkEnv admin 2000) Vault_distributeRevenue w.

Definition shares (w : World) : list uint256 :=
  List.map (fun id => ClaimSBT.basisPoints (ClaimSBT.claim (claimSBT w) id))
    (ClaimSBT.getProjectClaims (claimSBT w) 1).

Definition balances (w : World) : list uint256 :=
  List.map (ERC20.balanceOf (flareToken w)) [alice; bob; carol].

End ScenarioRevenue.

Module ScenarioRemainder.
Import Engine Scenario ScenarioRevenue.

(** Shares [3333; 3333; 3334]: a first round of 10 is distributed (1 unit is
    left over), then 10 more are added. *)
Definition second_round : World :=
  step noSigner (mkEnv admin 3000) (Vault_addRevenue 10 "streaming")
    (distributed (shared 10000 3333 3333 3334 5000 10)).

End ScenarioRemainder.

Module ScenarioMilestone.
Import Engine Scenario.

(** The Solidity [string] with the given bytes. *)
Definition string_of_bytes (bs : bytes) : string :=
  string_of_list_ascii (List.map ascii_of_N bs).

Definition hex_digit (d : N) : ascii :=
  if d <? 10 then ascii_of_N (48 + d) else ascii_of_N (87 + d).

(** The way the front end shows a [bytes32]: "0x" and 64 hex digits. *)
Definition hex_of_bytes32 (h : bytes32) : string :=
  String "0" (String "x"
    (string_of_list_ascii
       (flat_map (fun b => [hex_digit (b / 16); hex_digit (b mod 16)])
          (be_bytes 32 h)))).

(** [carol] is an authorized verifier, her attestation for milestone 0 of
    project 1 is stored (created at time 1000), and the vault has that
    milestone, Pending. *)
Definition attested : World :=
  run carolSigns
    [ tx admin (Oracle_setVerifierAuthorization carol true);
      tx carol (Oracle_createMilestoneAttestation 1 0 "Script"
                  "Script delivered" "QmProof" [1; 2; 3]);
      tx admin (Vault_addMilestone "Script" "Script delivered" 1000) ]
    (genesis 100000).

(** The key [createMilestoneAttestation] returned in that transaction. *)
Definition returnedKey : bytes32 :=
  OracleAdapter.attestationKey 1 0 "QmProof" 1000.

(** The packed bytes that key is the digest of, as a string. *)
Definition keyPreimage : string :=
  string_of_bytes (encode_uint256 1 ++ encode_uint256 0
                   ++ bytes_of_string "QmProof" ++ encode_uint256 1000).

End ScenarioMilestone.

Module ScenarioStake.
Import Engine Scenario.

(** [admin] owns the registry, mints claim 0 to [alice] and pauses it
    directly, without the stake manager. *)
Definition paused_directly : World :=
  run noSigner
    [ tx admin (Claim_mintOrTopUp alice 1000000);
      tx admin (Claim_pause 0) ]
    (genesis 100000).

(** [admin] mints claims 0 and 1 to [alice] and [bob] and hands the registry
    and the reward contract to the stake manager; [bob] then stakes claim 1. *)
Definition handed_over : World :=
  run noSigner
    [ tx admin (Claim_mintOrTopUp alice 1000000);
      tx admin (Claim_mintOrTopUp bob 500000);
      tx admin (Claim_transferOwnership managerAddr);
      tx admin (Reward_transferOwnership managerAddr) ]
    (genesis 100000).

Definition staked : World :=
  step noSigner (mkEnv bob 1500) (Stake_stakeAndMintReward 1) handed_over.

Definition unstaked : World :=
  step noSigner (mkEnv bob 1600) (Stake_burnReward 0) staked.

End ScenarioStake.

(* ===================================================================== *)
(** ** Vocabulary of the properties *)
(* ===================================================================== *)

Import Engine.

(** The three ways the registry's claims change: a mint of a fresh token, a
    top-up of a share, and a status write by [pause] or [unpause]. *)
Definition minted (st st' : ClaimSBT.State) : Prop :=
  exists to c pid e',
    ERC721._safeMint ClaimSBT._beforeTokenTransfer to
      (ClaimSBT._tokenIdCounter st) (ClaimSBT.erc721 st) = Ok e'
    /\ ClaimSBT.status c = ClaimSBT.Active
    /\ st' = ClaimSBT.mkState (ClaimSBT.owner st) e'
               (ClaimSBT._tokenIdCounter st + 1)
               (<[ClaimSBT._tokenIdCounter st := c]> (ClaimSBT.claims st))
               (<[to := ClaimSBT.getUserClaims st to
                        ++ [ClaimSBT._tokenIdCounter st]]>
                  (ClaimSBT.userClaims st))
               (<[pid := ClaimSBT.getProjectClaims st pid
                         ++ [ClaimSBT._tokenIdCounter st]]>
                  (ClaimSBT.projectClaims st)).

(** A top-up of the share of claim [id]. *)
Definition topped_up (st st' : ClaimSBT.State) : Prop :=
  exists id bp,
    st' = ClaimSBT.set_claim id
            (ClaimSBT.set_basisPoints bp (ClaimSBT.claim st id)) st.

(** A write of status [s] to the existing claim [id]. *)
Definition status_written (id : uint256) (s : ClaimSBT.ClaimStatus)
    (st st' : ClaimSBT.State) : Prop :=
  ClaimSBT._exists st id = true
  /\ st' = ClaimSBT.set_claim id
             (ClaimSBT.set_status s (ClaimSBT.claim st id)) st.

(** What a committed call [c] does to the registry. *)
Definition sbt_effect (c : Call) (w : World) (s' : ClaimSBT.State) : Prop :=
  let s := claimSBT w in
  match c with
  | Claim_mintOrTopUp _ _ => minted s s' \/ topped_up s s'
  | Claim_mintClaim _ _ _ _ _ | Vault_processPayment _ _ _ _ => minted s s'
  | Claim_pause id => status_written id ClaimSBT.Staked s s'
  | Stake_stakeAndMintReward id =>
      ClaimSBT.status (ClaimSBT.claim s id) = ClaimSBT.Active
      /\ status_written id ClaimSBT.Staked s s'
  | Claim_unpause id => status_written id ClaimSBT.Active s s'
  | Stake_burnReward r =>
      status_written (RewardNFT.claimOf (rewardNFT w) r) ClaimSBT.Active s s'
  | Claim_transferOwnership _ | Claim_renounceOwnership =>
      exists o, s' = ClaimSBT.mkState o (ClaimSBT.erc721 s)
                       (ClaimSBT._tokenIdCounter s) (ClaimSBT.claims s)
                       (ClaimSBT.userClaims s) (ClaimSBT.projectClaims s)
  | _ => s' = s
  end.

(** The owner of a claim token, 0 when it does not exist. *)
Definition claim_owner (w : World) (tokenId : uint256) : address :=
  ERC721._ownerOf (ClaimSBT.erc721 (claimSBT w)) tokenId.

(** The calls that reach the registry's mint. *)
Definition is_claim_mint (c : Call) : Prop :=
  match c with
  | Claim_mintOrTopUp _ _ | Claim_mintClaim _ _ _ _ _
  | Vault_processPayment _ _ _ _ => True
  | _ => False
  end.

(** The transfer and approval entry points of the registry. *)
Definition is_claim_transfer (c : Call) : Prop :=
  match c with
  | Claim_approve _ _ | Claim_setApprovalForAll _ _
  | Claim_transferFrom _ _ _ | Claim_safeTransferFrom _ _ _
  | Claim_safeTransferFromData _ _ _ _ => True
  | _ => False
  end.

(** The stored status of a claim. *)
Definition claim_status (w : World) (id : uint256) : ClaimSBT.ClaimStatus :=
  ClaimSBT.status (ClaimSBT.claim (claimSBT w) id).




(** The test of [distributeRevenue]: the claim is Active. *)
Definition claimActive (sbt : ClaimSBT.State) (id : uint256) : bool :=
  ClaimSBT.status_eqb (ClaimSBT.status (ClaimSBT.claim sbt id))
    ClaimSBT.Active.

(** The sum of the pending entries. *)
Definition pendingTotal (entries : list ProjectVault.RevenueEntry) : N :=
  fold_right (fun e acc => ProjectVault.amount e + acc) 0 entries.

(** The sum of the basis points of the Active claims among [ids]. *)
Definition activeShare (sbt : ClaimSBT.State) (ids : list N) : N :=
  fold_right
    (fun id acc =>
       (if claimActive sbt id
        then ClaimSBT.basisPoints (ClaimSBT.claim sbt id) else 0) + acc)
    0 ids.

(** The number of Active claims among [ids]. *)
Definition activeCount (sbt : ClaimSBT.State) (ids : list N) : N :=
  fold_right (fun id acc => (if claimActive sbt id then 1 else 0) + acc) 0 ids.

(** [floor(total * basisPoints / totalShare)] for the claim [id]. *)
Definition payoutOf (sbt : ClaimSBT.State) (total share : N) (id : uint256)
    : N :=
  total * ClaimSBT.basisPoints (ClaimSBT.claim sbt id) / share.

(** The transfers a distribution is to make, claim by claim: one to the
    owner of each Active claim whose payout is positive. *)
Definition payouts (this : address) (sbt : ClaimSBT.State) (total share : N)
    (ids : list N) : list (address * address * uint256) :=
  flat_map
    (fun id =>
       if claimActive sbt id && (0 <? payoutOf sbt total share id)
       then [(this, ERC721._ownerOf (ClaimSBT.erc721 sbt) id,
              payoutOf sbt total share id)]
       else [])
    ids.

(** What [h] receives from a list of transfers. *)
Definition received (h : address) (ts : list (address * address * uint256))
    : N :=
  fold_right (fun t acc => (if decide (t.1.2 = h) then t.2 else 0) + acc) 0 ts.

(** The vault's pending revenue entries. *)
Definition pending (w : World) : list ProjectVault.RevenueEntry :=
  ProjectVault.revenueEntries (vault w).

(** The queue after a transaction: a committed [addRevenue] appends its
    entry, a committed [distributeRevenue] empties the queue, and nothing
    else touches it. *)
Definition next_queue (e : Env) (c : Call) (committed : bool)
    (q : list ProjectVault.RevenueEntry) : list ProjectVault.RevenueEntry :=
  match c with
  | Vault_addRevenue amt src =>
      if committed then q ++ [ProjectVault.mkEntry amt (block_timestamp e) src]
      else q
  | Vault_distributeRevenue => if committed then [] else q
  | _ => q
  end.

(** The queue after a sequence of transactions, computed from the calls
    alone. *)
Fixpoint queue_after (tryRecover : bytes32 -> bytes -> option address)
    (txs : list (Env * Call)) (w : World)
    (q : list ProjectVault.RevenueEntry) : list ProjectVault.RevenueEntry :=
  match txs with
  | [] => q
  | (e, c) :: rest =>
      queue_after tryRecover rest (step tryRecover e c w)
        (next_queue e c (is_ok (call tryRecover e c w)) q)
  end.

(** [verifyMilestoneAttestation] on the deployed oracle. *)
Definition attestation_ok (w : World) (key : bytes32) : bool :=
  OracleAdapter.verifyMilestoneAttestation (oracleAdapter w) key.

(** The keys returned by the [createMilestoneAttestation] calls that commit
    along [txs]. *)
Fixpoint keys_created (tryRecover : bytes32 -> bytes -> option address)
    (txs : list (Env * Call)) (w : World) : list bytes32 :=
  match txs with
  | [] => []
  | (e, c) :: rest =>
      match c with
      | Oracle_createMilestoneAttestation pid idx name desc proof sig =>
          match OracleAdapter.createMilestoneAttestation tryRecover
                  (block_timestamp e) pid idx name desc proof sig
                  (oracleAdapter w) with
          | Ok (key, _) => [key]
          | _ => []
          end
      | _ => []
      end ++ keys_created tryRecover rest (step tryRecover e c w)
  end.

(** [milestones[i]]. *)
Definition milestone (st : ProjectVault.State) (i : uint256)
    : ProjectVault.Milestone :=
  nth (N.to_nat i) (ProjectVault.milestones st)
    (ProjectVault.mkMilestone "" "" 0 ProjectVault.Pending 0 "").

(** The stored status of claim [c] in a registry state. *)
Definition status_of (sbt : ClaimSBT.State) (c : uint256)
    : ClaimSBT.ClaimStatus :=
  ClaimSBT.status (ClaimSBT.claim sbt c).

(** Reward [r] is active and was minted from claim [c]. *)
Definition active_for (rnft : RewardNFT.State) (r c : uint256) : Prop :=
  RewardNFT.isActive (RewardNFT.reward rnft r) = true
  /\ RewardNFT.claimTokenId (RewardNFT.reward rnft r) = c.

(** The pairing invariant of the registry and the reward contract. *)
Record paired (sbt : ClaimSBT.State) (rnft : RewardNFT.State) : Prop :=
  mkPaired {
    staked_exists : forall c,
      status_of sbt c = ClaimSBT.Staked -> ClaimSBT._exists sbt c = true;
    active_exists : forall r,
      RewardNFT.isActive (RewardNFT.reward rnft r) = true ->
      RewardNFT._exists rnft r = true;
    staked_iff_rewarded : forall c,
      status_of sbt c = ClaimSBT.Staked <-> exists r, active_for rnft r c;
    reward_unique : forall c r r',
      active_for rnft r c -> active_for rnft r' c -> r = r'
  }.

(** The pairing invariant on the deployed engine. *)
Definition world_paired (w : World) : Prop :=
  paired (claimSBT w) (rewardNFT w).

(** The registry's and the reward contract's owner-only primitives, called
    directly rather than by the stake manager. *)
Definition bypasses_stake_manager (c : Call) : Prop :=
  match c with
  | Claim_pause _ | Claim_unpause _
  | Reward_mintReward _ _ _ _ | Reward_burnReward _ => True
  | _ => False
  end.

(** The deployment in which the stake manager owns the registry and the
    reward contract, as its calls to their owner-only functions require. *)
Definition wired (w : World) : Prop :=
  ClaimSBT.owner (claimSBT w) = stakeManagerAddr w
  /\ RewardNFT.owner (rewardNFT w) = stakeManagerAddr w.

(** The proof the loop of [batchVerifyXRPLPayments] stores for entry [i]. *)
Definition batchProof (txHashes : list string) (senders recipients : list N)
    (amounts timestamps blockNumbers : list N) (i : nat)
    : OracleAdapter.XRPLPaymentProof :=
  OracleAdapter.mkProof (nth i txHashes "") (nth i senders 0)
    (nth i recipients 0) (nth i amounts 0) (nth i timestamps 0)
    (nth i blockNumbers 0) true.




Module ScenarioReference.
Import Engine Scenario.



End ScenarioReference.


(* ===================================================================== *)
(** * Further contracts

    The embedding is extended to the remaining contracts that stand on
    their own: [RevenueSplitter], [XLS20Badge] and [SessionKeyManager],
    with the allowance side of the ERC-20 asset the splitter pulls from.
    The low-level call [executeTransaction] makes is a parameter, as
    signature recovery is.  [ProjectFactory] is left out because its call
    of the vault's constructor does not match the constructor's parameters,
    and [FAssetManager] because it acts on an FXRP token whose code is not
    part of the repository. *)
(* ===================================================================== *)

(** ** Vocabulary of the further properties *)

(** The registry's indexes agree with the ownership of its tokens: ids are
    handed out in sequence and never freed, a user's list holds exactly the
    tokens the user owns, once each, and the ERC-721 balance is its
    length. *)
Record registry_indexed (st : ClaimSBT.State) : Prop := mkIndexed {
  ids_sequential : forall id,
    ClaimSBT._exists st id = true <-> id < ClaimSBT._tokenIdCounter st;
  user_index : forall u id,
    In id (ClaimSBT.getUserClaims st u)
    <-> u ≠ 0 /\ ERC721._ownerOf (ClaimSBT.erc721 st) id = u;
  user_index_nodup : forall u, NoDup (ClaimSBT.getUserClaims st u);
  balance_counts : forall u,
    u ≠ 0 ->
    ERC721.balanceOf (ClaimSBT.erc721 st) u
    = N.of_nat (length (ClaimSBT.getUserClaims st u))
}.

(** The reward tokens that exist are exactly the rewards marked active. *)
Definition rewards_live (rnft : RewardNFT.State) : Prop :=
  forall r,
    RewardNFT._exists rnft r = RewardNFT.isActive (RewardNFT.reward rnft r).

(** [verifyXRPLPayment] sent as a transaction of its own: the oracle's state
    afterwards, unchanged when the call fails. *)
Definition oracle_verify_or_skip (caller : address) (tx : string)
    (sndr rcpt : address) (amt ts blk : uint256)
    (st : OracleAdapter.State) : OracleAdapter.State :=
  match OracleAdapter.verifyXRPLPayment caller tx sndr rcpt amt ts blk st with
  | Ok (_, st') => st'
  | _ => st
  end.

(** The sum of the contributions the vault has recorded. *)
Definition totalContributions (st : ProjectVault.State) : N :=
  map_fold (fun (_ : address) (v acc : N) => v + acc) 0
    (ProjectVault.userContributions st).

(** The amount raised is the sum of the recorded contributions. *)
Definition vault_balanced (st : ProjectVault.State) : Prop :=
  ProjectVault.totalRaised (ProjectVault.project st) = totalContributions st.

(** The vault and registry a payment intake leaves, the oracle dropped. *)
Definition intake_result
    (r : Result (ProjectVault.State * ClaimSBT.State * OracleAdapter.State))
    : Result (ProjectVault.State * ClaimSBT.State) :=
  fst <$> r.

(** The three things a transaction can do to the vault's milestones:
    nothing, append a Pending milestone, or unlock a Pending one. *)
Inductive milestones_change (ms ms' : list ProjectVault.Milestone) : Prop :=
| milestones_kept : ms' = ms -> milestones_change ms ms'
| milestone_added nm desc amt :
    0 < amt ->
    ms' = ms ++ [ProjectVault.mkMilestone nm desc amt ProjectVault.Pending 0 ""] ->
    milestones_change ms ms'
| milestone_unlocked (i : nat) m now att :
    ms !! i = Some m ->
    ProjectVault.status m = ProjectVault.Pending ->
    ms' = <[i := ProjectVault.mkMilestone (ProjectVault.name m)
                   (ProjectVault.mdescription m) (ProjectVault.unlockAmount m)
                   ProjectVault.Unlocked now att]> ms ->
    milestones_change ms ms'.

(** What is fixed about a milestone once it is in the list. *)
Definition same_terms (m m' : ProjectVault.Milestone) : Prop :=
  ProjectVault.name m' = ProjectVault.name m
  /\ ProjectVault.mdescription m' = ProjectVault.mdescription m
  /\ ProjectVault.unlockAmount m' = ProjectVault.unlockAmount m.

(** The total amount of a list of transfers. *)
Definition total_of (ts : list (address * address * uint256)) : N :=
  fold_right (fun t acc => t.2 + acc) 0 ts.


(* ===================================================================== *)
(** ** The ERC-20 asset with allowances, as the splitter uses it *)
(* ===================================================================== *)

(** OpenZeppelin's ERC20 again, now with the allowance table that
    [transferFrom] spends from; the balances are those of [ERC20]. *)
Module Asset.

Record State := mkState {
  token : ERC20.State;
  _allowances : gmap (address * address) N
}.

Definition balanceOf (st : State) (a : address) : uint256 :=
  ERC20.balanceOf (token st) a.

Definition allowance (st : State) (owner spender : address) : uint256 :=
  mget 0 (_allowances st) (owner, spender).

Definition _approve (owner spender : address) (amount : uint256)
    (st : State) : Result State :=
  require (negb (owner =? 0)) "ERC20: approve from the zero address";;
  require (negb (spender =? 0)) "ERC20: approve to the zero address";;
  Ok (mkState (token st) (<[(owner, spender) := amount]> (_allowances st))).

Definition approve (sender spender : address) (amount : uint256)
    (st : State) : Result State :=
  _approve sender spender amount st.

Definition _spendAllowance (owner spender : address) (amount : uint256)
    (st : State) : Result State :=
  let currentAllowance := allowance st owner spender in
  if negb (currentAllowance =? MAX_UINT256) then
    require (amount <=? currentAllowance) "ERC20: insufficient allowance";;
    _approve owner spender (currentAllowance - amount) st
  else Ok st.

Definition transfer (sender to : address) (amount : uint256) (st : State)
    : Result State :=
  t ← ERC20.transfer sender to amount (token st);
  Ok (mkState t (_allowances st)).

(** [sender] is the spender, the caller of [transferFrom]. *)
Definition transferFrom (sender from to : address) (amount : uint256)
    (st : State) : Result State :=
  st1 ← _spendAllowance from sender amount st;
  t ← ERC20.transfer from to amount (token st1);
  Ok (mkState t (_allowances st1)).

End Asset.

(* ===================================================================== *)
(** ** RevenueSplitter (src/contracts/RevenueSplitter.sol) *)
(* ===================================================================== *)

Module RevenueSplitter.

Record Holder := mkHolder {
  holder : address;
  basisPoints : uint256;
  isActive : bool
}.

Record Distribution := mkDistribution {
  projectId : uint256;
  totalAmount : uint256;
  totalBasisPoints : uint256;
  timestamp : uint256;
  activeHolders : uint256
}.

Record State := mkState {
  owner : address;
  projectDistributions : gmap N (list Distribution);
  userDistributions : gmap (N * address) N   (* projectId, user *)
}.

Definition deploy (deployer : address) : State := mkState deployer ∅ ∅.

Definition getProjectDistributions (st : State) (pid : uint256)
    : list Distribution :=
  mget [] (projectDistributions st) pid.

Definition getUserTotalReceived (st : State) (pid : uint256) (user : address)
    : uint256 :=
  mget 0 (userDistributions st) (pid, user).

(** The test both loops make: the holder is active with a positive share. *)
Definition counted (h : Holder) : bool :=
  isActive h && (0 <? basisPoints h).

(** First loop of [split] and of [splitForProject]: the total share and the
    number of counted holders. *)
Fixpoint sumHolders (hs : list Holder) (total count : uint256)
    : Result (uint256 * uint256) :=
  match hs with
  | [] => Ok (total, count)
  | h :: rest =>
      if counted h then
        total' ← EVM.add total (basisPoints h);
        count' ← EVM.add count 1;
        sumHolders rest total' count'
      else sumHolders rest total count
  end.

(** Second loop of [split]: the transfers, recorded under project 0. *)
Fixpoint payHolders (this : address) (amount total : uint256)
    (hs : list Holder) (ctx : gmap (N * address) N * Asset.State)
    : Result (gmap (N * address) N * Asset.State) :=
  match hs with
  | [] => Ok ctx
  | h :: rest =>
      let '(received, asset) := ctx in
      if counted h then
        scaled ← EVM.mul amount (basisPoints h);
        share ← EVM.div scaled total;
        if 0 <? share then
          asset' ← Asset.transfer this (holder h) share asset;
          sum ← EVM.add (mget 0 received (0, holder h)) share;
          payHolders this amount total rest
            (<[(0, holder h) := sum]> received, asset')
        else payHolders this amount total rest ctx
      else payHolders this amount total rest ctx
  end.

Definition split (this sender : address) (now : uint256) (amount : uint256)
    (hs : list Holder) (ctx : State * Asset.State)
    : Result (State * Asset.State) :=
  let '(st, asset) := ctx in
  require (0 <? amount) "Invalid amount";;
  require (0 <? N.of_nat (length hs)) "No active holders";;
  '(total, count) ← sumHolders hs 0 0;
  require (0 <? total) "No valid holders";;
  require (total <=? 10000) "Invalid basis points total";;
  asset1 ← Asset.transferFrom this sender this amount asset;
  '(received, asset2) ←
    payHolders this amount total hs (userDistributions st, asset1);
  Ok (mkState (owner st)
        (<[0 := getProjectDistributions st 0
                ++ [mkDistribution 0 amount total now count]]>
           (projectDistributions st))
        received,
      asset2).

(** Second loop of [splitForProject]: the transfers, recorded under
    [pid]. *)
Fixpoint payHoldersFor (this : address) (pid : uint256)
    (amount total : uint256) (hs : list Holder)
    (ctx : gmap (N * address) N * Asset.State)
    : Result (gmap (N * address) N * Asset.State) :=
  match hs with
  | [] => Ok ctx
  | h :: rest =>
      let '(received, asset) := ctx in
      if counted h then
        scaled ← EVM.mul amount (basisPoints h);
        share ← EVM.div scaled total;
        if 0 <? share then
          asset' ← Asset.transfer this (holder h) share asset;
          sum ← EVM.add (mget 0 received (pid, holder h)) share;
          payHoldersFor this pid amount total rest
            (<[(pid, holder h) := sum]> received, asset')
        else payHoldersFor this pid amount total rest ctx
      else payHoldersFor this pid amount total rest ctx
  end.

Definition splitForProject (this sender : address) (now : uint256)
    (pid : uint256) (amount : uint256) (hs : list Holder)
    (ctx : State * Asset.State) : Result (State * Asset.State) :=
  let '(st, asset) := ctx in
  require (0 <? amount) "Invalid amount";;
  require (0 <? N.of_nat (length hs)) "No active holders";;
  '(total, count) ← sumHolders hs 0 0;
  require (0 <? total) "No valid holders";;
  require (total <=? 10000) "Invalid basis points total";;
  asset1 ← Asset.transferFrom this sender this amount asset;
  '(received, asset2) ←
    payHoldersFor this pid amount total hs (userDistributions st, asset1);
  Ok (mkState (owner st)
        (<[pid := getProjectDistributions st pid
                  ++ [mkDistribution pid amount total now count]]>
           (projectDistributions st))
        received,
      asset2).

(** [emergencyWithdraw]: the splitter's whole balance goes to the owner. *)
Definition emergencyWithdraw (this sender : address)
    (ctx : State * Asset.State) : Result (State * Asset.State) :=
  let '(st, asset) := ctx in
  onlyOwner (owner st) sender;;
  let balance := Asset.balanceOf asset this in
  asset' ← Asset.transfer this (owner st) balance asset;
  Ok (st, asset').

Definition transferOwnership (sender newOwner : address) (st : State)
    : Result State :=
  onlyOwner (owner st) sender;;
  require (negb (newOwner =? 0)) "Ownable: new owner is the zero address";;
  Ok (mkState newOwner (projectDistributions st) (userDistributions st)).

End RevenueSplitter.

(** [floor(amount * basisPoints / total)], the share of one holder. *)
Definition shareOf (amount total : N) (h : RevenueSplitter.Holder) : N :=
  amount * RevenueSplitter.basisPoints h / total.

(** The transfers a split is to make out of the splitter, holder by holder:
    one to each counted holder whose share is positive. *)
Definition splitPayments (this : address) (amount total : N)
    (hs : list RevenueSplitter.Holder) : list (address * address * uint256) :=
  flat_map
    (fun h =>
       if RevenueSplitter.counted h && (0 <? shareOf amount total h)
       then [(this, RevenueSplitter.holder h, shareOf amount total h)]
       else [])
    hs.

(** The total share and the number of the counted holders. *)
Definition countedShare (hs : list RevenueSplitter.Holder) : N :=
  fold_right
    (fun h acc =>
       (if RevenueSplitter.counted h then RevenueSplitter.basisPoints h
        else 0) + acc)
    0 hs.

Definition countedHolders (hs : list RevenueSplitter.Holder) : N :=
  fold_right
    (fun h acc => (if RevenueSplitter.counted h then 1 else 0) + acc) 0 hs.


(* ===================================================================== *)
(** ** XLS20Badge (in src/contracts/OracleAdapter.sol) *)
(* ===================================================================== *)

Module XLS20Badge.

Record BadgeData := mkBadge {
  rewardTokenId : uint256;   (* the reward the badge mirrors *)
  projectId : uint256;
  basisPoints : uint256;
  xrplTokenId : string;
  xrplAccount : string;
  mintTimestamp : uint256;
  isActive : bool
}.

Definition zeroBadge : BadgeData := mkBadge 0 0 0 "" "" 0 false.

Record State := mkState {
  owner : address;
  erc721 : ERC721.State;
  _tokenURIs : gmap N string;          (* ERC721URIStorage *)
  _tokenIdCounter : uint256;
  badgeData : gmap N BadgeData;
  rewardToBadge : gmap N N;            (* reward id => badge id *)
  xrplTokenToBadge : gmap string N;    (* XRPL token id => badge id *)
  xrplBridge : address;
  authorizedMinters : gmap address bool
}.

(** [constructor(_xrplBridge)], deployed by [deployer]. *)
Definition deploy (deployer bridge : address) : State :=
  mkState deployer ERC721.empty ∅ 0 ∅ ∅ ∅ bridge ∅.

Definition badge (st : State) (badgeId : uint256) : BadgeData :=
  mget zeroBadge (badgeData st) badgeId.

Definition getBadgeFromReward (st : State) (rewardId : uint256) : uint256 :=
  mget 0 (rewardToBadge st) rewardId.

Definition getBadgeFromXRPLToken (st : State) (xrplId : string) : uint256 :=
  mget 0 (xrplTokenToBadge st) xrplId.

Definition isMinter (st : State) (a : address) : bool :=
  mget false (authorizedMinters st) a.

Definition _exists (st : State) (badgeId : uint256) : bool :=
  ERC721._exists (erc721 st) badgeId.

Definition ownerOf (st : State) (badgeId : uint256) : Result address :=
  ERC721.ownerOf (erc721 st) badgeId.

(** [ERC721URIStorage.tokenURI] with the default, empty base URI. *)
Definition tokenURI (st : State) (badgeId : uint256) : Result string :=
  require (_exists st badgeId) "ERC721: invalid token ID";;
  Ok (mget "" (_tokenURIs st) badgeId).

(** The Solidity [string] with the given bytes. *)
Definition string_of_bytes (bs : bytes) : string :=
  string_of_list_ascii (List.map ascii_of_N bs).

(** First loop of [_toString]: [while (temp != 0) { digits++; temp /= 10; }].
    The loop runs on fuel; the binary length of [temp] is enough, since a
    division by 10 shortens it (the function satisfies the loop's equation,
    see [countDigits_unfold]). *)
Fixpoint countDigitsFuel (fuel : nat) (temp digits : uint256)
    : Result uint256 :=
  match fuel with
  | O => Ok digits
  | S fuel' =>
      if temp =? 0 then Ok digits
      else digits' ← EVM.add digits 1;
           countDigitsFuel fuel' (temp / 10) digits'
  end.

Definition countDigits (temp digits : uint256) : Result uint256 :=
  countDigitsFuel (N.size_nat temp) temp digits.

(** [buffer[i] = b], Panic(0x32) when [i] is out of bounds. *)
Definition store (buffer : bytes) (i : uint256) (b : N) : Result bytes :=
  if i <? N.of_nat (length buffer)
  then Ok (<[N.to_nat i := b]> buffer)
  else Panic 50.

(** Second loop: [while (value != 0) { digits -= 1;
    buffer[digits] = bytes1(uint8(48 + value % 10)); value /= 10; }]. *)
Fixpoint fillDigitsFuel (fuel : nat) (value digits : uint256) (buffer : bytes)
    : Result bytes :=
  match fuel with
  | O => Ok buffer
  | S fuel' =>
      if value =? 0 then Ok buffer
      else digits' ← EVM.sub digits 1;
           buffer' ← store buffer digits' ((48 + value mod 10) mod 256);
           fillDigitsFuel fuel' (value / 10) digits' buffer'
  end.

Definition fillDigits (value digits : uint256) (buffer : bytes)
    : Result bytes :=
  fillDigitsFuel (N.size_nat value) value digits buffer.

Definition _toString (value : uint256) : Result string :=
  if value =? 0 then Ok "0"
  else
    digits ← countDigits value 0;
    buffer ← fillDigits value digits (replicate (N.to_nat digits) 0);
    Ok (string_of_bytes buffer).

(** [string(abi.encodePacked("XLS20_", _toString(badgeId)))] *)
Definition generateXRPLTokenId (badgeId : uint256) : Result string :=
  s ← _toString badgeId;
  Ok (String.append "XLS20_" s).

Definition mintBadge (sender : address) (now : uint256) (to : address)
    (rewardId pid bp : uint256) (uri : string) (st : State)
    : Result (uint256 * State) :=
  require (isMinter st sender || (sender =? owner st)) "Unauthorized minter";;
  require (getBadgeFromReward st rewardId =? 0)
    "Badge already exists for this reward";;
  let badgeId := _tokenIdCounter st in
  counter' ← EVM.add badgeId 1;
  e' ← ERC721._safeMint ERC721.no_hook to badgeId (erc721 st);
  require (ERC721._exists e' badgeId)
    "ERC721URIStorage: URI set of nonexistent token";;
  xrplId ← generateXRPLTokenId badgeId;
  Ok (badgeId,
      mkState (owner st) e' (<[badgeId := uri]> (_tokenURIs st)) counter'
        (<[badgeId := mkBadge rewardId pid bp xrplId "" now true]>
           (badgeData st))
        (<[rewardId := badgeId]> (rewardToBadge st))
        (<[xrplId := badgeId]> (xrplTokenToBadge st))
        (xrplBridge st) (authorizedMinters st)).

Definition burnBadge (sender : address) (badgeId : uint256) (st : State)
    : Result State :=
  require (_exists st badgeId) "Badge does not exist";;
  o ← ownerOf st badgeId;
  require ((o =? sender) || (sender =? owner st)) "Not authorized";;
  let data := badge st badgeId in
  require (isActive data) "Badge already burned";;
  e' ← ERC721._burn ERC721.no_hook badgeId (erc721 st);
  let uris :=
    if negb (String.length (mget "" (_tokenURIs st) badgeId) =? 0)%nat
    then delete badgeId (_tokenURIs st)
    else _tokenURIs st in
  Ok (mkState (owner st) e' uris (_tokenIdCounter st)
        (<[badgeId := mkBadge (rewardTokenId data) (projectId data)
                        (basisPoints data) (xrplTokenId data)
                        (xrplAccount data) (mintTimestamp data) false]>
           (badgeData st))
        (delete (rewardTokenId data) (rewardToBadge st))
        (delete (xrplTokenId data) (xrplTokenToBadge st))
        (xrplBridge st) (authorizedMinters st)).

Definition updateXRPLTokenId (sender : address) (badgeId : uint256)
    (newXrplTokenId : string) (st : State) : Result State :=
  onlyOwner (owner st) sender;;
  require (_exists st badgeId) "Badge does not exist";;
  require (isActive (badge st badgeId)) "Badge not active";;
  let data := badge st badgeId in
  let oldXrplTokenId := xrplTokenId data in
  Ok (mkState (owner st) (erc721 st) (_tokenURIs st) (_tokenIdCounter st)
        (<[badgeId := mkBadge (rewardTokenId data) (projectId data)
                        (basisPoints data) newXrplTokenId (xrplAccount data)
                        (mintTimestamp data) (isActive data)]>
           (badgeData st))
        (rewardToBadge st)
        (<[newXrplTokenId := badgeId]>
           (delete oldXrplTokenId (xrplTokenToBadge st)))
        (xrplBridge st) (authorizedMinters st)).

Definition updateXRPLAccount (sender : address) (badgeId : uint256)
    (newXrplAccount : string) (st : State) : Result State :=
  onlyOwner (owner st) sender;;
  require (_exists st badgeId) "Badge does not exist";;
  require (isActive (badge st badgeId)) "Badge not active";;
  let data := badge st badgeId in
  Ok (mkState (owner st) (erc721 st) (_tokenURIs st) (_tokenIdCounter st)
        (<[badgeId := mkBadge (rewardTokenId data) (projectId data)
                        (basisPoints data) (xrplTokenId data) newXrplAccount
                        (mintTimestamp data) (isActive data)]>
           (badgeData st))
        (rewardToBadge st) (xrplTokenToBadge st)
        (xrplBridge st) (authorizedMinters st)).

Definition getBadgeData (st : State) (badgeId : uint256)
    : Result BadgeData :=
  require (_exists st badgeId) "Badge does not exist";;
  Ok (badge st badgeId).

Definition isBadgeActive (st : State) (badgeId : uint256) : bool :=
  _exists st badgeId && isActive (badge st badgeId).

Definition setAuthorizedMinter (sender minter : address) (authorized : bool)
    (st : State) : Result State :=
  onlyOwner (owner st) sender;;
  Ok (mkState (owner st) (erc721 st) (_tokenURIs st) (_tokenIdCounter st)
        (badgeData st) (rewardToBadge st) (xrplTokenToBadge st)
        (xrplBridge st) (<[minter := authorized]> (authorizedMinters st))).

Definition setXRPLBridge (sender bridge : address) (st : State)
    : Result State :=
  onlyOwner (owner st) sender;;
  Ok (mkState (owner st) (erc721 st) (_tokenURIs st) (_tokenIdCounter st)
        (badgeData st) (rewardToBadge st) (xrplTokenToBadge st)
        bridge (authorizedMinters st)).

End XLS20Badge.

(** The number a string of decimal digits denotes. *)
Definition decimal_value (s : string) : N :=
  fold_left (fun acc c => acc * 10 + (N_of_ascii c - 48))
    (list_ascii_of_string s) 0.

(** Whether every character of the string is one of '0' .. '9'. *)
Definition all_digits (s : string) : bool :=
  forallb (fun c => (48 <=? N_of_ascii c) && (N_of_ascii c <=? 57))
    (list_ascii_of_string s).

(** The decimal digits of [v] as bytes, most significant first (on fuel, as
    the loops of [_toString]). *)
Fixpoint decimal (fuel : nat) (v : N) : bytes :=
  match fuel with
  | O => []
  | S fuel' => if v =? 0 then [] else decimal fuel' (v / 10) ++ [48 + v mod 10]
  end.

(** The number a list of digit bytes denotes. *)
Definition decimal_of_bytes (bs : bytes) : N :=
  fold_left (fun acc b => acc * 10 + (b - 48)) bs 0.


(* ===================================================================== *)
(** ** SessionKeyManager (src/contracts/SessionKeyManager.sol) *)
(* ===================================================================== *)

Module SessionKeyManager.

Record SessionKey := mkSessionKey {
  user : address;
  sessionKey : address;
  validUntil : uint256;
  maxGasPrice : uint256;
  maxGasLimit : uint256;
  isActive : bool;
  createdAt : uint256
}.

Record Transaction := mkTransaction {
  to : address;
  value : uint256;
  data : bytes;
  gasLimit : uint256;
  nonce : uint256;
  executed : bool
}.

Definition zeroTransaction : Transaction := mkTransaction 0 0 [] 0 0 false.

Record State := mkState {
  owner : address;
  userSessionKeys : gmap address (list SessionKey);
  isSessionKeyActive : gmap (address * address) bool;
  userTransactions : gmap (address * N) Transaction;
  userNonces : gmap address N;
  feeSponsor : address;
  sponsoredGasUsed : gmap address N
}.

(** [constructor(_feeSponsor)], deployed by [deployer]. *)
Definition deploy (deployer sponsor : address) : State :=
  mkState deployer ∅ ∅ ∅ ∅ sponsor ∅.

Definition getUserSessionKeys (st : State) (u : address) : list SessionKey :=
  mget [] (userSessionKeys st) u.

Definition keyActive (st : State) (u k : address) : bool :=
  mget false (isSessionKeyActive st) (u, k).

Definition getUserNonce (st : State) (u : address) : uint256 :=
  mget 0 (userNonces st) u.

Definition getSponsoredGasUsed (st : State) (u : address) : uint256 :=
  mget 0 (sponsoredGasUsed st) u.

Definition transaction (st : State) (u : address) (n : uint256)
    : Transaction :=
  mget zeroTransaction (userTransactions st) (u, n).

(** [abi.encodePacked] of an [address]: 20 bytes, big-endian. *)
Definition encode_address (a : address) : bytes := be_bytes 20 a.

Definition set_active (b : bool) (k : SessionKey) : SessionKey :=
  mkSessionKey (user k) (sessionKey k) (validUntil k) (maxGasPrice k)
    (maxGasLimit k) b (createdAt k).

Definition with_keys (u : address) (keys : list SessionKey)
    (flags : gmap (address * address) bool) (st : State) : State :=
  mkState (owner st) (<[u := keys]> (userSessionKeys st)) flags
    (userTransactions st) (userNonces st) (feeSponsor st)
    (sponsoredGasUsed st).

(** [keccak256(abi.encodePacked(msg.sender, sessionKey, validUntil,
    maxGasPrice, maxGasLimit, block.chainid))] *)
Definition keyMessageHash (sender key : address)
    (until price limit chainid : uint256) : bytes32 :=
  keccak256 (encode_address sender ++ encode_address key
             ++ encode_uint256 until ++ encode_uint256 price
             ++ encode_uint256 limit ++ encode_uint256 chainid).

(** [keccak256(abi.encodePacked(user, to, value, keccak256(data), gasLimit,
    nonce, block.chainid))] *)
Definition txMessageHash (u target : address) (val : uint256) (dat : bytes)
    (gas n chainid : uint256) : bytes32 :=
  keccak256 (encode_address u ++ encode_address target
             ++ encode_uint256 val ++ be_bytes 32 (keccak256 dat)
             ++ encode_uint256 gas ++ encode_uint256 n
             ++ encode_uint256 chainid).

(** The loop of [revokeSessionKey]: the first entry with the key is
    deactivated, and the loop stops there. *)
Fixpoint deactivateFirst (key : address) (keys : list SessionKey)
    : list SessionKey :=
  match keys with
  | [] => []
  | k :: rest =>
      if sessionKey k =? key then set_active false k :: rest
      else k :: deactivateFirst key rest
  end.

Definition revokeSessionKey (sender key : address) (st : State)
    : Result State :=
  require (keyActive st sender key) "Session key not active";;
  Ok (with_keys sender (deactivateFirst key (getUserSessionKeys st sender))
        (<[(sender, key) := false]> (isSessionKeyActive st)) st).

(** The loop of [getActiveSessionKey]: the first entry with the key that is
    active and not expired. *)
Fixpoint findActive (now : uint256) (key : address) (keys : list SessionKey)
    : Result SessionKey :=
  match keys with
  | [] => Revert "Session key not found or expired"
  | k :: rest =>
      if (sessionKey k =? key) && isActive k && (now <? validUntil k)
      then Ok k
      else findActive now key rest
  end.

Definition getActiveSessionKey (now : uint256) (u key : address) (st : State)
    : Result SessionKey :=
  findActive now key (getUserSessionKeys st u).

(** [isSessionKeyValid]: the [try]/[catch] turns a failed lookup into
    [false]. *)
Definition isSessionKeyValid (now : uint256) (u key : address) (st : State)
    : bool :=
  if negb (keyActive st u key) then false
  else match getActiveSessionKey now u key st with
       | Ok _ => true
       | _ => false
       end.

(** The loop of [emergencyRevokeAllSessionKeys] over the entries of
    [u]. *)
Fixpoint revokeAll (u : address) (keys : list SessionKey)
    (flags : gmap (address * address) bool)
    : list SessionKey * gmap (address * address) bool :=
  match keys with
  | [] => ([], flags)
  | k :: rest =>
      if isActive k then
        let '(rest', flags') :=
          revokeAll u rest (<[(u, sessionKey k) := false]> flags) in
        (set_active false k :: rest', flags')
      else
        let '(rest', flags') := revokeAll u rest flags in
        (k :: rest', flags')
  end.

Definition emergencyRevokeAllSessionKeys (sender u : address) (st : State)
    : Result State :=
  onlyOwner (owner st) sender;;
  let '(keys, flags) :=
    revokeAll u (getUserSessionKeys st u) (isSessionKeyActive st) in
  Ok (with_keys u keys flags st).

Definition setFeeSponsor (sender sponsor : address) (st : State)
    : Result State :=
  onlyOwner (owner st) sender;;
  Ok (mkState (owner st) (userSessionKeys st) (isSessionKeyActive st)
        (userTransactions st) (userNonces st) sponsor (sponsoredGasUsed st)).

Section WithEnvironment.

(** Signature recovery, as for the oracle. *)
Variable tryRecover : bytes32 -> bytes -> option address.

(** The low-level call [to.call{value, gas}(data)] made out of the manager:
    [None] when the call fails (its effects are rolled back), otherwise the
    manager's state after it, which the callee may have changed by calling
    back. *)
Variable external_call :
  address -> uint256 -> bytes -> uint256 -> State -> option State.

Definition createSessionKey (sender : address) (now chainid : uint256)
    (key : address) (until price limit : uint256) (signature : bytes)
    (st : State) : Result State :=
  require (now <? until) "Invalid expiration time";;
  require (0 <? price) "Invalid max gas price";;
  require (0 <? limit) "Invalid max gas limit";;
  require (negb (keyActive st sender key)) "Session key already active";;
  let messageHash := keyMessageHash sender key until price limit chainid in
  signer ← OracleAdapter.recover tryRecover
             (OracleAdapter.toEthSignedMessageHash messageHash) signature;
  require (signer =? key) "Invalid signature";;
  let newSessionKey := mkSessionKey sender key until price limit true now in
  Ok (with_keys sender (getUserSessionKeys st sender ++ [newSessionKey])
        (<[(sender, key) := true]> (isSessionKeyActive st)) st).

Definition executeTransaction (sender : address)
    (now chainid gasprice : uint256) (u target : address) (val : uint256)
    (dat : bytes) (gas n : uint256) (signature : bytes) (st : State)
    : Result (bool * State) :=
  onlyOwner (owner st) sender;;
  require (keyActive st u sender) "Invalid session key";;
  require (negb (executed (transaction st u n)))
    "Transaction already executed";;
  require (n =? getUserNonce st u) "Invalid nonce";;
  let messageHash := txMessageHash u target val dat gas n chainid in
  signer ← OracleAdapter.recover tryRecover
             (OracleAdapter.toEthSignedMessageHash messageHash) signature;
  require (signer =? sender) "Invalid signature";;
  k ← getActiveSessionKey now u sender st;
  require (now <? validUntil k) "Session key expired";;
  require (gas <=? maxGasLimit k) "Gas limit exceeded";;
  require (gasprice <=? maxGasPrice k) "Gas price exceeded";;
  next ← EVM.add (getUserNonce st u) 1;
  let st1 :=
    mkState (owner st) (userSessionKeys st) (isSessionKeyActive st)
      (<[(u, n) := mkTransaction target val dat gas n true]>
         (userTransactions st))
      (<[u := next]> (userNonces st)) (feeSponsor st)
      (sponsoredGasUsed st) in
  match external_call target val dat gas st1 with
  | Some st2 =>
      used ← EVM.add (getSponsoredGasUsed st2 u) gas;
      Ok (true,
          mkState (owner st2) (userSessionKeys st2) (isSessionKeyActive st2)
            (userTransactions st2) (userNonces st2) (feeSponsor st2)
            (<[u := used]> (sponsoredGasUsed st2)))
  | None => Ok (false, st1)
  end.

(** The loop of [batchExecuteTransactions]: each entry is an external call
    of the manager to itself, so its [msg.sender] is [this]. *)
Fixpoint executeEach (this : address) (now chainid gasprice : uint256)
    (users tos : list N) (values : list N) (datas : list bytes)
    (gasLimits nonces : list N) (signatures : list bytes) (i : nat)
    (count : nat) (st : State) : Result State :=
  match count with
  | O => Ok st
  | S count' =>
      '(_, st') ← executeTransaction this now chainid gasprice
                    (nth i users 0) (nth i tos 0) (nth i values 0)
                    (nth i datas []) (nth i gasLimits 0) (nth i nonces 0)
                    (nth i signatures []) st;
      executeEach this now chainid gasprice users tos values datas
        gasLimits nonces signatures (S i) count' st'
  end.

Definition batchExecuteTransactions (this sender : address)
    (now chainid gasprice : uint256) (users tos : list N) (values : list N)
    (datas : list bytes) (gasLimits nonces : list N)
    (signatures : list bytes) (st : State) : Result State :=
  onlyOwner (owner st) sender;;
  let n := length users in
  require (n =? length tos)%nat "Array length mismatch";;
  require (n =? length values)%nat "Array length mismatch";;
  require (n =? length datas)%nat "Array length mismatch";;
  require (n =? length gasLimits)%nat "Array length mismatch";;
  require (n =? length nonces)%nat "Array length mismatch";;
  require (n =? length signatures)%nat "Array length mismatch";;
  executeEach this now chainid gasprice users tos values datas gasLimits
    nonces signatures 0 n st.

End WithEnvironment.

(** [Ownable.transferOwnership] and [renounceOwnership]. *)
Definition transferOwnership (sender newOwner : address) (st : State)
    : Result State :=
  onlyOwner (owner st) sender;;
  require (negb (newOwner =? 0)) "Ownable: new owner is the zero address";;
  Ok (mkState newOwner (userSessionKeys st) (isSessionKeyActive st)
        (userTransactions st) (userNonces st) (feeSponsor st)
        (sponsoredGasUsed st)).

Definition renounceOwnership (sender : address) (st : State)
    : Result State :=
  onlyOwner (owner st) sender;;
  Ok (mkState 0 (userSessionKeys st) (isSessionKeyActive st)
        (userTransactions st) (userNonces st) (feeSponsor st)
        (sponsoredGasUsed st)).

(** The transaction context of an external call of the manager. *)
Record Env := mkEnv {
  msg_sender : address;
  block_timestamp : uint256;
  block_chainid : uint256;
  tx_gasprice : uint256
}.

(** The externally callable, state-changing functions of the manager. *)
Inductive Call :=
| CreateSessionKey (key : address) (until price limit : uint256)
    (signature : bytes)
| RevokeSessionKey (key : address)
| ExecuteTransaction (u target : address) (val : uint256) (dat : bytes)
    (gas n : uint256) (signature : bytes)
| SetFeeSponsor (sponsor : address)
| EmergencyRevokeAllSessionKeys (u : address)
| BatchExecuteTransactions (users tos : list N) (values : list N)
    (datas : list bytes) (gasLimits nonces : list N)
    (signatures : list bytes)
| TransferOwnership (newOwner : address)
| RenounceOwnership.

Section Transactions.

Variable tryRecover : bytes32 -> bytes -> option address.
Variable external_call :
  address -> uint256 -> bytes -> uint256 -> State -> option State.

(** One external call of the manager deployed at [this]: the new state
    when it commits. *)
Definition call (this : address) (e : Env) (c : Call) (st : State)
    : Result State :=
  let sender := msg_sender e in
  match c with
  | CreateSessionKey key until price limit sig =>
      createSessionKey tryRecover sender (block_timestamp e)
        (block_chainid e) key until price limit sig st
  | RevokeSessionKey key => revokeSessionKey sender key st
  | ExecuteTransaction u target val dat gas n sig =>
      snd <$> executeTransaction tryRecover external_call sender
                (block_timestamp e) (block_chainid e) (tx_gasprice e) u
                target val dat gas n sig st
  | SetFeeSponsor sponsor => setFeeSponsor sender sponsor st
  | EmergencyRevokeAllSessionKeys u =>
      emergencyRevokeAllSessionKeys sender u st
  | BatchExecuteTransactions users tos values datas gasLimits nonces sigs =>
      batchExecuteTransactions tryRecover external_call this sender
        (block_timestamp e) (block_chainid e) (tx_gasprice e) users tos
        values datas gasLimits nonces sigs st
  | TransferOwnership newOwner => transferOwnership sender newOwner st
  | RenounceOwnership => renounceOwnership sender st
  end.

(** A transaction commits its changes or leaves the state as it was. *)
Definition step (this : address) (e : Env) (c : Call) (st : State)
    : State :=
  match call this e c st with
  | Ok st' => st'
  | _ => st
  end.

(** A sequence of transactions, in order. *)
Definition run (this : address) (txs : list (Env * Call)) (st : State)
    : State :=
  fold_left (fun s tx => step this (fst tx) (snd tx) s) txs st.

End Transactions.

End SessionKeyManager.


(* ===================================================================== *)
(** * Properties *)
(* ===================================================================== *)

(** Known answers: the digests of the empty string and of "abc". *)
Example keccak256_empty :
  keccak256 [] = 0xc5d2460186f7233c927e7db2dcc703c0e500b653ca82273b7bfad8045d85a470.
Proof. vm_compute. reflexivity. Qed.

Example keccak256_abc :
  keccak256 (bytes_of_string "abc")
  = 0x4e03657aea45a94fc7d47ba826c8d667c0d1e6e33a64a036ec44f58fa12d6c45.
Proof. vm_compute. reflexivity. Qed.

Example keccak256_fox :
  keccak256 (bytes_of_string "The quick brown fox jumps over the lazy dog")
  = 0x4d741b6f1eb29cb2a9b9911c82f56fa8d73b04959d3d9d222895df6c0b28aa15.
Proof. vm_compute. reflexivity. Qed.

(** The topic of the ERC-20 [Transfer] event and the digest of a zero word. *)
Example keccak256_transfer_topic :
  keccak256 (bytes_of_string "Transfer(address,address,uint256)")
  = 0xddf252ad1be2c89b69c2b068fc378daa952ba7f163c4a11628f55a4df523b3ef.
Proof. vm_compute. reflexivity. Qed.

Example keccak256_zero_word :
  keccak256 (encode_uint256 0)
  = 0x290decd9548b62a8d60345a988386fc84ba6bc95484008f6362f93160ef3e563.
Proof. vm_compute. reflexivity. Qed.

(** Reading a mapping after a write. *)
Lemma mget_insert_eq `{Countable K} {V} (d : V) (m : gmap K V) k v :
  mget d (<[k:=v]> m) k = v.
Proof. unfold mget. by rewrite lookup_insert_eq. Qed.

Lemma mget_insert_ne `{Countable K} {V} (d : V) (m : gmap K V) k k' v :
  k ≠ k' -> mget d (<[k:=v]> m) k' = mget d m k'.
Proof. intros. unfold mget. by rewrite lookup_insert_ne. Qed.

Lemma mget_insert `{Countable K} {V} (d : V) (m : gmap K V) k k' v :
  mget d (<[k:=v]> m) k' = if decide (k = k') then v else mget d m k'.
Proof.
  case_decide; subst; [apply mget_insert_eq | by apply mget_insert_ne].
Qed.

Lemma mget_delete_eq `{Countable K} {V} (d : V) (m : gmap K V) k :
  mget d (delete k m) k = d.
Proof. unfold mget. by rewrite lookup_delete_eq. Qed.

Lemma mget_delete_ne `{Countable K} {V} (d : V) (m : gmap K V) k k' :
  k ≠ k' -> mget d (delete k m) k' = mget d m k'.
Proof. intros. unfold mget. by rewrite lookup_delete_ne. Qed.

Lemma mget_empty `{Countable K} {V} (d : V) (k : K) :
  mget d (∅ : gmap K V) k = d.
Proof. unfold mget. by rewrite lookup_empty. Qed.


(** ** Reasoning about calls *)

Lemma bind_Ok {A B} (r : Result A) (k : A -> Result B) (b : B) :
  r ≫= k = Ok b -> exists a, r = Ok a /\ k a = Ok b.
Proof. destruct r; simpl; intros; [eauto | discriminate..]. Qed.

Lemma fmap_Ok {A B} (f : A -> B) (r : Result A) (b : B) :
  f <$> r = Ok b -> exists a, r = Ok a /\ b = f a.
Proof.
  destruct r; simpl; intros E; [| discriminate..].
  injection E as <-. eauto.
Qed.

Lemma require_Ok (b : bool) (s : string) (u : unit) :
  require b s = Ok u -> b = true.
Proof. destruct b; [done | discriminate]. Qed.

Lemma onlyOwner_Ok (o s : address) (u : unit) :
  onlyOwner o s = Ok u -> s = o.
Proof. intros E%require_Ok. by apply N.eqb_eq. Qed.

Lemma onlyOwner_self (o : address) : onlyOwner o o = Ok tt.
Proof. unfold onlyOwner. by rewrite N.eqb_refl. Qed.

Lemma onlyOwner_other (o s : address) :
  s ≠ o -> onlyOwner o s = Revert "Ownable: caller is not the owner".
Proof.
  intros Hne. unfold onlyOwner.
  destruct (N.eqb_spec s o); [done | reflexivity].
Qed.

(** Split a successful sequence of calls into its successful parts. *)
Ltac inv_ok H :=
  lazymatch type of H with
  | (_ ≫= _) = Ok _ =>
      let x := fresh "x" in
      let H1 := fresh H "a" in
      let H2 := fresh H "b" in
      apply bind_Ok in H as (x & H1 & H2);
      repeat lazymatch type of x with
             | prod _ _ => destruct x as [x ?]
             end;
      simpl in H2; inv_ok H2
  | _ => idtac
  end.

Ltac ok_inv :=
  repeat match goal with
  | H : require _ _ = Ok _ |- _ => apply require_Ok in H
  | H : onlyOwner _ _ = Ok _ |- _ => apply onlyOwner_Ok in H
  | H : Ok _ = Ok _ |- _ => injection H as H; subst
  | H : Revert _ = Ok _ |- _ => discriminate H
  | H : Panic _ = Ok _ |- _ => discriminate H
  end.

(* ===================================================================== *)
(** ** The reward index and its sentinel *)
(* ===================================================================== *)

Lemma hasActiveReward_sentinel (st : RewardNFT.State) (c : uint256) :
  RewardNFT.getRewardForClaim st c = 0 ->
  RewardNFT.hasActiveReward st c = false.
Proof. intros E. unfold RewardNFT.hasActiveReward. by rewrite E. Qed.

(** C10. Reward token ids start at 0 although 0 is the "no reward" value of
    the claim-to-reward index.  [hasActiveReward c] is false whenever the
    index maps [c] to 0; on a freshly deployed RewardNFT the first reward
    gets id 0, so its claim is reported as having no active reward while
    reward 0 exists, is active and is paired with it; and a second
    [mintReward] for the same claim is not rejected: it mints reward 1, and
    both rewards are then active for that claim. *)
Theorem C10_reward_id_zero_is_the_sentinel :
  (forall st c, RewardNFT.getRewardForClaim st c = 0 ->
                RewardNFT.hasActiveReward st c = false)
  /\ forall (deployer to to' : address) (now now' c pid bp pid' bp' : uint256),
       to ≠ 0 -> to' ≠ 0 ->
       exists st1 st2,
         RewardNFT.mintReward deployer now to c pid bp
           (RewardNFT.deploy deployer) = Ok (0, st1)
         /\ RewardNFT.ownerOf st1 0 = Ok to
         /\ RewardNFT.isActive (RewardNFT.reward st1 0) = true
         /\ RewardNFT.claimTokenId (RewardNFT.reward st1 0) = c
         /\ RewardNFT.hasActiveReward st1 c = false
         /\ RewardNFT.mintReward deployer now' to' c pid' bp' st1 = Ok (1, st2)
         /\ (forall r, r = 0 \/ r = 1 ->
               RewardNFT.isActive (RewardNFT.reward st2 r) = true
               /\ RewardNFT.claimTokenId (RewardNFT.reward st2 r) = c).
Proof.
  split; [exact hasActiveReward_sentinel |].
  intros deployer to to' now now' c pid bp pid' bp' Hto Hto'.
  assert (Eto : (to =? 0) = false) by by apply N.eqb_neq.
  assert (Eto' : (to' =? 0) = false) by by apply N.eqb_neq.
  eexists _, _.
  split.
  { unfold RewardNFT.mintReward, RewardNFT.deploy; simpl.
    rewrite onlyOwner_self; simpl.
    unfold RewardNFT.getRewardForClaim; simpl. rewrite mget_empty; simpl.
    unfold ERC721._safeMint, ERC721._exists, ERC721._ownerOf; simpl.
    rewrite Eto, mget_empty; simpl. reflexivity. }
  split.
  { unfold RewardNFT.ownerOf, ERC721.ownerOf, ERC721._ownerOf; simpl.
    rewrite mget_insert_eq, Eto. reflexivity. }
  split; [unfold RewardNFT.reward; simpl; by rewrite mget_insert_eq |].
  split; [unfold RewardNFT.reward; simpl; by rewrite mget_insert_eq |].
  split.
  { apply hasActiveReward_sentinel.
    unfold RewardNFT.getRewardForClaim; simpl. by rewrite mget_insert_eq. }
  split.
  { unfold RewardNFT.mintReward; simpl.
    rewrite onlyOwner_self; simpl.
    unfold RewardNFT.getRewardForClaim; simpl. rewrite mget_insert_eq; simpl.
    unfold ERC721._safeMint, ERC721._exists, ERC721._ownerOf; simpl.
    rewrite Eto'. rewrite mget_insert_ne by done. rewrite mget_empty; simpl.
    reflexivity. }
  intros r [-> | ->]; unfold RewardNFT.reward; simpl.
  - rewrite mget_insert_ne by done. by rewrite mget_insert_eq.
  - by rewrite mget_insert_eq.
Qed.

Lemma C10_reward_id_zero_is_the_sentinel_witness :
  Scenario.alice ≠ 0 /\ Scenario.bob ≠ 0 /\
  exists st1 st2,
    RewardNFT.mintReward Scenario.admin 7 Scenario.alice 5 1 2500
      (RewardNFT.deploy Scenario.admin) = Ok (0, st1)
    /\ RewardNFT.ownerOf st1 0 = Ok Scenario.alice
    /\ RewardNFT.isActive (RewardNFT.reward st1 0) = true
    /\ RewardNFT.claimTokenId (RewardNFT.reward st1 0) = 5
    /\ RewardNFT.hasActiveReward st1 5 = false
    /\ RewardNFT.mintReward Scenario.admin 8 Scenario.bob 5 1 2500 st1
       = Ok (1, st2)
    /\ (forall r, r = 0 \/ r = 1 ->
          RewardNFT.isActive (RewardNFT.reward st2 r) = true
          /\ RewardNFT.claimTokenId (RewardNFT.reward st2 r) = 5).
Proof.
  assert (Ha : Scenario.alice ≠ 0) by (unfold Scenario.alice; lia).
  assert (Hb : Scenario.bob ≠ 0) by (unfold Scenario.bob; lia).
  split; [exact Ha |]. split; [exact Hb |].
  exact (proj2 C10_reward_id_zero_is_the_sentinel
           Scenario.admin Scenario.alice Scenario.bob 7 8 5 1 2500 1 2500
           Ha Hb).
Defined.

(* ===================================================================== *)
(** ** What each registry function does when it commits *)
(* ===================================================================== *)

Lemma safeMint_Ok hook to tokenId st st' :
  ERC721._safeMint hook to tokenId st = Ok st' ->
  to ≠ 0 /\ ERC721._exists st tokenId = false
  /\ ERC721._owners st' = <[tokenId := to]> (ERC721._owners st)
  /\ ERC721._tokenApprovals st' = ERC721._tokenApprovals st
  /\ ERC721._operatorApprovals st' = ERC721._operatorApprovals st.
Proof.
  unfold ERC721._safeMint. intros H. inv_ok H. ok_inv.
  apply negb_true_iff in Ha, Hba. apply N.eqb_neq in Ha. by simpl.
Qed.

Lemma ownerOf_Ok st tokenId o :
  ERC721.ownerOf st tokenId = Ok o ->
  o = ERC721._ownerOf st tokenId /\ o ≠ 0 /\ ERC721._exists st tokenId = true.
Proof.
  unfold ERC721.ownerOf, ERC721._exists. intros H. inv_ok H. ok_inv.
  split; [done |]. split; [| done].
  apply negb_true_iff in Ha. by apply N.eqb_neq.
Qed.

Lemma exists_ownerOf st tokenId :
  ERC721._exists st tokenId = true ->
  ERC721.ownerOf st tokenId = Ok (ERC721._ownerOf st tokenId).
Proof. unfold ERC721.ownerOf, ERC721._exists. by intros ->. Qed.

Lemma not_exists_owner st tokenId :
  ERC721._exists st tokenId = false <-> ERC721._ownerOf st tokenId = 0.
Proof.
  unfold ERC721._exists. rewrite negb_false_iff. apply N.eqb_eq.
Qed.

Lemma mintNew_Ok to newClaim pid st tokenId st' :
  ClaimSBT.mintNew to newClaim pid st = Ok (tokenId, st') ->
  exists c e',
    newClaim = Ok c
    /\ tokenId = ClaimSBT._tokenIdCounter st
    /\ ERC721._safeMint ClaimSBT._beforeTokenTransfer to tokenId
         (ClaimSBT.erc721 st) = Ok e'
    /\ st' = ClaimSBT.mkState (ClaimSBT.owner st) e' (tokenId + 1)
               (<[tokenId := c]> (ClaimSBT.claims st))
               (<[to := ClaimSBT.getUserClaims st to ++ [tokenId]]>
                  (ClaimSBT.userClaims st))
               (<[pid := ClaimSBT.getProjectClaims st pid ++ [tokenId]]>
                  (ClaimSBT.projectClaims st)).
Proof.
  unfold ClaimSBT.mintNew. intros H. inv_ok H.
  injection Hbbb as <- <-.
  unfold EVM.add in Ha. case_match; [| discriminate]. injection Ha as <-.
  by eexists _, _.
Qed.

Lemma pause_Ok sender tokenId st st' :
  ClaimSBT.pause sender tokenId st = Ok st' ->
  sender = ClaimSBT.owner st /\ ClaimSBT._exists st tokenId = true
  /\ st' = ClaimSBT.set_claim tokenId
             (ClaimSBT.set_status ClaimSBT.Staked (ClaimSBT.claim st tokenId))
             st.
Proof. unfold ClaimSBT.pause. intros H. inv_ok H. by ok_inv. Qed.

Lemma unpause_Ok sender tokenId st st' :
  ClaimSBT.unpause sender tokenId st = Ok st' ->
  sender = ClaimSBT.owner st /\ ClaimSBT._exists st tokenId = true
  /\ st' = ClaimSBT.set_claim tokenId
             (ClaimSBT.set_status ClaimSBT.Active (ClaimSBT.claim st tokenId))
             st.
Proof. unfold ClaimSBT.unpause. intros H. inv_ok H. by ok_inv. Qed.

Lemma claim_set_claim st id c id' :
  ClaimSBT.claim (ClaimSBT.set_claim id c st) id'
  = if decide (id = id') then c else ClaimSBT.claim st id'.
Proof. unfold ClaimSBT.claim; simpl. apply mget_insert. Qed.

Lemma mintOrTopUp_change sender now to amount st r :
  ClaimSBT.mintOrTopUp sender now to amount st = Ok r ->
  minted st (snd r) \/ topped_up st (snd r).
Proof.
  unfold ClaimSBT.mintOrTopUp. intros H. inv_ok H. clear Ha Hba.
  destruct (0 <? _).
  - inv_ok Hbb. ok_inv. right. by eexists _, _.
  - destruct r as [id st'].
    apply mintNew_Ok in Hbb as (c & e' & Hc & -> & Hm & ->).
    inv_ok Hc. ok_inv. left. eexists _, _, _, _.
    split; [exact Hm |]. split; [| simpl; reflexivity]. reflexivity.
Qed.

Lemma mintClaim_Ok sender now to pid bp price tx st tokenId st' :
  ClaimSBT.mintClaim sender now to pid bp price tx st = Ok (tokenId, st') ->
  exists e',
    sender = ClaimSBT.owner st /\ 0 < bp
    /\ tokenId = ClaimSBT._tokenIdCounter st
    /\ ERC721._safeMint ClaimSBT._beforeTokenTransfer to tokenId
         (ClaimSBT.erc721 st) = Ok e'
    /\ st' = ClaimSBT.mkState (ClaimSBT.owner st) e' (tokenId + 1)
               (<[tokenId :=
                    ClaimSBT.mkClaim pid bp ClaimSBT.Active price tx now]>
                  (ClaimSBT.claims st))
               (<[to := ClaimSBT.getUserClaims st to ++ [tokenId]]>
                  (ClaimSBT.userClaims st))
               (<[pid := ClaimSBT.getProjectClaims st pid ++ [tokenId]]>
                  (ClaimSBT.projectClaims st)).
Proof.
  unfold ClaimSBT.mintClaim. intros H. inv_ok H. ok_inv.
  apply N.ltb_lt in Hba.
  apply mintNew_Ok in Hbb as (c & e' & Hc & -> & Hm & ->).
  ok_inv. by eexists.
Qed.

Lemma mintClaim_change sender now to pid bp price tx st r :
  ClaimSBT.mintClaim sender now to pid bp price tx st = Ok r ->
  minted st (snd r).
Proof.
  destruct r as [id st']. intros (e' & _ & _ & -> & Hm & ->)%mintClaim_Ok.
  eexists _, _, _, _.
  split; [exact Hm |]. split; [| simpl; reflexivity]. reflexivity.
Qed.

(* ===================================================================== *)
(** ** What the reward contract and the stake manager do when they commit *)
(* ===================================================================== *)

Lemma mintReward_Ok sender now to claimId pid bp st tokenId st' :
  RewardNFT.mintReward sender now to claimId pid bp st = Ok (tokenId, st') ->
  exists e',
    sender = RewardNFT.owner st
    /\ RewardNFT.getRewardForClaim st claimId = 0
    /\ tokenId = RewardNFT._tokenIdCounter st
    /\ ERC721._safeMint ERC721.no_hook to tokenId (RewardNFT.erc721 st)
       = Ok e'
    /\ st' = RewardNFT.mkState (RewardNFT.owner st) e' (tokenId + 1)
               (<[tokenId := RewardNFT.mkReward claimId pid bp now true]>
                  (RewardNFT.rewards st))
               (<[claimId := tokenId]> (RewardNFT.claimToReward st)).
Proof.
  unfold RewardNFT.mintReward. intros H. inv_ok H. ok_inv.
  apply N.eqb_eq in Hba.
  unfold EVM.add in Hbba. case_match; [| discriminate]. injection Hbba as <-.
  by eexists.
Qed.

Lemma burn_Ok hook tokenId st st' :
  ERC721._burn hook tokenId st = Ok st' ->
  ERC721._exists st tokenId = true
  /\ ERC721._owners st' = delete tokenId (ERC721._owners st).
Proof.
  unfold ERC721._burn. intros H. inv_ok H. ok_inv.
  apply ownerOf_Ok in Ha as (_ & _ & ?). by simpl.
Qed.

Lemma burnReward_Ok sender tokenId st st' :
  RewardNFT.burnReward sender tokenId st = Ok st' ->
  exists e',
    sender = RewardNFT.owner st
    /\ RewardNFT._exists st tokenId = true
    /\ RewardNFT.isActive (RewardNFT.reward st tokenId) = true
    /\ ERC721._burn ERC721.no_hook tokenId (RewardNFT.erc721 st) = Ok e'
    /\ st' = RewardNFT.mkState (RewardNFT.owner st) e'
               (RewardNFT._tokenIdCounter st)
               (<[tokenId :=
                    RewardNFT.mkReward
                      (RewardNFT.claimTokenId (RewardNFT.reward st tokenId))
                      (RewardNFT.projectId (RewardNFT.reward st tokenId))
                      (RewardNFT.basisPoints (RewardNFT.reward st tokenId))
                      (RewardNFT.mintTimestamp (RewardNFT.reward st tokenId))
                      false]> (RewardNFT.rewards st))
               (<[RewardNFT.claimTokenId (RewardNFT.reward st tokenId) := 0]>
                  (RewardNFT.claimToReward st)).
Proof.
  unfold RewardNFT.burnReward. intros H. inv_ok H. ok_inv. by eexists.
Qed.

Lemma stake_Ok this sender now claimId sbt rnft sm rid sbt' rnft' sm' :
  StakeManager.stakeAndMintReward this sender now claimId (sbt, rnft, sm)
  = Ok (rid, (sbt', rnft', sm')) ->
  ClaimSBT.ownerOf sbt claimId = Ok sender
  /\ StakeManager.isClaimStaked sm claimId = false
  /\ RewardNFT.hasActiveReward rnft claimId = false
  /\ ClaimSBT.status (ClaimSBT.claim sbt claimId) = ClaimSBT.Active
  /\ ClaimSBT.pause this claimId sbt = Ok sbt'
  /\ RewardNFT.mintReward this now sender claimId
       (ClaimSBT.projectId (ClaimSBT.claim sbt claimId))
       (ClaimSBT.basisPoints (ClaimSBT.claim sbt claimId)) rnft
     = Ok (rid, rnft')
  /\ sm' = StakeManager.mkState
             (<[claimId := StakeManager.mkStake claimId sender now true]>
                (StakeManager.stakes sm))
             (<[sender := StakeManager.getUserStakes sm sender ++ [claimId]]>
                (StakeManager.userStakes sm)).
Proof.
  unfold StakeManager.stakeAndMintReward. intros H. inv_ok H. ok_inv.
  apply N.eqb_eq in Hba as ->.
  apply negb_true_iff in Hbba, Hbbba.
  unfold ClaimSBT.getClaimData in Hbbbba. inv_ok Hbbbba. ok_inv.
  assert (ClaimSBT.status (ClaimSBT.claim sbt claimId) = ClaimSBT.Active)
    by (destruct (ClaimSBT.status _); done).
  done.
Qed.

Lemma sm_burnReward_Ok this sender rewardId sbt rnft sm sbt' rnft' sm' :
  StakeManager.burnReward this sender rewardId (sbt, rnft, sm)
  = Ok (sbt', rnft', sm') ->
  RewardNFT.ownerOf rnft rewardId = Ok sender
  /\ RewardNFT.claimOf rnft rewardId ≠ 0
  /\ RewardNFT.burnReward this rewardId rnft = Ok rnft'
  /\ ClaimSBT.unpause this (RewardNFT.claimOf rnft rewardId) sbt = Ok sbt'.
Proof.
  unfold StakeManager.burnReward. intros H. inv_ok H. ok_inv.
  apply N.eqb_eq in Hba as ->.
  apply negb_true_iff, N.eqb_neq in Hbba. done.
Qed.

(* ===================================================================== *)
(** ** What the vault's payment intake does when it commits *)
(* ===================================================================== *)

Lemma add_Ok a b c : EVM.add a b = Ok c -> c = a + b /\ a + b <= MAX_UINT256.
Proof.
  unfold EVM.add. destruct (N.leb_spec (a + b) MAX_UINT256); [| done].
  by intros [= <-].
Qed.

Lemma mul_Ok a b c : EVM.mul a b = Ok c -> c = a * b /\ a * b <= MAX_UINT256.
Proof.
  unfold EVM.mul. destruct (N.leb_spec (a * b) MAX_UINT256); [| done].
  by intros [= <-].
Qed.

Lemma div_Ok a b c : EVM.div a b = Ok c -> c = a / b /\ b ≠ 0.
Proof.
  unfold EVM.div. destruct (N.eqb_spec b 0); [done |]. by intros [= <-].
Qed.

Lemma processPayment_Ok this sender now investor amt tx price
    st sbt oracle st' sbt' oracle' :
  ProjectVault.processPayment this sender now investor amt tx price
    (st, sbt, oracle) = Ok (st', sbt', oracle') ->
  let p := ProjectVault.project st in
  let bp := amt * 10000 / ProjectVault.totalFunding p in
  sender = ProjectVault.owner st
  /\ ProjectVault.isActive p = true
  /\ ProjectVault.isPaymentProcessed st tx = false
  /\ 0 < amt
  /\ OracleAdapter.isXRPLPaymentVerified oracle tx = true
  /\ ProjectVault.totalFunding p ≠ 0
  /\ 0 < bp
  /\ (exists id,
        ClaimSBT.mintClaim this now investor (ProjectVault.projectId p) bp
          price tx sbt = Ok (id, sbt'))
  /\ oracle' = oracle
  /\ st' = ProjectVault.mkState (ProjectVault.owner st)
             (ProjectVault.mkProject (ProjectVault.projectId p)
                (ProjectVault.title p) (ProjectVault.description p)
                (ProjectVault.creator p) (ProjectVault.totalFunding p)
                (ProjectVault.totalRaised p + amt) (ProjectVault.isActive p)
                (ProjectVault.createdAt p))
             (ProjectVault.milestones st) (ProjectVault.revenueEntries st)
             (<[investor := ProjectVault.contribution st investor + amt]>
                (ProjectVault.userContributions st))
             (<[ProjectVault.paymentKey tx := true]>
                (ProjectVault.processedPayments st))
             (ProjectVault.events st
                ++ [ProjectVault.PaymentProcessed investor amt bp tx]).
Proof.
  unfold ProjectVault.processPayment. intros H. inv_ok H. ok_inv.
  apply negb_true_iff in Hbba. apply N.ltb_lt in Hbbba, Hbbbbbbba.
  apply mul_Ok in Hbbbbba as [-> _]. apply div_Ok in Hbbbbbba as [-> ?].
  apply add_Ok in Hbbbbbbbba as [-> _]. apply add_Ok in Hbbbbbbbbba as [-> _].
  simpl. repeat split; try done. by eexists.
Qed.

(* ===================================================================== *)
(** ** How a committed call changes the registry *)
(* ===================================================================== *)

(** Expose the contract function behind a call without unfolding it. *)
Ltac call_inv H :=
  unfold call in H; cbv beta iota zeta in H;
  apply bind_Ok in H as (? & H & ?); ok_inv;
  try (apply fmap_Ok in H as (? & H & ->)).

(** Invert a committed call of one of the straight-line functions. *)
Ltac simple_inv H :=
  unfold ProjectVault.addMilestone, ProjectVault.unlockMilestone,
    ProjectVault.addRevenue, ProjectVault.transferOwnership,
    OracleAdapter.setVerifierAuthorization, OracleAdapter.verifyXRPLPayment,
    OracleAdapter.transferOwnership, ClaimSBT.transferOwnership,
    ClaimSBT.renounceOwnership, RewardNFT.transferOwnership,
    RewardNFT.renounceOwnership, ERC20.transfer, ERC20.mint in H;
  inv_ok H; ok_inv.

Lemma call_sbt_effect tryRecover e c w w' :
  call tryRecover e c w = Ok w' -> sbt_effect c w (claimSBT w').
Proof.
  intros H. destruct c; call_inv H; unfold sbt_effect; simpl.
  all: try reflexivity.
  all: try discriminate H.
  all: lazymatch type of H with
       | ClaimSBT.mintOrTopUp _ _ _ _ _ = _ =>
           by apply mintOrTopUp_change in H
       | ClaimSBT.mintClaim _ _ _ _ _ _ _ _ = _ =>
           by apply mintClaim_change in H
       | ClaimSBT.pause _ _ _ = _ => by apply pause_Ok in H as (_ & ? & ->)
       | ClaimSBT.unpause _ _ _ = _ =>
           by apply unpause_Ok in H as (_ & ? & ->)
       | ClaimSBT.transferOwnership _ _ _ = _ =>
           unfold ClaimSBT.transferOwnership in H; inv_ok H; ok_inv;
           by eexists
       | ClaimSBT.renounceOwnership _ _ = _ =>
           unfold ClaimSBT.renounceOwnership in H; inv_ok H; ok_inv;
           by eexists
       | _ => idtac
       end.
  - by eexists.
  - destruct x as [rid [[sbt' rnft'] sm']]. simpl.
    apply stake_Ok in H as (_ & _ & _ & Hact & Hp & _).
    by apply pause_Ok in Hp as (_ & ? & ->).
  - destruct x as [[sbt' rnft'] sm']. simpl.
    apply sm_burnReward_Ok in H as (_ & _ & _ & Hu).
    by apply unpause_Ok in Hu as (_ & ? & ->).
  - destruct x as [[v s] o]. injection H0 as <-. simpl.
    apply processPayment_Ok in H as (_ & _ & _ & _ & _ & _ & _ & Hm & _).
    destruct Hm as [id Hm]. by apply mintClaim_change in Hm.
  - destruct x as [v t]. by injection H0 as <-.
Qed.


Lemma step_cases tryRecover e c w :
  (exists w', call tryRecover e c w = Ok w' /\ step tryRecover e c w = w')
  \/ (is_ok (call tryRecover e c w) = false /\ step tryRecover e c w = w).
Proof.
  unfold step. destruct (call tryRecover e c w); simpl; eauto.
Qed.

(* ===================================================================== *)
(** ** Claims cannot be transferred *)
(* ===================================================================== *)

Lemma minted_owner st st' tokenId :
  minted st st' ->
  ERC721._ownerOf (ClaimSBT.erc721 st') tokenId
  ≠ ERC721._ownerOf (ClaimSBT.erc721 st) tokenId ->
  ClaimSBT._exists st tokenId = false.
Proof.
  intros (to & c & pid & e' & Hm & _ & ->) Hne. simpl in Hne.
  apply safeMint_Ok in Hm as (_ & Hfresh & Ho & _).
  unfold ERC721._ownerOf in Hne. rewrite Ho, mget_insert in Hne.
  case_decide; [by subst | done].
Qed.

(** C7. Every transfer or approval entry point of the claim token
    ([transferFrom], both [safeTransferFrom], [approve],
    [setApprovalForAll]) fails with "SBT: Token is non-transferable" for
    every caller, token and state, and as a transaction leaves the world
    unchanged; and no call of the engine changes the owner of an existing
    claim: an owner only ever changes from "none" to the recipient of a
    mint. *)
Theorem C7_claims_are_non_transferable :
  (forall sender from to operator approved tokenId data st,
      ClaimSBT.transferFrom sender from to tokenId st
      = Revert "SBT: Token is non-transferable"
      /\ ClaimSBT.safeTransferFrom sender from to tokenId st
         = Revert "SBT: Token is non-transferable"
      /\ ClaimSBT.safeTransferFromData sender from to tokenId data st
         = Revert "SBT: Token is non-transferable"
      /\ ClaimSBT.approve sender to tokenId st
         = Revert "SBT: Token is non-transferable"
      /\ ClaimSBT.setApprovalForAll sender operator approved st
         = Revert "SBT: Token is non-transferable")
  /\ (forall tryRecover e c w,
        is_claim_transfer c ->
        call tryRecover e c w = Revert "SBT: Token is non-transferable"
        /\ step tryRecover e c w = w)
  /\ (forall tryRecover e c w tokenId,
        claim_owner (step tryRecover e c w) tokenId ≠ claim_owner w tokenId ->
        is_claim_mint c /\ claim_owner w tokenId = 0).
Proof.
  split; [done |]. split.
  - intros tryRecover e c w Hc.
    destruct c; try done; by unfold step.
  - intros tryRecover e c w tokenId Hne.
    destruct (step_cases tryRecover e c w) as [(w' & Hcall & Hw') | [_ Hw']];
      rewrite Hw' in Hne; [| done].
    apply call_sbt_effect in Hcall. unfold claim_owner in *.
    rewrite <- not_exists_owner. revert Hne.
    destruct c; simpl in Hcall;
      try (rewrite Hcall; done);
      try (destruct Hcall as [_ ->]; done);
      try (destruct Hcall as [_ [_ ->]]; done);
      try (destruct Hcall as [o ->]; done).
    + intros Hne. split; [done |].
      destruct Hcall as [Hm | (id & bp & Heq)]; [| by rewrite Heq in Hne].
      by eapply minted_owner.
    + intros Hne. split; [done |]. by eapply minted_owner.
    + intros Hne. split; [done |]. by eapply minted_owner.
Qed.

Lemma C7_claims_are_non_transferable_witness :
  is_claim_transfer (Claim_transferFrom Scenario.alice Scenario.bob 0)
  /\ claim_owner ScenarioSlashed.minted_once 0 = Scenario.alice
  /\ call Scenario.noSigner (mkEnv Scenario.alice 1)
       (Claim_transferFrom Scenario.alice Scenario.bob 0)
       ScenarioSlashed.minted_once = Revert "SBT: Token is non-transferable"
  /\ step Scenario.noSigner (mkEnv Scenario.alice 1)
       (Claim_transferFrom Scenario.alice Scenario.bob 0)
       ScenarioSlashed.minted_once = ScenarioSlashed.minted_once
  /\ claim_owner
       (step Scenario.noSigner (mkEnv Scenario.admin 1000)
          (Claim_mintOrTopUp Scenario.alice 1000000)
          (Scenario.genesis 100000)) 0
     ≠ claim_owner (Scenario.genesis 100000) 0
  /\ is_claim_mint (Claim_mintOrTopUp Scenario.alice 1000000)
  /\ claim_owner (Scenario.genesis 100000) 0 = 0.
Proof.
  split; [exact I |]. split; [reflexivity |].
  assert (Hne : claim_owner
                  (step Scenario.noSigner (mkEnv Scenario.admin 1000)
                     (Claim_mintOrTopUp Scenario.alice 1000000)
                     (Scenario.genesis 100000)) 0
                ≠ claim_owner (Scenario.genesis 100000) 0)
    by (apply N.eqb_neq; vm_compute; reflexivity).
  pose proof (proj1 (proj2 C7_claims_are_non_transferable)
                Scenario.noSigner (mkEnv Scenario.alice 1)
                (Claim_transferFrom Scenario.alice Scenario.bob 0)
                ScenarioSlashed.minted_once I) as [Hrev Hstep].
  pose proof (proj2 (proj2 C7_claims_are_non_transferable)
                Scenario.noSigner (mkEnv Scenario.admin 1000)
                (Claim_mintOrTopUp Scenario.alice 1000000)
                (Scenario.genesis 100000) 0 Hne) as [Hmint Hzero].
  split; [exact Hrev |]. split; [exact Hstep |]. split; [exact Hne |].
  split; [exact Hmint | exact Hzero].
Defined.

(* ===================================================================== *)
(** ** The status of a claim *)
(* ===================================================================== *)

(** C4, as the specification states it, fails: the registry's [pause] and
    [unpause] do not look at the current status.  On a registry holding a
    Slashed claim the owner's [pause] commits and leaves the claim Staked,
    and [unpause] commits and leaves it Active; and on a reachable world an
    [unpause] of a claim that is already Active commits instead of being
    rejected as an invalid transition. *)
Lemma C4_slashed_is_not_terminal :
  claim_status ScenarioSlashed.slashed 0 = ClaimSBT.Slashed
  /\ claim_status
       (step Scenario.noSigner (mkEnv Scenario.admin 2) (Claim_pause 0)
          ScenarioSlashed.slashed) 0 = ClaimSBT.Staked
  /\ claim_status
       (step Scenario.noSigner (mkEnv Scenario.admin 2) (Claim_unpause 0)
          ScenarioSlashed.slashed) 0 = ClaimSBT.Active
  /\ claim_status ScenarioSlashed.minted_once 0 = ClaimSBT.Active
  /\ is_ok (call Scenario.noSigner (mkEnv Scenario.admin 2) (Claim_unpause 0)
              ScenarioSlashed.minted_once) = true.
Proof. vm_compute. done. Qed.

Lemma status_set_claim st id c id' :
  ClaimSBT.status (ClaimSBT.claim (ClaimSBT.set_claim id c st) id')
  = if decide (id = id') then ClaimSBT.status c
    else ClaimSBT.status (ClaimSBT.claim st id').
Proof. rewrite claim_set_claim. by case_decide. Qed.

Lemma minted_status st st' id :
  minted st st' -> ClaimSBT._exists st id = true ->
  ClaimSBT.claim st' id = ClaimSBT.claim st id.
Proof.
  intros (to & c & pid & e' & Hm & _ & ->) Hex.
  apply safeMint_Ok in Hm as (_ & Hfresh & _).
  unfold ClaimSBT.claim; simpl. rewrite mget_insert_ne; [done |].
  intros <-. unfold ClaimSBT._exists in Hex. congruence.
Qed.

Lemma status_written_status id s st st' id' :
  status_written id s st st' ->
  ClaimSBT.status (ClaimSBT.claim st' id')
  = if decide (id = id') then s else ClaimSBT.status (ClaimSBT.claim st id').
Proof. intros [_ ->]. rewrite status_set_claim. by case_decide. Qed.

(** C4 (amended). The stored status of an existing claim changes only to
    Staked, by the registry's [pause] or by [stakeAndMintReward] (which
    requires the claim to be Active), or to Active, by [unpause] or by the
    stake manager's [burnReward] of a reward of that claim; no call moves a
    claim to Slashed.  [pause] and [unpause], called by the registry owner on
    an existing claim, commit whatever the current status is (Slashed
    included); on a missing claim they fail with "Token does not exist"; and
    staking a claim that is not Active fails with "Claim not active". *)
Theorem C4_status_changes_by_pause_and_unpause_only :
  (forall tryRecover e c w id,
      ClaimSBT._exists (claimSBT w) id = true ->
      claim_status (step tryRecover e c w) id ≠ claim_status w id ->
      (claim_status (step tryRecover e c w) id = ClaimSBT.Staked
       /\ (c = Claim_pause id
           \/ (c = Stake_stakeAndMintReward id
               /\ claim_status w id = ClaimSBT.Active)))
      \/ (claim_status (step tryRecover e c w) id = ClaimSBT.Active
          /\ (c = Claim_unpause id
              \/ exists r, c = Stake_burnReward r
                           /\ RewardNFT.claimOf (rewardNFT w) r = id)))
  /\ (forall id st,
        ClaimSBT._exists st id = true ->
        exists st1 st2,
          ClaimSBT.pause (ClaimSBT.owner st) id st = Ok st1
          /\ ClaimSBT.status (ClaimSBT.claim st1 id) = ClaimSBT.Staked
          /\ ClaimSBT.unpause (ClaimSBT.owner st) id st = Ok st2
          /\ ClaimSBT.status (ClaimSBT.claim st2 id) = ClaimSBT.Active)
  /\ (forall id st,
        ClaimSBT._exists st id = false ->
        ClaimSBT.pause (ClaimSBT.owner st) id st
        = Revert "Token does not exist"
        /\ ClaimSBT.unpause (ClaimSBT.owner st) id st
           = Revert "Token does not exist")
  /\ (forall this sender now id sbt rnft sm,
        ClaimSBT.ownerOf sbt id = Ok sender ->
        StakeManager.isClaimStaked sm id = false ->
        RewardNFT.hasActiveReward rnft id = false ->
        ClaimSBT.status (ClaimSBT.claim sbt id) ≠ ClaimSBT.Active ->
        StakeManager.stakeAndMintReward this sender now id (sbt, rnft, sm)
        = Revert "Claim not active").
Proof.
  split; [| split; [| split]].
  - intros tryRecover e c w id Hex Hne.
    destruct (step_cases tryRecover e c w) as [(w' & Hcall & Hw') | [_ Hw']];
      rewrite Hw' in *; [| done].
    apply call_sbt_effect in Hcall. unfold claim_status in *.
    destruct c; simpl in Hcall;
      try (rewrite Hcall in Hne; done);
      try (destruct Hcall as [o Hcall]; rewrite Hcall in Hne; done).
    + destruct Hcall as [Hm | (id' & bp & Heq)].
      * by rewrite (minted_status _ _ _ Hm Hex) in Hne.
      * rewrite Heq, status_set_claim in Hne. by case_decide; subst.
    + by rewrite (minted_status _ _ _ Hcall Hex) in Hne.
    + rewrite (status_written_status _ _ _ _ id Hcall) in Hne |- *.
      case_decide; [subst; eauto | done].
    + rewrite (status_written_status _ _ _ _ id Hcall) in Hne |- *.
      case_decide; [subst; eauto | done].
    + destruct Hcall as [Hact Hcall].
      rewrite (status_written_status _ _ _ _ id Hcall) in Hne |- *.
      case_decide; [subst; eauto | done].
    + rewrite (status_written_status _ _ _ _ id Hcall) in Hne |- *.
      case_decide; [subst; eauto 6 | done].
    + by rewrite (minted_status _ _ _ Hcall Hex) in Hne.
  - intros id st Hex. eexists _, _.
    unfold ClaimSBT.pause, ClaimSBT.unpause.
    rewrite onlyOwner_self, Hex. simpl.
    split; [reflexivity |]. split; [rewrite status_set_claim; by case_decide |].
    split; [reflexivity |]. rewrite status_set_claim; by case_decide.
  - intros id st Hex. unfold ClaimSBT.pause, ClaimSBT.unpause.
    by rewrite onlyOwner_self, Hex.
  - intros this sender now id sbt rnft sm Ho Hst Hr Hs.
    unfold StakeManager.stakeAndMintReward. rewrite Ho. simpl.
    rewrite N.eqb_refl. simpl.
    unfold StakeManager.isClaimStaked in Hst. rewrite Hst, Hr. simpl.
    apply ownerOf_Ok in Ho as (_ & _ & Hex).
    unfold ClaimSBT.getClaimData, ClaimSBT._exists. rewrite Hex. simpl.
    by destruct (ClaimSBT.status _).
Qed.

Lemma C4_status_changes_by_pause_and_unpause_only_witness :
  ClaimSBT._exists (claimSBT ScenarioSlashed.slashed) 0 = true
  /\ exists st1 st2,
       ClaimSBT.pause Scenario.admin 0 (claimSBT ScenarioSlashed.slashed)
       = Ok st1
       /\ ClaimSBT.status (ClaimSBT.claim st1 0) = ClaimSBT.Staked
       /\ ClaimSBT.unpause Scenario.admin 0 (claimSBT ScenarioSlashed.slashed)
          = Ok st2
       /\ ClaimSBT.status (ClaimSBT.claim st2 0) = ClaimSBT.Active.
Proof.
  split; [reflexivity |].
  exact (proj1 (proj2 C4_status_changes_by_pause_and_unpause_only)
           0 (claimSBT ScenarioSlashed.slashed) eq_refl).
Defined.

(* ===================================================================== *)
(** ** Payment proofs: single and batch verification *)
(* ===================================================================== *)

Section BatchVerify.

Variables (txHashes : list string) (senders recipients : list N)
          (amounts timestamps blockNumbers : list N).

Let bstep :=
  OracleAdapter.batchStep txHashes senders recipients amounts timestamps
    blockNumbers.

Let bproof :=
  batchProof txHashes senders recipients amounts timestamps blockNumbers.

Lemma proof_store_proof tx p st tx' :
  OracleAdapter.getXRPLPaymentProof (OracleAdapter.store_proof tx p st) tx'
  = if decide (tx = tx') then p else OracleAdapter.getXRPLPaymentProof st tx'.
Proof. unfold OracleAdapter.getXRPLPaymentProof; simpl. apply mget_insert. Qed.

Lemma bstep_proof st i tx :
  OracleAdapter.getXRPLPaymentProof (bstep st i) tx
  = if decide (nth i txHashes "" = tx
               /\ OracleAdapter.isXRPLPaymentVerified st tx = false)
    then bproof i
    else OracleAdapter.getXRPLPaymentProof st tx.
Proof.
  unfold bstep, OracleAdapter.batchStep.
  destruct (OracleAdapter.isXRPLPaymentVerified st (nth i txHashes ""))
    eqn:Hv; simpl.
  - case_decide as Hd; [| done]. destruct Hd as [<- Hd]. congruence.
  - rewrite proof_store_proof.
    case_decide as Hd1; case_decide as Hd2; try done.
    + exfalso. apply Hd2. by subst.
    + by destruct Hd2.
Qed.

(** An entry already verified is never written again. *)
Lemma batch_keeps_verified (idxs : list nat) st tx :
  OracleAdapter.isXRPLPaymentVerified st tx = true ->
  OracleAdapter.getXRPLPaymentProof (fold_left bstep idxs st) tx
  = OracleAdapter.getXRPLPaymentProof st tx.
Proof.
  revert st. induction idxs as [| i idxs IH]; intros st Hv; [done |].
  simpl. rewrite IH.
  - rewrite bstep_proof. case_decide as Hd; [| done].
    destruct Hd. congruence.
  - unfold OracleAdapter.isXRPLPaymentVerified. rewrite bstep_proof.
    case_decide as Hd; [by destruct Hd; congruence | done].
Qed.

(** A reference that is not in the list is not touched. *)
Lemma batch_skips_unlisted (idxs : list nat) st tx :
  (forall i, In i idxs -> nth i txHashes "" ≠ tx) ->
  OracleAdapter.getXRPLPaymentProof (fold_left bstep idxs st) tx
  = OracleAdapter.getXRPLPaymentProof st tx.
Proof.
  revert st. induction idxs as [| i idxs IH]; intros st Hn; [done |].
  simpl. rewrite IH by (intros; apply Hn; by right).
  rewrite bstep_proof. case_decide as Hd; [| done].
  destruct Hd as [Hd _]. by apply Hn in Hd; [| left].
Qed.

(** The first entry of an unverified reference is the one stored. *)
Lemma batch_stores_first (idxs1 idxs2 : list nat) i st :
  OracleAdapter.isXRPLPaymentVerified st (nth i txHashes "") = false ->
  (forall j, In j idxs1 -> nth j txHashes "" ≠ nth i txHashes "") ->
  OracleAdapter.getXRPLPaymentProof
    (fold_left bstep (idxs1 ++ i :: idxs2) st) (nth i txHashes "")
  = bproof i.
Proof.
  intros Hv Hn. rewrite fold_left_app. simpl.
  assert (Hmid : OracleAdapter.getXRPLPaymentProof
                   (bstep (fold_left bstep idxs1 st) i) (nth i txHashes "")
                 = bproof i).
  { rewrite bstep_proof. case_decide as Hd; [done |].
    exfalso. apply Hd. split; [done |].
    unfold OracleAdapter.isXRPLPaymentVerified.
    by rewrite batch_skips_unlisted. }
  rewrite batch_keeps_verified; [done |].
  unfold OracleAdapter.isXRPLPaymentVerified. by rewrite Hmid.
Qed.

(** Every entry of the list ends verified. *)
Lemma batch_verifies_listed (idxs : list nat) st i :
  In i idxs ->
  OracleAdapter.isXRPLPaymentVerified (fold_left bstep idxs st)
    (nth i txHashes "") = true.
Proof.
  revert st. induction idxs as [| k idxs IH]; intros st Hin; [done |].
  simpl. destruct (in_dec Nat.eq_dec i idxs) as [Hi | Hi]; [by apply IH |].
  destruct Hin as [-> | Hin]; [| done].
  assert (Hv : OracleAdapter.isXRPLPaymentVerified (bstep st i)
                 (nth i txHashes "") = true).
  { unfold OracleAdapter.isXRPLPaymentVerified. rewrite bstep_proof.
    case_decide as Hd; [done |].
    destruct (OracleAdapter.isXRPLPaymentVerified st (nth i txHashes ""))
      eqn:Hv; [done |]. exfalso. by apply Hd. }
  unfold OracleAdapter.isXRPLPaymentVerified in *.
  by rewrite batch_keeps_verified.
Qed.

End BatchVerify.

(** C8. [verifyXRPLPayment], called by the oracle's owner, fails with
    "Payment already verified" when a verified proof is stored for the
    reference, and otherwise returns true and stores exactly the submitted
    proof, verified, under that reference (every other reference keeps its
    proof).  [batchVerifyXRPLPayments], called by the owner on arrays of one
    length, never fails: a reference that was already verified keeps its
    stored proof, every listed reference ends verified (the first entry of a
    reference not yet verified is the one stored), and a reference that is
    not listed is not touched. *)
Theorem C8_verify_rejects_retry_batch_skips :
  (forall tx sndr rcpt amt ts blk st,
      (OracleAdapter.isXRPLPaymentVerified st tx = true ->
       OracleAdapter.verifyXRPLPayment (OracleAdapter.owner st) tx sndr rcpt
         amt ts blk st = Revert "Payment already verified")
      /\ (OracleAdapter.isXRPLPaymentVerified st tx = false ->
          exists st',
            OracleAdapter.verifyXRPLPayment (OracleAdapter.owner st) tx sndr
              rcpt amt ts blk st = Ok (true, st')
            /\ OracleAdapter.getXRPLPaymentProof st' tx
               = OracleAdapter.mkProof tx sndr rcpt amt ts blk true
            /\ OracleAdapter.isXRPLPaymentVerified st' tx = true
            /\ forall tx', tx' ≠ tx ->
                 OracleAdapter.getXRPLPaymentProof st' tx'
                 = OracleAdapter.getXRPLPaymentProof st tx'))
  /\ (forall txs sndrs rcpts amts tss blks st,
        length sndrs = length txs -> length rcpts = length txs ->
        length amts = length txs -> length tss = length txs ->
        length blks = length txs ->
        exists st',
          OracleAdapter.batchVerifyXRPLPayments (OracleAdapter.owner st) txs
            sndrs rcpts amts tss blks st = Ok st'
          /\ (forall tx,
                OracleAdapter.isXRPLPaymentVerified st tx = true ->
                OracleAdapter.getXRPLPaymentProof st' tx
                = OracleAdapter.getXRPLPaymentProof st tx)
          /\ (forall tx, In tx txs ->
                OracleAdapter.isXRPLPaymentVerified st' tx = true)
          /\ (forall i, (i < length txs)%nat ->
                OracleAdapter.isXRPLPaymentVerified st (nth i txs "") = false ->
                (forall j, (j < i)%nat -> nth j txs "" ≠ nth i txs "") ->
                OracleAdapter.getXRPLPaymentProof st' (nth i txs "")
                = batchProof txs sndrs rcpts amts tss blks i)
          /\ (forall tx, ~ In tx txs ->
                OracleAdapter.getXRPLPaymentProof st' tx
                = OracleAdapter.getXRPLPaymentProof st tx)).
Proof.
  split.
  - intros tx sndr rcpt amt ts blk st. unfold OracleAdapter.verifyXRPLPayment.
    rewrite onlyOwner_self. split; intros Hv; rewrite Hv; simpl; [done |].
    eexists. split; [reflexivity |].
    unfold OracleAdapter.isXRPLPaymentVerified.
    rewrite !proof_store_proof. case_decide; [| done].
    repeat split; try done.
    intros tx' Hne. rewrite proof_store_proof. by case_decide.
  - intros txs sndrs rcpts amts tss blks st Hs Hr Ha Ht Hb.
    eexists. split.
    { unfold OracleAdapter.batchVerifyXRPLPayments.
      rewrite onlyOwner_self, Hs, Hr, Ha, Ht, Hb, Nat.eqb_refl. reflexivity. }
    assert (Hsplit : forall i, (i < length txs)%nat ->
              seq 0 (length txs)
              = seq 0 i ++ i :: seq (S i) (length txs - S i)).
    { intros i Hi. replace (length txs) with (i + S (length txs - S i))%nat
        at 1 by lia.
      by rewrite seq_app. }
    assert (Hstore : forall i, (i < length txs)%nat ->
              OracleAdapter.isXRPLPaymentVerified st (nth i txs "") = false ->
              (forall j, (j < i)%nat -> nth j txs "" ≠ nth i txs "") ->
              OracleAdapter.getXRPLPaymentProof
                (fold_left
                   (OracleAdapter.batchStep txs sndrs rcpts amts tss blks)
                   (seq 0 (length txs)) st) (nth i txs "")
              = batchProof txs sndrs rcpts amts tss blks i).
    { intros i Hi Hv Hmin. rewrite (Hsplit i Hi).
      apply batch_stores_first; [done |].
      intros j Hj%in_seq. apply Hmin. lia. }
    split; [intros tx Hv; by apply batch_keeps_verified |].
    split; [| split; [exact Hstore |]].
    + intros tx Hin.
      destruct (In_nth _ _ "" Hin) as (i & Hi & <-).
      apply batch_verifies_listed, in_seq. lia.
    + intros tx Hnin. apply batch_skips_unlisted.
      intros i Hi%in_seq <-. apply Hnin, nth_In. lia.
Qed.

Lemma C8_verify_rejects_retry_batch_skips_witness :
  let st := OracleAdapter.store_proof "tx1"
              (OracleAdapter.mkProof "tx1" 1 2 25000 5 6 true)
              (OracleAdapter.deploy Scenario.admin) in
  OracleAdapter.isXRPLPaymentVerified st "tx1" = true
  /\ OracleAdapter.verifyXRPLPayment Scenario.admin "tx1" 7 8 9 10 11 st
     = Revert "Payment already verified"
  /\ exists st',
       OracleAdapter.batchVerifyXRPLPayments Scenario.admin
         ["tx1"; "tx2"; "tx2"] [7; 8; 9] [1; 1; 1] [10; 20; 30] [4; 5; 6]
         [1; 2; 3] st = Ok st'
       /\ OracleAdapter.getXRPLPaymentProof st' "tx1"
          = OracleAdapter.mkProof "tx1" 1 2 25000 5 6 true
       /\ OracleAdapter.getXRPLPaymentProof st' "tx2"
          = OracleAdapter.mkProof "tx2" 8 1 20 5 2 true.
Proof.
  intros st.
  assert (Hv : OracleAdapter.isXRPLPaymentVerified st "tx1" = true)
    by reflexivity.
  split; [exact Hv |]. split.
  - exact (proj1 (proj1 C8_verify_rejects_retry_batch_skips
                    "tx1" 7 8 9 10 11 st) Hv).
  - destruct (proj2 C8_verify_rejects_retry_batch_skips
                ["tx1"; "tx2"; "tx2"] [7; 8; 9] [1; 1; 1] [10; 20; 30]
                [4; 5; 6] [1; 2; 3] st eq_refl eq_refl eq_refl eq_refl
                eq_refl) as (st' & Hb & Hkeep & _ & Hfirst & _).
    exists st'. split; [exact Hb |]. split.
    + rewrite (Hkeep "tx1" Hv). reflexivity.
    + apply (Hfirst 1%nat); [simpl; lia | reflexivity |].
      intros j Hj. assert (j = 0%nat) as -> by lia. discriminate.
Defined.

(* ===================================================================== *)
(** ** Payment intake: shares and exactly-once processing *)
(* ===================================================================== *)

(** C9, as stated, fails: nothing bounds a payment by the funding target.
    With [totalFunding = 100], the verified payment "tx1" of 200 commits and
    mints claim 0 to [alice] with 20000 basis points. *)
Lemma C9_share_can_exceed_10000 :
  let w := run Scenario.noSigner
             [ Scenario.tx Scenario.admin
                 (Claim_transferOwnership Scenario.vaultAddress);
               Scenario.tx Scenario.admin
                 (Oracle_verifyXRPLPayment "tx1" 1 2 200 5 6);
               Scenario.tx Scenario.admin
                 (Vault_processPayment Scenario.alice 200 "tx1" 62) ]
             (Scenario.genesis 100) in
  claim_owner w 0 = Scenario.alice
  /\ ClaimSBT.claim (claimSBT w) 0
     = ClaimSBT.mkClaim 1 20000 ClaimSBT.Active 62 "tx1" 1000
  /\ ~ (ClaimSBT.basisPoints (ClaimSBT.claim (claimSBT w) 0) <= 10000).
Proof. vm_compute. split; [done |]. split; [done |]. intros H. by apply H. Qed.

(** C9 (amended). A payment that [processPayment] commits mints one claim,
    Active, owned by the investor, whose share is
    [floor(amount * 10000 / totalFunding)]; that share is at least 1, and it
    is at most 10000 when the amount does not exceed the funding target (the
    code enforces no such limit on the amount).  When every earlier check
    passes and that quotient is 0 the call fails with
    "Contribution too small".  The shares of a project's claims are not
    bounded together: payments of 60000, 60000 and 50000 towards a target of
    100000 mint shares [6000; 6000; 5000]. *)
Theorem C9_minted_share_is_positive_and_bounded_by_funding :
  (forall this sender now investor amt tx price st sbt oracle st' sbt' oracle',
      ProjectVault.processPayment this sender now investor amt tx price
        (st, sbt, oracle) = Ok (st', sbt', oracle') ->
      let p := ProjectVault.project st in
      let bp := amt * 10000 / ProjectVault.totalFunding p in
      let id := ClaimSBT._tokenIdCounter sbt in
      ClaimSBT._exists sbt id = false
      /\ ClaimSBT.ownerOf sbt' id = Ok investor
      /\ ClaimSBT.claim sbt' id
         = ClaimSBT.mkClaim (ProjectVault.projectId p) bp ClaimSBT.Active
             price tx now
      /\ 1 <= bp
      /\ (amt <= ProjectVault.totalFunding p -> bp <= 10000))
  /\ (forall this now investor amt tx price st sbt oracle,
        ProjectVault.isActive (ProjectVault.project st) = true ->
        ProjectVault.isPaymentProcessed st tx = false ->
        0 < amt ->
        OracleAdapter.isXRPLPaymentVerified oracle tx = true ->
        amt * 10000 <= MAX_UINT256 ->
        ProjectVault.totalFunding (ProjectVault.project st) ≠ 0 ->
        amt * 10000 / ProjectVault.totalFunding (ProjectVault.project st) = 0 ->
        ProjectVault.processPayment this (ProjectVault.owner st) now investor
          amt tx price (st, sbt, oracle) = Revert "Contribution too small")
  /\ ScenarioRevenue.shares
       (ScenarioRevenue.shared 100000 60000 60000 50000 0 1)
     = [6000; 6000; 5000].
Proof.
  split; [| split; [| by vm_compute]].
  - intros this sender now investor amt tx price st sbt oracle st' sbt' oracle'
      H p bp id.
    apply processPayment_Ok in H
      as (_ & _ & _ & _ & _ & Hf & Hbp & (id' & Hm) & _ & _).
    apply mintClaim_Ok in Hm as (e' & _ & _ & -> & Hm & ->).
    apply safeMint_Ok in Hm as (Hinv & Hfresh & Ho & _).
    fold p in Hf, Hbp. fold bp in Hbp. fold id in Hfresh, Ho.
    split; [done |]. split.
    { unfold ClaimSBT.ownerOf, ERC721.ownerOf, ERC721._ownerOf; simpl.
      rewrite Ho, mget_insert_eq.
      apply N.eqb_neq in Hinv. by rewrite Hinv. }
    split; [unfold ClaimSBT.claim; simpl; by rewrite mget_insert_eq |].
    split; [lia |].
    intros Hle. unfold bp. apply N.Div0.div_le_upper_bound. nia.
  - intros this now investor amt tx price st sbt oracle Hact Hnp Hamt Hv Hmax
      Hf Hz.
    unfold ProjectVault.processPayment.
    rewrite onlyOwner_self, Hact, Hnp, Hv. simpl.
    apply N.ltb_lt in Hamt. rewrite Hamt. simpl.
    unfold EVM.mul. apply N.leb_le in Hmax. rewrite Hmax. simpl.
    unfold EVM.div. apply N.eqb_neq in Hf. rewrite Hf. simpl.
    by rewrite Hz.
Qed.

Lemma C9_minted_share_is_positive_and_bounded_by_funding_witness :
  exists st' sbt' oracle',
    ProjectVault.processPayment Scenario.vaultAddress Scenario.admin 1000
      Scenario.alice 25000 "tx1" 62
      (vault ScenarioPayment.funded, claimSBT ScenarioPayment.funded,
       oracleAdapter ScenarioPayment.funded) = Ok (st', sbt', oracle')
    /\ ClaimSBT.ownerOf sbt' 0 = Ok Scenario.alice
    /\ ClaimSBT.claim sbt' 0
       = ClaimSBT.mkClaim 1 2500 ClaimSBT.Active 62 "tx1" 1000.
Proof.
  destruct (ProjectVault.processPayment Scenario.vaultAddress Scenario.admin
              1000 Scenario.alice 25000 "tx1" 62
              (vault ScenarioPayment.funded, claimSBT ScenarioPayment.funded,
               oracleAdapter ScenarioPayment.funded))
    as [[[st' sbt'] oracle'] | |] eqn:E; [| by vm_compute in E..].
  exists st', sbt', oracle'. split; [reflexivity |].
  destruct (proj1 C9_minted_share_is_positive_and_bounded_by_funding
              _ _ _ _ _ _ _ _ _ _ _ _ _ E) as (_ & Ho & Hc & _).
  split; [exact Ho | exact Hc].
Defined.

(** *** Exactly-once processing *)

Lemma distributeRevenue_Ok this sender st sbt tok st' tok' :
  ProjectVault.distributeRevenue this sender (st, sbt, tok) = Ok (st', tok') ->
  exists totalRevenue activeClaims totalActiveBasisPoints,
    sender = ProjectVault.owner st
    /\ ProjectVault.revenueEntries st ≠ []
    /\ ProjectVault.sumRevenue 0 (ProjectVault.revenueEntries st)
       = Ok totalRevenue
    /\ 0 < totalRevenue
    /\ ProjectVault.countActive sbt
         (ClaimSBT.getProjectClaims sbt
            (ProjectVault.projectId (ProjectVault.project st))) 0 0
       = Ok (activeClaims, totalActiveBasisPoints)
    /\ 0 < activeClaims
    /\ ProjectVault.payOut this sbt
         (ClaimSBT.getProjectClaims sbt
            (ProjectVault.projectId (ProjectVault.project st)))
         totalRevenue totalActiveBasisPoints tok = Ok tok'
    /\ st' = ProjectVault.mkState (ProjectVault.owner st)
               (ProjectVault.project st) (ProjectVault.milestones st) []
               (ProjectVault.userContributions st)
               (ProjectVault.processedPayments st)
               (ProjectVault.events st
                  ++ [ProjectVault.RevenueDistributed
                        (ProjectVault.projectId (ProjectVault.project st))
                        totalRevenue activeClaims]).
Proof.
  unfold ProjectVault.distributeRevenue. intros H. inv_ok H. ok_inv.
  apply N.ltb_lt in Hba, Hbbba, Hbbbbba.
  eexists _, _, _. repeat split; try done.
  intros E. rewrite E in Hba. simpl in Hba. lia.
Qed.

(** The vault's record of the project and of the processed references only
    changes in [processPayment]. *)
Lemma call_vault_frame tryRecover e c w w' :
  call tryRecover e c w = Ok w' ->
  (forall investor amt tx price, c ≠ Vault_processPayment investor amt tx price) ->
  ProjectVault.processedPayments (vault w')
  = ProjectVault.processedPayments (vault w)
  /\ ProjectVault.project (vault w') = ProjectVault.project (vault w).
Proof.
  intros H Hc. destruct c; call_inv H; simpl; try done.
  - by destruct x as [? [[? ?] ?]].
  - by destruct x as [[? ?] ?].
  - unfold ProjectVault.addMilestone in H. inv_ok H. by ok_inv.
  - by edestruct Hc.
  - unfold ProjectVault.unlockMilestone in H. inv_ok H. by ok_inv.
  - unfold ProjectVault.addRevenue in H. inv_ok H. by ok_inv.
  - destruct x as [v t]. injection H0 as <-. simpl.
    by apply distributeRevenue_Ok in H as (? & ? & ? & _ & _ & _ & _ & _ & _ & _ & ->).
  - unfold ProjectVault.transferOwnership in H. inv_ok H. by ok_inv.
Qed.

Lemma call_processPayment_Ok tryRecover e investor amt tx price w w' :
  call tryRecover e (Vault_processPayment investor amt tx price) w = Ok w' ->
  exists st' sbt',
    ProjectVault.processPayment (vaultAddr w) (msg_sender e)
      (block_timestamp e) investor amt tx price
      (vault w, claimSBT w, oracleAdapter w)
    = Ok (st', sbt', oracleAdapter w)
    /\ w' = with_claimSBT sbt' (with_vault st' w).
Proof.
  intros H. call_inv H. destruct x as [[v s] o]. injection H0 as <-.
  pose proof H as Hp.
  apply processPayment_Ok in Hp as (_ & _ & _ & _ & _ & _ & _ & _ & -> & _).
  by eexists _, _.
Qed.

Lemma payment_or_not (c : Call) :
  (exists investor amt tx price, c = Vault_processPayment investor amt tx price)
  \/ (forall investor amt tx price,
        c ≠ Vault_processPayment investor amt tx price).
Proof. destruct c; try (by right); left; by eexists _, _, _, _. Qed.



(** No call changes the project's [isActive] flag. *)
Lemma active_step tryRecover e c w :
  ProjectVault.isActive (ProjectVault.project (vault (step tryRecover e c w)))
  = ProjectVault.isActive (ProjectVault.project (vault w)).
Proof.
  destruct (step_cases tryRecover e c w) as [(w' & Hcall & ->) | [_ ->]];
    [| done].
  destruct (payment_or_not c) as [(investor & amt & tx & price & ->) | Hno].
  - apply call_processPayment_Ok in Hcall as (st' & sbt' & Hcall & ->).
    by apply processPayment_Ok in Hcall
      as (_ & _ & _ & _ & _ & _ & _ & _ & _ & ->).
  - apply call_vault_frame in Hcall as [_ Hpp]; [| done]. by rewrite Hpp.
Qed.

Lemma active_run tryRecover txs w :
  ProjectVault.isActive (ProjectVault.project (vault (run tryRecover txs w)))
  = ProjectVault.isActive (ProjectVault.project (vault w)).
Proof.
  revert w. induction txs as [| [e c] txs IH]; intros w; [done |].
  simpl. rewrite IH. apply active_step.
Qed.





(* ===================================================================== *)
(** ** Claims per payment reference *)
(* ===================================================================== *)










(* ===================================================================== *)
(** ** Revenue distribution *)
(* ===================================================================== *)

Lemma received_app h ts1 ts2 :
  received h (ts1 ++ ts2) = received h ts1 + received h ts2.
Proof.
  induction ts1 as [| t ts1 IH]; simpl; [done |]. rewrite IH. lia.
Qed.

Lemma sumRevenue_Ok acc entries total :
  ProjectVault.sumRevenue acc entries = Ok total ->
  total = acc + pendingTotal entries.
Proof.
  revert acc. induction entries as [| e entries IH]; intros acc H; simpl in *.
  - injection H as <-. lia.
  - inv_ok H. apply add_Ok in Ha as [-> _]. apply IH in Hb. lia.
Qed.

Lemma countActive_Ok sbt ids n t n' t' :
  ProjectVault.countActive sbt ids n t = Ok (n', t') ->
  n' = n + activeCount sbt ids /\ t' = t + activeShare sbt ids.
Proof.
  revert n t. induction ids as [| id ids IH]; intros n t H; simpl in *.
  - injection H as <- <-. lia.
  - inv_ok H. unfold ClaimSBT.getClaimData in Ha. inv_ok Ha. ok_inv.
    unfold claimActive. destruct (ClaimSBT.status_eqb _ _).
    + inv_ok Hb. apply add_Ok in Hba as [-> _]. apply add_Ok in Hbba as [-> _].
      apply IH in Hbbb. lia.
    + apply IH in Hb. lia.
Qed.

Lemma transfer_Ok from to amount st st' :
  ERC20.transfer from to amount st = Ok st' ->
  amount <= ERC20.balanceOf st from
  /\ ERC20.transfers st' = ERC20.transfers st ++ [(from, to, amount)]
  /\ forall h, h ≠ from ->
       ERC20.balanceOf st' h
       = ERC20.balanceOf st h + (if decide (to = h) then amount else 0).
Proof.
  unfold ERC20.transfer. intros H. inv_ok H. ok_inv.
  apply N.leb_le in Hbba. split; [done |]. split; [done |].
  intros h Hne. unfold ERC20.balanceOf; simpl.
  rewrite mget_insert. case_decide.
  - subst. by rewrite mget_insert_ne.
  - rewrite mget_insert_ne by done. lia.
Qed.

Lemma payOut_Ok this sbt ids total share tok tok' :
  ProjectVault.payOut this sbt ids total share tok = Ok tok' ->
  ERC20.transfers tok' = ERC20.transfers tok ++ payouts this sbt total share ids
  /\ (forall h, h ≠ this ->
        ERC20.balanceOf tok' h
        = ERC20.balanceOf tok h + received h (payouts this sbt total share ids))
  /\ (activeCount sbt ids ≠ 0 -> share ≠ 0).
Proof.
  revert tok. induction ids as [| id ids IH]; intros tok H; simpl in *.
  - injection H as <-. rewrite app_nil_r. split; [done |].
    split; [intros; lia | done].
  - inv_ok H. unfold ClaimSBT.getClaimData in Ha. inv_ok Ha. ok_inv.
    unfold payouts in *; simpl. fold (claimActive sbt id) in Hb.
    destruct (claimActive sbt id); simpl.
    + inv_ok Hb. apply mul_Ok in Hba as [-> _].
      apply div_Ok in Hbba as [-> Hshare].
      fold (payoutOf sbt total share id) in Hbbb.
      destruct (0 <? payoutOf sbt total share id); simpl.
      * inv_ok Hbbb. apply ownerOf_Ok in Hbbba as (-> & _ & _).
        apply transfer_Ok in Hbbbba as (_ & Ht & Hbal).
        apply IH in Hbbbbb as (Ht' & Hbal' & _).
        rewrite Ht', Ht, <- app_assoc. split; [done |]. split; [| done].
        intros h Hne. rewrite Hbal', Hbal by done. simpl. lia.
      * apply IH in Hbbb as (Ht' & Hbal' & _). by repeat split.
    + apply IH in Hb as (Ht' & Hbal' & Hs). by repeat split.
Qed.

Lemma distributeRevenue_spec this sender st sbt tok st' tok' :
  ProjectVault.distributeRevenue this sender (st, sbt, tok) = Ok (st', tok') ->
  let ids := ClaimSBT.getProjectClaims sbt
               (ProjectVault.projectId (ProjectVault.project st)) in
  let total := pendingTotal (ProjectVault.revenueEntries st) in
  let share := activeShare sbt ids in
  0 < total /\ share ≠ 0
  /\ ProjectVault.payOut this sbt ids total share tok = Ok tok'
  /\ st' = ProjectVault.mkState (ProjectVault.owner st)
             (ProjectVault.project st) (ProjectVault.milestones st) []
             (ProjectVault.userContributions st)
             (ProjectVault.processedPayments st)
             (ProjectVault.events st
                ++ [ProjectVault.RevenueDistributed
                      (ProjectVault.projectId (ProjectVault.project st))
                      total (activeCount sbt ids)]).
Proof.
  intros H ids total share.
  apply distributeRevenue_Ok in H
    as (t & n & s & _ & _ & Hsum & Ht & Hcount & Hn & Hpay & ->).
  apply sumRevenue_Ok in Hsum. apply countActive_Ok in Hcount as [-> ->].
  rewrite !N.add_0_l in *. subst t. fold ids total share in Hpay, Hn |- *.
  repeat split; try done.
  apply payOut_Ok in Hpay as (_ & _ & Hs). apply Hs. lia.
Qed.

(** C3. When a distribution commits, with [total] the sum of the pending
    entries and [share] the sum of the basis points of the project's Active
    claims, the token transfers it makes are exactly, claim by claim in the
    order of the project's claim list, one transfer of
    [floor(total * basisPoints / share)] from the vault to the owner of each
    Active claim for which that amount is positive; so every account other
    than the vault ends with its former balance plus the payouts of the
    Active claims it owns.  With shares [2000; 3000; 5000] and 1000 pending
    the three owners are paid [200; 300; 500]; with shares
    [3333; 3333; 3334] and 10 pending they are paid [3; 3; 3]. *)
Theorem C3_distribution_pays_pro_rata_floor :
  (forall this sender st sbt tok st' tok',
      ProjectVault.distributeRevenue this sender (st, sbt, tok)
      = Ok (st', tok') ->
      let ids := ClaimSBT.getProjectClaims sbt
                   (ProjectVault.projectId (ProjectVault.project st)) in
      let total := pendingTotal (ProjectVault.revenueEntries st) in
      let share := activeShare sbt ids in
      0 < total /\ share ≠ 0
      /\ ERC20.transfers tok'
         = ERC20.transfers tok ++ payouts this sbt total share ids
      /\ forall h, h ≠ this ->
           ERC20.balanceOf tok' h
           = ERC20.balanceOf tok h
             + received h (payouts this sbt total share ids))
  /\ (let w := ScenarioRevenue.shared 100000 20000 30000 50000 5000 1000 in
      ScenarioRevenue.shares w = [2000; 3000; 5000]
      /\ pendingTotal (ProjectVault.revenueEntries (vault w)) = 1000
      /\ ScenarioRevenue.balances w = [0; 0; 0]
      /\ is_ok (call Scenario.noSigner (mkEnv Scenario.admin 2000)
                  Vault_distributeRevenue w) = true
      /\ ScenarioRevenue.balances (ScenarioRevenue.distributed w)
         = [200; 300; 500])
  /\ (let w := ScenarioRevenue.shared 10000 3333 3333 3334 5000 10 in
      ScenarioRevenue.shares w = [3333; 3333; 3334]
      /\ pendingTotal (ProjectVault.revenueEntries (vault w)) = 10
      /\ ScenarioRevenue.balances w = [0; 0; 0]
      /\ is_ok (call Scenario.noSigner (mkEnv Scenario.admin 2000)
                  Vault_distributeRevenue w) = true
      /\ ScenarioRevenue.balances (ScenarioRevenue.distributed w)
         = [3; 3; 3]).
Proof.
  split; [| split; vm_compute; done].
  intros this sender st sbt tok st' tok' H ids total share.
  apply distributeRevenue_spec in H as (Ht & Hs & Hpay & _).
  fold ids total share in Hpay, Hs, Ht.
  apply payOut_Ok in Hpay as (Htr & Hbal & _). done.
Qed.

Lemma C3_distribution_pays_pro_rata_floor_witness :
  let w := ScenarioRevenue.shared 100000 20000 30000 50000 5000 1000 in
  exists st' tok',
    ProjectVault.distributeRevenue Scenario.vaultAddress Scenario.admin
      (vault w, claimSBT w, flareToken w) = Ok (st', tok')
    /\ ERC20.transfers tok'
       = ERC20.transfers (flareToken w)
         ++ [(Scenario.vaultAddress, Scenario.alice, 200);
             (Scenario.vaultAddress, Scenario.bob, 300);
             (Scenario.vaultAddress, Scenario.carol, 500)].
Proof.
  intros w.
  destruct (ProjectVault.distributeRevenue Scenario.vaultAddress
              Scenario.admin (vault w, claimSBT w, flareToken w))
    as [[st' tok'] | |] eqn:E; [| by vm_compute in E..].
  exists st', tok'. split; [reflexivity |].
  destruct (proj1 C3_distribution_pays_pro_rata_floor _ _ _ _ _ _ _ E)
    as (_ & _ & Htr & _).
  rewrite Htr. f_equal.
Defined.

(** *** The pending queue *)

Lemma call_pending tryRecover e c w w' :
  call tryRecover e c w = Ok w' ->
  pending w' = next_queue e c true (pending w).
Proof.
  intros H. unfold pending. destruct c; call_inv H; simpl; try done.
  - by destruct x as [? [[? ?] ?]].
  - by destruct x as [[? ?] ?].
  - unfold ProjectVault.addMilestone in H. inv_ok H. by ok_inv.
  - destruct x as [[v s] o]. injection H0 as <-. simpl.
    by apply processPayment_Ok in H
      as (_ & _ & _ & _ & _ & _ & _ & _ & _ & ->).
  - unfold ProjectVault.unlockMilestone in H. inv_ok H. by ok_inv.
  - unfold ProjectVault.addRevenue in H. inv_ok H. by ok_inv.
  - destruct x as [v t]. injection H0 as <-. simpl.
    by apply distributeRevenue_spec in H as (_ & _ & _ & ->).
  - unfold ProjectVault.transferOwnership in H. inv_ok H. by ok_inv.
Qed.

Lemma step_pending tryRecover e c w :
  pending (step tryRecover e c w)
  = next_queue e c (is_ok (call tryRecover e c w)) (pending w).
Proof.
  unfold step. destruct (call tryRecover e c w) as [w' | |] eqn:H; simpl.
  - by apply call_pending in H.
  - by destruct c.
  - by destruct c.
Qed.

Lemma run_pending tryRecover txs w :
  pending (run tryRecover txs w) = queue_after tryRecover txs w (pending w).
Proof.
  revert w. induction txs as [| [e c] txs IH]; intros w; [done |].
  simpl. by rewrite IH, step_pending.
Qed.

(** C5. A distribution that commits leaves the project's pending queue
    empty and records [RevenueDistributed] with the whole pending sum as the
    amount, whatever the flooring left undistributed; the vault keeps no
    other record of revenue.  Along any sequence of transactions the queue is
    exactly the entries added by the [addRevenue] calls committed since the
    last committed distribution, so the amount a later distribution pays
    from (C3) never includes an earlier remainder.  With shares
    [3333; 3333; 3334] a round of 10 pays [3; 3; 3] and leaves 1; after 10
    more are added the queue sums to 10, not 11, and the next round pays 3
    each again. *)
Theorem C5_distribution_drains_queue_and_drops_remainder :
  (forall this sender st sbt tok st' tok',
      ProjectVault.distributeRevenue this sender (st, sbt, tok)
      = Ok (st', tok') ->
      ProjectVault.revenueEntries st' = []
      /\ ProjectVault.events st'
         = ProjectVault.events st
           ++ [ProjectVault.RevenueDistributed
                 (ProjectVault.projectId (ProjectVault.project st))
                 (pendingTotal (ProjectVault.revenueEntries st))
                 (activeCount sbt
                    (ClaimSBT.getProjectClaims sbt
                       (ProjectVault.projectId (ProjectVault.project st))))]
      /\ ProjectVault.project st' = ProjectVault.project st
      /\ forall sbt2 tok2,
           ProjectVault.distributeRevenue this (ProjectVault.owner st')
             (st', sbt2, tok2) = Revert "No revenue to distribute")
  /\ (forall tryRecover txs w,
        pending (run tryRecover txs w)
        = queue_after tryRecover txs w (pending w))
  /\ (let w0 := ScenarioRevenue.shared 10000 3333 3333 3334 5000 10 in
      let w1 := ScenarioRevenue.distributed w0 in
      let w2 := ScenarioRemainder.second_round in
      let w3 := ScenarioRevenue.distributed w2 in
      ScenarioRevenue.balances w1 = [3; 3; 3]
      /\ pending w1 = []
      /\ ERC20.balanceOf (flareToken w1) Scenario.vaultAddress = 4991
      /\ pendingTotal (pending w2) = 10
      /\ ScenarioRevenue.balances w3 = [6; 6; 6]
      /\ pending w3 = []
      /\ ERC20.balanceOf (flareToken w3) Scenario.vaultAddress = 4982).
Proof.
  split; [| split; [exact run_pending | vm_compute; done]].
  intros this sender st sbt tok st' tok' H.
  apply distributeRevenue_spec in H as (_ & _ & _ & ->). simpl.
  repeat split.
  intros sbt2 tok2. unfold ProjectVault.distributeRevenue; simpl.
  by rewrite onlyOwner_self.
Qed.

Lemma C5_distribution_drains_queue_and_drops_remainder_witness :
  let w := ScenarioRevenue.shared 10000 3333 3333 3334 5000 10 in
  exists st' tok',
    ProjectVault.distributeRevenue Scenario.vaultAddress Scenario.admin
      (vault w, claimSBT w, flareToken w) = Ok (st', tok')
    /\ ProjectVault.revenueEntries st' = []
    /\ last (ProjectVault.events st')
       = Some (ProjectVault.RevenueDistributed 1 10 3).
Proof.
  intros w.
  destruct (ProjectVault.distributeRevenue Scenario.vaultAddress
              Scenario.admin (vault w, claimSBT w, flareToken w))
    as [[st' tok'] | |] eqn:E; [| by vm_compute in E..].
  exists st', tok'. split; [reflexivity |].
  destruct (proj1 C5_distribution_drains_queue_and_drops_remainder
              _ _ _ _ _ _ _ E) as (Hq & Hev & _).
  split; [exact Hq |]. rewrite Hev. reflexivity.
Defined.

(* ===================================================================== *)
(** ** Milestone unlocks and attestations *)
(* ===================================================================== *)

Lemma createMilestoneAttestation_Ok tryRecover now pid idx name desc proof
    sig st key st' :
  OracleAdapter.createMilestoneAttestation tryRecover now pid idx name desc
    proof sig st = Ok (key, st') ->
  exists signer,
    signer ≠ 0 /\ OracleAdapter.isAuthorized st signer = true
    /\ key = OracleAdapter.attestationKey pid idx proof now
    /\ st' = OracleAdapter.mkState (OracleAdapter.owner st)
               (OracleAdapter.authorizedVerifiers st)
               (<[key := OracleAdapter.mkAttestation pid idx name desc proof
                           now signer true]>
                  (OracleAdapter.milestoneAttestations st))
               (OracleAdapter.xrplPaymentProofs st).
Proof.
  unfold OracleAdapter.createMilestoneAttestation. intros H. inv_ok H. ok_inv.
  exists x. repeat split; try done.
  unfold OracleAdapter.recover in Ha.
  destruct (tryRecover _ _) as [a |]; [| done].
  destruct (N.eqb_spec a 0); [done |]. by injection Ha as <-.
Qed.

Lemma batch_attestations txs sndrs rcpts amts tss blks idxs st :
  OracleAdapter.milestoneAttestations
    (fold_left (OracleAdapter.batchStep txs sndrs rcpts amts tss blks) idxs st)
  = OracleAdapter.milestoneAttestations st.
Proof.
  revert st. induction idxs as [| i idxs IH]; intros st; [done |].
  simpl. rewrite IH. unfold OracleAdapter.batchStep. by case_match.
Qed.

(** Only [createMilestoneAttestation] writes the attestation table. *)
Lemma call_attestations tryRecover e c w w' :
  call tryRecover e c w = Ok w' ->
  (forall pid idx name desc proof sig,
      c ≠ Oracle_createMilestoneAttestation pid idx name desc proof sig) ->
  OracleAdapter.milestoneAttestations (oracleAdapter w')
  = OracleAdapter.milestoneAttestations (oracleAdapter w).
Proof.
  intros H Hc. destruct c; call_inv H; simpl; try done.
  all: try (by edestruct Hc).
  all: try (simple_inv H; done).
  - by destruct x as [? [[? ?] ?]].
  - by destruct x as [[? ?] ?].
  - unfold OracleAdapter.batchVerifyXRPLPayments in H. inv_ok H. ok_inv.
    simpl. apply batch_attestations.
  - by destruct x as [[v s] o]; injection H0 as <-.
  - by destruct x as [v t]; injection H0 as <-.
Qed.

Lemma create_or_not (c : Call) :
  (exists pid idx name desc proof sig,
      c = Oracle_createMilestoneAttestation pid idx name desc proof sig)
  \/ (forall pid idx name desc proof sig,
        c ≠ Oracle_createMilestoneAttestation pid idx name desc proof sig).
Proof. destruct c; try (by right); left; by eexists _, _, _, _, _, _. Qed.

(** An attestation verifies only if it did before or its key was returned
    by a committed [createMilestoneAttestation]. *)
Lemma attestation_ok_run tryRecover txs w key :
  attestation_ok (run tryRecover txs w) key = true ->
  attestation_ok w key = true \/ In key (keys_created tryRecover txs w).
Proof.
  revert w. induction txs as [| [e c] txs IH]; intros w H; [by left |].
  simpl in H.
  apply IH in H as [H | H]; [| right; simpl; apply in_app_iff; by right].
  destruct (step_cases tryRecover e c w) as [(w' & Hcall & Hw') | [_ Hw']];
    rewrite Hw' in H; clear Hw'; [| by left].
  destruct (create_or_not c)
    as [(pid & idx & name & desc & proof & sig & ->) | Hno].
  - simpl. call_inv Hcall.
    match goal with x : (bytes32 * OracleAdapter.State)%type |- _ =>
      destruct x as [k st'] end.
    rewrite Hcall. simpl in H.
    apply createMilestoneAttestation_Ok in Hcall
      as (signer & _ & _ & -> & ->).
    unfold attestation_ok, OracleAdapter.verifyMilestoneAttestation,
      OracleAdapter.getMilestoneAttestation in *; simpl in *.
    rewrite mget_insert in H. case_decide as Hk.
    + right. subst. by left.
    + by left.
  - left. unfold attestation_ok, OracleAdapter.verifyMilestoneAttestation,
      OracleAdapter.getMilestoneAttestation in *.
    by rewrite <- (call_attestations _ _ _ _ _ Hcall Hno).
Qed.

(** C6, on the code.  [unlockMilestone], called by the vault's owner on a
    Pending milestone, asks the oracle about the Keccak-256 digest of its
    string argument: it fails with "Invalid attestation" unless a verified
    attestation is stored under that digest, and then sets the milestone
    Unlocked and records the timestamp and the argument; on a milestone that
    is not Pending it fails with "Milestone already unlocked".  An
    attestation verifies only if its key was returned by a committed
    [createMilestoneAttestation].  But the key [createMilestoneAttestation]
    returns is itself a digest, so unlocking with the returned key fails:
    with carol's attestation stored under the returned key, the key in hex
    and the key as 32 raw bytes are both rejected with
    "Invalid attestation", while the packed bytes the key was computed from
    are accepted. *)
Theorem C6_unlock_rejects_the_returned_key :
  (forall now idx s st oracle,
      idx < N.of_nat (length (ProjectVault.milestones st)) ->
      ProjectVault.status (milestone st idx) = ProjectVault.Pending ->
      if OracleAdapter.verifyMilestoneAttestation oracle
           (keccak256 (bytes_of_string s))
      then exists st',
          ProjectVault.unlockMilestone (ProjectVault.owner st) now idx s
            (st, oracle) = Ok st'
          /\ milestone st' idx
             = ProjectVault.mkMilestone
                 (ProjectVault.name (milestone st idx))
                 (ProjectVault.mdescription (milestone st idx))
                 (ProjectVault.unlockAmount (milestone st idx))
                 ProjectVault.Unlocked now s
      else ProjectVault.unlockMilestone (ProjectVault.owner st) now idx s
             (st, oracle) = Revert "Invalid attestation")
  /\ (forall now idx s st oracle,
        idx < N.of_nat (length (ProjectVault.milestones st)) ->
        ProjectVault.status (milestone st idx) ≠ ProjectVault.Pending ->
        ProjectVault.unlockMilestone (ProjectVault.owner st) now idx s
          (st, oracle) = Revert "Milestone already unlocked")
  /\ (forall tryRecover txs w key,
        attestation_ok (run tryRecover txs w) key = true ->
        attestation_ok w key = true \/ In key (keys_created tryRecover txs w))
  /\ (let w := ScenarioMilestone.attested in
      let key := ScenarioMilestone.returnedKey in
      let unlock s :=
        call Scenario.carolSigns (mkEnv Scenario.admin 2000)
          (Vault_unlockMilestone 0 s) w in
      keys_created Scenario.carolSigns
        [ Scenario.tx Scenario.admin
            (Oracle_setVerifierAuthorization Scenario.carol true);
          Scenario.tx Scenario.carol
            (Oracle_createMilestoneAttestation 1 0 "Script"
               "Script delivered" "QmProof" [1; 2; 3]) ]
        (Scenario.genesis 100000) = [key]
      /\ attestation_ok w key = true
      /\ ProjectVault.status (milestone (vault w) 0) = ProjectVault.Pending
      /\ unlock (ScenarioMilestone.hex_of_bytes32 key)
         = Revert "Invalid attestation"
      /\ unlock (ScenarioMilestone.string_of_bytes (be_bytes 32 key))
         = Revert "Invalid attestation"
      /\ is_ok (unlock ScenarioMilestone.keyPreimage) = true).
Proof.
  split; [| split; [| split; [exact attestation_ok_run | vm_compute; done]]].
  - intros now idx s st oracle Hidx Hst.
    unfold ProjectVault.unlockMilestone. rewrite onlyOwner_self.
    apply N.ltb_lt in Hidx as Hidx'. rewrite Hidx'. simpl.
    fold (milestone st idx). rewrite Hst. simpl.
    destruct (OracleAdapter.verifyMilestoneAttestation _ _); simpl; [| done].
    eexists. split; [reflexivity |].
    unfold milestone at 1; simpl.
    apply nth_lookup_Some with (d := ProjectVault.mkMilestone "" "" 0
                                       ProjectVault.Pending 0 "").
    apply list_lookup_insert_eq. lia.
  - intros now idx s st oracle Hidx Hst.
    unfold ProjectVault.unlockMilestone. rewrite onlyOwner_self.
    apply N.ltb_lt in Hidx. rewrite Hidx. simpl.
    fold (milestone st idx). by destruct (ProjectVault.status _).
Qed.

Lemma C6_unlock_rejects_the_returned_key_witness :
  0 < N.of_nat (length (ProjectVault.milestones
                          (vault ScenarioMilestone.attested)))
  /\ ProjectVault.status (milestone (vault ScenarioMilestone.attested) 0)
     = ProjectVault.Pending
  /\ exists st',
       ProjectVault.unlockMilestone Scenario.admin 2000 0
         ScenarioMilestone.keyPreimage
         (vault ScenarioMilestone.attested,
          oracleAdapter ScenarioMilestone.attested) = Ok st'
       /\ milestone st' 0
          = ProjectVault.mkMilestone "Script" "Script delivered" 1000
              ProjectVault.Unlocked 2000 ScenarioMilestone.keyPreimage.
Proof.
  assert (Hi : 0 < N.of_nat (length (ProjectVault.milestones
                                       (vault ScenarioMilestone.attested))))
    by (vm_compute; reflexivity).
  assert (Hs : ProjectVault.status
                 (milestone (vault ScenarioMilestone.attested) 0)
               = ProjectVault.Pending) by (vm_compute; reflexivity).
  split; [exact Hi |]. split; [exact Hs |].
  pose proof (proj1 C6_unlock_rejects_the_returned_key 2000 0
                ScenarioMilestone.keyPreimage
                (vault ScenarioMilestone.attested)
                (oracleAdapter ScenarioMilestone.attested) Hi Hs) as H.
  assert (Hv : OracleAdapter.verifyMilestoneAttestation
                 (oracleAdapter ScenarioMilestone.attested)
                 (keccak256 (bytes_of_string ScenarioMilestone.keyPreimage))
               = true) by (vm_compute; reflexivity).
  rewrite Hv in H. exact H.
Defined.

(* ===================================================================== *)
(** ** Pairing of staked claims and active rewards *)
(* ===================================================================== *)

Lemma safeMint_exists hook to tokenId st st' id :
  ERC721._safeMint hook to tokenId st = Ok st' ->
  ERC721._exists st tokenId = false
  /\ ERC721._exists st' id
     = if decide (tokenId = id) then true else ERC721._exists st id.
Proof.
  intros (Hto & Hfresh & Ho & _)%safeMint_Ok. split; [done |].
  unfold ERC721._exists, ERC721._ownerOf in *. rewrite Ho, mget_insert.
  case_decide; [| done]. apply negb_true_iff. by apply N.eqb_neq.
Qed.

Lemma burn_exists hook tokenId st st' id :
  ERC721._burn hook tokenId st = Ok st' ->
  ERC721._exists st' id
  = if decide (tokenId = id) then false else ERC721._exists st id.
Proof.
  intros (_ & Ho)%burn_Ok.
  unfold ERC721._exists, ERC721._ownerOf in *. rewrite Ho.
  case_decide; [subst; by rewrite mget_delete_eq |].
  by rewrite mget_delete_ne.
Qed.

Lemma paired_minted sbt sbt' rnft :
  minted sbt sbt' -> paired sbt rnft -> paired sbt' rnft.
Proof.
  intros (to & c0 & pid & e' & Hm & Hact & ->) [Hse Hae Hiff Hu].
  assert (Hst : forall c,
            status_of
              (ClaimSBT.mkState (ClaimSBT.owner sbt) e'
                 (ClaimSBT._tokenIdCounter sbt + 1)
                 (<[ClaimSBT._tokenIdCounter sbt := c0]> (ClaimSBT.claims sbt))
                 (<[to := ClaimSBT.getUserClaims sbt to
                          ++ [ClaimSBT._tokenIdCounter sbt]]>
                    (ClaimSBT.userClaims sbt))
                 (<[pid := ClaimSBT.getProjectClaims sbt pid
                           ++ [ClaimSBT._tokenIdCounter sbt]]>
                    (ClaimSBT.projectClaims sbt))) c
            = if decide (ClaimSBT._tokenIdCounter sbt = c)
              then ClaimSBT.Active else status_of sbt c).
  { intros c. unfold status_of, ClaimSBT.claim; simpl. rewrite mget_insert.
    by case_decide. }
  assert (Hfresh : status_of sbt (ClaimSBT._tokenIdCounter sbt)
                   ≠ ClaimSBT.Staked).
  { intros Hs%Hse. apply (safeMint_exists _ _ _ _ _ 0) in Hm as [Hf _].
    unfold ClaimSBT._exists in Hs. congruence. }
  split; try done.
  - intros c. rewrite Hst. unfold ClaimSBT._exists; simpl.
    destruct (safeMint_exists _ _ _ _ _ c Hm) as [_ ->].
    case_decide; [done | apply Hse].
  - intros c. rewrite Hst. case_decide; [| apply Hiff]. subst.
    split; [done |]. by intros Hr%Hiff.
Qed.

Lemma paired_topped_up sbt sbt' rnft :
  topped_up sbt sbt' -> paired sbt rnft -> paired sbt' rnft.
Proof.
  intros (id & bp & ->) [Hse Hae Hiff Hu].
  assert (Hst : forall c,
            status_of
              (ClaimSBT.set_claim id
                 (ClaimSBT.set_basisPoints bp (ClaimSBT.claim sbt id)) sbt) c
            = status_of sbt c).
  { intros c. unfold status_of. rewrite status_set_claim.
    case_decide; by subst. }
  split; try done.
  - intros c. rewrite Hst. apply Hse.
  - intros c. rewrite Hst. apply Hiff.
Qed.

(** A change of the reward token's ERC-721 data that keeps every existing
    token existing does not disturb the pairing. *)
Lemma paired_reward_frame sbt rnft rnft' :
  RewardNFT.rewards rnft' = RewardNFT.rewards rnft ->
  (forall r, RewardNFT._exists rnft r = true ->
             RewardNFT._exists rnft' r = true) ->
  paired sbt rnft -> paired sbt rnft'.
Proof.
  intros Hr Hex [Hse Hae Hiff Hu].
  assert (Hrw : forall r, RewardNFT.reward rnft' r = RewardNFT.reward rnft r)
    by (intros r; unfold RewardNFT.reward; by rewrite Hr).
  assert (Haf : forall r c, active_for rnft' r c <-> active_for rnft r c)
    by (intros r c; unfold active_for; by rewrite Hrw).
  split; try done.
  - intros r. rewrite Hrw. intros H. by apply Hex, Hae.
  - intros c. rewrite Hiff. by setoid_rewrite Haf.
  - intros c r r'. rewrite !Haf. apply Hu.
Qed.

Lemma paired_stake this sender now id sbt rnft sm rid sbt' rnft' sm' :
  StakeManager.stakeAndMintReward this sender now id (sbt, rnft, sm)
  = Ok (rid, (sbt', rnft', sm')) ->
  paired sbt rnft -> paired sbt' rnft'.
Proof.
  intros (_ & _ & _ & Hact & Hp & Hm & _)%stake_Ok [Hse Hae Hiff Hu].
  apply pause_Ok in Hp as (_ & Hex & ->).
  apply mintReward_Ok in Hm as (e' & _ & _ & -> & Hm & ->).
  set (rid := RewardNFT._tokenIdCounter rnft) in *.
  assert (Hst : forall c,
            status_of (ClaimSBT.set_claim id
                         (ClaimSBT.set_status ClaimSBT.Staked
                            (ClaimSBT.claim sbt id)) sbt) c
            = if decide (id = c) then ClaimSBT.Staked else status_of sbt c).
  { intros c. unfold status_of. rewrite status_set_claim. by case_decide. }
  assert (Hfresh : RewardNFT.isActive (RewardNFT.reward rnft rid) = false).
  { destruct (RewardNFT.isActive _) eqn:E; [| done].
    apply Hae in E. apply (safeMint_exists _ _ _ _ _ 0) in Hm as [Hf _].
    unfold RewardNFT._exists in E. congruence. }
  set (rnft' := RewardNFT.mkState _ _ _ _ _).
  assert (Hrw : forall r,
            RewardNFT.reward rnft' r
            = if decide (rid = r)
              then RewardNFT.mkReward id
                     (ClaimSBT.projectId (ClaimSBT.claim sbt id))
                     (ClaimSBT.basisPoints (ClaimSBT.claim sbt id)) now true
              else RewardNFT.reward rnft r).
  { intros r. unfold RewardNFT.reward; simpl. apply mget_insert. }
  assert (Haf : forall r c,
            active_for rnft' r c
            <-> (r = rid /\ c = id) \/ (r ≠ rid /\ active_for rnft r c)).
  { intros r c. unfold active_for. rewrite Hrw. case_decide; simpl.
    - subst. split; [intros [_ <-]; by left |].
      intros [[_ ->] | [? _]]; done.
    - split; [intros; right; split; [congruence | done] |].
      intros [[-> _] | [_ ?]]; done. }
  assert (Hnone : forall r, ~ active_for rnft r id).
  { intros r Hr. assert (status_of sbt id = ClaimSBT.Staked)
      by (apply Hiff; eauto). unfold status_of in *. congruence. }
  split.
  - intros c. rewrite Hst. unfold ClaimSBT._exists in *; simpl.
    case_decide; [by subst | apply Hse].
  - intros r. rewrite Hrw. unfold RewardNFT._exists; simpl.
    destruct (safeMint_exists _ _ _ _ _ r Hm) as [_ ->].
    case_decide; [done | apply Hae].
  - intros c. rewrite Hst. setoid_rewrite Haf. case_decide.
    + subst. split; [intros _; exists rid; by left | done].
    + rewrite Hiff. split.
      * intros [r Hr]. exists r. right. split; [| done].
        intros ->. destruct Hr as [Hr _]. congruence.
      * intros [r [[_ ->] | [_ Hr]]]; [done | eauto].
  - intros c r r'. rewrite !Haf. intros H1 H2.
    destruct H1 as [[E1 E1'] | [N1 A1]], H2 as [[E2 E2'] | [N2 A2]].
    + congruence.
    + subst. by apply Hnone in A2.
    + subst. by apply Hnone in A1.
    + by eapply Hu.
Qed.

Lemma paired_burn this sender r sbt rnft sm sbt' rnft' sm' :
  StakeManager.burnReward this sender r (sbt, rnft, sm)
  = Ok (sbt', rnft', sm') ->
  paired sbt rnft -> paired sbt' rnft'.
Proof.
  intros (_ & _ & Hb & Hu')%sm_burnReward_Ok [Hse Hae Hiff Hu].
  apply burnReward_Ok in Hb as (e' & _ & _ & Hact & Hb & ->).
  apply unpause_Ok in Hu' as (_ & Hex & ->).
  unfold RewardNFT.claimOf in *.
  set (cid := RewardNFT.claimTokenId (RewardNFT.reward rnft r)) in *.
  assert (Hst : forall c,
            status_of (ClaimSBT.set_claim cid
                         (ClaimSBT.set_status ClaimSBT.Active
                            (ClaimSBT.claim sbt cid)) sbt) c
            = if decide (cid = c) then ClaimSBT.Active else status_of sbt c).
  { intros c. unfold status_of. rewrite status_set_claim. by case_decide. }
  set (rnft' := RewardNFT.mkState _ _ _ _ _).
  assert (Haf : forall r' c,
            active_for rnft' r' c <-> r' ≠ r /\ active_for rnft r' c).
  { intros r' c. unfold active_for, RewardNFT.reward; simpl.
    rewrite mget_insert. case_decide; simpl.
    - subst. split; [by intros [? _] | by intros [? _]].
    - split; [intros; split; [congruence | done] | by intros [_ ?]]. }
  assert (Hr : active_for rnft r cid) by done.
  split.
  - intros c. rewrite Hst. unfold ClaimSBT._exists in *; simpl.
    case_decide; [done | apply Hse].
  - intros r'. unfold RewardNFT.reward, RewardNFT._exists; simpl.
    rewrite mget_insert, (burn_exists _ _ _ _ r' Hb).
    case_decide; [done | apply Hae].
  - intros c. rewrite Hst. setoid_rewrite Haf. case_decide.
    + subst. split; [done |]. intros (r' & Hne & Hr').
      destruct Hne. by eapply Hu.
    + rewrite Hiff. split.
      * intros [r' Hr']. exists r'. split; [| done].
        intros ->. destruct Hr' as [_ Hr']. by destruct Hr as [_ <-].
      * intros (r' & _ & Hr'). eauto.
  - intros c r1 r2. rewrite !Haf. intros [_ H1] [_ H2]. by eapply Hu.
Qed.

Lemma erc721_transferFrom_Ok hook sender from to tokenId st st' :
  ERC721.transferFrom hook sender from to tokenId st = Ok st' ->
  forall id, ERC721._exists st id = true -> ERC721._exists st' id = true.
Proof.
  unfold ERC721.transferFrom. intros H. inv_ok H. ok_inv.
  apply negb_true_iff, N.eqb_neq in Hbbbba.
  intros id Hex. unfold ERC721._exists, ERC721._ownerOf in *; simpl.
  rewrite mget_insert. case_decide; [| done].
  apply negb_true_iff. by apply N.eqb_neq.
Qed.

Lemma erc721_approve_Ok sender to tokenId st st' :
  ERC721.approve sender to tokenId st = Ok st' ->
  ERC721._owners st' = ERC721._owners st.
Proof. unfold ERC721.approve. intros H. inv_ok H. by ok_inv. Qed.

Lemma erc721_setApprovalForAll_Ok sender operator approved st st' :
  ERC721.setApprovalForAll sender operator approved st = Ok st' ->
  ERC721._owners st' = ERC721._owners st.
Proof. unfold ERC721.setApprovalForAll. intros H. inv_ok H. by ok_inv. Qed.

Lemma paired_claim_frame sbt sbt' rnft :
  ClaimSBT.claims sbt' = ClaimSBT.claims sbt ->
  ClaimSBT.erc721 sbt' = ClaimSBT.erc721 sbt ->
  paired sbt rnft -> paired sbt' rnft.
Proof.
  intros Hc He [Hse Hae Hiff Hu].
  assert (Hst : forall c, status_of sbt' c = status_of sbt c)
    by (intros c; unfold status_of, ClaimSBT.claim; by rewrite Hc).
  split; try done.
  - intros c. rewrite Hst. unfold ClaimSBT._exists. rewrite He. apply Hse.
  - intros c. rewrite Hst. apply Hiff.
Qed.

Lemma call_paired tryRecover e c w w' :
  call tryRecover e c w = Ok w' ->
  ~ bypasses_stake_manager c ->
  world_paired w -> world_paired w'.
Proof.
  unfold world_paired. intros H Hc Hp.
  destruct c; try (by destruct Hc); call_inv H; simpl; try done.
  all: try discriminate H.
  - apply mintOrTopUp_change in H as [H | H];
      [by eapply paired_minted | by eapply paired_topped_up].
  - apply mintClaim_change in H. by eapply paired_minted.
  - simple_inv H. by apply (paired_claim_frame (claimSBT w)).
  - simple_inv H. by apply (paired_claim_frame (claimSBT w)).
  - unfold RewardNFT.transferFrom in H. inv_ok H. ok_inv.
    apply (paired_reward_frame _ (rewardNFT w)); [done | | done].
    by eapply erc721_transferFrom_Ok.
  - unfold RewardNFT.approve in H. inv_ok H. ok_inv.
    apply (paired_reward_frame _ (rewardNFT w)); [done | | done].
    match goal with
    | Hx : ERC721.approve _ _ _ _ = Ok _ |- _ =>
        apply erc721_approve_Ok in Hx as Ho
    end.
    intros r. unfold RewardNFT._exists, ERC721._exists, ERC721._ownerOf.
    simpl. by rewrite Ho.
  - unfold RewardNFT.setApprovalForAll in H. inv_ok H. ok_inv.
    apply (paired_reward_frame _ (rewardNFT w)); [done | | done].
    match goal with
    | Hx : ERC721.setApprovalForAll _ _ _ _ = Ok _ |- _ =>
        apply erc721_setApprovalForAll_Ok in Hx as Ho
    end.
    intros r. unfold RewardNFT._exists, ERC721._exists, ERC721._ownerOf.
    simpl. by rewrite Ho.
  - simple_inv H. by apply (paired_reward_frame _ (rewardNFT w)).
  - simple_inv H. by apply (paired_reward_frame _ (rewardNFT w)).
  - destruct x as [rid [[sbt' rnft'] sm']]. simpl. by eapply paired_stake.
  - destruct x as [[sbt' rnft'] sm']. simpl. by eapply paired_burn.
  - destruct x as [[v s] o]. injection H0 as <-. simpl.
    apply processPayment_Ok in H as (_ & _ & _ & _ & _ & _ & _ & Hm & _).
    destruct Hm as [id Hm]. apply mintClaim_change in Hm.
    by eapply paired_minted.
  - destruct x as [v t]. by injection H0 as <-.
Qed.

Lemma call_wired tryRecover e c w w' :
  call tryRecover e c w = Ok w' ->
  msg_sender e ≠ stakeManagerAddr w ->
  wired w ->
  wired w' /\ ~ bypasses_stake_manager c
  /\ stakeManagerAddr w' = stakeManagerAddr w.
Proof.
  unfold wired. intros H Hs [Hc Hr].
  destruct c; call_inv H; simpl; try tauto.
  all: try discriminate H.
  all: repeat match goal with p : (_ * _)%type |- _ => destruct p end.
  all: simpl.
  all: lazymatch type of H with
       | ClaimSBT.mintOrTopUp _ _ _ _ _ = _ =>
           apply mintOrTopUp_change in H; simpl in H;
           destruct H as [(? & ? & ? & ? & _ & _ & ->) | (? & ? & ->)];
           simpl; tauto
       | ClaimSBT.mintClaim _ _ _ _ _ _ _ _ = _ =>
           apply mintClaim_change in H; simpl in H;
           destruct H as (? & ? & ? & ? & _ & _ & ->); simpl; tauto
       | ClaimSBT.pause _ _ _ = _ =>
           apply pause_Ok in H as (Ho & _); congruence
       | ClaimSBT.unpause _ _ _ = _ =>
           apply unpause_Ok in H as (Ho & _); congruence
       | RewardNFT.mintReward _ _ _ _ _ _ _ = _ =>
           apply mintReward_Ok in H as (? & Ho & _); congruence
       | RewardNFT.burnReward _ _ _ = _ =>
           apply burnReward_Ok in H as (? & Ho & _); congruence
       | RewardNFT.transferFrom _ _ _ _ _ = _ =>
           unfold RewardNFT.transferFrom in H; inv_ok H; ok_inv; simpl; tauto
       | RewardNFT.approve _ _ _ _ = _ =>
           unfold RewardNFT.approve in H; inv_ok H; ok_inv; simpl; tauto
       | RewardNFT.setApprovalForAll _ _ _ _ = _ =>
           unfold RewardNFT.setApprovalForAll in H; inv_ok H; ok_inv; simpl;
           tauto
       | StakeManager.stakeAndMintReward _ _ _ _ _ = _ =>
           apply stake_Ok in H as (_ & _ & _ & _ & Hp & Hm & _);
           apply pause_Ok in Hp as (_ & _ & ->);
           apply mintReward_Ok in Hm as (? & _ & _ & _ & _ & ->);
           simpl; tauto
       | StakeManager.burnReward _ _ _ _ = _ =>
           apply sm_burnReward_Ok in H as (_ & _ & Hb & Hu);
           apply unpause_Ok in Hu as (_ & _ & ->);
           apply burnReward_Ok in Hb as (? & _ & _ & _ & _ & ->);
           simpl; tauto
       | ProjectVault.processPayment _ _ _ _ _ _ _ _ = _ =>
           match goal with H0 : Ok _ = Ok _ |- _ => injection H0 as <- end;
           apply processPayment_Ok in H
             as (_ & _ & _ & _ & _ & _ & _ & [id Hm] & _);
           apply mintClaim_change in Hm; simpl in Hm;
           destruct Hm as (? & ? & ? & ? & _ & _ & ->); simpl; tauto
       | ProjectVault.distributeRevenue _ _ _ = _ =>
           match goal with H0 : Ok _ = Ok _ |- _ => injection H0 as <- end;
           simpl; tauto
       | _ => simple_inv H; simpl; first [congruence | tauto]
       end.
Qed.

Lemma run_paired tryRecover txs w :
  world_paired w ->
  Forall (fun tx => ~ bypasses_stake_manager (snd tx)) txs ->
  world_paired (run tryRecover txs w).
Proof.
  revert w. induction txs as [| [e c] txs IH]; intros w Hp Hall; [done |].
  apply Forall_cons in Hall as [Hc Hall]. simpl. apply IH; [| done].
  destruct (step_cases tryRecover e c w) as [(w' & Hcall & ->) | [_ ->]];
    [| done].
  by eapply call_paired.
Qed.

Lemma run_wired_paired tryRecover txs w :
  world_paired w -> wired w ->
  Forall (fun tx => msg_sender (fst tx) ≠ stakeManagerAddr w) txs ->
  world_paired (run tryRecover txs w) /\ wired (run tryRecover txs w).
Proof.
  revert w. induction txs as [| [e c] txs IH]; intros w Hp Hw Hall; [done |].
  apply Forall_cons in Hall as [Hs Hall]. simpl in *.
  destruct (step_cases tryRecover e c w) as [(w' & Hcall & ->) | [_ ->]];
    [| by apply IH].
  destruct (call_wired _ _ _ _ _ Hcall Hs Hw) as (Hw' & Hc & Ha).
  apply IH; [by eapply call_paired | done |]. by rewrite Ha.
Qed.

Lemma genesis_paired funding : world_paired (Scenario.genesis funding).
Proof.
  assert (Hst : forall c,
            status_of (claimSBT (Scenario.genesis funding)) c
            = ClaimSBT.Active)
    by (intros c; unfold status_of, ClaimSBT.claim; simpl;
        by rewrite mget_empty).
  assert (Hr : forall r,
            RewardNFT.isActive
              (RewardNFT.reward (rewardNFT (Scenario.genesis funding)) r)
            = false)
    by (intros r; unfold RewardNFT.reward; simpl; by rewrite mget_empty).
  split.
  - intros c. by rewrite Hst.
  - intros r. by rewrite Hr.
  - intros c. rewrite Hst. split; [done |].
    intros (r & Ha & _). by rewrite Hr in Ha.
  - intros c r r' [Ha _]. by rewrite Hr in Ha.
Qed.

(** C2, as stated, fails: the registry's [pause] is a status update of its
    own, callable by the registry owner and not tied to any reward.  After
    [admin] mints claim 0 and pauses it, the claim exists and is Staked while
    no reward is active for it. *)
Lemma C2_direct_pause_breaks_pairing :
  ClaimSBT._exists (claimSBT ScenarioStake.paused_directly) 0 = true
  /\ claim_status ScenarioStake.paused_directly 0 = ClaimSBT.Staked
  /\ ~ exists r, active_for (rewardNFT ScenarioStake.paused_directly) r 0.
Proof.
  split; [reflexivity |]. split; [reflexivity |].
  intros (r & Ha & _). unfold RewardNFT.reward in Ha.
  change (RewardNFT.rewards (rewardNFT ScenarioStake.paused_directly))
    with (∅ : gmap N RewardNFT.RewardData) in Ha.
  by rewrite mget_empty in Ha.
Qed.

(** C2 (amended). Wherever the pairing invariant holds, as it does on
    deployment, a claim is Staked if and only if exactly one active reward
    was minted from it.  The invariant is kept by every sequence of
    transactions in which the registry's [pause] and [unpause] and the reward
    contract's [mintReward] and [burnReward] run only inside
    [stakeAndMintReward] and [burnReward] of the stake manager; in particular
    by every sequence of transactions of external accounts once the stake
    manager owns the registry and the reward contract, which it then owns
    for good. *)
Theorem C2_staked_iff_one_active_reward_via_stake_manager :
  (forall w, world_paired w ->
     forall c, claim_status w c = ClaimSBT.Staked
               <-> exists! r, active_for (rewardNFT w) r c)
  /\ (forall funding, world_paired (Scenario.genesis funding))
  /\ (forall tryRecover txs w,
        world_paired w ->
        Forall (fun tx => ~ bypasses_stake_manager (snd tx)) txs ->
        world_paired (run tryRecover txs w))
  /\ (forall tryRecover txs w,
        world_paired w -> wired w ->
        Forall (fun tx => msg_sender (fst tx) ≠ stakeManagerAddr w) txs ->
        world_paired (run tryRecover txs w) /\ wired (run tryRecover txs w)).
Proof.
  split; [| split; [exact genesis_paired |
            split; [exact run_paired | exact run_wired_paired]]].
  intros w [Hse Hae Hiff Hu] c. unfold claim_status.
  fold (status_of (claimSBT w) c). rewrite Hiff. split.
  - intros [r Hr]. exists r. split; [done |]. intros r' Hr'. by eapply Hu.
  - intros (r & Hr & _). eauto.
Qed.

Lemma C2_staked_iff_one_active_reward_via_stake_manager_witness :
  world_paired ScenarioStake.handed_over
  /\ wired ScenarioStake.handed_over
  /\ claim_status ScenarioStake.staked 1 = ClaimSBT.Staked
  /\ (exists! r, active_for (rewardNFT ScenarioStake.staked) r 1)
  /\ claim_status ScenarioStake.unstaked 1 = ClaimSBT.Active
  /\ ~ (exists! r, active_for (rewardNFT ScenarioStake.unstaked) r 1).
Proof.
  pose proof C2_staked_iff_one_active_reward_via_stake_manager
    as (Hiff & Hgen & Hrun & Hwired).
  assert (Hp : world_paired ScenarioStake.handed_over).
  { apply Hrun; [apply Hgen |]. repeat constructor; by intros []. }
  assert (Hw : wired ScenarioStake.handed_over)
    by (split; vm_compute; reflexivity).
  assert (Hext : forall a b,
            Forall (fun tx : Env * Call =>
                      msg_sender (fst tx)
                      ≠ stakeManagerAddr ScenarioStake.handed_over)
              [(mkEnv Scenario.bob a, Stake_stakeAndMintReward 1);
               (mkEnv Scenario.bob b, Stake_burnReward 0)]).
  { intros a b. repeat constructor; apply N.eqb_neq; by vm_compute. }
  assert (Hs : world_paired ScenarioStake.staked).
  { apply (Hrun Scenario.noSigner
             [(mkEnv Scenario.bob 1500, Stake_stakeAndMintReward 1)]);
      [done |]. repeat constructor; by intros []. }
  assert (Hu : world_paired ScenarioStake.unstaked).
  { exact (proj1 (Hwired Scenario.noSigner _ _ Hp Hw (Hext 1500 1600))). }
  split; [done |]. split; [done |].
  assert (E1 : claim_status ScenarioStake.staked 1 = ClaimSBT.Staked)
    by (vm_compute; reflexivity).
  assert (E2 : claim_status ScenarioStake.unstaked 1 = ClaimSBT.Active)
    by (vm_compute; reflexivity).
  split; [done |]. split; [by apply (Hiff _ Hs) |]. split; [done |].
  intros Hr%(Hiff _ Hu). congruence.
Defined.


(* ===================================================================== *)
(** * Further properties of the contracts *)
(* ===================================================================== *)

(** ** The registry's deposits *)

Lemma share_of_amount (amount : N) : amount * 10000 / 1000000 = amount / 100.
Proof.
  replace 1000000 with (100 * 10000) by reflexivity.
  rewrite N.Div0.div_mul_cancel_r; [reflexivity | discriminate].
Qed.

(** Invert the checked arithmetic of a committed call. *)
Ltac arith_inv :=
  repeat match goal with
  | H : EVM.add _ _ = Ok _ |- _ => apply add_Ok in H as [-> ?]
  | H : EVM.mul _ _ = Ok _ |- _ => apply mul_Ok in H as [-> ?]
  | H : EVM.div _ _ = Ok _ |- _ => apply div_Ok in H as [-> ?]
  end.

Lemma mintOrTopUp_Ok sender now to amount st id st' :
  ClaimSBT.mintOrTopUp sender now to amount st = Ok (id, st') ->
  let existing := ClaimSBT.firstActive st (ClaimSBT.getUserClaims st to) in
  sender = ClaimSBT.owner st /\ 0 < amount
  /\ amount * 10000 <= MAX_UINT256
  /\ ((0 < existing /\ id = existing
       /\ st' = ClaimSBT.set_claim id
                  (ClaimSBT.set_basisPoints
                     (ClaimSBT.basisPoints (ClaimSBT.claim st id)
                      + amount / 100)
                     (ClaimSBT.claim st id)) st)
      \/ (existing = 0 /\ id = ClaimSBT._tokenIdCounter st
          /\ exists e',
               ERC721._safeMint ClaimSBT._beforeTokenTransfer to id
                 (ClaimSBT.erc721 st) = Ok e'
               /\ st' = ClaimSBT.mkState (ClaimSBT.owner st) e' (id + 1)
                          (<[id := ClaimSBT.mkClaim 0 (amount / 100)
                                     ClaimSBT.Active 0 "" now]>
                             (ClaimSBT.claims st))
                          (<[to := ClaimSBT.getUserClaims st to ++ [id]]>
                             (ClaimSBT.userClaims st))
                          (<[0 := ClaimSBT.getProjectClaims st 0 ++ [id]]>
                             (ClaimSBT.projectClaims st)))).
Proof.
  unfold ClaimSBT.mintOrTopUp. intros H. inv_ok H. ok_inv.
  apply N.ltb_lt in Hba. simpl.
  destruct (N.ltb_spec 0 (ClaimSBT.firstActive st (ClaimSBT.getUserClaims st to)))
    as [Hpos | Hzero].
  - inv_ok Hbb. arith_inv. ok_inv. rewrite share_of_amount.
    repeat split; try done. by left.
  - assert (Hz : ClaimSBT.firstActive st (ClaimSBT.getUserClaims st to) = 0)
      by lia.
    apply mintNew_Ok in Hbb as (c & e' & Hc & -> & Hm & ->).
    inv_ok Hc. arith_inv. ok_inv. rewrite share_of_amount.
    repeat split; try done. right. repeat split; try done. by eexists.
Qed.

Lemma safeMint_fresh hook to tokenId st :
  to ≠ 0 -> ERC721._exists st tokenId = false ->
  hook 0 to tokenId = Ok tt ->
  ERC721._safeMint hook to tokenId st
  = Ok (ERC721.mkState (<[tokenId := to]> (ERC721._owners st))
          (<[to := ERC721.balanceOf st to + 1]> (ERC721._balances st))
          (ERC721._tokenApprovals st) (ERC721._operatorApprovals st)).
Proof.
  intros Hto Hfresh Hhook. unfold ERC721._safeMint.
  apply N.eqb_neq in Hto. rewrite Hto, Hfresh. simpl. by rewrite Hhook.
Qed.

Lemma sbt_hook_mint to tokenId :
  ClaimSBT._beforeTokenTransfer 0 to tokenId = Ok tt.
Proof. reflexivity. Qed.

(** A deposit for a user without an Active claim of non-zero id mints the
    next token. *)
Lemma mintOrTopUp_mints now to amount st :
  ClaimSBT.firstActive st (ClaimSBT.getUserClaims st to) = 0 ->
  to ≠ 0 -> 0 < amount -> amount * 10000 <= MAX_UINT256 ->
  ClaimSBT._tokenIdCounter st + 1 <= MAX_UINT256 ->
  ClaimSBT._exists st (ClaimSBT._tokenIdCounter st) = false ->
  let id := ClaimSBT._tokenIdCounter st in
  ClaimSBT.mintOrTopUp (ClaimSBT.owner st) now to amount st
  = Ok (id,
        ClaimSBT.mkState (ClaimSBT.owner st)
          (ERC721.mkState (<[id := to]> (ERC721._owners (ClaimSBT.erc721 st)))
             (<[to := ERC721.balanceOf (ClaimSBT.erc721 st) to + 1]>
                (ERC721._balances (ClaimSBT.erc721 st)))
             (ERC721._tokenApprovals (ClaimSBT.erc721 st))
             (ERC721._operatorApprovals (ClaimSBT.erc721 st)))
          (id + 1)
          (<[id := ClaimSBT.mkClaim 0 (amount / 100) ClaimSBT.Active 0 "" now]>
             (ClaimSBT.claims st))
          (<[to := ClaimSBT.getUserClaims st to ++ [id]]>
             (ClaimSBT.userClaims st))
          (<[0 := ClaimSBT.getProjectClaims st 0 ++ [id]]>
             (ClaimSBT.projectClaims st))).
Proof.
  intros Hnone Hto Hamt Hmul Hctr Hfresh. simpl.
  unfold ClaimSBT.mintOrTopUp. rewrite onlyOwner_self.
  apply N.ltb_lt in Hamt. rewrite Hamt, Hnone. simpl.
  unfold ClaimSBT.mintNew, EVM.add, EVM.mul.
  apply N.leb_le in Hmul, Hctr. rewrite Hctr, Hmul. simpl.
  rewrite (safeMint_fresh _ _ _ _ Hto Hfresh (sbt_hook_mint _ _)). simpl.
  by rewrite share_of_amount.
Qed.

(** A deposit for a user with an Active claim of non-zero id tops it up. *)
Lemma mintOrTopUp_tops_up now to amount st :
  let id := ClaimSBT.firstActive st (ClaimSBT.getUserClaims st to) in
  0 < id -> 0 < amount -> amount * 10000 <= MAX_UINT256 ->
  ClaimSBT.basisPoints (ClaimSBT.claim st id) + amount / 100 <= MAX_UINT256 ->
  ClaimSBT.mintOrTopUp (ClaimSBT.owner st) now to amount st
  = Ok (id,
        ClaimSBT.set_claim id
          (ClaimSBT.set_basisPoints
             (ClaimSBT.basisPoints (ClaimSBT.claim st id) + amount / 100)
             (ClaimSBT.claim st id)) st).
Proof.
  simpl. intros Hid Hamt Hmul Hadd.
  unfold ClaimSBT.mintOrTopUp. rewrite onlyOwner_self.
  apply N.ltb_lt in Hamt, Hid. rewrite Hamt, Hid. simpl.
  unfold EVM.mul, EVM.add. apply N.leb_le in Hmul. rewrite Hmul. simpl.
  rewrite share_of_amount. apply N.leb_le in Hadd. by rewrite Hadd.
Qed.

(** X1. [mintOrTopUp] uses 0 for "no existing claim", so the claim with
    token id 0 is never topped up: once a token has been minted, a committed
    [mintOrTopUp] returns a non-zero id and leaves claim 0 as it was.  From a
    fresh registry two deposits for the same user therefore mint tokens 0
    and 1, each with [amount / 100] basis points, where a user whose first
    Active claim has a non-zero id has that claim's share raised by
    [amount / 100] instead. *)
Theorem mintOrTopUp_never_tops_up_token_zero :
  (forall sender now to amount st id st',
      ClaimSBT._tokenIdCounter st ≠ 0 ->
      ClaimSBT.mintOrTopUp sender now to amount st = Ok (id, st') ->
      id ≠ 0 /\ ClaimSBT.claim st' 0 = ClaimSBT.claim st 0)
  /\ (forall deployer now1 now2 to a1 a2,
        to ≠ 0 -> 0 < a1 -> 0 < a2 ->
        a1 * 10000 <= MAX_UINT256 -> a2 * 10000 <= MAX_UINT256 ->
        exists st1 st2,
          ClaimSBT.mintOrTopUp deployer now1 to a1 (ClaimSBT.deploy deployer)
          = Ok (0, st1)
          /\ ClaimSBT.mintOrTopUp deployer now2 to a2 st1 = Ok (1, st2)
          /\ ClaimSBT.getUserClaims st2 to = [0; 1]
          /\ ClaimSBT.claim st2 0
             = ClaimSBT.mkClaim 0 (a1 / 100) ClaimSBT.Active 0 "" now1
          /\ ClaimSBT.claim st2 1
             = ClaimSBT.mkClaim 0 (a2 / 100) ClaimSBT.Active 0 "" now2)
  /\ (forall now to amount st,
        let id := ClaimSBT.firstActive st (ClaimSBT.getUserClaims st to) in
        0 < id -> 0 < amount -> amount * 10000 <= MAX_UINT256 ->
        ClaimSBT.basisPoints (ClaimSBT.claim st id) + amount / 100
        <= MAX_UINT256 ->
        exists st',
          ClaimSBT.mintOrTopUp (ClaimSBT.owner st) now to amount st
          = Ok (id, st')
          /\ ClaimSBT._tokenIdCounter st' = ClaimSBT._tokenIdCounter st
          /\ ClaimSBT.basisPoints (ClaimSBT.claim st' id)
             = ClaimSBT.basisPoints (ClaimSBT.claim st id) + amount / 100
          /\ forall id', id' ≠ id ->
               ClaimSBT.claim st' id' = ClaimSBT.claim st id').
Proof.
  split; [| split].
  - intros sender now to amount st id st' Hctr H.
    apply mintOrTopUp_Ok in H as (_ & _ & _ & [(Hpos & -> & ->) | (_ & -> & e' & _ & ->)]).
    + split; [lia |]. rewrite claim_set_claim. case_decide; [lia | done].
    + split; [done |]. unfold ClaimSBT.claim; simpl.
      by rewrite mget_insert_ne.
  - intros deployer now1 now2 to a1 a2 Hto Ha1 Ha2 Hm1 Hm2.
    eexists _, _. split.
    { apply (mintOrTopUp_mints now1 to a1 (ClaimSBT.deploy deployer));
        try done. }
    split.
    { match goal with |- ClaimSBT.mintOrTopUp _ _ _ _ ?s = _ =>
        set (st1 := s) end.
      assert (Hnone : ClaimSBT.firstActive st1 (ClaimSBT.getUserClaims st1 to)
                      = 0).
      { unfold st1, ClaimSBT.getUserClaims; simpl. rewrite mget_insert_eq.
        unfold ClaimSBT.getUserClaims. rewrite mget_empty. simpl.
        unfold ClaimSBT.claim; simpl. by rewrite mget_insert_eq. }
      pose proof (mintOrTopUp_mints now2 to a2 st1 Hnone Hto Ha2 Hm2) as E.
      simpl in E. rewrite E; [reflexivity | done |].
      unfold ClaimSBT._exists, ERC721._exists, ERC721._ownerOf; simpl.
      rewrite mget_insert_ne by done. by rewrite mget_empty. }
    unfold ClaimSBT.getUserClaims, ClaimSBT.claim; simpl.
    rewrite !mget_insert_eq, mget_insert_ne by done.
    rewrite mget_insert_eq. by rewrite mget_empty.
  - intros now to amount st id Hid Hamt Hmul Hadd. eexists. split.
    { by apply mintOrTopUp_tops_up. }
    split; [done |]. split.
    + rewrite claim_set_claim. by case_decide.
    + intros id' Hne. rewrite claim_set_claim. by case_decide.
Qed.

Lemma mintOrTopUp_never_tops_up_token_zero_witness :
  exists st1 st2,
    ClaimSBT.mintOrTopUp 0xAD 10 0xA1 1000000 (ClaimSBT.deploy 0xAD)
    = Ok (0, st1)
    /\ ClaimSBT.mintOrTopUp 0xAD 20 0xA1 500000 st1 = Ok (1, st2)
    /\ ClaimSBT.getUserClaims st2 0xA1 = [0; 1]
    /\ ClaimSBT.claim st2 0
       = ClaimSBT.mkClaim 0 (1000000 / 100) ClaimSBT.Active 0 "" 10
    /\ ClaimSBT.claim st2 1
       = ClaimSBT.mkClaim 0 (500000 / 100) ClaimSBT.Active 0 "" 20.
Proof.
  apply (proj1 (proj2 mintOrTopUp_never_tops_up_token_zero)); by vm_compute.
Defined.

(** ** The registry's indexes *)

Lemma safeMint_Ok_state hook to tokenId st st' :
  ERC721._safeMint hook to tokenId st = Ok st' ->
  to ≠ 0 /\ ERC721._exists st tokenId = false
  /\ st' = ERC721.mkState (<[tokenId := to]> (ERC721._owners st))
             (<[to := ERC721.balanceOf st to + 1]> (ERC721._balances st))
             (ERC721._tokenApprovals st) (ERC721._operatorApprovals st).
Proof.
  unfold ERC721._safeMint. intros H. inv_ok H. ok_inv.
  apply negb_true_iff in Ha, Hba. apply N.eqb_neq in Ha. done.
Qed.

Lemma registry_indexed_deploy deployer :
  registry_indexed (ClaimSBT.deploy deployer).
Proof.
  split.
  - intros id. unfold ClaimSBT._exists, ERC721._exists, ERC721._ownerOf.
    simpl. rewrite mget_empty. simpl. split; [done | lia].
  - intros u id. unfold ClaimSBT.getUserClaims, ERC721._ownerOf. simpl.
    rewrite !mget_empty. simpl. split; [done |]. by intros [? <-].
  - intros u. unfold ClaimSBT.getUserClaims. simpl. rewrite mget_empty.
    constructor.
  - intros u _. unfold ClaimSBT.getUserClaims, ERC721.balanceOf. simpl.
    by rewrite !mget_empty.
Qed.

Lemma registry_indexed_minted st st' :
  minted st st' -> registry_indexed st -> registry_indexed st'.
Proof.
  intros (to & c & pid & e' & Hm & _ & ->) [Hseq Hidx Hnd Hbal].
  apply safeMint_Ok_state in Hm as (Hto & Hfresh & ->).
  set (ctr := ClaimSBT._tokenIdCounter st) in *.
  assert (Hown0 : ERC721._ownerOf (ClaimSBT.erc721 st) ctr = 0)
    by (by apply not_exists_owner).
  assert (Hnotin : forall u, ~ In ctr (ClaimSBT.getUserClaims st u)).
  { intros u [Hu Ho]%Hidx. congruence. }
  split.
  - intros id. unfold ClaimSBT._exists, ERC721._exists, ERC721._ownerOf.
    simpl. rewrite mget_insert. case_decide as E.
    + subst id. split; [lia |]. intros _. apply negb_true_iff.
      by apply N.eqb_neq.
    + specialize (Hseq id).
      unfold ClaimSBT._exists, ERC721._exists, ERC721._ownerOf in Hseq.
      rewrite Hseq. lia.
  - intros u id. unfold ClaimSBT.getUserClaims, ERC721._ownerOf. simpl.
    rewrite !mget_insert. specialize (Hidx u id).
    unfold ClaimSBT.getUserClaims, ERC721._ownerOf in Hidx, Hown0, Hnotin.
    repeat case_decide; subst; rewrite ?in_app_iff; simpl.
    + split; [done |]. intros _. right. by left.
    + rewrite Hidx. split; [by intros [? | [? | []]] | tauto].
    + split; [| by intros [? ?]]. intros Hin. by apply Hnotin in Hin.
    + exact Hidx.
  - intros u. unfold ClaimSBT.getUserClaims. simpl. rewrite mget_insert.
    case_decide; [| apply Hnd]. subst u.
    apply NoDup_app. split; [apply Hnd |]. split; [| apply NoDup_singleton].
    intros x Hx ->%list_elem_of_singleton.
    apply list_elem_of_In in Hx. by apply Hnotin in Hx.
  - intros u Hu. unfold ClaimSBT.getUserClaims, ERC721.balanceOf. simpl.
    rewrite !mget_insert. case_decide; [| by apply Hbal]. subst u.
    rewrite length_app. simpl. specialize (Hbal to Hu).
    unfold ClaimSBT.getUserClaims, ERC721.balanceOf in Hbal. lia.
Qed.

Lemma registry_indexed_frame st st' :
  ClaimSBT.erc721 st' = ClaimSBT.erc721 st ->
  ClaimSBT._tokenIdCounter st' = ClaimSBT._tokenIdCounter st ->
  ClaimSBT.userClaims st' = ClaimSBT.userClaims st ->
  registry_indexed st -> registry_indexed st'.
Proof.
  intros He Hc Hu [Hseq Hidx Hnd Hbal].
  split; unfold ClaimSBT._exists, ClaimSBT.getUserClaims in *;
    rewrite ?He, ?Hc, ?Hu; done.
Qed.

Lemma call_registry_indexed tryRecover e c w w' :
  call tryRecover e c w = Ok w' ->
  registry_indexed (claimSBT w) -> registry_indexed (claimSBT w').
Proof.
  intros H%call_sbt_effect Hinv.
  destruct c; simpl in H;
    repeat match goal with
    | H : _ \/ _ |- _ => destruct H as [H | H]
    | H : _ /\ _ |- _ => destruct H as [? H]
    | H : minted _ _ |- _ => by apply (registry_indexed_minted _ _ H)
    | H : topped_up _ _ |- _ => destruct H as (? & ? & H)
    | H : status_written _ _ _ _ |- _ => destruct H as [_ H]
    | H : ex _ |- _ => destruct H as [? H]
    end;
    try (rewrite H; by apply (registry_indexed_frame (claimSBT w))).
Qed.

Lemma run_registry_indexed tryRecover txs w :
  registry_indexed (claimSBT w) ->
  registry_indexed (claimSBT (run tryRecover txs w)).
Proof.
  revert w. induction txs as [| [e c] txs IH]; intros w Hinv; [done |].
  simpl. apply IH.
  destruct (step_cases tryRecover e c w) as [(w' & Hc & ->) | [_ ->]];
    [| done].
  by apply (call_registry_indexed _ _ _ _ _ Hc).
Qed.

(** X2. The registry keeps its indexes in step with token ownership.  In a
    fresh registry, and after any sequence of transactions on an engine
    whose registry had the property: a token id exists exactly when it is
    below the id counter (claims are never burned and ids never reused);
    [getUserClaims(u)] lists exactly the tokens [u] owns, each once; and the
    ERC-721 balance of [u] is the length of that list. *)
Theorem registry_indexes_track_ownership :
  (forall deployer, registry_indexed (ClaimSBT.deploy deployer))
  /\ forall tryRecover txs w,
       registry_indexed (claimSBT w) ->
       let st := claimSBT (run tryRecover txs w) in
       (forall id,
           ClaimSBT._exists st id = true <-> id < ClaimSBT._tokenIdCounter st)
       /\ (forall u id,
             In id (ClaimSBT.getUserClaims st u)
             <-> u ≠ 0 /\ claim_owner (run tryRecover txs w) id = u)
       /\ (forall u, NoDup (ClaimSBT.getUserClaims st u))
       /\ (forall u, u ≠ 0 ->
             ERC721.balanceOf (ClaimSBT.erc721 st) u
             = N.of_nat (length (ClaimSBT.getUserClaims st u))).
Proof.
  split; [apply registry_indexed_deploy |].
  intros tryRecover txs w Hinv.
  by destruct (run_registry_indexed tryRecover txs w Hinv).
Qed.

Lemma registry_indexes_track_ownership_witness :
  let w := Scenario.genesis 100000 in
  let w' := run Scenario.noSigner
              [Scenario.tx Scenario.admin
                 (Claim_mintOrTopUp Scenario.alice 1000000)] w in
  registry_indexed (claimSBT w)
  /\ (forall u id,
        In id (ClaimSBT.getUserClaims (claimSBT w') u)
        <-> u ≠ 0 /\ claim_owner w' id = u).
Proof.
  split; [apply registry_indexed_deploy |].
  apply (proj2 registry_indexes_track_ownership Scenario.noSigner).
  apply registry_indexed_deploy.
Defined.

(** ** The reward contract *)

Lemma erc721_transferFrom_state hook sender from to tokenId st st' :
  ERC721.transferFrom hook sender from to tokenId st = Ok st' ->
  ERC721._ownerOf st tokenId = from /\ from ≠ 0 /\ to ≠ 0
  /\ hook from to tokenId = Ok tt
  /\ ERC721._owners st' = <[tokenId := to]> (ERC721._owners st)
  /\ forall id, ERC721._exists st' id = ERC721._exists st id.
Proof.
  unfold ERC721.transferFrom. intros H. inv_ok H. ok_inv.
  match goal with
  | Ho : ERC721.ownerOf _ _ = Ok ?o, He : (?o =? _) = true |- _ =>
      apply ownerOf_Ok in Ho as (-> & Hne & Hex); apply N.eqb_eq in He
  end.
  match goal with
  | Ht : negb (to =? 0) = true |- _ => apply negb_true_iff, N.eqb_neq in Ht
  end.
  match goal with
  | Hh : hook _ _ _ = Ok ?u |- _ => destruct u
  end.
  simpl. repeat split; try done; try congruence.
  intros id. unfold ERC721._exists, ERC721._ownerOf in *; simpl.
  rewrite mget_insert. case_decide; [subst id | done].
  rewrite Hex. apply negb_true_iff. by apply N.eqb_neq.
Qed.

(** What a committed call does to the reward contract: a mint, a burn, or
    nothing that touches the reward records or the set of tokens. *)
Lemma call_reward_cases tryRecover e c w w' :
  call tryRecover e c w = Ok w' ->
  (exists sender now to cid pid bp id,
      RewardNFT.mintReward sender now to cid pid bp (rewardNFT w)
      = Ok (id, rewardNFT w'))
  \/ (exists sender id,
        RewardNFT.burnReward sender id (rewardNFT w) = Ok (rewardNFT w'))
  \/ ((forall r, RewardNFT._exists (rewardNFT w') r
                 = RewardNFT._exists (rewardNFT w) r)
      /\ RewardNFT.rewards (rewardNFT w') = RewardNFT.rewards (rewardNFT w)
      /\ RewardNFT.claimToReward (rewardNFT w')
         = RewardNFT.claimToReward (rewardNFT w)
      /\ RewardNFT._tokenIdCounter (rewardNFT w')
         = RewardNFT._tokenIdCounter (rewardNFT w)).
Proof.
  intros H. destruct c; call_inv H; simpl.
  all: try discriminate H.
  all: repeat match goal with p : (_ * _)%type |- _ => destruct p end.
  all: simpl.
  all: lazymatch type of H with
       | RewardNFT.mintReward _ _ _ _ _ _ _ = _ =>
           left; by eexists _, _, _, _, _, _, _
       | RewardNFT.burnReward _ _ _ = _ => right; left; by eexists _, _
       | StakeManager.stakeAndMintReward _ _ _ _ _ = _ =>
           apply stake_Ok in H as (_ & _ & _ & _ & _ & Hm & _);
           left; by eexists _, _, _, _, _, _, _
       | StakeManager.burnReward _ _ _ _ = _ =>
           apply sm_burnReward_Ok in H as (_ & _ & Hb & _);
           right; left; by eexists _, _
       | _ => right; right
       end.
  all: try (repeat split; done).
  all: try match goal with H0 : Ok _ = Ok _ |- _ => injection H0 as <- end.
  all: try (repeat split; done).
  all: try (simple_inv H; by simpl).
  - unfold RewardNFT.transferFrom in H. inv_ok H. ok_inv. simpl.
    split; [| done].
    match goal with
    | Hx : ERC721.transferFrom _ _ _ _ _ _ = Ok _ |- _ =>
        apply erc721_transferFrom_state in Hx as (_ & _ & _ & _ & _ & Hsame)
    end.
    intros r. apply Hsame.
  - unfold RewardNFT.approve in H. inv_ok H. ok_inv. simpl.
    split; [| done].
    match goal with
    | Hx : ERC721.approve _ _ _ _ = Ok _ |- _ =>
        apply erc721_approve_Ok in Hx as Ho
    end.
    intros r. unfold RewardNFT._exists, ERC721._exists, ERC721._ownerOf.
    simpl. by rewrite Ho.
  - unfold RewardNFT.setApprovalForAll in H. inv_ok H. ok_inv. simpl.
    split; [| done].
    match goal with
    | Hx : ERC721.setApprovalForAll _ _ _ _ = Ok _ |- _ =>
        apply erc721_setApprovalForAll_Ok in Hx as Ho
    end.
    intros r. unfold RewardNFT._exists, ERC721._exists, ERC721._ownerOf.
    simpl. by rewrite Ho.
Qed.

Lemma reward_insert st id r id' :
  mget RewardNFT.zeroReward (<[id := r]> (RewardNFT.rewards st)) id'
  = if decide (id = id') then r else RewardNFT.reward st id'.
Proof. unfold RewardNFT.reward. apply mget_insert. Qed.

Lemma rewards_live_mint sender now to cid pid bp st id st' :
  RewardNFT.mintReward sender now to cid pid bp st = Ok (id, st') ->
  rewards_live st -> rewards_live st'.
Proof.
  intros (e' & _ & _ & -> & Hm & ->)%mintReward_Ok Hl r.
  unfold RewardNFT._exists, RewardNFT.reward; simpl.
  destruct (safeMint_exists _ _ _ _ _ r Hm) as [_ ->].
  rewrite reward_insert. case_decide; [done | apply Hl].
Qed.

Lemma rewards_live_burn sender id st st' :
  RewardNFT.burnReward sender id st = Ok st' ->
  rewards_live st -> rewards_live st'.
Proof.
  intros (e' & _ & _ & _ & Hb & ->)%burnReward_Ok Hl r.
  unfold RewardNFT._exists, RewardNFT.reward; simpl.
  rewrite (burn_exists _ _ _ _ r Hb), reward_insert.
  case_decide; [done | apply Hl].
Qed.

Lemma call_rewards_live tryRecover e c w w' :
  call tryRecover e c w = Ok w' ->
  rewards_live (rewardNFT w) -> rewards_live (rewardNFT w').
Proof.
  intros [H | [H | (Hex & Hr & _)]]%call_reward_cases Hl.
  - destruct H as (? & ? & ? & ? & ? & ? & ? & H).
    by eapply rewards_live_mint.
  - destruct H as (? & ? & H). by eapply rewards_live_burn.
  - intros r. rewrite Hex. unfold RewardNFT.reward. rewrite Hr. apply Hl.
Qed.

Lemma run_rewards_live tryRecover txs w :
  rewards_live (rewardNFT w) ->
  rewards_live (rewardNFT (run tryRecover txs w)).
Proof.
  revert w. induction txs as [| [e c] txs IH]; intros w Hinv; [done |].
  simpl. apply IH.
  destruct (step_cases tryRecover e c w) as [(w' & Hc & ->) | [_ ->]];
    [| done].
  by apply (call_rewards_live _ _ _ _ _ Hc).
Qed.

(** X3. A reward token exists exactly while its reward is marked active:
    this holds in a fresh reward contract and is kept by every transaction
    of the engine (a mint creates the token and the active record together,
    a burn removes both, transfers and approvals touch neither).  Hence the
    second guard of [burnReward] never fires: the call never fails with
    "Reward already burned"; for a reward that was burned the owner's call
    fails with "Token does not exist". *)
Theorem reward_exists_iff_active :
  (forall deployer, rewards_live (RewardNFT.deploy deployer))
  /\ (forall tryRecover txs w,
        rewards_live (rewardNFT w) ->
        rewards_live (rewardNFT (run tryRecover txs w)))
  /\ (forall st sender tokenId,
        rewards_live st ->
        RewardNFT.burnReward sender tokenId st
        ≠ Revert "Reward already burned"
        /\ (RewardNFT.isActive (RewardNFT.reward st tokenId) = false ->
            RewardNFT.burnReward (RewardNFT.owner st) tokenId st
            = Revert "Token does not exist")).
Proof.
  split; [| split].
  - intros deployer r.
    unfold RewardNFT._exists, ERC721._exists, ERC721._ownerOf,
      RewardNFT.reward; simpl.
    by rewrite !mget_empty.
  - apply run_rewards_live.
  - intros st sender tokenId Hl. specialize (Hl tokenId).
    unfold RewardNFT.burnReward, onlyOwner. split.
    + destruct (sender =? RewardNFT.owner st); simpl; [| done].
      destruct (RewardNFT._exists st tokenId) eqn:Hex; simpl; [| done].
      rewrite <- Hl. simpl.
      unfold ERC721._burn. rewrite (exists_ownerOf _ _ Hex). done.
    + intros Hin. rewrite N.eqb_refl. simpl. rewrite Hl, Hin. done.
Qed.

Lemma reward_exists_iff_active_witness :
  let w := run Scenario.noSigner
             [ Scenario.tx Scenario.admin
                 (Claim_mintOrTopUp Scenario.alice 1000000);
               Scenario.tx Scenario.admin
                 (Claim_mintOrTopUp Scenario.bob 500000);
               Scenario.tx Scenario.admin
                 (Claim_transferOwnership Scenario.managerAddr);
               Scenario.tx Scenario.admin
                 (Reward_transferOwnership Scenario.managerAddr);
               Scenario.tx Scenario.bob (Stake_stakeAndMintReward 1);
               Scenario.tx Scenario.bob (Stake_burnReward 0) ]
             (Scenario.genesis 100000) in
  rewards_live (rewardNFT (Scenario.genesis 100000))
  /\ rewards_live (rewardNFT w)
  /\ RewardNFT.burnReward (RewardNFT.owner (rewardNFT w)) 0 (rewardNFT w)
     = Revert "Token does not exist".
Proof.
  pose proof reward_exists_iff_active as (Hd & Hrun & Hb).
  split; [apply Hd |]. split; [apply Hrun, Hd |].
  refine (proj2 (Hb _ 0 0 _) _); [apply Hrun, Hd | by vm_compute].
Defined.

(** X4. A reward is an ordinary transferable token, and the right to
    unstake travels with it.  A committed [transferFrom] makes [to] the
    owner, leaves every reward record and the claim-to-reward index as they
    were, and from then on the stake manager rejects [burnReward] from
    anyone but the new owner with "Not reward NFT owner", the former owner
    (the staker) included. *)
Theorem reward_transfer_moves_the_right_to_unstake :
  forall sender from to r rnft rnft',
    RewardNFT.transferFrom sender from to r rnft = Ok rnft' ->
    RewardNFT.ownerOf rnft r = Ok from
    /\ RewardNFT.ownerOf rnft' r = Ok to
    /\ (forall r', r' ≠ r -> RewardNFT.ownerOf rnft' r' = RewardNFT.ownerOf rnft r')
    /\ (forall r', RewardNFT.reward rnft' r' = RewardNFT.reward rnft r')
    /\ (forall c, RewardNFT.getRewardForClaim rnft' c
                  = RewardNFT.getRewardForClaim rnft c)
    /\ (forall c, RewardNFT.hasActiveReward rnft' c
                  = RewardNFT.hasActiveReward rnft c)
    /\ forall this caller sbt sm,
         caller ≠ to ->
         StakeManager.burnReward this caller r (sbt, rnft', sm)
         = Revert "Not reward NFT owner".
Proof.
  intros sender from to r rnft rnft' H.
  unfold RewardNFT.transferFrom in H. inv_ok H. ok_inv.
  apply erc721_transferFrom_state in Ha
    as (Hfrom & Hfrom0 & Hto & _ & Ho & Hex).
  assert (Hown : RewardNFT.ownerOf (RewardNFT.with_erc721 x rnft) r = Ok to).
  { unfold RewardNFT.ownerOf, ERC721.ownerOf, ERC721._ownerOf; simpl.
    rewrite Ho, mget_insert_eq. apply N.eqb_neq in Hto. by rewrite Hto. }
  split.
  { unfold RewardNFT.ownerOf, ERC721.ownerOf. rewrite Hfrom.
    apply N.eqb_neq in Hfrom0. by rewrite Hfrom0. }
  split; [done |]. split.
  { intros r' Hne.
    unfold RewardNFT.ownerOf, ERC721.ownerOf, ERC721._ownerOf; simpl.
    by rewrite Ho, mget_insert_ne. }
  repeat split; try done.
  intros this caller sbt sm Hne. unfold StakeManager.burnReward.
  rewrite Hown. simpl. apply N.eqb_neq in Hne.
  rewrite N.eqb_sym in Hne. by rewrite Hne.
Qed.

Lemma reward_transfer_moves_the_right_to_unstake_witness :
  let rnft := rewardNFT ScenarioStake.staked in
  exists rnft',
    RewardNFT.transferFrom Scenario.bob Scenario.bob Scenario.carol 0 rnft
    = Ok rnft'
    /\ RewardNFT.ownerOf rnft' 0 = Ok Scenario.carol
    /\ StakeManager.burnReward Scenario.managerAddr Scenario.bob 0
         (claimSBT ScenarioStake.staked, rnft',
          stakeManager ScenarioStake.staked)
       = Revert "Not reward NFT owner".
Proof.
  eexists. split; [vm_compute; reflexivity |].
  match goal with
  | |- RewardNFT.ownerOf ?s _ = _ /\ _ =>
      assert (H : RewardNFT.transferFrom Scenario.bob Scenario.bob
                    Scenario.carol 0 (rewardNFT ScenarioStake.staked)
                  = Ok s) by (vm_compute; reflexivity)
  end.
  apply reward_transfer_moves_the_right_to_unstake in H
    as (_ & Ho & _ & _ & _ & _ & Hb).
  split; [exact Ho |]. apply Hb. by vm_compute.
Defined.

(** ** The stake manager *)

Lemma sm_burnReward_state this sender rewardId sbt rnft sm sbt' rnft' sm' :
  StakeManager.burnReward this sender rewardId (sbt, rnft, sm)
  = Ok (sbt', rnft', sm') ->
  let claimId := RewardNFT.claimOf rnft rewardId in
  StakeManager.userStakes sm' = StakeManager.userStakes sm
  /\ StakeManager.isClaimStaked sm' claimId = false
  /\ forall c, c ≠ claimId ->
       StakeManager.getStakeInfo sm' c = StakeManager.getStakeInfo sm c.
Proof.
  unfold StakeManager.burnReward. intros H. inv_ok H. ok_inv. simpl.
  split; [done |]. split.
  - unfold StakeManager.isClaimStaked, StakeManager.getStakeInfo. simpl.
    by rewrite mget_insert_eq.
  - intros c Hne. unfold StakeManager.getStakeInfo. simpl.
    by rewrite mget_insert_ne.
Qed.

Lemma call_userStakes tryRecover e c w w' u :
  call tryRecover e c w = Ok w' ->
  StakeManager.getUserStakes (stakeManager w') u
  = StakeManager.getUserStakes (stakeManager w) u
    ++ match c with
       | Stake_stakeAndMintReward claimId =>
           if decide (msg_sender e = u) then [claimId] else []
       | _ => []
       end.
Proof.
  intros H. destruct c; call_inv H; simpl.
  all: try discriminate H.
  all: repeat match goal with p : (_ * _)%type |- _ => destruct p end.
  all: simpl.
  all: try match goal with H0 : Ok _ = Ok _ |- _ => injection H0 as <- end.
  all: try (by rewrite app_nil_r).
  - apply stake_Ok in H as (_ & _ & _ & _ & _ & _ & ->).
    unfold StakeManager.getUserStakes at 1. simpl. rewrite mget_insert.
    case_decide; [by subst | by rewrite app_nil_r].
  - apply sm_burnReward_state in H as (Hu & _).
    unfold StakeManager.getUserStakes. by rewrite Hu, app_nil_r.
Qed.

(** X5. [getUserStakes] is a history, not the set of current stakes: no
    transaction ever removes an entry from a user's list.  A committed
    [stakeAndMintReward] appends the claim to the caller's list; a committed
    [burnReward] clears the claim's [isStaked] flag but leaves every list as
    it was, so staking, unstaking and staking the same claim again leaves it
    listed twice. *)
Theorem user_stakes_only_grow :
  (forall tryRecover txs w u,
      exists added,
        StakeManager.getUserStakes (stakeManager (run tryRecover txs w)) u
        = StakeManager.getUserStakes (stakeManager w) u ++ added)
  /\ (forall this sender now c sbt rnft sm r1 sbt1 rnft1 sm1,
        StakeManager.stakeAndMintReward this sender now c (sbt, rnft, sm)
        = Ok (r1, (sbt1, rnft1, sm1)) ->
        StakeManager.getUserStakes sm1 sender
        = StakeManager.getUserStakes sm sender ++ [c]
        /\ StakeManager.isClaimStaked sm1 c = true)
  /\ (forall this sender r sbt rnft sm sbt1 rnft1 sm1,
        StakeManager.burnReward this sender r (sbt, rnft, sm)
        = Ok (sbt1, rnft1, sm1) ->
        StakeManager.isClaimStaked sm1 (RewardNFT.claimOf rnft r) = false
        /\ forall u, StakeManager.getUserStakes sm1 u
                     = StakeManager.getUserStakes sm u)
  /\ (let w := run Scenario.noSigner
                 [ Scenario.tx Scenario.bob (Stake_burnReward 0);
                   Scenario.tx Scenario.bob (Stake_stakeAndMintReward 1);
                   Scenario.tx Scenario.bob (Stake_burnReward 1) ]
                 ScenarioStake.staked in
      StakeManager.getUserStakes (stakeManager w) Scenario.bob = [1; 1]
      /\ StakeManager.isClaimStaked (stakeManager w) 1 = false).
Proof.
  split; [| split; [| split]].
  - intros tryRecover txs. induction txs as [| [e c] txs IH]; intros w u.
    + exists []. by rewrite app_nil_r.
    + simpl. destruct (IH (step tryRecover e c w) u) as [added ->].
      destruct (step_cases tryRecover e c w) as [(w' & Hc & ->) | [_ ->]].
      * rewrite (call_userStakes _ _ _ _ _ u Hc), <- app_assoc. by eexists.
      * by eexists.
  - intros this sender now c sbt rnft sm r1 sbt1 rnft1 sm1 H.
    apply stake_Ok in H as (_ & _ & _ & _ & _ & _ & ->).
    unfold StakeManager.getUserStakes at 1, StakeManager.isClaimStaked,
      StakeManager.getStakeInfo. simpl.
    by rewrite !mget_insert_eq.
  - intros this sender r sbt rnft sm sbt1 rnft1 sm1 H.
    apply sm_burnReward_state in H as (Hu & Hs & _). split; [done |].
    intros u. unfold StakeManager.getUserStakes. by rewrite Hu.
  - by vm_compute.
Qed.

Lemma user_stakes_only_grow_witness :
  let w := ScenarioStake.handed_over in
  exists r1 ctx1,
    StakeManager.stakeAndMintReward Scenario.managerAddr Scenario.bob 1500 1
      (staking_ctx w) = Ok (r1, ctx1)
    /\ StakeManager.getUserStakes (snd ctx1) Scenario.bob = [1].
Proof.
  destruct (StakeManager.stakeAndMintReward Scenario.managerAddr Scenario.bob
              1500 1 (staking_ctx ScenarioStake.handed_over))
    as [[r1 [[sbt1 rnft1] sm1]] | |] eqn:E; [| by vm_compute in E..].
  exists r1, (sbt1, rnft1, sm1). split; [done |]. simpl.
  apply (proj1 (proj2 user_stakes_only_grow)) in E as [-> _].
  by vm_compute.
Defined.


(* ===================================================================== *)
(** ** The oracle: attestations and payment proofs *)
(* ===================================================================== *)

Lemma bytes_of_string_app (a b : string) :
  bytes_of_string (String.append a b)
  = bytes_of_string a ++ bytes_of_string b.
Proof.
  unfold bytes_of_string. induction a as [| ch a IH]; [done |].
  simpl. by rewrite IH.
Qed.

Lemma attestation_insert st key a key' :
  mget OracleAdapter.zeroAttestation
    (<[key := a]> (OracleAdapter.milestoneAttestations st)) key'
  = if decide (key = key') then a
    else OracleAdapter.getMilestoneAttestation st key'.
Proof. unfold OracleAdapter.getMilestoneAttestation. apply mget_insert. Qed.

Lemma call_attestation_kept tryRecover e c w w' key :
  call tryRecover e c w = Ok w' ->
  attestation_ok w key = true -> attestation_ok w' key = true.
Proof.
  intros Hcall Hok.
  destruct (create_or_not c)
    as [(pid & idx & name & desc & proof & sig & ->) | Hno].
  - call_inv Hcall.
    match goal with x : (bytes32 * OracleAdapter.State)%type |- _ =>
      destruct x as [k st'] end.
    apply createMilestoneAttestation_Ok in Hcall
      as (signer & Hs & _ & -> & ->).
    unfold attestation_ok, OracleAdapter.verifyMilestoneAttestation,
      OracleAdapter.getMilestoneAttestation in *; simpl in *.
    rewrite mget_insert. case_decide; [| done]. simpl.
    apply negb_true_iff. by apply N.eqb_neq.
  - unfold attestation_ok, OracleAdapter.verifyMilestoneAttestation,
      OracleAdapter.getMilestoneAttestation in *.
    by rewrite (call_attestations _ _ _ _ _ Hcall Hno).
Qed.

(** X6. An attestation, once stored, verifies for good.  A committed
    [createMilestoneAttestation] stores the submitted fields with the
    recovered signer under the key it returns, and
    [verifyMilestoneAttestation] of that key is true; no later transaction
    makes it false again: there is no function that removes or re-checks an
    attestation, and withdrawing the verifier's authorization with
    [setVerifierAuthorization] leaves the attestations it signed valid. *)
Theorem attestations_are_permanent :
  (forall tryRecover now pid idx name desc proof sig st key st',
      OracleAdapter.createMilestoneAttestation tryRecover now pid idx name
        desc proof sig st = Ok (key, st') ->
      OracleAdapter.verifyMilestoneAttestation st' key = true
      /\ exists signer,
           OracleAdapter.recover tryRecover
             (OracleAdapter.toEthSignedMessageHash
                (OracleAdapter.messageHash pid idx name desc proof now)) sig
           = Ok signer
           /\ OracleAdapter.isAuthorized st signer = true
           /\ OracleAdapter.getMilestoneAttestation st' key
              = OracleAdapter.mkAttestation pid idx name desc proof now
                  signer true)
  /\ (forall tryRecover txs w key,
        attestation_ok w key = true ->
        attestation_ok (run tryRecover txs w) key = true)
  /\ (forall caller v authorized st st' key,
        OracleAdapter.setVerifierAuthorization caller v authorized st
        = Ok st' ->
        OracleAdapter.verifyMilestoneAttestation st' key
        = OracleAdapter.verifyMilestoneAttestation st key).
Proof.
  split; [| split].
  - intros tryRecover now pid idx name desc proof sig st key st' H.
    unfold OracleAdapter.createMilestoneAttestation in H. inv_ok H. ok_inv.
    assert (Hne : x ≠ 0).
    { unfold OracleAdapter.recover in Ha.
      destruct (tryRecover _ _); [| done].
      destruct (N.eqb_spec n 0); [done |]. by injection Ha as <-. }
    unfold OracleAdapter.verifyMilestoneAttestation,
      OracleAdapter.getMilestoneAttestation; simpl.
    rewrite mget_insert_eq. simpl. split.
    + apply negb_true_iff. by apply N.eqb_neq.
    + by exists x.
  - intros tryRecover txs. induction txs as [| [e c] txs IH]; intros w key H;
      [done |].
    simpl. apply IH.
    destruct (step_cases tryRecover e c w) as [(w' & Hc & ->) | [_ ->]];
      [| done].
    by eapply call_attestation_kept.
  - intros caller v authorized st st' key H.
    unfold OracleAdapter.setVerifierAuthorization in H. inv_ok H. by ok_inv.
Qed.

Lemma attestations_are_permanent_witness :
  let w := ScenarioMilestone.attested in
  let w' := run Scenario.carolSigns
              [ Scenario.tx Scenario.admin
                  (Oracle_setVerifierAuthorization Scenario.carol false) ] w in
  attestation_ok w ScenarioMilestone.returnedKey = true
  /\ OracleAdapter.isAuthorized (oracleAdapter w') Scenario.carol = false
  /\ attestation_ok w' ScenarioMilestone.returnedKey = true.
Proof.
  split; [by vm_compute |]. split; [by vm_compute |].
  apply (proj1 (proj2 attestations_are_permanent)). by vm_compute.
Defined.

(** X7. The signed message packs its three text fields back to back, so a
    signature covers their concatenation only, not where one field ends
    and the next begins.  Two submissions with the same project, milestone
    and timestamp whose [milestoneName], [description] and [proofHash]
    concatenate to the same text have the same message hash; if one is
    accepted with a signature, so is the other with the same signature, and
    it is stored with the same verifier but with its own field values. *)
Theorem attestation_signature_ignores_field_boundaries :
  forall tryRecover now pid idx name desc proof name' desc' proof' sig st,
    String.append name (String.append desc proof)
    = String.append name' (String.append desc' proof') ->
    OracleAdapter.messageHash pid idx name desc proof now
    = OracleAdapter.messageHash pid idx name' desc' proof' now
    /\ forall key st1,
         OracleAdapter.createMilestoneAttestation tryRecover now pid idx
           name desc proof sig st = Ok (key, st1) ->
         exists st2,
           OracleAdapter.createMilestoneAttestation tryRecover now pid idx
             name' desc' proof' sig st
           = Ok (OracleAdapter.attestationKey pid idx proof' now, st2)
           /\ OracleAdapter.getMilestoneAttestation st2
                (OracleAdapter.attestationKey pid idx proof' now)
              = OracleAdapter.mkAttestation pid idx name' desc' proof' now
                  (OracleAdapter.verifier
                     (OracleAdapter.getMilestoneAttestation st1 key))
                  true.
Proof.
  intros tryRecover now pid idx name desc proof name' desc' proof' sig st E.
  assert (Hm : OracleAdapter.messageHash pid idx name desc proof now
               = OracleAdapter.messageHash pid idx name' desc' proof' now).
  { unfold OracleAdapter.messageHash. f_equal. do 2 f_equal.
    rewrite !app_assoc. f_equal.
    rewrite <- !app_assoc, <- !bytes_of_string_app. by rewrite E. }
  split; [done |]. intros key st1 H.
  unfold OracleAdapter.createMilestoneAttestation in *.
  rewrite <- Hm. inv_ok H. ok_inv. rewrite Ha. simpl. rewrite Hba. simpl.
  eexists. split; [reflexivity |].
  unfold OracleAdapter.getMilestoneAttestation; simpl.
  by rewrite !mget_insert_eq.
Qed.

Lemma attestation_signature_ignores_field_boundaries_witness :
  let st := oracleAdapter
              (run Scenario.carolSigns
                 [ Scenario.tx Scenario.admin
                     (Oracle_setVerifierAuthorization Scenario.carol true) ]
                 (Scenario.genesis 100000)) in
  OracleAdapter.messageHash 1 0 "Script" "Script delivered" "QmProof" 1000
  = OracleAdapter.messageHash 1 0 "ScriptScript" " delivered" "QmProof" 1000
  /\ OracleAdapter.messageHash 1 0 "Script" "Script delivered" "QmProof" 1000
     = OracleAdapter.messageHash 1 0 "Script" "Script deliveredQm" "Proof" 1000
  /\ exists st2,
       OracleAdapter.createMilestoneAttestation Scenario.carolSigns 1000 1 0
         "Script" "Script deliveredQm" "Proof" [1; 2; 3] st
       = Ok (OracleAdapter.attestationKey 1 0 "Proof" 1000, st2).
Proof.
  split; [| split].
  - by apply (attestation_signature_ignores_field_boundaries
                Scenario.noSigner 1000 1 0 "Script" "Script delivered"
                "QmProof" "ScriptScript" " delivered" "QmProof" []
                (OracleAdapter.deploy 1)).
  - by apply (attestation_signature_ignores_field_boundaries
                Scenario.noSigner 1000 1 0 "Script" "Script delivered"
                "QmProof" "Script" "Script deliveredQm" "Proof" []
                (OracleAdapter.deploy 1)).
  - destruct (OracleAdapter.createMilestoneAttestation Scenario.carolSigns
                1000 1 0 "Script" "Script delivered" "QmProof" [1; 2; 3]
                (oracleAdapter
                   (run Scenario.carolSigns
                      [ Scenario.tx Scenario.admin
                          (Oracle_setVerifierAuthorization Scenario.carol
                             true) ]
                      (Scenario.genesis 100000))))
      as [[key st1] | |] eqn:E; [| by vm_compute in E..].
    eapply (proj2 (attestation_signature_ignores_field_boundaries
                     Scenario.carolSigns 1000 1 0 "Script" "Script delivered"
                     "QmProof" "Script" "Script deliveredQm" "Proof" [1; 2; 3]
                     _ eq_refl)) in E as (st2 & E2 & _).
    by exists st2.
Defined.

Lemma verifyXRPLPayment_Ok caller tx sndr rcpt amt ts blk st b st' :
  OracleAdapter.verifyXRPLPayment caller tx sndr rcpt amt ts blk st
  = Ok (b, st') ->
  caller = OracleAdapter.owner st
  /\ OracleAdapter.isXRPLPaymentVerified st tx = false
  /\ b = true
  /\ st' = OracleAdapter.store_proof tx
             (OracleAdapter.mkProof tx sndr rcpt amt ts blk true) st.
Proof.
  unfold OracleAdapter.verifyXRPLPayment. intros H. inv_ok H. ok_inv.
  by apply negb_true_iff in Hba.
Qed.

Lemma call_proof_kept tryRecover e c w w' tx :
  call tryRecover e c w = Ok w' ->
  OracleAdapter.isXRPLPaymentVerified (oracleAdapter w) tx = true ->
  OracleAdapter.getXRPLPaymentProof (oracleAdapter w') tx
  = OracleAdapter.getXRPLPaymentProof (oracleAdapter w) tx.
Proof.
  intros H Hv. destruct c; call_inv H; simpl; try done.
  all: try discriminate H.
  all: repeat match goal with p : (_ * _)%type |- _ => destruct p end.
  all: simpl.
  all: try match goal with H0 : Ok _ = Ok _ |- _ => injection H0 as <- end.
  all: try done.
  all: lazymatch type of H with
       | OracleAdapter.createMilestoneAttestation _ _ _ _ _ _ _ _ _ = _ =>
           by apply createMilestoneAttestation_Ok in H
             as (? & _ & _ & _ & ->)
       | OracleAdapter.verifyXRPLPayment _ _ _ _ _ _ _ _ = _ =>
           apply verifyXRPLPayment_Ok in H as (_ & Hn & _ & ->);
           rewrite proof_store_proof; case_decide; [congruence | done]
       | OracleAdapter.batchVerifyXRPLPayments _ _ _ _ _ _ _ _ = _ =>
           unfold OracleAdapter.batchVerifyXRPLPayments in H; inv_ok H;
           ok_inv; by apply batch_keeps_verified
       | _ => simple_inv H; done
       end.
Qed.

(** X8. A verified payment proof is written once.  When a verified proof
    is stored for a reference, no sequence of transactions changes any of
    its fields: [verifyXRPLPayment] refuses the reference,
    [batchVerifyXRPLPayments] skips it, and nothing else writes the
    table. *)
Theorem verified_payment_proofs_never_change :
  forall tryRecover txs w tx,
    OracleAdapter.isXRPLPaymentVerified (oracleAdapter w) tx = true ->
    OracleAdapter.getXRPLPaymentProof (oracleAdapter (run tryRecover txs w)) tx
    = OracleAdapter.getXRPLPaymentProof (oracleAdapter w) tx.
Proof.
  intros tryRecover txs. induction txs as [| [e c] txs IH]; intros w tx Hv;
    [done |].
  simpl.
  destruct (step_cases tryRecover e c w) as [(w' & Hc & ->) | [_ ->]];
    [| by apply IH].
  pose proof (call_proof_kept _ _ _ _ _ tx Hc Hv) as Hk.
  rewrite IH; [done |].
  unfold OracleAdapter.isXRPLPaymentVerified in *. by rewrite Hk.
Qed.

Lemma verified_payment_proofs_never_change_witness :
  let w := ScenarioPayment.funded in
  OracleAdapter.getXRPLPaymentProof
    (oracleAdapter
       (run Scenario.noSigner
          [ Scenario.tx Scenario.admin
              (Oracle_verifyXRPLPayment "tx1" 7 8 99 9 9);
            Scenario.tx Scenario.admin
              (Oracle_batchVerifyXRPLPayments ["tx1"] [7] [8] [99] [9] [9]) ]
          w)) "tx1"
  = OracleAdapter.mkProof "tx1" 1 2 25000 5 6 true.
Proof.
  cbv zeta. rewrite verified_payment_proofs_never_change; by vm_compute.
Defined.

(** ** The batch call and the single call *)

(** The single call as a transaction of the owner on the oracle alone. *)
Lemma batchStep_is_verify txs sndrs rcpts amts tss blks st i :
  OracleAdapter.batchStep txs sndrs rcpts amts tss blks st i
  = oracle_verify_or_skip (OracleAdapter.owner st) (nth i txs "")
      (nth i sndrs 0) (nth i rcpts 0) (nth i amts 0) (nth i tss 0)
      (nth i blks 0) st.
Proof.
  unfold OracleAdapter.batchStep, oracle_verify_or_skip,
    OracleAdapter.verifyXRPLPayment.
  rewrite onlyOwner_self. simpl.
  by destruct (OracleAdapter.isXRPLPaymentVerified st (nth i txs "")).
Qed.

Lemma oracle_verify_or_skip_owner caller tx sndr rcpt amt ts blk st :
  OracleAdapter.owner
    (oracle_verify_or_skip caller tx sndr rcpt amt ts blk st)
  = OracleAdapter.owner st.
Proof.
  unfold oracle_verify_or_skip.
  destruct (OracleAdapter.verifyXRPLPayment _ _ _ _ _ _ _ _)
    as [[b st'] | |] eqn:E; try done.
  by apply verifyXRPLPayment_Ok in E as (_ & _ & _ & ->).
Qed.

(** X9. [batchVerifyXRPLPayments] is the single call repeated.  Called by
    the owner on arrays of one length it commits, and its result is the
    state reached by submitting the entries one by one, in order, to
    [verifyXRPLPayment] as separate transactions, those that are rejected
    ("Payment already verified") changing nothing.  On arrays of different
    lengths it fails with "Array length mismatch", and for anyone but the
    owner with the [Ownable] error. *)
Theorem batch_verify_is_repeated_single_verify :
  (forall txs sndrs rcpts amts tss blks st,
      length sndrs = length txs -> length rcpts = length txs ->
      length amts = length txs -> length tss = length txs ->
      length blks = length txs ->
      OracleAdapter.batchVerifyXRPLPayments (OracleAdapter.owner st) txs
        sndrs rcpts amts tss blks st
      = Ok (fold_left
              (fun s i =>
                 oracle_verify_or_skip (OracleAdapter.owner st) (nth i txs "")
                   (nth i sndrs 0) (nth i rcpts 0) (nth i amts 0)
                   (nth i tss 0) (nth i blks 0) s)
              (seq 0 (length txs)) st))
  /\ (forall txs sndrs rcpts amts tss blks st,
        ~ (length sndrs = length txs /\ length rcpts = length txs
           /\ length amts = length txs /\ length tss = length txs
           /\ length blks = length txs) ->
        OracleAdapter.batchVerifyXRPLPayments (OracleAdapter.owner st) txs
          sndrs rcpts amts tss blks st
        = Revert "Array length mismatch")
  /\ (forall caller txs sndrs rcpts amts tss blks st,
        caller ≠ OracleAdapter.owner st ->
        OracleAdapter.batchVerifyXRPLPayments caller txs sndrs rcpts amts
          tss blks st
        = Revert "Ownable: caller is not the owner").
Proof.
  split; [| split].
  - intros txs sndrs rcpts amts tss blks st H1 H2 H3 H4 H5.
    unfold OracleAdapter.batchVerifyXRPLPayments.
    rewrite onlyOwner_self, H1, H2, H3, H4, H5, Nat.eqb_refl. simpl.
    f_equal.
    generalize (seq 0 (length txs)). intros idxs.
    assert (Hgen : forall s,
               OracleAdapter.owner s = OracleAdapter.owner st ->
               fold_left
                 (OracleAdapter.batchStep txs sndrs rcpts amts tss blks)
                 idxs s
               = fold_left
                   (fun s i =>
                      oracle_verify_or_skip (OracleAdapter.owner st)
                        (nth i txs "") (nth i sndrs 0) (nth i rcpts 0)
                        (nth i amts 0) (nth i tss 0) (nth i blks 0) s)
                   idxs s).
    { induction idxs as [| i idxs IH]; intros s Hs; [done |].
      simpl. rewrite batchStep_is_verify, Hs. apply IH.
      by rewrite oracle_verify_or_skip_owner. }
    by apply Hgen.
  - intros txs sndrs rcpts amts tss blks st Hne.
    unfold OracleAdapter.batchVerifyXRPLPayments. rewrite onlyOwner_self.
    simpl.
    destruct (Nat.eqb_spec (length txs) (length sndrs)); [| done].
    destruct (Nat.eqb_spec (length txs) (length rcpts)); [| done].
    destruct (Nat.eqb_spec (length txs) (length amts)); [| done].
    destruct (Nat.eqb_spec (length txs) (length tss)); [| done].
    destruct (Nat.eqb_spec (length txs) (length blks)); [| done].
    exfalso. apply Hne. repeat split; congruence.
  - intros caller txs sndrs rcpts amts tss blks st Hne.
    unfold OracleAdapter.batchVerifyXRPLPayments.
    by rewrite onlyOwner_other.
Qed.

Lemma batch_verify_is_repeated_single_verify_witness :
  let st := OracleAdapter.deploy Scenario.admin in
  OracleAdapter.batchVerifyXRPLPayments Scenario.admin ["a"; "b"; "a"]
    [1; 2; 3] [4; 5; 6] [10; 20; 30] [7; 8; 9] [1; 1; 1] st
  = Ok (fold_left
          (fun s i =>
             oracle_verify_or_skip Scenario.admin (nth i ["a"; "b"; "a"] "")
               (nth i [1; 2; 3] 0) (nth i [4; 5; 6] 0) (nth i [10; 20; 30] 0)
               (nth i [7; 8; 9] 0) (nth i [1; 1; 1] 0) s)
          (seq 0 3) st)
  /\ OracleAdapter.batchVerifyXRPLPayments Scenario.admin ["a"; "b"]
       [1] [4; 5] [10; 20] [7; 8] [1; 1] st
     = Revert "Array length mismatch".
Proof.
  split.
  - by apply (proj1 batch_verify_is_repeated_single_verify
                ["a"; "b"; "a"] [1; 2; 3] [4; 5; 6] [10; 20; 30] [7; 8; 9]
                [1; 1; 1] (OracleAdapter.deploy Scenario.admin)).
  - apply (proj1 (proj2 batch_verify_is_repeated_single_verify)
             ["a"; "b"] [1] [4; 5] [10; 20] [7; 8] [1; 1]
             (OracleAdapter.deploy Scenario.admin)).
    simpl. intros [? _]. discriminate.
Defined.


(* ===================================================================== *)
(** ** The vault: payment intake and its accounts *)
(* ===================================================================== *)

(** X10. Payment intake consults the oracle for one bit only.
    [processPayment] asks whether the reference is verified and never reads
    the stored proof: with the same vault and registry, two oracles that
    agree on [isXRPLPaymentVerified] for the reference give the same
    outcome (the same failure, or the same vault and registry), whatever
    sender, recipient and amount their proofs record. *)
Theorem processPayment_reads_only_the_verified_flag :
  forall this sender now investor amt tx price st sbt o1 o2,
    OracleAdapter.isXRPLPaymentVerified o1 tx
    = OracleAdapter.isXRPLPaymentVerified o2 tx ->
    intake_result
      (ProjectVault.processPayment this sender now investor amt tx price
         (st, sbt, o1))
    = intake_result
        (ProjectVault.processPayment this sender now investor amt tx price
           (st, sbt, o2)).
Proof.
  intros this sender now investor amt tx price st sbt o1 o2 E.
  unfold intake_result, ProjectVault.processPayment. rewrite E.
  repeat match goal with
         | |- context [EVM.bind ?r _] => destruct r; simpl; try done
         | |- context [mbind _ ?r] => destruct r; simpl; try done
         end.
  all: repeat match goal with
         | |- context [match ?p with (_, _) => _ end] =>
             destruct p; simpl; try done
         end.
Qed.

Lemma processPayment_reads_only_the_verified_flag_witness :
  let w := ScenarioPayment.funded in
  let o2 := OracleAdapter.store_proof "tx1"
              (OracleAdapter.mkProof "tx1" 7 8 1 9 9 true)
              (oracleAdapter w) in
  OracleAdapter.getXRPLPaymentProof (oracleAdapter w) "tx1"
  = OracleAdapter.mkProof "tx1" 1 2 25000 5 6 true
  /\ intake_result
       (ProjectVault.processPayment Scenario.vaultAddress Scenario.admin 1000
          Scenario.alice 90000 "tx1" 62
          (vault w, claimSBT w, oracleAdapter w))
     = intake_result
         (ProjectVault.processPayment Scenario.vaultAddress Scenario.admin
            1000 Scenario.alice 90000 "tx1" 62 (vault w, claimSBT w, o2)).
Proof.
  split; [by vm_compute |].
  apply processPayment_reads_only_the_verified_flag. by vm_compute.
Defined.

Lemma call_project tryRecover e c w w' :
  call tryRecover e c w = Ok w' ->
  let p := ProjectVault.project (vault w) in
  exists raised,
    ProjectVault.totalRaised p <= raised
    /\ ProjectVault.project (vault w')
       = ProjectVault.mkProject (ProjectVault.projectId p)
           (ProjectVault.title p) (ProjectVault.description p)
           (ProjectVault.creator p) (ProjectVault.totalFunding p) raised
           (ProjectVault.isActive p) (ProjectVault.createdAt p).
Proof.
  intros Hcall.
  destruct (payment_or_not c) as [(investor & amt & tx & price & ->) | Hno].
  - apply call_processPayment_Ok in Hcall as (st' & sbt' & Hcall & ->).
    apply processPayment_Ok in Hcall
      as (_ & _ & _ & _ & _ & _ & _ & _ & _ & ->).
    simpl. eexists. split; [| reflexivity]. lia.
  - apply call_vault_frame in Hcall as [_ ->]; [| done].
    simpl. exists (ProjectVault.totalRaised (ProjectVault.project (vault w))).
    split; [lia |]. by destruct (ProjectVault.project (vault w)).
Qed.

Lemma run_project tryRecover txs w :
  let p := ProjectVault.project (vault w) in
  exists raised,
    ProjectVault.totalRaised p <= raised
    /\ ProjectVault.project (vault (run tryRecover txs w))
       = ProjectVault.mkProject (ProjectVault.projectId p)
           (ProjectVault.title p) (ProjectVault.description p)
           (ProjectVault.creator p) (ProjectVault.totalFunding p) raised
           (ProjectVault.isActive p) (ProjectVault.createdAt p).
Proof.
  revert w. induction txs as [| [e c] txs IH]; intros w; simpl.
  - exists (ProjectVault.totalRaised (ProjectVault.project (vault w))).
    split; [lia |]. by destruct (ProjectVault.project (vault w)).
  - destruct (IH (step tryRecover e c w)) as (raised & Hle & ->).
    destruct (step_cases tryRecover e c w) as [(w' & Hc & Hs) | [_ Hs]];
      rewrite Hs in *; clear Hs.
    + apply call_project in Hc as (raised' & Hle' & Hp). rewrite Hp in *.
      simpl in *. exists raised. split; [lia | done].
    + by exists raised.
Qed.

(** The reasons [addMilestone] can fail with. *)
Lemma addMilestone_active sender nm desc amt st :
  ProjectVault.isActive (ProjectVault.project st) = true ->
  ProjectVault.addMilestone sender nm desc amt st
  ≠ Revert "Project not active".
Proof.
  intros Ha. unfold ProjectVault.addMilestone, onlyOwner. rewrite Ha.
  destruct (sender =? _); simpl; [| done]. by destruct (0 <? amt).
Qed.

Lemma safeMint_reasons hook to tokenId st s :
  ERC721._safeMint hook to tokenId st = Revert s ->
  (forall a b c, hook a b c ≠ Revert s) ->
  s = "ERC721: mint to the zero address" \/ s = "ERC721: token already minted".
Proof.
  unfold ERC721._safeMint. intros H Hh.
  destruct (negb (to =? 0)); simpl in H; [| injection H as <-; by left].
  destruct (negb (ERC721._exists st tokenId)); simpl in H;
    [| injection H as <-; by right].
  destruct (hook 0 to tokenId) eqn:E; simpl in H; try done.
  injection H as ->. by apply Hh in E.
Qed.

(** Case analysis on the first check of a sequence of calls. *)
Ltac peel_head t :=
  lazymatch t with
  | mbind _ ?r => peel_head r
  | if ?b then _ else _ => destruct b eqn:?
  | require ?b _ => destruct b eqn:?
  end.

Ltac peel :=
  match goal with
  | |- ?t ≠ _ => peel_head t
  | |- ?t = _ => peel_head t
  end; simpl; try done.

Lemma processPayment_active this sender now investor amt tx price st sbt o :
  ProjectVault.isActive (ProjectVault.project st) = true ->
  ProjectVault.processPayment this sender now investor amt tx price
    (st, sbt, o)
  ≠ Revert "Project not active".
Proof.
  intros Ha. unfold ProjectVault.processPayment, onlyOwner. rewrite Ha.
  unfold ClaimSBT.mintClaim, ClaimSBT.mintNew, onlyOwner, EVM.add, EVM.mul,
    EVM.div.
  repeat peel.
  destruct (ERC721._safeMint _ _ _ _) eqn:E; simpl; [done | | done].
  intros [= ->].
  apply safeMint_reasons in E as [E | E]; [done | done |].
  intros a b c. unfold ClaimSBT._beforeTokenTransfer.
  by destruct (_ || _).
Qed.

(** X11. The project record of a vault is fixed at deployment, the amount
    raised apart: no sequence of transactions changes the project id, title,
    description, creator, funding target, creation time or the [isActive]
    flag, and [totalRaised] never decreases.  The flag is set at deployment
    and there is no function that clears it, so [addMilestone] and
    [processPayment] never fail with "Project not active". *)
Theorem project_record_is_fixed :
  (forall tryRecover txs w,
      let p := ProjectVault.project (vault w) in
      let p' := ProjectVault.project (vault (run tryRecover txs w)) in
      ProjectVault.projectId p' = ProjectVault.projectId p
      /\ ProjectVault.title p' = ProjectVault.title p
      /\ ProjectVault.description p' = ProjectVault.description p
      /\ ProjectVault.creator p' = ProjectVault.creator p
      /\ ProjectVault.totalFunding p' = ProjectVault.totalFunding p
      /\ ProjectVault.isActive p' = ProjectVault.isActive p
      /\ ProjectVault.createdAt p' = ProjectVault.createdAt p
      /\ ProjectVault.totalRaised p <= ProjectVault.totalRaised p')
  /\ (forall deployer now pid ttl desc crt funding,
        ProjectVault.isActive
          (ProjectVault.project
             (ProjectVault.deploy deployer now pid ttl desc crt funding))
        = true)
  /\ (forall tryRecover txs w,
        ProjectVault.isActive (ProjectVault.project (vault w)) = true ->
        let w' := run tryRecover txs w in
        (forall sender nm desc amt,
            ProjectVault.addMilestone sender nm desc amt (vault w')
            ≠ Revert "Project not active")
        /\ (forall sender now investor amt tx price,
              ProjectVault.processPayment (vaultAddr w') sender now investor
                amt tx price (vault w', claimSBT w', oracleAdapter w')
              ≠ Revert "Project not active")).
Proof.
  split; [| split].
  - intros tryRecover txs w.
    destruct (run_project tryRecover txs w) as (raised & Hle & Hp).
    simpl. rewrite Hp. simpl. repeat split; done.
  - done.
  - intros tryRecover txs w Ha. simpl.
    assert (Ha' : ProjectVault.isActive
                    (ProjectVault.project (vault (run tryRecover txs w)))
                  = true) by (by rewrite active_run).
    split; intros.
    + by apply addMilestone_active.
    + by apply processPayment_active.
Qed.

Lemma project_record_is_fixed_witness :
  let w := Scenario.genesis 100000 in
  let w' := run Scenario.noSigner
              [ Scenario.tx Scenario.admin
                  (Claim_transferOwnership Scenario.vaultAddress);
                Scenario.tx Scenario.admin
                  (Oracle_verifyXRPLPayment "tx1" 1 2 25000 5 6);
                Scenario.tx Scenario.admin
                  (Vault_processPayment Scenario.alice 25000 "tx1" 62) ] w in
  ProjectVault.isActive (ProjectVault.project (vault w)) = true
  /\ ProjectVault.totalRaised (ProjectVault.project (vault w')) = 25000
  /\ ProjectVault.addMilestone Scenario.admin "Script" "" 0 (vault w')
     ≠ Revert "Project not active".
Proof.
  split; [by vm_compute |]. split; [by vm_compute |].
  apply (proj2 (proj2 project_record_is_fixed) Scenario.noSigner).
  by vm_compute.
Defined.

(** ** The amount raised and the contributions *)

Lemma contributions_credit (m : gmap N N) (k a : N) :
  map_fold (fun (_ : N) (v acc : N) => v + acc) 0 (<[k := mget 0 m k + a]> m)
  = map_fold (fun (_ : N) (v acc : N) => v + acc) 0 m + a.
Proof.
  assert (Hcomm : forall (m' : gmap N N) (j1 j2 z1 z2 y : N),
             j1 ≠ j2 -> m' !! j1 = Some z1 -> m' !! j2 = Some z2 ->
             z1 + (z2 + y) = z2 + (z1 + y)) by (intros; lia).
  unfold mget. destruct (m !! k) as [v |] eqn:E; simpl.
  - rewrite <- (insert_delete_eq m k (v + a)).
    rewrite map_fold_insert_L;
      [| by eauto | by rewrite lookup_delete_eq].
    rewrite (map_fold_delete_L _ _ k v m); [lia | by eauto | done].
  - rewrite map_fold_insert_L; [lia | by eauto | done].
Qed.

Lemma call_vault_balanced tryRecover e c w w' :
  call tryRecover e c w = Ok w' ->
  vault_balanced (vault w) -> vault_balanced (vault w').
Proof.
  intros Hcall Hb.
  destruct (payment_or_not c) as [(investor & amt & tx & price & ->) | Hno].
  - apply call_processPayment_Ok in Hcall as (st' & sbt' & Hcall & ->).
    apply processPayment_Ok in Hcall
      as (_ & _ & _ & _ & _ & _ & _ & _ & _ & ->).
    unfold vault_balanced, totalContributions in *; simpl.
    unfold ProjectVault.contribution. rewrite contributions_credit. lia.
  - unfold vault_balanced, totalContributions in *.
    destruct c; call_inv Hcall; simpl; try done.
    all: try discriminate Hcall.
    all: repeat match goal with p : (_ * _)%type |- _ => destruct p end.
    all: simpl; try done.
    all: try match goal with H0 : Ok _ = Ok _ |- _ => injection H0 as <- end.
    all: try (by edestruct Hno).
    all: try (simple_inv Hcall; done).
    apply distributeRevenue_Ok in Hcall
      as (? & ? & ? & _ & _ & _ & _ & _ & _ & _ & ->). done.
Qed.

(** X12. The vault's two accounts of the money raised agree:
    [project.totalRaised] equals the sum of [userContributions] over all
    investors.  This holds at deployment and after every transaction, a
    committed [processPayment] adding the amount to both and nothing else
    touching either. *)
Theorem total_raised_is_the_sum_of_contributions :
  (forall deployer now pid ttl desc crt funding,
      vault_balanced
        (ProjectVault.deploy deployer now pid ttl desc crt funding))
  /\ (forall tryRecover txs w,
        vault_balanced (vault w) ->
        vault_balanced (vault (run tryRecover txs w)))
  /\ (forall this sender now investor amt tx price st sbt o st' sbt' o',
        ProjectVault.processPayment this sender now investor amt tx price
          (st, sbt, o) = Ok (st', sbt', o') ->
        ProjectVault.contribution st' investor
        = ProjectVault.contribution st investor + amt
        /\ totalContributions st' = totalContributions st + amt
        /\ forall a, a ≠ investor ->
             ProjectVault.contribution st' a = ProjectVault.contribution st a).
Proof.
  split; [| split].
  - intros. unfold vault_balanced, totalContributions. simpl.
    by rewrite map_fold_empty.
  - intros tryRecover txs. induction txs as [| [e c] txs IH]; intros w Hb;
      [done |].
    simpl. apply IH.
    destruct (step_cases tryRecover e c w) as [(w' & Hc & ->) | [_ ->]];
      [| done].
    by eapply call_vault_balanced.
  - intros this sender now investor amt tx price st sbt o st' sbt' o' H.
    apply processPayment_Ok in H as (_ & _ & _ & _ & _ & _ & _ & _ & _ & ->).
    unfold totalContributions, ProjectVault.contribution; simpl.
    rewrite mget_insert_eq. split; [done |]. split.
    + apply contributions_credit.
    + intros a Hne. by rewrite mget_insert_ne.
Qed.

Lemma total_raised_is_the_sum_of_contributions_witness :
  let w := ScenarioRevenue.shared 100000 20000 30000 50000 5000 1000 in
  vault_balanced (vault (Scenario.genesis 100000))
  /\ vault_balanced (vault w)
  /\ ProjectVault.totalRaised (ProjectVault.project (vault w)) = 100000.
Proof.
  pose proof total_raised_is_the_sum_of_contributions as (Hd & Hrun & _).
  split; [apply Hd |]. split; [apply Hrun, Hd | by vm_compute].
Defined.

(** ** Milestones *)

Lemma nth_lookup_milestone (ms : list ProjectVault.Milestone) i d :
  (i < length ms)%nat -> ms !! i = Some (nth i ms d).
Proof.
  revert i. induction ms as [| m ms IH]; intros [| i] Hlt; simpl in *;
    try lia; [done |].
  apply IH. lia.
Qed.

Lemma call_milestones tryRecover e c w w' :
  call tryRecover e c w = Ok w' ->
  milestones_change (ProjectVault.milestones (vault w))
    (ProjectVault.milestones (vault w')).
Proof.
  intros H. destruct c; call_inv H; simpl.
  all: try discriminate H.
  all: repeat match goal with p : (_ * _)%type |- _ => destruct p end.
  all: simpl; try (by constructor 1).
  all: try match goal with H0 : Ok _ = Ok _ |- _ => injection H0 as <- end.
  all: simpl; try (by constructor 1).
  all: lazymatch type of H with
       | ProjectVault.processPayment _ _ _ _ _ _ _ _ = _ =>
           apply processPayment_Ok in H
             as (_ & _ & _ & _ & _ & _ & _ & _ & _ & ->);
           by constructor 1
       | ProjectVault.distributeRevenue _ _ _ = _ =>
           apply distributeRevenue_Ok in H
             as (? & ? & ? & _ & _ & _ & _ & _ & _ & _ & ->);
           by constructor 1
       | ProjectVault.addMilestone _ _ _ _ _ = _ =>
           unfold ProjectVault.addMilestone in H; inv_ok H; ok_inv; simpl
       | ProjectVault.unlockMilestone _ _ _ _ _ = _ =>
           unfold ProjectVault.unlockMilestone in H; inv_ok H; ok_inv; simpl
       | _ => simple_inv H; by constructor 1
       end.
  - eapply milestone_added; [| reflexivity].
    match goal with Hx : (0 <? _) = true |- _ => by apply N.ltb_lt in Hx end.
  - match goal with
    | Hx : (_ <? N.of_nat _) = true, Hy : ProjectVault.mstatus_eqb _ _ = true
      |- _ => apply N.ltb_lt in Hx; rename Hx into Hlt; rename Hy into Hst
    end.
    eapply milestone_unlocked; [| | reflexivity].
    + apply nth_lookup_milestone. lia.
    + by destruct (ProjectVault.status _).
Qed.

Lemma milestones_change_at ms ms' i m :
  milestones_change ms ms' ->
  ms !! i = Some m ->
  exists m', ms' !! i = Some m' /\ same_terms m m'
             /\ (ProjectVault.status m ≠ ProjectVault.Pending -> m' = m)
             /\ (ProjectVault.status m' = ProjectVault.Pending
                 \/ ProjectVault.status m' = ProjectVault.Unlocked
                 \/ m' = m).
Proof.
  intros [-> | nm desc amt _ -> | j mj now att Hj Hp ->] Hi.
  - exists m. unfold same_terms. repeat split; auto.
  - exists m. rewrite lookup_app_l by (by eapply lookup_lt_Some).
    unfold same_terms. repeat split; auto.
  - destruct (decide (j = i)) as [-> | Hne].
    + rewrite Hj in Hi. injection Hi as ->.
      eexists. split.
      { apply list_lookup_insert_eq. by eapply lookup_lt_Some. }
      unfold same_terms. simpl. repeat split; try done. by right; left.
    + exists m. rewrite list_lookup_insert_ne by done.
      unfold same_terms. repeat split; auto.
Qed.

Lemma milestones_change_length ms ms' :
  milestones_change ms ms' -> (length ms <= length ms')%nat.
Proof.
  intros [-> | nm desc amt _ -> | j mj now att Hj Hp ->].
  - lia.
  - rewrite length_app. simpl. lia.
  - rewrite length_insert. lia.
Qed.

Lemma milestones_change_new ms ms' i m' :
  milestones_change ms ms' ->
  ms' !! i = Some m' -> ms !! i = None ->
  ProjectVault.status m' = ProjectVault.Pending.
Proof.
  intros [-> | nm desc amt _ -> | j mj now att Hj Hp ->] Hi Hn.
  - congruence.
  - apply lookup_ge_None in Hn.
    rewrite lookup_app_r in Hi by done.
    destruct (i - length ms)%nat; simpl in Hi; [by injection Hi as <- | ].
    by destruct n.
  - apply lookup_ge_None in Hn. apply lookup_lt_Some in Hi.
    rewrite length_insert in Hi. lia.
Qed.

Lemma milestones_change_no_completed ms ms' :
  milestones_change ms ms' ->
  (forall i m, ms !! i = Some m ->
               ProjectVault.status m ≠ ProjectVault.Completed) ->
  forall i m', ms' !! i = Some m' ->
               ProjectVault.status m' ≠ ProjectVault.Completed.
Proof.
  intros Hch Hno i m' Hi.
  destruct (ms !! i) as [m |] eqn:E.
  - destruct (milestones_change_at _ _ _ _ Hch E)
      as (m2 & Hi2 & _ & _ & [Hs | [Hs | ->]]).
    + rewrite Hi in Hi2. injection Hi2 as <-. by rewrite Hs.
    + rewrite Hi in Hi2. injection Hi2 as <-. by rewrite Hs.
    + rewrite Hi in Hi2. injection Hi2 as ->. by eapply Hno.
  - by rewrite (milestones_change_new _ _ _ _ Hch Hi E).
Qed.

(** X13. Milestones only move forward.  Along any sequence of
    transactions the list of milestones never shrinks; a milestone keeps its
    position, name, description and unlock amount; a milestone that is no
    longer Pending is never written again (an unlock keeps its timestamp and
    attestation for good, and cannot be undone); and since a new milestone
    is Pending and the only status written is Unlocked, no milestone ever
    becomes Completed. *)
Theorem milestones_only_move_forward :
  forall tryRecover txs w,
    let ms := ProjectVault.milestones (vault w) in
    let ms' := ProjectVault.milestones (vault (run tryRecover txs w)) in
    (length ms <= length ms')%nat
    /\ (forall i m,
          ms !! i = Some m ->
          exists m',
            ms' !! i = Some m' /\ same_terms m m'
            /\ (ProjectVault.status m ≠ ProjectVault.Pending -> m' = m))
    /\ ((forall i m, ms !! i = Some m ->
                     ProjectVault.status m ≠ ProjectVault.Completed) ->
        forall i m', ms' !! i = Some m' ->
                     ProjectVault.status m' ≠ ProjectVault.Completed).
Proof.
  intros tryRecover txs. induction txs as [| [e c] txs IH]; intros w; simpl.
  - split; [lia |]. split; [| done].
    intros i m Hi. exists m. unfold same_terms. by repeat split.
  - destruct (IH (step tryRecover e c w)) as (Hlen & Hat & Hno).
    destruct (step_cases tryRecover e c w) as [(w' & Hc & Hs) | [_ Hs]];
      rewrite Hs in *; clear Hs; [| done].
    apply call_milestones in Hc.
    split; [| split].
    + apply milestones_change_length in Hc. lia.
    + intros i m Hi.
      destruct (milestones_change_at _ _ _ _ Hc Hi)
        as (m1 & Hi1 & (Hn1 & Hd1 & Ha1) & Hfix1 & _).
      destruct (Hat i m1 Hi1) as (m' & Hi' & (Hn & Hd & Ha) & Hfix).
      exists m'. split; [done |]. split.
      * unfold same_terms. repeat split; congruence.
      * intros Hnp. specialize (Hfix1 Hnp). subst m1. by apply Hfix.
    + intros Hnoc. apply Hno.
      by apply (milestones_change_no_completed _ _ Hc).
Qed.

Lemma milestones_only_move_forward_witness :
  let w := ScenarioMilestone.attested in
  let w' := run Scenario.carolSigns
              [ Scenario.tx Scenario.admin
                  (Vault_unlockMilestone 0 ScenarioMilestone.keyPreimage);
                Scenario.tx Scenario.admin
                  (Vault_addMilestone "Shoot" "Principal photography" 5000);
                Scenario.tx Scenario.admin
                  (Vault_unlockMilestone 0 ScenarioMilestone.keyPreimage) ]
              w in
  length (ProjectVault.milestones (vault w')) = 2%nat
  /\ forall i m', ProjectVault.milestones (vault w') !! i = Some m' ->
                  ProjectVault.status m' ≠ ProjectVault.Completed.
Proof.
  split; [by vm_compute |].
  apply (proj2 (proj2 (milestones_only_move_forward Scenario.carolSigns _
                         ScenarioMilestone.attested))).
  intros [| [| i]] m; vm_compute; intros [= <-]; done.
Defined.


(* ===================================================================== *)
(** ** The vault: what a distribution needs and what it pays *)
(* ===================================================================== *)

Lemma sumRevenue_total acc entries :
  acc + pendingTotal entries <= MAX_UINT256 ->
  ProjectVault.sumRevenue acc entries = Ok (acc + pendingTotal entries).
Proof.
  revert acc. induction entries as [| e entries IH]; intros acc Hle;
    simpl in *.
  - f_equal. lia.
  - unfold EVM.add.
    destruct (N.leb_spec (acc + ProjectVault.amount e) MAX_UINT256); [| lia].
    simpl. rewrite IH by lia. f_equal. lia.
Qed.

Lemma getClaimData_exists sbt id :
  ClaimSBT._exists sbt id = true ->
  ClaimSBT.getClaimData sbt id = Ok (ClaimSBT.claim sbt id).
Proof. unfold ClaimSBT.getClaimData. by intros ->. Qed.

Lemma countActive_total sbt ids n t :
  (forall id, In id ids -> ClaimSBT._exists sbt id = true) ->
  n + activeCount sbt ids <= MAX_UINT256 ->
  t + activeShare sbt ids <= MAX_UINT256 ->
  ProjectVault.countActive sbt ids n t
  = Ok (n + activeCount sbt ids, t + activeShare sbt ids).
Proof.
  revert n t. induction ids as [| id ids IH]; intros n t Hex Hn Ht;
    simpl in *.
  - do 2 f_equal; lia.
  - rewrite getClaimData_exists by (apply Hex; by left). simpl.
    fold (claimActive sbt id). unfold claimActive in *.
    destruct (ClaimSBT.status_eqb _ _).
    + unfold EVM.add.
      destruct (N.leb_spec (n + 1) MAX_UINT256); [| lia]. simpl.
      destruct (N.leb_spec
                  (t + ClaimSBT.basisPoints (ClaimSBT.claim sbt id))
                  MAX_UINT256); [| lia].
      simpl. rewrite IH; [| intros; apply Hex; by right | lia | lia].
      do 2 f_equal; lia.
    + rewrite IH; [| intros; apply Hex; by right | lia | lia].
      do 2 f_equal; lia.
Qed.

Lemma activeShare_zero sbt ids id :
  activeShare sbt ids = 0 -> In id ids -> claimActive sbt id = true ->
  ClaimSBT.basisPoints (ClaimSBT.claim sbt id) = 0.
Proof.
  induction ids as [| id' ids IH]; simpl; [done |].
  intros Hz [-> | Hin] Ha.
  - rewrite Ha in Hz. lia.
  - apply IH; [lia | done..].
Qed.

(** With no share to divide by, the payout loop stops at the first Active
    claim. *)
Lemma payOut_zero_share this sbt ids total tok :
  (forall id, In id ids -> ClaimSBT._exists sbt id = true) ->
  activeShare sbt ids = 0 ->
  ProjectVault.payOut this sbt ids total 0 tok
  = if 0 <? activeCount sbt ids then Panic 18 else Ok tok.
Proof.
  induction ids as [| id ids IH]; intros Hex Hz; simpl in *; [done |].
  rewrite getClaimData_exists by (apply Hex; by left). simpl.
  fold (claimActive sbt id).
  destruct (claimActive sbt id) eqn:Ha.
  - assert (Hbp : ClaimSBT.basisPoints (ClaimSBT.claim sbt id) = 0)
      by (apply (activeShare_zero sbt (id :: ids)); simpl;
          [by rewrite Ha | by left | done]).
    rewrite Hbp. unfold EVM.mul, EVM.div. rewrite N.mul_0_r. simpl.
    destruct (N.ltb_spec 0 (1 + activeCount sbt ids)); [done | lia].
  - rewrite IH; [| intros; apply Hex; by right | lia]. done.
Qed.

(** X14. A distribution divides by the total share of the Active claims
    without checking that it is positive.  When the vault has revenue
    pending and its project has at least one Active claim but the Active
    claims' shares add up to zero, the owner's [distributeRevenue] fails
    with Panic(0x12), division by zero.  The example that follows reaches
    such a state with [mintOrTopUp] and an amount of 50, whose share is
    [50 / 100 = 0]. *)
Theorem distributeRevenue_divides_by_zero_share :
  forall this st sbt tok,
    let ids := ClaimSBT.getProjectClaims sbt
                 (ProjectVault.projectId (ProjectVault.project st)) in
    0 < pendingTotal (ProjectVault.revenueEntries st) <= MAX_UINT256 ->
    (forall id, In id ids -> ClaimSBT._exists sbt id = true) ->
    0 < activeCount sbt ids <= MAX_UINT256 ->
    activeShare sbt ids = 0 ->
    ProjectVault.distributeRevenue this (ProjectVault.owner st) (st, sbt, tok)
    = Panic 18.
Proof.
  intros this st sbt tok ids [Hpos Hmax] Hex [Hcnt Hcmax] Hz.
  assert (Hlen : (0 <? N.of_nat (length (ProjectVault.revenueEntries st)))
                 = true).
  { destruct (ProjectVault.revenueEntries st); simpl in *; [lia |].
    apply N.ltb_lt. lia. }
  unfold ProjectVault.distributeRevenue. rewrite onlyOwner_self, Hlen. simpl.
  rewrite sumRevenue_total by done. simpl. rewrite !N.add_0_l.
  apply N.ltb_lt in Hpos as Hpos'. rewrite Hpos'. simpl.
  fold ids. rewrite countActive_total by (try done; lia). simpl.
  rewrite !N.add_0_l.
  apply N.ltb_lt in Hcnt as Hcnt'. rewrite Hcnt'. simpl.
  rewrite Hz, payOut_zero_share by done. by rewrite Hcnt'.
Qed.

Lemma distributeRevenue_divides_by_zero_share_witness :
  let sbt := claimSBT
               (run Scenario.noSigner
                  [ Scenario.tx Scenario.admin
                      (Claim_mintOrTopUp Scenario.alice 50) ]
                  (Scenario.genesis 100000)) in
  let st := ProjectVault.mkState Scenario.admin
              (ProjectVault.mkProject 0 "Film" "A film" Scenario.admin
                 100000 0 true 0)
              [] [ProjectVault.mkEntry 10 1000 "box_office"] ∅ ∅ [] in
  ClaimSBT.getProjectClaims sbt 0 = [0]
  /\ ClaimSBT.basisPoints (ClaimSBT.claim sbt 0) = 0
  /\ ProjectVault.distributeRevenue Scenario.vaultAddress Scenario.admin
       (st, sbt, ERC20.deploy Scenario.admin)
     = Panic 18.
Proof.
  split; [by vm_compute |]. split; [by vm_compute |].
  apply (distributeRevenue_divides_by_zero_share Scenario.vaultAddress
           (ProjectVault.mkState Scenario.admin
              (ProjectVault.mkProject 0 "Film" "A film" Scenario.admin
                 100000 0 true 0)
              [] [ProjectVault.mkEntry 10 1000 "box_office"] ∅ ∅ [])).
  - by vm_compute.
  - intros id. vm_compute. intros [<- | []]. reflexivity.
  - by vm_compute.
  - by vm_compute.
Defined.

(** ** What a distribution pays in total *)

Lemma floor_sum_le (a b s : N) : s ≠ 0 -> a / s + b / s <= (a + b) / s.
Proof.
  intros Hs. apply N.div_le_lower_bound; [done |].
  pose proof (N.Div0.mul_div_le a s). pose proof (N.Div0.mul_div_le b s).
  lia.
Qed.

Lemma total_of_app ts1 ts2 :
  total_of (ts1 ++ ts2) = total_of ts1 + total_of ts2.
Proof.
  induction ts1 as [| t ts1 IH]; simpl; [done |]. rewrite IH. lia.
Qed.

Lemma payouts_cons this sbt total share id ids :
  payouts this sbt total share (id :: ids)
  = (if claimActive sbt id && (0 <? payoutOf sbt total share id)
     then [(this, ERC721._ownerOf (ClaimSBT.erc721 sbt) id,
            payoutOf sbt total share id)]
     else [])
    ++ payouts this sbt total share ids.
Proof. reflexivity. Qed.

Lemma payouts_total_le this sbt total share ids :
  share ≠ 0 ->
  total_of (payouts this sbt total share ids)
  <= total * activeShare sbt ids / share.
Proof.
  intros Hs. induction ids as [| id ids IH]; [apply N.le_0_l |].
  rewrite payouts_cons, total_of_app. simpl activeShare.
  rewrite N.mul_add_distr_l.
  etransitivity; [| by apply floor_sum_le].
  apply N.add_le_mono; [| done].
  destruct (claimActive sbt id); simpl.
  - destruct (N.ltb_spec 0 (payoutOf sbt total share id)); simpl.
    + unfold payoutOf. lia.
    + apply N.le_0_l.
  - rewrite N.mul_0_r. apply N.le_0_l.
Qed.

Lemma transfer_total from to amount st :
  from ≠ 0 -> to ≠ 0 -> amount <= ERC20.balanceOf st from ->
  exists st',
    ERC20.transfer from to amount st = Ok st'
    /\ (to ≠ from ->
        ERC20.balanceOf st' from = ERC20.balanceOf st from - amount).
Proof.
  intros Hf Ht Hle. unfold ERC20.transfer.
  apply N.eqb_neq in Hf, Ht. rewrite Hf, Ht. simpl.
  apply N.leb_le in Hle. rewrite Hle. simpl.
  eexists. split; [reflexivity |].
  intros Hne. unfold ERC20.balanceOf; simpl.
  rewrite mget_insert_ne by done. by rewrite mget_insert_eq.
Qed.

Lemma transfer_short from to amount st :
  from ≠ 0 -> to ≠ 0 -> ERC20.balanceOf st from < amount ->
  ERC20.transfer from to amount st
  = Revert "ERC20: transfer amount exceeds balance".
Proof.
  intros Hf Ht Hlt. unfold ERC20.transfer.
  apply N.eqb_neq in Hf, Ht. rewrite Hf, Ht. simpl.
  destruct (N.leb_spec amount (ERC20.balanceOf st from)); [lia | done].
Qed.

Section PayOut.

Variables (this : address) (sbt : ClaimSBT.State) (total share : N).

Hypothesis this_not_zero : this ≠ 0.
Hypothesis share_not_zero : share ≠ 0.

Lemma payOut_outcome ids tok :
  (forall id, In id ids -> ClaimSBT._exists sbt id = true) ->
  (forall id, In id ids -> claimActive sbt id = true ->
              total * ClaimSBT.basisPoints (ClaimSBT.claim sbt id)
              <= MAX_UINT256) ->
  (forall id, In id ids -> ERC721._ownerOf (ClaimSBT.erc721 sbt) id ≠ this) ->
  let due := total_of (payouts this sbt total share ids) in
  if due <=? ERC20.balanceOf tok this
  then exists tok',
      ProjectVault.payOut this sbt ids total share tok = Ok tok'
      /\ ERC20.balanceOf tok' this = ERC20.balanceOf tok this - due
  else ProjectVault.payOut this sbt ids total share tok
       = Revert "ERC20: transfer amount exceeds balance".
Proof.
  revert tok. induction ids as [| id ids IH]; intros tok Hex Hmul Hown.
  - cbn. destruct (N.leb_spec 0 (ERC20.balanceOf tok this)); [| lia].
    exists tok. split; [done | lia].
  - assert (Hex' : forall id', In id' ids -> ClaimSBT._exists sbt id' = true)
      by (intros; apply Hex; by right).
    assert (Hmul' : forall id', In id' ids -> claimActive sbt id' = true ->
              total * ClaimSBT.basisPoints (ClaimSBT.claim sbt id')
              <= MAX_UINT256)
      by (intros; apply Hmul; [by right | done]).
    assert (Hown' : forall id', In id' ids ->
              ERC721._ownerOf (ClaimSBT.erc721 sbt) id' ≠ this)
      by (intros; apply Hown; by right).
    cbv zeta. rewrite payouts_cons, total_of_app.
    cbn [ProjectVault.payOut].
    rewrite getClaimData_exists by (apply Hex; by left).
    cbn [mbind Result_bind EVM.bind].
    fold (claimActive sbt id).
    destruct (claimActive sbt id) eqn:Ha; cbn [andb].
    + unfold EVM.mul.
      destruct (N.leb_spec
                  (total * ClaimSBT.basisPoints (ClaimSBT.claim sbt id))
                  MAX_UINT256) as [_ | Hbad];
        [| specialize (Hmul id (or_introl eq_refl) Ha); lia].
      cbn [mbind Result_bind EVM.bind]. unfold EVM.div.
      apply N.eqb_neq in share_not_zero as Hsz. rewrite Hsz.
      cbn [mbind Result_bind EVM.bind].
      fold (payoutOf sbt total share id).
      destruct (N.ltb_spec 0 (payoutOf sbt total share id)) as [Hp | Hp].
      * unfold ClaimSBT.ownerOf.
        rewrite exists_ownerOf by (apply Hex; by left).
        cbn [mbind Result_bind EVM.bind total_of fold_right snd].
        assert (Ho : ERC721._ownerOf (ClaimSBT.erc721 sbt) id ≠ 0).
        { specialize (Hex id (or_introl eq_refl)).
          unfold ClaimSBT._exists, ERC721._exists in Hex.
          apply negb_true_iff in Hex. by apply N.eqb_neq. }
        specialize (Hown id (or_introl eq_refl)).
        destruct (N.leb_spec (payoutOf sbt total share id)
                    (ERC20.balanceOf tok this)) as [Hfit | Hshort].
        -- destruct (transfer_total this _ _ tok this_not_zero Ho Hfit)
             as (tok1 & -> & Hb1).
           cbn [mbind Result_bind EVM.bind].
           specialize (IH tok1 Hex' Hmul' Hown'). cbv zeta in IH.
           rewrite (Hb1 Hown) in IH.
           destruct (N.leb_spec
                       (total_of (payouts this sbt total share ids))
                       (ERC20.balanceOf tok this
                        - payoutOf sbt total share id)) as [Hr | Hr].
           ++ destruct (N.leb_spec
                          (payoutOf sbt total share id + 0
                           + total_of (payouts this sbt total share ids))
                          (ERC20.balanceOf tok this)); [| lia].
              destruct IH as (tok' & -> & Hb').
              exists tok'. split; [done | lia].
           ++ destruct (N.leb_spec
                          (payoutOf sbt total share id + 0
                           + total_of (payouts this sbt total share ids))
                          (ERC20.balanceOf tok this)); [lia | done].
        -- rewrite (transfer_short this _ _ tok this_not_zero Ho Hshort).
           destruct (N.leb_spec
                       (payoutOf sbt total share id + 0
                        + total_of (payouts this sbt total share ids))
                       (ERC20.balanceOf tok this)); [lia | done].
      * cbn [total_of fold_right]. rewrite N.add_0_l.
        apply (IH tok Hex' Hmul' Hown').
    + cbn [total_of fold_right]. rewrite N.add_0_l.
      apply (IH tok Hex' Hmul' Hown').
Qed.

End PayOut.

Lemma payouts_within_total this sbt total ids :
  total_of (payouts this sbt total (activeShare sbt ids) ids) <= total.
Proof.
  destruct (N.eq_dec (activeShare sbt ids) 0) as [Hz | Hs].
  - rewrite Hz. clear Hz.
    induction ids as [| id ids IH]; [apply N.le_0_l |].
    rewrite payouts_cons, total_of_app.
    unfold payoutOf at 1. rewrite N.div_0_r, andb_false_r. by simpl.
  - etransitivity; [by apply payouts_total_le |].
    rewrite N.div_mul by done. lia.
Qed.

Lemma payouts_from this sbt total share ids t :
  In t (payouts this sbt total share ids) -> t.1.1 = this /\ 0 < t.2.
Proof.
  induction ids as [| id ids IH]; [done |].
  rewrite payouts_cons, in_app_iff. intros [Hin | Hin]; [| by apply IH].
  destruct (claimActive sbt id); simpl in Hin; [| done].
  destruct (N.ltb_spec 0 (payoutOf sbt total share id)); simpl in Hin;
    [| done].
  by destruct Hin as [<- | []].
Qed.

(** X15. A distribution never pays out more than the revenue that was
    pending.  The transfers a committed [distributeRevenue] adds to the
    token are all made by the vault, each of a positive amount, and their
    total is at most the sum of the pending entries, because each payout is
    rounded down. *)
Theorem distribution_pays_at_most_the_pending_total :
  forall this sender st sbt tok st' tok',
    ProjectVault.distributeRevenue this sender (st, sbt, tok)
    = Ok (st', tok') ->
    exists paid,
      ERC20.transfers tok' = ERC20.transfers tok ++ paid
      /\ (forall t, In t paid -> t.1.1 = this /\ 0 < t.2)
      /\ total_of paid <= pendingTotal (ProjectVault.revenueEntries st).
Proof.
  intros this sender st sbt tok st' tok' H.
  apply distributeRevenue_spec in H as (_ & _ & Hp & _).
  apply payOut_Ok in Hp as (Ht & _ & _).
  eexists. split; [exact Ht |]. split.
  - intros t. apply payouts_from.
  - apply payouts_within_total.
Qed.

Lemma distribution_pays_at_most_the_pending_total_witness :
  let w := ScenarioRevenue.shared 10000 3333 3333 3334 5000 10 in
  match ProjectVault.distributeRevenue Scenario.vaultAddress Scenario.admin
          (vault w, claimSBT w, flareToken w) with
  | Ok (_, tok') =>
      exists paid,
        ERC20.transfers tok' = ERC20.transfers (flareToken w) ++ paid
        /\ total_of paid <= 10
  | _ => False
  end.
Proof.
  cbv zeta.
  destruct (ProjectVault.distributeRevenue _ _ _)
    as [[st' tok'] | |] eqn:E; [| by vm_compute in E..].
  apply distribution_pays_at_most_the_pending_total in E
    as (paid & Ht & _ & Hle).
  exists paid. split; [done |].
  etransitivity; [exact Hle |]. by vm_compute.
Defined.

Lemma activeCount_of_share sbt ids :
  activeShare sbt ids ≠ 0 -> 0 < activeCount sbt ids.
Proof.
  induction ids as [| id ids IH]; simpl; [done |].
  destruct (claimActive sbt id); [lia |]. intros H. apply IH in H; lia.
Qed.

Lemma active_share_le sbt ids id :
  In id ids -> claimActive sbt id = true ->
  ClaimSBT.basisPoints (ClaimSBT.claim sbt id) <= activeShare sbt ids.
Proof.
  induction ids as [| id' ids IH]; simpl; [done |].
  intros [-> | Hin] Ha.
  - rewrite Ha. lia.
  - specialize (IH Hin Ha). lia.
Qed.

(** X16. A distribution commits only if the vault can pay.  For a vault
    that holds none of the claims, with the sums within [uint256],
    [distributeRevenue] called by the owner commits exactly when the
    vault's token balance covers the total of the payouts, and then lowers
    that balance by exactly this total and empties the queue; otherwise the
    whole call fails with "ERC20: transfer amount exceeds balance". *)
Theorem distribution_commits_iff_the_vault_is_funded :
  forall this st sbt tok,
    let ids := ClaimSBT.getProjectClaims sbt
                 (ProjectVault.projectId (ProjectVault.project st)) in
    let total := pendingTotal (ProjectVault.revenueEntries st) in
    let share := activeShare sbt ids in
    let due := total_of (payouts this sbt total share ids) in
    this ≠ 0 -> 0 < total -> share ≠ 0 ->
    total * share <= MAX_UINT256 ->
    activeCount sbt ids <= MAX_UINT256 ->
    (forall id, In id ids -> ClaimSBT._exists sbt id = true) ->
    (forall id, In id ids ->
                ERC721._ownerOf (ClaimSBT.erc721 sbt) id ≠ this) ->
    if due <=? ERC20.balanceOf tok this
    then exists st' tok',
        ProjectVault.distributeRevenue this (ProjectVault.owner st)
          (st, sbt, tok) = Ok (st', tok')
        /\ ERC20.balanceOf tok' this = ERC20.balanceOf tok this - due
        /\ ProjectVault.revenueEntries st' = []
    else ProjectVault.distributeRevenue this (ProjectVault.owner st)
           (st, sbt, tok)
         = Revert "ERC20: transfer amount exceeds balance".
Proof.
  intros this st sbt tok ids total share due Hthis Hpos Hshare Hmul Hcnt Hex
    Hown.
  assert (Hlen : (0 <? N.of_nat (length (ProjectVault.revenueEntries st)))
                 = true).
  { subst total. destruct (ProjectVault.revenueEntries st); simpl in *;
      [lia |]. apply N.ltb_lt. lia. }
  assert (Htot : total <= MAX_UINT256) by nia.
  assert (Hsh : share <= MAX_UINT256) by nia.
  pose proof (activeCount_of_share sbt ids Hshare) as Hac.
  assert (Hmul' : forall id, In id ids -> claimActive sbt id = true ->
            total * ClaimSBT.basisPoints (ClaimSBT.claim sbt id)
            <= MAX_UINT256).
  { intros id Hin Ha. pose proof (active_share_le sbt ids id Hin Ha).
    fold share in H. nia. }
  pose proof (payOut_outcome this sbt total share Hthis Hshare ids tok Hex
                Hmul' Hown) as Hout.
  cbv zeta in Hout. fold due in Hout.
  unfold ProjectVault.distributeRevenue. rewrite onlyOwner_self, Hlen. simpl.
  rewrite sumRevenue_total by done. simpl. rewrite !N.add_0_l.
  fold total. apply N.ltb_lt in Hpos as Hpos'. rewrite Hpos'. simpl.
  fold ids. rewrite countActive_total by (try done; lia). simpl.
  rewrite !N.add_0_l. apply N.ltb_lt in Hac as Hac'. rewrite Hac'. simpl.
  fold share.
  destruct (due <=? ERC20.balanceOf tok this).
  - destruct Hout as (tok' & -> & Hb). simpl. by eexists _, _.
  - by rewrite Hout.
Qed.

Lemma distribution_commits_iff_the_vault_is_funded_witness :
  let w := ScenarioRevenue.shared 100000 20000 30000 50000 100 1000 in
  ERC20.balanceOf (flareToken w) Scenario.vaultAddress = 100
  /\ total_of
       (payouts Scenario.vaultAddress (claimSBT w) 1000 10000
          (ClaimSBT.getProjectClaims (claimSBT w) 1)) = 1000
  /\ ProjectVault.distributeRevenue Scenario.vaultAddress
       (ProjectVault.owner (vault w)) (vault w, claimSBT w, flareToken w)
     = Revert "ERC20: transfer amount exceeds balance".
Proof.
  cbv zeta. split; [by vm_compute |]. split; [by vm_compute |].
  pose proof (distribution_commits_iff_the_vault_is_funded
                Scenario.vaultAddress
                (vault (ScenarioRevenue.shared 100000 20000 30000 50000 100
                          1000))
                (claimSBT (ScenarioRevenue.shared 100000 20000 30000 50000
                             100 1000))
                (flareToken (ScenarioRevenue.shared 100000 20000 30000 50000
                               100 1000))) as H.
  cbv zeta in H.
  assert (Hids : ClaimSBT.getProjectClaims
                   (claimSBT (ScenarioRevenue.shared 100000 20000 30000 50000
                                100 1000))
                   (ProjectVault.projectId
                      (ProjectVault.project
                         (vault (ScenarioRevenue.shared 100000 20000 30000
                                   50000 100 1000))))
                 = [0; 1; 2]) by (by vm_compute).
  rewrite Hids in H.
  match type of H with
  | _ -> _ -> _ -> _ -> _ -> _ -> _ -> if ?b then _ else _ =>
      replace b with false in H by (by vm_compute)
  end.
  apply H.
  - by vm_compute.
  - by vm_compute.
  - by vm_compute.
  - by vm_compute.
  - by vm_compute.
  - intros id [<- | [<- | [<- | []]]]; by vm_compute.
  - intros id [<- | [<- | [<- | []]]]; by vm_compute.
Defined.


(* ===================================================================== *)
(** ** The revenue splitter *)
(* ===================================================================== *)

Lemma transfer_balances from to amount st st' :
  ERC20.transfer from to amount st = Ok st' ->
  from ≠ 0 /\ to ≠ 0 /\ amount <= ERC20.balanceOf st from
  /\ ERC20.transfers st' = ERC20.transfers st ++ [(from, to, amount)]
  /\ forall h,
       ERC20.balanceOf st' h + (if decide (from = h) then amount else 0)
       = ERC20.balanceOf st h + (if decide (to = h) then amount else 0).
Proof.
  unfold ERC20.transfer. intros H. inv_ok H. ok_inv.
  apply negb_true_iff, N.eqb_neq in Ha, Hba. apply N.leb_le in Hbba.
  repeat split; try done.
  intros h. unfold ERC20.balanceOf in *; simpl.
  rewrite !mget_insert. repeat case_decide; subst; try done; lia.
Qed.

Lemma asset_transfer_Ok from to amount st st' :
  Asset.transfer from to amount st = Ok st' ->
  Asset._allowances st' = Asset._allowances st
  /\ ERC20.transfer from to amount (Asset.token st) = Ok (Asset.token st').
Proof. unfold Asset.transfer. intros H. inv_ok H. by ok_inv. Qed.

Lemma asset_transferFrom_Ok spender from to amount st st' :
  Asset.transferFrom spender from to amount st = Ok st' ->
  (Asset.allowance st from spender = MAX_UINT256
   \/ amount <= Asset.allowance st from spender)
  /\ ERC20.transfer from to amount (Asset.token st) = Ok (Asset.token st').
Proof.
  unfold Asset.transferFrom, Asset._spendAllowance, Asset._approve.
  intros H. inv_ok H. ok_inv.
  destruct (N.eqb_spec (Asset.allowance st from spender) MAX_UINT256)
    as [E | E]; simpl in Ha.
  - ok_inv. split; [by left | done].
  - inv_ok Ha. ok_inv. apply N.leb_le in Haa. split; [by right | done].
Qed.

Lemma sumHolders_Ok hs t c t' c' :
  RevenueSplitter.sumHolders hs t c = Ok (t', c') ->
  t' = t + countedShare hs /\ c' = c + countedHolders hs.
Proof.
  revert t c. induction hs as [| h hs IH]; intros t c H; simpl in *.
  - injection H as <- <-. lia.
  - destruct (RevenueSplitter.counted h).
    + inv_ok H. arith_inv. apply IH in Hbb. lia.
    + apply IH in H. lia.
Qed.

Lemma splitPayments_cons this amount total h hs :
  splitPayments this amount total (h :: hs)
  = (if RevenueSplitter.counted h && (0 <? shareOf amount total h)
     then [(this, RevenueSplitter.holder h, shareOf amount total h)]
     else [])
    ++ splitPayments this amount total hs.
Proof. reflexivity. Qed.

(** What the payout loop of [splitForProject] does when it commits. *)
Lemma payHoldersFor_Ok this pid amount total hs rcv asset rcv' asset' :
  RevenueSplitter.payHoldersFor this pid amount total hs (rcv, asset)
  = Ok (rcv', asset') ->
  let paid := splitPayments this amount total hs in
  ERC20.transfers (Asset.token asset')
  = ERC20.transfers (Asset.token asset) ++ paid
  /\ Asset._allowances asset' = Asset._allowances asset
  /\ (forall h, Asset.balanceOf asset' h + (if decide (this = h)
                                           then total_of paid else 0)
                = Asset.balanceOf asset h + received h paid)
  /\ (forall u, mget 0 rcv' (pid, u) = mget 0 rcv (pid, u) + received u paid)
  /\ (forall p u, p ≠ pid -> mget 0 rcv' (p, u) = mget 0 rcv (p, u)).
Proof.
  revert rcv asset. induction hs as [| h hs IH]; intros rcv asset H.
  - simpl in *. injection H as <- <-. rewrite app_nil_r.
    repeat split; try done; intros; [case_decide |]; lia.
  - cbn [RevenueSplitter.payHoldersFor] in H. cbv zeta.
    rewrite splitPayments_cons.
    destruct (RevenueSplitter.counted h); cbn [andb]; [| by apply IH].
    inv_ok H. arith_inv. fold (shareOf amount total h) in *.
    destruct (0 <? shareOf amount total h); [| by apply IH].
    inv_ok Hbb. arith_inv.
    apply asset_transfer_Ok in Hbba as (Hal & Htr).
    apply transfer_balances in Htr as (_ & _ & _ & Hlog & Hbal).
    apply IH in Hbbbb as (Hlog' & Hal' & Hbal' & Hrcv' & Hoth').
    cbv zeta in *. rewrite Hlog', Hlog, <- app_assoc.
    split; [done |]. split; [congruence |]. split; [| split].
    + intros u. specialize (Hbal u). specialize (Hbal' u).
      unfold Asset.balanceOf in *. rewrite total_of_app, received_app.
      simpl. repeat case_decide; simpl in *; lia.
    + intros u. rewrite Hrcv', received_app, mget_insert. simpl.
      repeat case_decide; simplify_eq; lia.
    + intros p u Hne. rewrite Hoth' by done.
      rewrite mget_insert_ne; [done |]. congruence.
Qed.

(** The payout loop of [split] is that of [splitForProject] for
    project 0. *)
Lemma payHolders_is_payHoldersFor this amount total hs ctx :
  RevenueSplitter.payHolders this amount total hs ctx
  = RevenueSplitter.payHoldersFor this 0 amount total hs ctx.
Proof.
  revert ctx. induction hs as [| h hs IH]; intros [rcv asset]; [done |].
  cbn [RevenueSplitter.payHolders RevenueSplitter.payHoldersFor].
  destruct (RevenueSplitter.counted h); [| apply IH].
  destruct (EVM.mul _ _); simpl; [| done..].
  destruct (EVM.div _ _); simpl; [| done..].
  destruct (0 <? _); [| apply IH].
  destruct (Asset.transfer _ _ _ _); simpl; [| done..].
  destruct (EVM.add _ _); simpl; [| done..]. apply IH.
Qed.

(** X17. [split] is [splitForProject] for project 0: the two functions,
    written out separately in the source, return the same result and leave
    the same state for every caller, asset, amount and list of holders. *)
Theorem split_is_splitForProject_zero :
  forall this sender now amount hs ctx,
    RevenueSplitter.split this sender now amount hs ctx
    = RevenueSplitter.splitForProject this sender now 0 amount hs ctx.
Proof.
  intros this sender now amount hs [st asset].
  unfold RevenueSplitter.split, RevenueSplitter.splitForProject.
  destruct (require _ _); simpl; [| done..].
  destruct (require _ _); simpl; [| done..].
  destruct (RevenueSplitter.sumHolders _ _ _) as [[total count] | |]; simpl;
    [| done..].
  destruct (require _ _); simpl; [| done..].
  destruct (require _ _); simpl; [| done..].
  destruct (Asset.transferFrom _ _ _ _ _); simpl; [| done..].
  by rewrite payHolders_is_payHoldersFor.
Qed.

Lemma splitPayments_total_le this amount total hs :
  total ≠ 0 ->
  total_of (splitPayments this amount total hs)
  <= amount * countedShare hs / total.
Proof.
  intros Hs. induction hs as [| h hs IH]; [apply N.le_0_l |].
  rewrite splitPayments_cons, total_of_app. simpl countedShare.
  rewrite N.mul_add_distr_l.
  etransitivity; [| by apply floor_sum_le].
  apply N.add_le_mono; [| done].
  destruct (RevenueSplitter.counted h); simpl.
  - destruct (N.ltb_spec 0 (shareOf amount total h)); simpl.
    + unfold shareOf. lia.
    + apply N.le_0_l.
  - rewrite N.mul_0_r. apply N.le_0_l.
Qed.

Lemma splitForProject_Ok this sender now pid amount hs st asset st' asset' :
  RevenueSplitter.splitForProject this sender now pid amount hs (st, asset)
  = Ok (st', asset') ->
  let total := countedShare hs in
  exists asset1 rcv,
    0 < amount /\ hs ≠ [] /\ 0 < total <= 10000
    /\ Asset.transferFrom this sender this amount asset = Ok asset1
    /\ RevenueSplitter.payHoldersFor this pid amount total hs
         (RevenueSplitter.userDistributions st, asset1) = Ok (rcv, asset')
    /\ st' = RevenueSplitter.mkState (RevenueSplitter.owner st)
               (<[pid := RevenueSplitter.getProjectDistributions st pid
                         ++ [RevenueSplitter.mkDistribution pid amount total
                               now (countedHolders hs)]]>
                  (RevenueSplitter.projectDistributions st))
               rcv.
Proof.
  unfold RevenueSplitter.splitForProject. intros H. inv_ok H. ok_inv.
  match goal with
  | Hs : RevenueSplitter.sumHolders _ _ _ = Ok _ |- _ =>
      apply sumHolders_Ok in Hs as [-> ->]
  end.
  rewrite !N.add_0_l in *.
  repeat match goal with
         | Hx : (_ <? _) = true |- _ => apply N.ltb_lt in Hx
         | Hx : (_ <=? _) = true |- _ => apply N.leb_le in Hx
         end.
  eexists _, _. repeat split; try done.
  intros ->. simpl in *. lia.
Qed.

(** X18. What a split does, in full.  A committed [splitForProject] (and
    so a committed [split], by X17) had a positive amount and counted
    holders whose shares add up to between 1 and 10000 basis points.  It
    pulls the amount from the caller and pays each counted holder
    [floor(amount * basisPoints / total)], skipping shares of zero; these
    payments never add up to more than the amount, and what rounding leaves
    stays in the splitter: its balance changes by the amount minus the
    payments (plus what it is paid as a holder).  It appends one record of
    the distribution under the project, and adds to each user's total under
    that project exactly what the user was paid; other projects' records
    and totals are untouched. *)
Theorem split_accounting :
  forall this sender now pid amount hs st asset st' asset',
    RevenueSplitter.splitForProject this sender now pid amount hs (st, asset)
    = Ok (st', asset') ->
    let total := countedShare hs in
    let paid := splitPayments this amount total hs in
    0 < amount /\ 0 < total <= 10000
    /\ ERC20.transfers (Asset.token asset')
       = ERC20.transfers (Asset.token asset) ++ (sender, this, amount) :: paid
    /\ total_of paid <= amount
    /\ (forall h,
          Asset.balanceOf asset' h
          + (if decide (sender = h) then amount else 0)
          + (if decide (this = h) then total_of paid else 0)
          = Asset.balanceOf asset h
            + (if decide (this = h) then amount else 0)
            + received h paid)
    /\ RevenueSplitter.getProjectDistributions st' pid
       = RevenueSplitter.getProjectDistributions st pid
         ++ [RevenueSplitter.mkDistribution pid amount total now
               (countedHolders hs)]
    /\ (forall u,
          RevenueSplitter.getUserTotalReceived st' pid u
          = RevenueSplitter.getUserTotalReceived st pid u + received u paid)
    /\ (forall p u, p ≠ pid ->
          RevenueSplitter.getProjectDistributions st' p
          = RevenueSplitter.getProjectDistributions st p
          /\ RevenueSplitter.getUserTotalReceived st' p u
             = RevenueSplitter.getUserTotalReceived st p u).
Proof.
  intros this sender now pid amount hs st asset st' asset' H.
  apply splitForProject_Ok in H
    as (asset1 & rcv & Hamt & _ & [Hpos Hmax] & Hpull & Hpay & ->).
  apply asset_transferFrom_Ok in Hpull as (_ & Hpull).
  apply transfer_balances in Hpull as (_ & _ & _ & Hlog1 & Hbal1).
  apply payHoldersFor_Ok in Hpay as (Hlog & _ & Hbal & Hrcv & Hoth).
  cbv zeta in *.
  split; [done |]. split; [done |]. split.
  { rewrite Hlog, Hlog1, <- app_assoc. done. }
  split.
  { etransitivity; [apply splitPayments_total_le; lia |].
    rewrite N.div_mul by lia. lia. }
  split.
  { intros h. specialize (Hbal h). specialize (Hbal1 h).
    unfold Asset.balanceOf in *. repeat case_decide; lia. }
  split.
  { unfold RevenueSplitter.getProjectDistributions at 1. simpl.
    by rewrite mget_insert_eq. }
  split; [exact Hrcv |].
  intros p u Hne. split.
  - unfold RevenueSplitter.getProjectDistributions at 1. simpl.
    by rewrite mget_insert_ne.
  - by apply Hoth.
Qed.

Lemma split_accounting_witness :
  let asset :=
    Asset.mkState (ERC20.deploy Scenario.admin)
      {[ (Scenario.admin, 0x59) := 1000 ]} in
  let hs := [ RevenueSplitter.mkHolder Scenario.alice 3333 true;
              RevenueSplitter.mkHolder Scenario.bob 3333 true;
              RevenueSplitter.mkHolder Scenario.carol 3334 true;
              RevenueSplitter.mkHolder 0xD0 5000 false ] in
  match RevenueSplitter.splitForProject 0x59 Scenario.admin 1000 7 10 hs
          (RevenueSplitter.deploy Scenario.admin, asset) with
  | Ok (st', asset') =>
      List.map (Asset.balanceOf asset')
        [Scenario.alice; Scenario.bob; Scenario.carol; 0xD0; 0x59]
      = [3; 3; 3; 0; 1]
      /\ total_of (splitPayments 0x59 10 (countedShare hs) hs) <= 10
  | _ => False
  end.
Proof.
  cbv zeta.
  destruct (RevenueSplitter.splitForProject _ _ _ _ _ _ _)
    as [[st' asset'] | |] eqn:E; [| by vm_compute in E..].
  split.
  - vm_compute in E. injection E as <- <-. by vm_compute.
  - by apply split_accounting in E as (_ & _ & _ & Hle & _).
Defined.

(** X19. The owner can always take out what the splitter holds.
    [emergencyWithdraw], called by the owner of a splitter at a non-zero
    address, commits whatever the balance is, zero included, and moves the
    splitter's entire balance of the asset to the owner; the records of the
    splitter are not touched.  For any other caller it fails with the
    [Ownable] error. *)
Theorem emergencyWithdraw_sends_the_whole_balance_to_the_owner :
  (forall this st asset,
      this ≠ 0 -> RevenueSplitter.owner st ≠ 0 ->
      exists asset',
        RevenueSplitter.emergencyWithdraw this (RevenueSplitter.owner st)
          (st, asset) = Ok (st, asset')
        /\ ERC20.transfers (Asset.token asset')
           = ERC20.transfers (Asset.token asset)
             ++ [(this, RevenueSplitter.owner st, Asset.balanceOf asset this)]
        /\ (RevenueSplitter.owner st ≠ this ->
            Asset.balanceOf asset' this = 0
            /\ Asset.balanceOf asset' (RevenueSplitter.owner st)
               = Asset.balanceOf asset (RevenueSplitter.owner st)
                 + Asset.balanceOf asset this))
  /\ (forall this sender st asset,
        sender ≠ RevenueSplitter.owner st ->
        RevenueSplitter.emergencyWithdraw this sender (st, asset)
        = Revert "Ownable: caller is not the owner").
Proof.
  split.
  - intros this st asset Hthis Hown.
    unfold RevenueSplitter.emergencyWithdraw. rewrite onlyOwner_self. simpl.
    destruct (transfer_total this (RevenueSplitter.owner st)
                (Asset.balanceOf asset this) (Asset.token asset) Hthis Hown)
      as (t' & Ht & _); [unfold Asset.balanceOf; lia |].
    unfold Asset.transfer. rewrite Ht. simpl. eexists. split; [done |].
    apply transfer_balances in Ht as (_ & _ & _ & Hlog & Hbal).
    split; [done |]. intros Hne.
    pose proof (Hbal this) as H1.
    pose proof (Hbal (RevenueSplitter.owner st)) as H2.
    unfold Asset.balanceOf in *; simpl.
    repeat case_decide; try done; lia.
  - intros this sender st asset Hne.
    unfold RevenueSplitter.emergencyWithdraw. by rewrite onlyOwner_other.
Qed.

Lemma emergencyWithdraw_sends_the_whole_balance_to_the_owner_witness :
  let asset :=
    Asset.mkState
      (ERC20.mkState Scenario.admin {[ 0x59 := 7 ]} 7 []) ∅ in
  exists asset',
    RevenueSplitter.emergencyWithdraw 0x59 Scenario.admin
      (RevenueSplitter.deploy Scenario.admin, asset)
    = Ok (RevenueSplitter.deploy Scenario.admin, asset')
    /\ ERC20.transfers (Asset.token asset') = [(0x59, Scenario.admin, 7)].
Proof.
  cbv zeta.
  destruct (proj1 emergencyWithdraw_sends_the_whole_balance_to_the_owner
              0x59 (RevenueSplitter.deploy Scenario.admin)
              (Asset.mkState
                 (ERC20.mkState Scenario.admin {[ 0x59 := 7 ]} 7 []) ∅))
    as (asset' & E & Hlog & _); [by vm_compute.. |].
  exists asset'. split; [exact E |]. rewrite Hlog. by vm_compute.
Defined.


(* ===================================================================== *)
(** ** The badge: decimal rendering of ids *)
(* ===================================================================== *)

Lemma size_nat_zero (v : N) : N.size_nat v = 0%nat -> v = 0.
Proof. destruct v as [| p]; [done |]. by destruct p. Qed.

Lemma size_nat_div10 (v : N) :
  v ≠ 0 -> (N.size_nat (v / 10) < N.size_nat v)%nat.
Proof.
  intros Hv. destruct v as [| p]; [done |].
  destruct (N.pos p / 10) as [| q] eqn:E.
  - simpl. destruct p; simpl; lia.
  - assert (Hle : N.pos (q~0)%positive <= N.pos p).
    { pose proof (N.Div0.mul_div_le (N.pos p) 10) as H.
      rewrite E in H. lia. }
    change (N.size_nat (N.pos q)) with (Pos.size_nat q).
    change (N.size_nat (N.pos p)) with (Pos.size_nat p).
    assert (Hs : (Pos.size_nat (q~0)%positive <= Pos.size_nat p)%nat).
    { destruct (Pos.eq_dec (q~0)%positive p) as [<- | Hne]; [done |].
      apply Pos.size_nat_monotone. lia. }
    simpl in Hs. lia.
Qed.

Lemma size_nat_bound (v : N) :
  v <= MAX_UINT256 -> (N.size_nat v <= 256)%nat.
Proof.
  intros Hle. destruct v as [| p]; [simpl; lia |].
  change (N.size_nat (N.pos p)) with (Pos.size_nat p).
  destruct (N.eq_dec (N.pos p) MAX_UINT256) as [E | E].
  - injection E as ->. vm_compute. lia.
  - assert (Hlt : (p < 2 ^ 256 - 1)%positive).
    { unfold MAX_UINT256 in *.
      change (2 ^ 256 - 1) with (N.pos (2 ^ 256 - 1)) in *. lia. }
    apply Pos.size_nat_monotone in Hlt.
    replace (Pos.size_nat (2 ^ 256 - 1)) with 256%nat in Hlt
      by (vm_compute; reflexivity).
    done.
Qed.

Lemma countDigitsFuel_decimal fuel v d :
  d + N.of_nat fuel <= MAX_UINT256 ->
  XLS20Badge.countDigitsFuel fuel v d
  = Ok (d + N.of_nat (length (decimal fuel v))).
Proof.
  revert v d. induction fuel as [| fuel IH]; intros v d Hle; simpl.
  - f_equal. lia.
  - destruct (v =? 0); simpl; [f_equal; lia |].
    unfold EVM.add. destruct (N.leb_spec (d + 1) MAX_UINT256); [| lia].
    simpl. rewrite IH by lia. f_equal. rewrite length_app. simpl. lia.
Qed.

Lemma fillDigitsFuel_decimal fuel v mid suf :
  length mid = length (decimal fuel v) ->
  XLS20Badge.fillDigitsFuel fuel v (N.of_nat (length mid)) (mid ++ suf)
  = Ok (decimal fuel v ++ suf).
Proof.
  revert v mid suf. induction fuel as [| fuel IH]; intros v mid suf Hlen;
    simpl in *.
  - by destruct mid.
  - destruct (v =? 0); [by destruct mid |].
    rewrite length_app in Hlen. simpl in Hlen.
    assert (Hne : mid ≠ []) by (intros ->; simpl in Hlen; lia).
    destruct (exists_last Hne) as (mid' & x & ->).
    rewrite length_app in *. simpl in *.
    unfold EVM.sub.
    destruct (N.leb_spec 1 (N.of_nat (length mid' + 1))); [| lia].
    cbn [mbind Result_bind EVM.bind].
    replace (N.of_nat (length mid' + 1) - 1) with (N.of_nat (length mid'))
      by lia.
    unfold XLS20Badge.store. rewrite !length_app. simpl.
    destruct (N.ltb_spec (N.of_nat (length mid'))
                (N.of_nat (length mid' + 1 + length suf))); [| lia].
    cbn [mbind Result_bind EVM.bind].
    rewrite Nat2N.id, <- app_assoc. simpl.
    rewrite (insert_app_r_alt mid') by lia.
    rewrite Nat.sub_diag. simpl.
    assert (Hb : (48 + v mod 10) mod 256 = 48 + v mod 10).
    { pose proof (N.mod_upper_bound v 10). apply N.mod_small. lia. }
    rewrite Hb, IH by lia. by rewrite <- app_assoc.
Qed.

Lemma decimal_of_bytes_snoc bs b :
  decimal_of_bytes (bs ++ [b]) = decimal_of_bytes bs * 10 + (b - 48).
Proof. unfold decimal_of_bytes. by rewrite fold_left_app. Qed.

Lemma decimal_value_spec fuel v :
  (N.size_nat v <= fuel)%nat ->
  decimal_of_bytes (decimal fuel v) = v
  /\ Forall (fun b => 48 <= b <= 57) (decimal fuel v)
  /\ (v ≠ 0 -> exists b rest, decimal fuel v = b :: rest /\ b ≠ 48).
Proof.
  revert v. induction fuel as [| fuel IH]; intros v Hs.
  - assert (v = 0) as -> by (apply size_nat_zero; lia). by simpl.
  - simpl. destruct (N.eqb_spec v 0) as [-> | Hv]; [by simpl |].
    pose proof (size_nat_div10 v Hv) as Hlt.
    destruct (IH (v / 10)) as (Hval & Hall & Hhd); [lia |].
    assert (Hm : v mod 10 < 10) by (by apply N.mod_upper_bound).
    split; [| split].
    + rewrite decimal_of_bytes_snoc, Hval.
      pose proof (N.Div0.div_mod v 10) as Hdm. revert Hdm.
      generalize (v / 10) (v mod 10). intros q r Hdm. clear - Hdm. lia.
    + apply Forall_app. split; [done |].
      constructor; [| done]. revert Hm. generalize (v mod 10). intros; lia.
    + intros _. destruct (N.eq_dec (v / 10) 0) as [Hz | Hnz].
      * rewrite Hz. replace (decimal fuel 0) with (@nil N)
          by (by destruct fuel).
        simpl. eexists _, _. split; [done |].
        assert (Hsm : v mod 10 = v)
          by (apply N.mod_small; by apply N.div_small_iff).
        rewrite Hsm. lia.
      * destruct (Hhd Hnz) as (b & rest & -> & Hb).
        simpl. by eexists _, _.
Qed.

Lemma string_of_bytes_list (bs : bytes) :
  Forall (fun b => b < 256) bs ->
  List.map N_of_ascii (list_ascii_of_string (XLS20Badge.string_of_bytes bs))
  = bs.
Proof.
  intros Hall. unfold XLS20Badge.string_of_bytes.
  rewrite list_ascii_of_string_of_list_ascii, List.map_map.
  induction Hall as [| b bs Hb _ IH]; [done |].
  simpl. by rewrite IH, N_ascii_embedding.
Qed.

Lemma decimal_value_of_bytes (bs : bytes) :
  Forall (fun b => b < 256) bs ->
  decimal_value (XLS20Badge.string_of_bytes bs) = decimal_of_bytes bs.
Proof.
  intros Hall. unfold decimal_value, decimal_of_bytes.
  rewrite <- (string_of_bytes_list bs Hall) at 2.
  generalize (list_ascii_of_string (XLS20Badge.string_of_bytes bs)).
  intros l. generalize 0. induction l as [| c l IH]; intros acc; [done |].
  simpl. apply IH.
Qed.

Lemma all_digits_of_bytes (bs : bytes) :
  Forall (fun b => 48 <= b <= 57) bs ->
  all_digits (XLS20Badge.string_of_bytes bs) = true.
Proof.
  intros Hall. unfold all_digits, XLS20Badge.string_of_bytes.
  rewrite list_ascii_of_string_of_list_ascii.
  induction Hall as [| b bs Hb _ IH]; [done |].
  simpl. rewrite IH, N_ascii_embedding by lia.
  destruct (N.leb_spec 48 b); [| lia]. destruct (N.leb_spec b 57); [| lia].
  done.
Qed.

(** [_toString] on a non-zero value returns its decimal digits. *)
Lemma toString_decimal v :
  v ≠ 0 -> v <= MAX_UINT256 ->
  XLS20Badge._toString v
  = Ok (XLS20Badge.string_of_bytes (decimal (N.size_nat v) v)).
Proof.
  intros Hv Hmax. unfold XLS20Badge._toString.
  apply N.eqb_neq in Hv. rewrite Hv.
  unfold XLS20Badge.countDigits, XLS20Badge.fillDigits.
  pose proof (size_nat_bound v Hmax) as Hs.
  rewrite countDigitsFuel_decimal
    by (unfold MAX_UINT256; assert (2 ^ 9 <= 2 ^ 256)
          by (apply N.pow_le_mono_r; lia); lia).
  cbn [mbind Result_bind EVM.bind]. rewrite N.add_0_l, Nat2N.id.
  pose proof (fillDigitsFuel_decimal (N.size_nat v) v
                (replicate (length (decimal (N.size_nat v) v)) 0) []) as Hf.
  rewrite length_replicate, !app_nil_r in Hf. by rewrite Hf.
Qed.

(** X20. [_toString] renders a [uint256] in decimal.  For every value it
    returns (it never runs out of bounds or underflows its index) a
    non-empty string of the characters '0' to '9' that denotes the value and
    has no leading zero unless the value is 0.  So it is injective, and the
    XRPL token ids ["XLS20_" + _toString(badgeId)] generated for two
    different badges differ. *)
Theorem toString_renders_decimal :
  (forall v,
      v <= MAX_UINT256 ->
      exists s,
        XLS20Badge._toString v = Ok s
        /\ decimal_value s = v
        /\ all_digits s = true
        /\ s ≠ ""
        /\ (v ≠ 0 -> forall rest, s ≠ String "0" rest))
  /\ (forall a b ida idb,
        a <= MAX_UINT256 -> b <= MAX_UINT256 ->
        XLS20Badge.generateXRPLTokenId a = Ok ida ->
        XLS20Badge.generateXRPLTokenId b = Ok idb ->
        a ≠ b -> ida ≠ idb).
Proof.
  assert (Hmain : forall v,
             v <= MAX_UINT256 ->
             exists s,
               XLS20Badge._toString v = Ok s
               /\ decimal_value s = v
               /\ all_digits s = true
               /\ s ≠ ""
               /\ (v ≠ 0 -> forall rest, s ≠ String "0" rest)).
  { intros v Hmax. destruct (N.eq_dec v 0) as [-> | Hv].
    - exists "0". by repeat split.
    - rewrite toString_decimal by done. eexists. split; [reflexivity |].
      destruct (decimal_value_spec (N.size_nat v) v (le_n _))
        as (Hval & Hall & Hhd).
      assert (Hbytes : Forall (fun b => b < 256) (decimal (N.size_nat v) v))
        by (eapply Forall_impl; [exact Hall |]; simpl; intros; lia).
      destruct (Hhd Hv) as (b & rest & Hd & Hb).
      assert (Hb48 : 48 <= b <= 57)
        by (rewrite Hd in Hall; by apply Forall_cons in Hall as [? _]).
      split; [by rewrite decimal_value_of_bytes |].
      split; [by apply all_digits_of_bytes |].
      rewrite Hd. unfold XLS20Badge.string_of_bytes. simpl.
      split; [done |]. intros _ rest' [= E _].
      apply (f_equal N_of_ascii) in E.
      rewrite N_ascii_embedding in E by lia. by vm_compute in E. }
  split; [exact Hmain |].
  intros a b ida idb Ha Hb Hida Hidb Hne ->.
  unfold XLS20Badge.generateXRPLTokenId in *.
  destruct (Hmain a Ha) as (sa & Ea & Hva & _).
  destruct (Hmain b Hb) as (sb & Eb & Hvb & _).
  rewrite Ea in Hida. rewrite Eb in Hidb.
  cbn [mbind Result_bind EVM.bind] in Hida, Hidb.
  assert (E : String.append "XLS20_" sa = String.append "XLS20_" sb)
    by congruence.
  cbv [String.append] in E. injection E as ->. congruence.
Qed.

Lemma toString_renders_decimal_witness :
  XLS20Badge._toString 1234567890 = Ok "1234567890"
  /\ decimal_value "1234567890" = 1234567890
  /\ XLS20Badge.generateXRPLTokenId 7 = Ok "XLS20_7"
  /\ XLS20Badge.generateXRPLTokenId 70 = Ok "XLS20_70"
  /\ exists s, XLS20Badge._toString MAX_UINT256 = Ok s
               /\ decimal_value s = MAX_UINT256.
Proof.
  split; [vm_compute; reflexivity |]. split; [vm_compute; reflexivity |].
  split; [vm_compute; reflexivity |]. split; [vm_compute; reflexivity |].
  destruct (proj1 toString_renders_decimal MAX_UINT256 (N.le_refl _))
    as (s & E & Hv & _).
  exists s. split; [exact E | exact Hv].
Defined.

(* ===================================================================== *)
(** ** The badge: minting, burning and the indexes *)
(* ===================================================================== *)

Lemma generateXRPLTokenId_total badgeId :
  badgeId <= MAX_UINT256 ->
  exists s, XLS20Badge._toString badgeId = Ok s
            /\ XLS20Badge.generateXRPLTokenId badgeId
               = Ok (String.append "XLS20_" s).
Proof.
  intros Hle.
  assert (exists s, XLS20Badge._toString badgeId = Ok s) as [s E].
  { destruct (N.eq_dec badgeId 0) as [-> | Hne]; [by exists "0" |].
    eexists. by apply toString_decimal. }
  exists s. split; [done |].
  unfold XLS20Badge.generateXRPLTokenId. by rewrite E.
Qed.

Lemma mintBadge_Ok sender now to rewardId pid bp uri st id st' :
  XLS20Badge.mintBadge sender now to rewardId pid bp uri st = Ok (id, st') ->
  exists e' xrplId,
    (XLS20Badge.isMinter st sender = true \/ sender = XLS20Badge.owner st)
    /\ XLS20Badge.getBadgeFromReward st rewardId = 0
    /\ id = XLS20Badge._tokenIdCounter st
    /\ id + 1 <= MAX_UINT256
    /\ ERC721._safeMint ERC721.no_hook to id (XLS20Badge.erc721 st) = Ok e'
    /\ XLS20Badge.generateXRPLTokenId id = Ok xrplId
    /\ st' = XLS20Badge.mkState (XLS20Badge.owner st) e'
               (<[id := uri]> (XLS20Badge._tokenURIs st)) (id + 1)
               (<[id := XLS20Badge.mkBadge rewardId pid bp xrplId "" now true]>
                  (XLS20Badge.badgeData st))
               (<[rewardId := id]> (XLS20Badge.rewardToBadge st))
               (<[xrplId := id]> (XLS20Badge.xrplTokenToBadge st))
               (XLS20Badge.xrplBridge st) (XLS20Badge.authorizedMinters st).
Proof.
  unfold XLS20Badge.mintBadge. intros H. inv_ok H. arith_inv. ok_inv.
  apply N.eqb_eq in Hba. apply orb_true_iff in Ha.
  eexists _, _. repeat split; try done.
  destruct Ha as [? | ?%N.eqb_eq]; auto.
Qed.

Lemma mintBadge_commits now to rewardId pid bp uri st :
  to ≠ 0 ->
  XLS20Badge.getBadgeFromReward st rewardId = 0 ->
  XLS20Badge._tokenIdCounter st + 1 <= MAX_UINT256 ->
  XLS20Badge._exists st (XLS20Badge._tokenIdCounter st) = false ->
  exists st',
    XLS20Badge.mintBadge (XLS20Badge.owner st) now to rewardId pid bp uri st
    = Ok (XLS20Badge._tokenIdCounter st, st').
Proof.
  intros Hto Hr Hctr Hfresh. unfold XLS20Badge.mintBadge.
  rewrite N.eqb_refl, orb_true_r, Hr. simpl.
  unfold EVM.add. apply N.leb_le in Hctr as Hctr'. rewrite Hctr'. simpl.
  rewrite (safeMint_fresh _ _ _ _ Hto Hfresh eq_refl). simpl.
  unfold ERC721._exists at 1, ERC721._ownerOf. simpl.
  rewrite mget_insert_eq. apply N.eqb_neq in Hto as Hto'. rewrite Hto'.
  simpl.
  destruct (generateXRPLTokenId_total (XLS20Badge._tokenIdCounter st))
    as (s & _ & ->); [lia |].
  simpl. by eexists.
Qed.

(** X21. The badge contract repeats the sentinel slip of the reward
    contract: badge ids start at 0, and 0 in [rewardToBadge] also means "no
    badge".  In a fresh contract the first badge gets id 0, so its reward
    still reads as having no badge and a second [mintBadge] for the same
    reward is accepted: badges 0 and 1 are then both active mirrors of that
    reward.  A badge with a non-zero id is protected: after it is minted,
    the owner's [mintBadge] for the same reward fails with
    "Badge already exists for this reward". *)
Theorem badge_id_zero_is_the_sentinel :
  (forall deployer bridge now now' to to' r pid bp uri pid' bp' uri',
      to ≠ 0 -> to' ≠ 0 ->
      exists st1 st2,
        XLS20Badge.mintBadge deployer now to r pid bp uri
          (XLS20Badge.deploy deployer bridge) = Ok (0, st1)
        /\ XLS20Badge.isBadgeActive st1 0 = true
        /\ XLS20Badge.getBadgeFromReward st1 r = 0
        /\ XLS20Badge.mintBadge deployer now' to' r pid' bp' uri' st1
           = Ok (1, st2)
        /\ (forall id, id = 0 \/ id = 1 ->
              XLS20Badge.isBadgeActive st2 id = true
              /\ XLS20Badge.rewardTokenId (XLS20Badge.badge st2 id) = r))
  /\ (forall sender now to r pid bp uri st id st',
        XLS20Badge.mintBadge sender now to r pid bp uri st = Ok (id, st') ->
        id ≠ 0 ->
        forall now' to' pid' bp' uri',
          XLS20Badge.mintBadge (XLS20Badge.owner st') now' to' r pid' bp' uri'
            st'
          = Revert "Badge already exists for this reward").
Proof.
  split.
  - intros deployer bridge now now' to to' r pid bp uri pid' bp' uri' Hto Hto'.
    destruct (mintBadge_commits now to r pid bp uri
                (XLS20Badge.deploy deployer bridge))
      as (st1 & E1); try done.
    apply mintBadge_Ok in E1 as H1.
    destruct H1 as (e1 & x1 & _ & _ & _ & _ & Hm1 & Hx1 & Hst1).
    apply safeMint_Ok_state in Hm1 as (_ & _ & ->).
    simpl in Hst1.
    assert (Hr1 : XLS20Badge.getBadgeFromReward st1 r = 0).
    { rewrite Hst1. unfold XLS20Badge.getBadgeFromReward. simpl.
      by rewrite mget_insert_eq. }
    assert (Hc1 : XLS20Badge._tokenIdCounter st1 = 1) by (by rewrite Hst1).
    destruct (mintBadge_commits now' to' r pid' bp' uri' st1)
      as (st2 & E2); try done.
    { rewrite Hc1. by vm_compute. }
    { rewrite Hc1, Hst1.
      unfold XLS20Badge._exists, ERC721._exists, ERC721._ownerOf. simpl.
      rewrite mget_insert_ne by done. by rewrite mget_empty. }
    assert (Ho1 : XLS20Badge.owner st1 = deployer) by (by rewrite Hst1).
    rewrite Ho1, Hc1 in E2.
    exists st1, st2. split; [done |]. split.
    { rewrite Hst1.
      unfold XLS20Badge.isBadgeActive, XLS20Badge._exists, ERC721._exists,
        ERC721._ownerOf, XLS20Badge.badge. simpl.
      rewrite !mget_insert_eq. apply N.eqb_neq in Hto. by rewrite Hto. }
    split; [done |]. split; [done |].
    apply mintBadge_Ok in E2
      as (e2 & x2 & _ & _ & _ & _ & Hm2 & Hx2 & Hst2).
    apply safeMint_Ok_state in Hm2 as (_ & _ & ->).
    rewrite Hst1 in Hst2. simpl in Hst2. rewrite Hst2.
    unfold XLS20Badge.isBadgeActive, XLS20Badge._exists, ERC721._exists,
      ERC721._ownerOf, XLS20Badge.badge. simpl.
    apply N.eqb_neq in Hto, Hto'.
    intros id [-> | ->].
    + rewrite !(mget_insert_ne _ _ 1 0) by done.
      rewrite !mget_insert_eq. by rewrite Hto.
    + rewrite !mget_insert_eq. by rewrite Hto'.
  - intros sender now to r pid bp uri st id st' H Hid now' to' pid' bp' uri'.
    apply mintBadge_Ok in H as (e' & x & _ & _ & _ & _ & _ & _ & ->).
    unfold XLS20Badge.mintBadge, XLS20Badge.getBadgeFromReward. simpl.
    rewrite N.eqb_refl, orb_true_r, mget_insert_eq. simpl.
    apply N.eqb_neq in Hid. by rewrite Hid.
Qed.

Lemma badge_id_zero_is_the_sentinel_witness :
  exists st1 st2,
    XLS20Badge.mintBadge Scenario.admin 10 Scenario.alice 5 1 2500 "ipfs://a"
      (XLS20Badge.deploy Scenario.admin 0xB1) = Ok (0, st1)
    /\ XLS20Badge.isBadgeActive st1 0 = true
    /\ XLS20Badge.getBadgeFromReward st1 5 = 0
    /\ XLS20Badge.mintBadge Scenario.admin 20 Scenario.bob 5 1 2500 "ipfs://b"
         st1 = Ok (1, st2)
    /\ (forall id, id = 0 \/ id = 1 ->
          XLS20Badge.isBadgeActive st2 id = true
          /\ XLS20Badge.rewardTokenId (XLS20Badge.badge st2 id) = 5).
Proof.
  apply (proj1 badge_id_zero_is_the_sentinel); by vm_compute.
Defined.

Lemma burnBadge_Ok sender badgeId st st' :
  XLS20Badge.burnBadge sender badgeId st = Ok st' ->
  let data := XLS20Badge.badge st badgeId in
  exists e',
    XLS20Badge._exists st badgeId = true
    /\ (ERC721._ownerOf (XLS20Badge.erc721 st) badgeId = sender
        \/ sender = XLS20Badge.owner st)
    /\ XLS20Badge.isActive data = true
    /\ ERC721._burn ERC721.no_hook badgeId (XLS20Badge.erc721 st) = Ok e'
    /\ XLS20Badge.erc721 st' = e'
    /\ XLS20Badge._tokenIdCounter st' = XLS20Badge._tokenIdCounter st
    /\ XLS20Badge.owner st' = XLS20Badge.owner st
    /\ XLS20Badge.badgeData st'
       = <[badgeId := XLS20Badge.mkBadge (XLS20Badge.rewardTokenId data)
                        (XLS20Badge.projectId data)
                        (XLS20Badge.basisPoints data)
                        (XLS20Badge.xrplTokenId data)
                        (XLS20Badge.xrplAccount data)
                        (XLS20Badge.mintTimestamp data) false]>
           (XLS20Badge.badgeData st)
    /\ XLS20Badge.rewardToBadge st'
       = delete (XLS20Badge.rewardTokenId data) (XLS20Badge.rewardToBadge st)
    /\ XLS20Badge.xrplTokenToBadge st'
       = delete (XLS20Badge.xrplTokenId data) (XLS20Badge.xrplTokenToBadge st).
Proof.
  unfold XLS20Badge.burnBadge. intros H. inv_ok H. ok_inv. simpl.
  match goal with
  | Ho : XLS20Badge.ownerOf _ _ = Ok _ |- _ =>
      apply ownerOf_Ok in Ho as (-> & _ & _)
  end.
  eexists. repeat split; try done.
  match goal with
  | Hx : (_ || _) = true |- _ =>
      apply orb_true_iff in Hx as [?%N.eqb_eq | ?%N.eqb_eq]; auto
  end.
Qed.

Lemma burnBadge_commits sender badgeId st :
  XLS20Badge._exists st badgeId = true ->
  (ERC721._ownerOf (XLS20Badge.erc721 st) badgeId = sender
   \/ sender = XLS20Badge.owner st) ->
  XLS20Badge.isActive (XLS20Badge.badge st badgeId) = true ->
  exists st', XLS20Badge.burnBadge sender badgeId st = Ok st'.
Proof.
  intros Hex Hauth Hact. unfold XLS20Badge.burnBadge.
  rewrite Hex. simpl. unfold XLS20Badge.ownerOf.
  rewrite (exists_ownerOf _ _ Hex). simpl.
  assert (Ha : (ERC721._ownerOf (XLS20Badge.erc721 st) badgeId =? sender)
               || (sender =? XLS20Badge.owner st) = true).
  { apply orb_true_iff. destruct Hauth as [-> | ->]; [left | right];
      apply N.eqb_refl. }
  rewrite Ha, Hact. simpl.
  unfold ERC721._burn. rewrite (exists_ownerOf _ _ Hex). simpl.
  by eexists.
Qed.

(** X22. Minting a badge and burning it again clears every trace but the
    id.  After a committed [mintBadge] the badge is active, owned by the
    recipient, found under its reward and under its generated XRPL token id
    ["XLS20_<id>"].  The holder's [burnBadge] then commits: the token is
    gone, [isBadgeActive] is false, [getBadgeData] fails with
    "Badge does not exist", both index entries read 0 again, and a second
    [burnBadge] fails with "Badge does not exist".  The id counter is not
    wound back, so the id is never given to another badge. *)
Theorem badge_mint_then_burn :
  forall sender now to r pid bp uri st id st1,
    XLS20Badge.mintBadge sender now to r pid bp uri st = Ok (id, st1) ->
    exists digits st2,
      XLS20Badge._toString id = Ok digits
      /\ XLS20Badge.ownerOf st1 id = Ok to
      /\ XLS20Badge.getBadgeData st1 id
         = Ok (XLS20Badge.mkBadge r pid bp (String.append "XLS20_" digits)
                 "" now true)
      /\ XLS20Badge.getBadgeFromReward st1 r = id
      /\ XLS20Badge.getBadgeFromXRPLToken st1 (String.append "XLS20_" digits)
         = id
      /\ XLS20Badge.tokenURI st1 id = Ok uri
      /\ XLS20Badge.burnBadge to id st1 = Ok st2
      /\ XLS20Badge._exists st2 id = false
      /\ XLS20Badge.isBadgeActive st2 id = false
      /\ XLS20Badge.getBadgeData st2 id = Revert "Badge does not exist"
      /\ XLS20Badge.getBadgeFromReward st2 r = 0
      /\ XLS20Badge.getBadgeFromXRPLToken st2 (String.append "XLS20_" digits)
         = 0
      /\ XLS20Badge._tokenIdCounter st2 = id + 1
      /\ forall caller,
           XLS20Badge.burnBadge caller id st2 = Revert "Badge does not exist".
Proof.
  intros sender now to r pid bp uri st id st1 H.
  apply mintBadge_Ok in H
    as (e' & x & _ & _ & -> & Hctr & Hm & Hx & ->).
  destruct (generateXRPLTokenId_total (XLS20Badge._tokenIdCounter st))
    as (digits & Hd & Hg); [lia |].
  rewrite Hg in Hx. injection Hx as <-.
  apply safeMint_Ok_state in Hm as (Hto & Hfresh & ->).
  set (id := XLS20Badge._tokenIdCounter st) in *.
  match goal with
  | |- exists _ _, _ /\ XLS20Badge.ownerOf ?s _ = _ /\ _ => set (st1 := s)
  end.
  assert (Hex1 : XLS20Badge._exists st1 id = true).
  { unfold XLS20Badge._exists, ERC721._exists, ERC721._ownerOf. simpl.
    rewrite mget_insert_eq. apply negb_true_iff. by apply N.eqb_neq. }
  assert (Hown1 : ERC721._ownerOf (XLS20Badge.erc721 st1) id = to).
  { unfold ERC721._ownerOf. simpl. by rewrite mget_insert_eq. }
  assert (Hb1 : XLS20Badge.badge st1 id
                = XLS20Badge.mkBadge r pid bp (String.append "XLS20_" digits)
                    "" now true).
  { unfold XLS20Badge.badge. simpl. by rewrite mget_insert_eq. }
  destruct (burnBadge_commits to id st1 Hex1 (or_introl Hown1))
    as (st2 & E2); [by rewrite Hb1 |].
  exists digits, st2. split; [done |].
  split.
  { unfold XLS20Badge.ownerOf. rewrite (exists_ownerOf _ _ Hex1).
    by rewrite Hown1. }
  split; [unfold XLS20Badge.getBadgeData; by rewrite Hex1, Hb1 |].
  split; [unfold XLS20Badge.getBadgeFromReward; simpl;
          by rewrite mget_insert_eq |].
  split; [unfold XLS20Badge.getBadgeFromXRPLToken; simpl;
          by rewrite mget_insert_eq |].
  split; [unfold XLS20Badge.tokenURI; rewrite Hex1; simpl;
          by rewrite mget_insert_eq |].
  split; [done |].
  apply burnBadge_Ok in E2
    as (e2 & _ & _ & _ & Hburn & He2 & Hc2 & _ & Hbd2 & Hr2 & Hx2).
  rewrite Hb1 in Hbd2, Hr2, Hx2. simpl in Hr2, Hx2.
  assert (Hex2 : XLS20Badge._exists st2 id = false).
  { unfold XLS20Badge._exists. rewrite He2, (burn_exists _ _ _ _ id Hburn).
    by case_decide. }
  split; [done |].
  split; [unfold XLS20Badge.isBadgeActive; by rewrite Hex2 |].
  split; [unfold XLS20Badge.getBadgeData; by rewrite Hex2 |].
  split; [unfold XLS20Badge.getBadgeFromReward; rewrite Hr2;
          by rewrite mget_delete_eq |].
  split; [unfold XLS20Badge.getBadgeFromXRPLToken; rewrite Hx2;
          by rewrite mget_delete_eq |].
  split; [by rewrite Hc2 |].
  intros caller. unfold XLS20Badge.burnBadge. by rewrite Hex2.
Qed.

Lemma badge_mint_then_burn_witness :
  let st := XLS20Badge.deploy Scenario.admin 0xB1 in
  match XLS20Badge.mintBadge Scenario.admin 10 Scenario.alice 5 1 2500
          "ipfs://a" st with
  | Ok (id, st1) =>
      exists st2,
        XLS20Badge.burnBadge Scenario.alice id st1 = Ok st2
        /\ XLS20Badge.getBadgeFromReward st2 5 = 0
        /\ XLS20Badge._tokenIdCounter st2 = id + 1
  | _ => False
  end.
Proof.
  cbv zeta.
  destruct (XLS20Badge.mintBadge _ _ _ _ _ _ _ _)
    as [[id st1] | |] eqn:E; [| by vm_compute in E..].
  apply badge_mint_then_burn in E
    as (digits & st2 & _ & _ & _ & _ & _ & _ & Hb & _ & _ & _ & Hr & _ & Hc
        & _).
  exists st2. split; [exact Hb |]. split; [exact Hr | exact Hc].
Defined.

Lemma badge_insert st id d id' :
  mget XLS20Badge.zeroBadge (<[id := d]> (XLS20Badge.badgeData st)) id'
  = if decide (id = id') then d else XLS20Badge.badge st id'.
Proof. unfold XLS20Badge.badge. apply mget_insert. Qed.

(** X23. The XRPL token id index can be taken over and then lost.
    [updateXRPLTokenId] does not check that the new id is free: the owner
    can give badge [a] the XRPL token id of another active badge [b]; the
    index then answers [a] for that id while the record of [b] still
    carries it.  Burning [b] afterwards deletes the index entry of that id,
    so badge [a], still active and carrying the id, is no longer found by
    [getBadgeFromXRPLToken]. *)
Theorem xrpl_token_id_can_be_taken_over :
  forall st a b,
    a ≠ b ->
    XLS20Badge.isBadgeActive st a = true ->
    XLS20Badge.isBadgeActive st b = true ->
    let xid := XLS20Badge.xrplTokenId (XLS20Badge.badge st b) in
    exists st1 st2,
      XLS20Badge.updateXRPLTokenId (XLS20Badge.owner st) a xid st = Ok st1
      /\ XLS20Badge.getBadgeFromXRPLToken st1 xid = a
      /\ XLS20Badge.xrplTokenId (XLS20Badge.badge st1 a) = xid
      /\ XLS20Badge.xrplTokenId (XLS20Badge.badge st1 b) = xid
      /\ XLS20Badge.burnBadge (XLS20Badge.owner st) b st1 = Ok st2
      /\ XLS20Badge.isBadgeActive st2 a = true
      /\ XLS20Badge.xrplTokenId (XLS20Badge.badge st2 a) = xid
      /\ XLS20Badge.getBadgeFromXRPLToken st2 xid = 0.
Proof.
  intros st a b Hne Ha Hb xid.
  unfold XLS20Badge.isBadgeActive in Ha, Hb.
  apply andb_true_iff in Ha as [Hexa Hacta], Hb as [Hexb Hactb].
  assert (E1 : XLS20Badge.updateXRPLTokenId (XLS20Badge.owner st) a xid st
               = Ok (XLS20Badge.mkState (XLS20Badge.owner st)
                       (XLS20Badge.erc721 st) (XLS20Badge._tokenURIs st)
                       (XLS20Badge._tokenIdCounter st)
                       (<[a := XLS20Badge.mkBadge
                                 (XLS20Badge.rewardTokenId
                                    (XLS20Badge.badge st a))
                                 (XLS20Badge.projectId (XLS20Badge.badge st a))
                                 (XLS20Badge.basisPoints
                                    (XLS20Badge.badge st a))
                                 xid
                                 (XLS20Badge.xrplAccount
                                    (XLS20Badge.badge st a))
                                 (XLS20Badge.mintTimestamp
                                    (XLS20Badge.badge st a))
                                 (XLS20Badge.isActive (XLS20Badge.badge st a))]>
                          (XLS20Badge.badgeData st))
                       (XLS20Badge.rewardToBadge st)
                       (<[xid := a]>
                          (delete
                             (XLS20Badge.xrplTokenId (XLS20Badge.badge st a))
                             (XLS20Badge.xrplTokenToBadge st)))
                       (XLS20Badge.xrplBridge st)
                       (XLS20Badge.authorizedMinters st))).
  { unfold XLS20Badge.updateXRPLTokenId.
    by rewrite onlyOwner_self, Hexa, Hacta. }
  match type of E1 with _ = Ok ?s => set (st1 := s) in * end.
  assert (Hb1 : XLS20Badge.badge st1 b = XLS20Badge.badge st b).
  { unfold XLS20Badge.badge at 1. simpl. rewrite badge_insert.
    by case_decide. }
  assert (Ha1 : XLS20Badge.xrplTokenId (XLS20Badge.badge st1 a) = xid).
  { unfold XLS20Badge.badge at 1. simpl. rewrite badge_insert.
    by case_decide. }
  destruct (burnBadge_commits (XLS20Badge.owner st) b st1)
    as (st2 & E2); [done | by right | by rewrite Hb1 |].
  exists st1, st2. split; [exact E1 |].
  split; [unfold XLS20Badge.getBadgeFromXRPLToken; simpl;
          by rewrite mget_insert_eq |].
  split; [done |]. split; [by rewrite Hb1 |]. split; [exact E2 |].
  apply burnBadge_Ok in E2
    as (e2 & _ & _ & _ & Hburn & He2 & _ & _ & Hbd2 & _ & Hx2).
  rewrite Hb1 in Hbd2, Hx2. fold xid in Hx2.
  assert (Ha2 : XLS20Badge.badge st2 a = XLS20Badge.badge st1 a).
  { unfold XLS20Badge.badge at 1. rewrite Hbd2, badge_insert.
    case_decide; [congruence | done]. }
  split.
  { unfold XLS20Badge.isBadgeActive, XLS20Badge._exists.
    rewrite He2, (burn_exists _ _ _ _ a Hburn), Ha2.
    case_decide; [congruence |].
    fold (XLS20Badge._exists st1 a).
    replace (XLS20Badge._exists st1 a) with true by done.
    unfold XLS20Badge.badge. simpl. rewrite mget_insert_eq. by simpl. }
  split; [by rewrite Ha2 |].
  unfold XLS20Badge.getBadgeFromXRPLToken. rewrite Hx2.
  by rewrite mget_delete_eq.
Qed.

Lemma xrpl_token_id_can_be_taken_over_witness :
  match XLS20Badge.mintBadge Scenario.admin 10 Scenario.alice 5 1 2500
          "ipfs://a" (XLS20Badge.deploy Scenario.admin 0xB1) with
  | Ok (_, s1) =>
      match XLS20Badge.mintBadge Scenario.admin 20 Scenario.bob 6 1 2500
              "ipfs://b" s1 with
      | Ok (_, st) =>
          XLS20Badge.xrplTokenId (XLS20Badge.badge st 1) = "XLS20_1"
          /\ exists st1 st2,
               XLS20Badge.updateXRPLTokenId Scenario.admin 0 "XLS20_1" st
               = Ok st1
               /\ XLS20Badge.burnBadge Scenario.admin 1 st1 = Ok st2
               /\ XLS20Badge.isBadgeActive st2 0 = true
               /\ XLS20Badge.xrplTokenId (XLS20Badge.badge st2 0) = "XLS20_1"
               /\ XLS20Badge.getBadgeFromXRPLToken st2 "XLS20_1" = 0
      | _ => False
      end
  | _ => False
  end.
Proof.
  destruct (XLS20Badge.mintBadge _ _ _ _ _ _ _ _)
    as [[id1 s1] | |] eqn:E1; [| by vm_compute in E1..].
  destruct (XLS20Badge.mintBadge _ _ _ _ _ _ _ s1)
    as [[id2 st] | |] eqn:E2;
    [| vm_compute in E1; injection E1 as <- <-; by vm_compute in E2..].
  vm_compute in E1. injection E1 as <- <-.
  vm_compute in E2. injection E2 as <- <-.
  split; [reflexivity |].
  match goal with
  | |- exists st1 st2, XLS20Badge.updateXRPLTokenId _ _ _ ?s = _ /\ _ =>
      destruct (xrpl_token_id_can_be_taken_over s 0 1)
        as (st1 & st2 & Hu & _ & _ & _ & Hb & Hact & Hx & Hg);
        [done | by vm_compute.. |]
  end.
  exists st1, st2. split; [exact Hu |]. split; [exact Hb |].
  split; [exact Hact |]. split; [exact Hx | exact Hg].
Defined.


(* ===================================================================== *)
(** ** The session key manager *)
(* ===================================================================== *)

Lemma keys_with_keys u keys flags st u' :
  SessionKeyManager.getUserSessionKeys
    (SessionKeyManager.with_keys u keys flags st) u'
  = if decide (u = u') then keys
    else SessionKeyManager.getUserSessionKeys st u'.
Proof. unfold SessionKeyManager.getUserSessionKeys. simpl. apply mget_insert. Qed.

Lemma createSessionKey_Ok tryRecover sender now chainid key until price limit
    sig st st' :
  SessionKeyManager.createSessionKey tryRecover sender now chainid key until
    price limit sig st = Ok st' ->
  now < until /\ 0 < price /\ 0 < limit
  /\ SessionKeyManager.keyActive st sender key = false
  /\ st' = SessionKeyManager.with_keys sender
             (SessionKeyManager.getUserSessionKeys st sender
              ++ [SessionKeyManager.mkSessionKey sender key until price limit
                    true now])
             (<[(sender, key) := true]>
                (SessionKeyManager.isSessionKeyActive st)) st.
Proof.
  unfold SessionKeyManager.createSessionKey. intros H. inv_ok H. ok_inv.
  repeat match goal with
         | Hx : (_ <? _) = true |- _ => apply N.ltb_lt in Hx
         | Hx : negb _ = true |- _ => apply negb_true_iff in Hx
         end.
  done.
Qed.

Lemma revokeSessionKey_Ok sender key st st' :
  SessionKeyManager.revokeSessionKey sender key st = Ok st' ->
  SessionKeyManager.keyActive st sender key = true
  /\ st' = SessionKeyManager.with_keys sender
             (SessionKeyManager.deactivateFirst key
                (SessionKeyManager.getUserSessionKeys st sender))
             (<[(sender, key) := false]>
                (SessionKeyManager.isSessionKeyActive st)) st.
Proof.
  unfold SessionKeyManager.revokeSessionKey. intros H. inv_ok H. by ok_inv.
Qed.

(** An entry that is not the first one with its key survives a revocation
    untouched. *)
Lemma deactivateFirst_app key keys k rest :
  (exists k0, In k0 keys /\ SessionKeyManager.sessionKey k0 = key) ->
  SessionKeyManager.deactivateFirst key (keys ++ k :: rest)
  = SessionKeyManager.deactivateFirst key keys ++ k :: rest.
Proof.
  induction keys as [| k1 keys IH]; intros (k0 & Hin & Hk); [done |].
  simpl. destruct (N.eqb_spec (SessionKeyManager.sessionKey k1) key);
    [done |].
  simpl. f_equal. apply IH. destruct Hin as [-> | Hin]; [done |].
  by exists k0.
Qed.

Lemma findActive_app_inactive now key keys rest :
  (forall k, In k keys -> SessionKeyManager.sessionKey k = key ->
             SessionKeyManager.isActive k = false) ->
  SessionKeyManager.findActive now key (keys ++ rest)
  = SessionKeyManager.findActive now key rest.
Proof.
  induction keys as [| k keys IH]; intros Hin; [done |].
  simpl. destruct (N.eqb_spec (SessionKeyManager.sessionKey k) key) as [E | E].
  - rewrite (Hin k (or_introl eq_refl) E). simpl. apply IH.
    intros; apply Hin; [by right | done].
  - simpl. apply IH. intros; apply Hin; [by right | done].
Qed.

Lemma deactivateFirst_no_match key keys :
  (forall k, In k keys -> SessionKeyManager.sessionKey k ≠ key) ->
  SessionKeyManager.deactivateFirst key keys = keys.
Proof.
  induction keys as [| k keys IH]; intros Hno; [done |].
  simpl. destruct (N.eqb_spec (SessionKeyManager.sessionKey k) key) as [E | E].
  - by apply Hno in E; [| left].
  - f_equal. apply IH. intros; apply Hno; by right.
Qed.

Lemma deactivateFirst_after key keys k rest :
  (forall k0, In k0 keys -> SessionKeyManager.sessionKey k0 ≠ key) ->
  SessionKeyManager.sessionKey k = key ->
  SessionKeyManager.deactivateFirst key (keys ++ k :: rest)
  = keys ++ SessionKeyManager.set_active false k :: rest.
Proof.
  induction keys as [| k1 keys IH]; intros Hno Hk; simpl.
  - apply N.eqb_eq in Hk. by rewrite Hk.
  - destruct (N.eqb_spec (SessionKeyManager.sessionKey k1) key) as [E | E].
    + by apply Hno in E; [| left].
    + f_equal. apply IH; [| done]. intros; apply Hno; by right.
Qed.

Lemma findActive_no_match now key keys rest :
  (forall k, In k keys -> SessionKeyManager.sessionKey k ≠ key) ->
  SessionKeyManager.findActive now key (keys ++ rest)
  = SessionKeyManager.findActive now key rest.
Proof.
  intros Hno. apply findActive_app_inactive.
  intros k Hin E. by apply Hno in Hin.
Qed.

(** X24. Revoking a key deactivates only the first entry that carries it.
    [revokeSessionKey] stops at the first array entry with the key, whether
    or not that entry is still active.  So when a user creates a key,
    revokes it, creates it again with new limits and revokes it again, the
    second entry stays marked active; after a third creation
    [getActiveSessionKey] returns that revoked second entry, with its
    limits and expiry, for as long as it has not expired, and the third
    entry only afterwards. *)
Theorem revoked_session_key_entry_stays_active :
  forall tryRecover sender key chainid now1 now3 now5
         until1 price1 limit1 sig1 until2 price2 limit2 sig2
         until3 price3 limit3 sig3 st0 st1 st2 st3 st4 st5,
    (forall k, In k (SessionKeyManager.getUserSessionKeys st0 sender) ->
               SessionKeyManager.sessionKey k ≠ key) ->
    SessionKeyManager.createSessionKey tryRecover sender now1 chainid key
      until1 price1 limit1 sig1 st0 = Ok st1 ->
    SessionKeyManager.revokeSessionKey sender key st1 = Ok st2 ->
    SessionKeyManager.createSessionKey tryRecover sender now3 chainid key
      until2 price2 limit2 sig2 st2 = Ok st3 ->
    SessionKeyManager.revokeSessionKey sender key st3 = Ok st4 ->
    SessionKeyManager.createSessionKey tryRecover sender now5 chainid key
      until3 price3 limit3 sig3 st4 = Ok st5 ->
    let k1 := SessionKeyManager.mkSessionKey sender key until1 price1 limit1
                false now1 in
    let k2 := SessionKeyManager.mkSessionKey sender key until2 price2 limit2
                true now3 in
    let k3 := SessionKeyManager.mkSessionKey sender key until3 price3 limit3
                true now5 in
    SessionKeyManager.getUserSessionKeys st4 sender
    = SessionKeyManager.getUserSessionKeys st0 sender ++ [k1; k2]
    /\ SessionKeyManager.keyActive st4 sender key = false
    /\ SessionKeyManager.getUserSessionKeys st5 sender
       = SessionKeyManager.getUserSessionKeys st0 sender ++ [k1; k2; k3]
    /\ (forall now,
          now < until2 ->
          SessionKeyManager.getActiveSessionKey now sender key st5 = Ok k2)
    /\ (forall now,
          until2 <= now < until3 ->
          SessionKeyManager.getActiveSessionKey now sender key st5 = Ok k3).
Proof.
  intros tryRecover sender key chainid now1 now3 now5
    until1 price1 limit1 sig1 until2 price2 limit2 sig2
    until3 price3 limit3 sig3 st0 st1 st2 st3 st4 st5 Hno H1 H2 H3 H4 H5.
  set (keys0 := SessionKeyManager.getUserSessionKeys st0 sender) in *.
  intros k1 k2 k3.
  apply createSessionKey_Ok in H1 as (_ & _ & _ & _ & E1).
  assert (K1 : SessionKeyManager.getUserSessionKeys st1 sender
               = keys0 ++ [SessionKeyManager.set_active true k1]).
  { rewrite E1, keys_with_keys. by case_decide. }
  clear E1.
  apply revokeSessionKey_Ok in H2 as (_ & E2).
  assert (K2 : SessionKeyManager.getUserSessionKeys st2 sender
               = keys0 ++ [k1]).
  { rewrite E2, keys_with_keys. case_decide; [| done]. rewrite K1.
    by rewrite (deactivateFirst_after key keys0
                  (SessionKeyManager.set_active true k1) [] Hno eq_refl). }
  clear E2 K1.
  apply createSessionKey_Ok in H3 as (_ & _ & _ & _ & E3).
  assert (K3 : SessionKeyManager.getUserSessionKeys st3 sender
               = keys0 ++ [k1; k2]).
  { rewrite E3, keys_with_keys. case_decide; [| done]. rewrite K2.
    by rewrite <- app_assoc. }
  clear E3 K2.
  apply revokeSessionKey_Ok in H4 as (_ & E4).
  assert (K4 : SessionKeyManager.getUserSessionKeys st4 sender
               = keys0 ++ [k1; k2]).
  { rewrite E4, keys_with_keys. case_decide; [| done]. rewrite K3.
    by rewrite (deactivateFirst_after key keys0 k1 [k2] Hno eq_refl). }
  assert (F4 : SessionKeyManager.keyActive st4 sender key = false).
  { rewrite E4. unfold SessionKeyManager.keyActive. simpl.
    by rewrite mget_insert_eq. }
  clear E4 K3.
  apply createSessionKey_Ok in H5 as (_ & _ & _ & _ & E5).
  assert (K5 : SessionKeyManager.getUserSessionKeys st5 sender
               = keys0 ++ [k1; k2; k3]).
  { rewrite E5, keys_with_keys. case_decide; [| done]. rewrite K4.
    by rewrite <- app_assoc. }
  clear E5.
  split; [done |]. split; [done |]. split; [done |].
  unfold SessionKeyManager.getActiveSessionKey. rewrite K5.
  split.
  - intros now Hnow. rewrite (findActive_no_match now key keys0 _ Hno).
    simpl. rewrite N.eqb_refl. simpl.
    apply N.ltb_lt in Hnow. by rewrite Hnow.
  - intros now [Hge Hlt]. rewrite (findActive_no_match now key keys0 _ Hno).
    simpl. rewrite N.eqb_refl. simpl.
    destruct (N.ltb_spec now until2); [lia |].
    apply N.ltb_lt in Hlt. by rewrite Hlt.
Qed.

Lemma revoked_session_key_entry_stays_active_witness :
  let recovers := fun (_ : bytes32) (_ : bytes) => Some 7 in
  match
    st1 ← SessionKeyManager.createSessionKey recovers 5 10 14 7 100 9 9 []
            (SessionKeyManager.deploy 1 2);
    st2 ← SessionKeyManager.revokeSessionKey 5 7 st1;
    st3 ← SessionKeyManager.createSessionKey recovers 5 20 14 7 200 3 3 []
            st2;
    st4 ← SessionKeyManager.revokeSessionKey 5 7 st3;
    SessionKeyManager.createSessionKey recovers 5 30 14 7 300 5 5 [] st4
  with
  | Ok st5 =>
      SessionKeyManager.getActiveSessionKey 40 5 7 st5
      = Ok (SessionKeyManager.mkSessionKey 5 7 200 3 3 true 20)
  | _ => False
  end.
Proof.
  intros recovers.
  destruct (SessionKeyManager.createSessionKey recovers 5 10 14 7 100 9 9 []
              (SessionKeyManager.deploy 1 2)) as [st1 | |] eqn:H1;
    [| by vm_compute in H1..].
  cbn [mbind Result_bind EVM.bind].
  destruct (SessionKeyManager.revokeSessionKey 5 7 st1) as [st2 | |] eqn:H2;
    [| vm_compute in H1; injection H1 as <-; by vm_compute in H2..].
  cbn [mbind Result_bind EVM.bind].
  destruct (SessionKeyManager.createSessionKey recovers 5 20 14 7 200 3 3 []
              st2) as [st3 | |] eqn:H3;
    [| vm_compute in H1; injection H1 as <-;
       vm_compute in H2; injection H2 as <-; by vm_compute in H3..].
  cbn [mbind Result_bind EVM.bind].
  destruct (SessionKeyManager.revokeSessionKey 5 7 st3) as [st4 | |] eqn:H4;
    [| vm_compute in H1; injection H1 as <-;
       vm_compute in H2; injection H2 as <-;
       vm_compute in H3; injection H3 as <-; by vm_compute in H4..].
  cbn [mbind Result_bind EVM.bind].
  destruct (SessionKeyManager.createSessionKey recovers 5 30 14 7 300 5 5 []
              st4) as [st5 | |] eqn:H5;
    [| vm_compute in H1; injection H1 as <-;
       vm_compute in H2; injection H2 as <-;
       vm_compute in H3; injection H3 as <-;
       vm_compute in H4; injection H4 as <-; by vm_compute in H5..].
  assert (Hno : forall k,
            In k (SessionKeyManager.getUserSessionKeys
                    (SessionKeyManager.deploy 1 2) 5) ->
            SessionKeyManager.sessionKey k ≠ 7).
  { intros k Hin. vm_compute in Hin. destruct Hin. }
  destruct (revoked_session_key_entry_stays_active recovers 5 7 14 10 20 30
              100 9 9 [] 200 3 3 [] 300 5 5 [] _ st1 st2 st3 st4 st5
              Hno H1 H2 H3 H4 H5) as (_ & _ & _ & Hstale & _).
  refine (Hstale 40 _). lia.
Defined.

(** Entries that are inactive or expired are skipped by the lookup. *)
Lemma findActive_skip now key keys rest :
  (forall k, In k keys -> SessionKeyManager.sessionKey k = key ->
             SessionKeyManager.isActive k = false
             \/ SessionKeyManager.validUntil k <= now) ->
  SessionKeyManager.findActive now key (keys ++ rest)
  = SessionKeyManager.findActive now key rest.
Proof.
  induction keys as [| k keys IH]; intros Hin; [done |].
  simpl. destruct (N.eqb_spec (SessionKeyManager.sessionKey k) key) as [E | E].
  - destruct (Hin k (or_introl eq_refl) E) as [-> | Hexp]; simpl.
    + apply IH. intros; apply Hin; [by right | done].
    + destruct (N.ltb_spec now (SessionKeyManager.validUntil k)); [lia |].
      rewrite andb_false_r. apply IH. intros; apply Hin; [by right | done].
  - simpl. apply IH. intros; apply Hin; [by right | done].
Qed.

Lemma findActive_none now key keys :
  (forall k, In k keys -> SessionKeyManager.sessionKey k = key ->
             SessionKeyManager.isActive k = false
             \/ SessionKeyManager.validUntil k <= now) ->
  SessionKeyManager.findActive now key keys
  = Revert "Session key not found or expired".
Proof.
  intros Hin. rewrite <- (app_nil_r keys). by rewrite findActive_skip.
Qed.

Lemma deactivateFirst_In key keys k :
  In k (SessionKeyManager.deactivateFirst key keys) ->
  exists k0, In k0 keys
             /\ SessionKeyManager.sessionKey k
                = SessionKeyManager.sessionKey k0
             /\ SessionKeyManager.validUntil k
                = SessionKeyManager.validUntil k0.
Proof.
  induction keys as [| k1 keys IH]; [done |]. simpl.
  destruct (SessionKeyManager.sessionKey k1 =? key).
  - intros [<- | Hin]; [exists k1 | exists k]; simpl; auto.
  - intros [<- | Hin]; [exists k1; simpl; auto |].
    destruct (IH Hin) as (k0 & ? & ? & ?). exists k0; simpl; auto.
Qed.

(** X25. An expired session key still counts as active.  When every entry
    of a key has run out but the key was never revoked, [isSessionKeyValid]
    answers [false], yet [createSessionKey] with well-formed arguments
    refuses the key with "Session key already active" whatever the
    signature; the user has to call [revokeSessionKey] first, which
    succeeds, and after it a correctly signed [createSessionKey] commits
    and the key is valid again. *)
Theorem expired_session_key_blocks_renewal :
  forall tryRecover sender now chainid key until price limit sig st,
    SessionKeyManager.keyActive st sender key = true ->
    (forall k, In k (SessionKeyManager.getUserSessionKeys st sender) ->
               SessionKeyManager.sessionKey k = key ->
               SessionKeyManager.validUntil k <= now) ->
    now < until -> 0 < price -> 0 < limit ->
    SessionKeyManager.isSessionKeyValid now sender key st = false
    /\ SessionKeyManager.createSessionKey tryRecover sender now chainid key
         until price limit sig st
       = Revert "Session key already active"
    /\ exists st1,
         SessionKeyManager.revokeSessionKey sender key st = Ok st1
         /\ (key ≠ 0 ->
             tryRecover
               (OracleAdapter.toEthSignedMessageHash
                  (SessionKeyManager.keyMessageHash sender key until price
                     limit chainid)) sig = Some key ->
             exists st2,
               SessionKeyManager.createSessionKey tryRecover sender now
                 chainid key until price limit sig st1 = Ok st2
               /\ SessionKeyManager.isSessionKeyValid now sender key st2
                  = true).
Proof.
  intros tryRecover sender now chainid key until price limit sig st
    Hflag Hexp Hu Hp Hl.
  apply N.ltb_lt in Hu as Hu', Hp as Hp', Hl as Hl'.
  split.
  { unfold SessionKeyManager.isSessionKeyValid,
      SessionKeyManager.getActiveSessionKey.
    rewrite Hflag. simpl. rewrite findActive_none; [done |].
    intros k Hin Hk. right. by apply Hexp. }
  split.
  { unfold SessionKeyManager.createSessionKey.
    rewrite Hu', Hp', Hl', Hflag. done. }
  unfold SessionKeyManager.revokeSessionKey. rewrite Hflag.
  set (st1 := SessionKeyManager.with_keys sender _ _ st).
  exists st1. split; [reflexivity |].
  assert (F1 : SessionKeyManager.keyActive st1 sender key = false).
  { unfold SessionKeyManager.keyActive. simpl. by rewrite mget_insert_eq. }
  assert (K1 : SessionKeyManager.getUserSessionKeys st1 sender
               = SessionKeyManager.deactivateFirst key
                   (SessionKeyManager.getUserSessionKeys st sender)).
  { unfold st1. rewrite keys_with_keys. by case_decide. }
  clearbody st1.
  intros Hkey Hsig.
  unfold SessionKeyManager.createSessionKey, OracleAdapter.recover.
  rewrite Hu', Hp', Hl', F1, Hsig. simpl.
  apply N.eqb_neq in Hkey. rewrite Hkey. simpl. rewrite N.eqb_refl. simpl.
  eexists. split; [reflexivity |].
  unfold SessionKeyManager.isSessionKeyValid,
    SessionKeyManager.getActiveSessionKey.
  rewrite keys_with_keys. case_decide; [| done].
  unfold SessionKeyManager.keyActive at 1.
  cbn [SessionKeyManager.isSessionKeyActive SessionKeyManager.with_keys].
  rewrite mget_insert_eq. cbn [negb].
  rewrite K1, findActive_skip.
  - simpl. by rewrite N.eqb_refl, Hu'.
  - intros k Hin Hk. right.
    apply deactivateFirst_In in Hin as (k0 & Hin & Hs & ->).
    apply Hexp; [done | congruence].
Qed.

Lemma expired_session_key_blocks_renewal_witness :
  let recovers := fun (_ : bytes32) (_ : bytes) => Some 7 in
  match SessionKeyManager.createSessionKey recovers 5 10 14 7 100 9 9 []
          (SessionKeyManager.deploy 1 2) with
  | Ok st =>
      SessionKeyManager.isSessionKeyValid 100 5 7 st = false
      /\ SessionKeyManager.createSessionKey recovers 5 100 14 7 500 9 9 [] st
         = Revert "Session key already active"
  | _ => False
  end.
Proof.
  intros recovers.
  destruct (SessionKeyManager.createSessionKey recovers 5 10 14 7 100 9 9 []
              (SessionKeyManager.deploy 1 2)) as [st | |] eqn:H1;
    [| by vm_compute in H1..].
  refine
    (let H := expired_session_key_blocks_renewal recovers 5 100 14 7 500 9 9
                [] st _ _ _ _ _ in
     conj (proj1 H) (proj1 (proj2 H))).
  - vm_compute in H1. injection H1 as <-. by vm_compute.
  - vm_compute in H1. injection H1 as <-. intros k Hin Hk.
    vm_compute in Hin. destruct Hin as [<- | []]. by vm_compute.
  - lia.
  - lia.
  - lia.
Defined.


Lemma set_active_same k :
  SessionKeyManager.set_active (SessionKeyManager.isActive k) k = k.
Proof. by destruct k. Qed.

Lemma revokeAll_keys u keys flags :
  (SessionKeyManager.revokeAll u keys flags).1
  = map (SessionKeyManager.set_active false) keys.
Proof.
  revert flags. induction keys as [| k keys IH]; intros flags; [done |].
  simpl. destruct (SessionKeyManager.isActive k) eqn:Ha.
  - specialize (IH (<[(u, SessionKeyManager.sessionKey k) := false]> flags)).
    destruct (SessionKeyManager.revokeAll _ _ _) as [rest' flags'].
    simpl in *. by rewrite IH.
  - specialize (IH flags).
    destruct (SessionKeyManager.revokeAll _ _ _) as [rest' flags'].
    simpl in *. rewrite IH. f_equal.
    rewrite <- Ha. symmetry. apply set_active_same.
Qed.

Lemma revokeAll_other_user u keys flags u' key :
  u' ≠ u ->
  mget false (SessionKeyManager.revokeAll u keys flags).2 (u', key)
  = mget false flags (u', key).
Proof.
  intros Hne. revert flags.
  induction keys as [| k keys IH]; intros flags; [done |].
  simpl. destruct (SessionKeyManager.isActive k).
  - specialize (IH (<[(u, SessionKeyManager.sessionKey k) := false]> flags)).
    destruct (SessionKeyManager.revokeAll _ _ _) as [rest' flags'].
    simpl in *. rewrite IH. apply mget_insert_ne. congruence.
  - specialize (IH flags).
    by destruct (SessionKeyManager.revokeAll _ _ _) as [rest' flags'].
Qed.

(** The flag of a key is cleared as soon as one of its entries is active,
    and a flag is never raised. *)
Lemma revokeAll_flag u keys flags key :
  mget false flags (u, key) = false
  \/ (exists k, In k keys /\ SessionKeyManager.sessionKey k = key
                /\ SessionKeyManager.isActive k = true) ->
  mget false (SessionKeyManager.revokeAll u keys flags).2 (u, key) = false.
Proof.
  revert flags. induction keys as [| k keys IH]; intros flags Hor.
  { destruct Hor as [E | (k & [] & _)]. done. }
  simpl. destruct (SessionKeyManager.isActive k) eqn:Ha.
  - specialize (IH (<[(u, SessionKeyManager.sessionKey k) := false]> flags)).
    destruct (SessionKeyManager.revokeAll _ _ _) as [rest' flags'].
    simpl in *. apply IH. rewrite mget_insert.
    case_decide as Hk; [by left |].
    destruct Hor as [E | (k0 & [<- | Hin] & Hs & Hact)].
    + by left.
    + by rewrite Hs in Hk.
    + right. by exists k0.
  - specialize (IH flags).
    destruct (SessionKeyManager.revokeAll _ _ _) as [rest' flags'].
    simpl in *. apply IH.
    destruct Hor as [E | (k0 & [<- | Hin] & Hs & Hact)].
    + by left.
    + congruence.
    + right. by exists k0.
Qed.

Lemma emergencyRevoke_Ok u st :
  SessionKeyManager.emergencyRevokeAllSessionKeys
    (SessionKeyManager.owner st) u st
  = Ok (SessionKeyManager.with_keys u
          (map (SessionKeyManager.set_active false)
             (SessionKeyManager.getUserSessionKeys st u))
          (SessionKeyManager.revokeAll u
             (SessionKeyManager.getUserSessionKeys st u)
             (SessionKeyManager.isSessionKeyActive st)).2 st).
Proof.
  unfold SessionKeyManager.emergencyRevokeAllSessionKeys, onlyOwner.
  rewrite N.eqb_refl. simpl.
  rewrite <- revokeAll_keys with (u := u)
    (flags := SessionKeyManager.isSessionKeyActive st).
  by destruct (SessionKeyManager.revokeAll _ _ _).
Qed.

(** X26. [emergencyRevokeAllSessionKeys] disables every key of the user
    and nothing else.  Called by the owner it always commits; afterwards
    each entry of the user is inactive, no key of the user is found or
    valid at any time, the flag of every key that had an active entry is
    cleared, no [executeTransaction] for that user can commit, and the
    entries and flags of every other user are as before.  Anyone else is
    turned away. *)
Theorem emergency_revocation_disables_every_key :
  forall u st,
    exists st',
      SessionKeyManager.emergencyRevokeAllSessionKeys
        (SessionKeyManager.owner st) u st = Ok st'
      /\ SessionKeyManager.getUserSessionKeys st' u
         = map (SessionKeyManager.set_active false)
             (SessionKeyManager.getUserSessionKeys st u)
      /\ (forall now key,
            SessionKeyManager.getActiveSessionKey now u key st'
            = Revert "Session key not found or expired")
      /\ (forall now key,
            SessionKeyManager.isSessionKeyValid now u key st' = false)
      /\ (forall k,
            In k (SessionKeyManager.getUserSessionKeys st u) ->
            SessionKeyManager.isActive k = true ->
            SessionKeyManager.keyActive st' u (SessionKeyManager.sessionKey k)
            = false)
      /\ (forall tryRecover external_call sender now chainid gasprice target
                 val dat gas n sig r,
            SessionKeyManager.executeTransaction tryRecover external_call
              sender now chainid gasprice u target val dat gas n sig st'
            ≠ Ok r)
      /\ (forall u' key,
            u' ≠ u ->
            SessionKeyManager.getUserSessionKeys st' u'
            = SessionKeyManager.getUserSessionKeys st u'
            /\ SessionKeyManager.keyActive st' u' key
               = SessionKeyManager.keyActive st u' key)
      /\ (forall sender,
            sender ≠ SessionKeyManager.owner st ->
            SessionKeyManager.emergencyRevokeAllSessionKeys sender u st
            = Revert "Ownable: caller is not the owner").
Proof.
  intros u st. eexists. split; [apply emergencyRevoke_Ok |].
  set (st' := SessionKeyManager.with_keys u _ _ st).
  assert (K : SessionKeyManager.getUserSessionKeys st' u
              = map (SessionKeyManager.set_active false)
                  (SessionKeyManager.getUserSessionKeys st u)).
  { unfold st'. rewrite keys_with_keys. by case_decide. }
  assert (Hnone : forall now key,
            SessionKeyManager.getActiveSessionKey now u key st'
            = Revert "Session key not found or expired").
  { intros now key. unfold SessionKeyManager.getActiveSessionKey.
    rewrite K. apply findActive_none. intros k Hin _. left.
    apply in_map_iff in Hin as (k0 & <- & _). done. }
  split; [exact K |]. split; [exact Hnone |]. split.
  { intros now key. unfold SessionKeyManager.isSessionKeyValid.
    rewrite Hnone. by destruct (negb _). }
  split.
  { intros k Hin Hact. unfold SessionKeyManager.keyActive, st'.
    cbn [SessionKeyManager.isSessionKeyActive SessionKeyManager.with_keys].
    apply revokeAll_flag. right. by exists k. }
  split.
  { intros tryRecover external_call sender now chainid gasprice target val
      dat gas n sig r H.
    unfold SessionKeyManager.executeTransaction in H. inv_ok H.
    match goal with
    | Hx : SessionKeyManager.getActiveSessionKey _ _ _ _ = Ok _ |- _ =>
        by rewrite Hnone in Hx
    end. }
  split.
  { intros u' key Hne. split.
    - unfold st'. rewrite keys_with_keys. by case_decide.
    - unfold SessionKeyManager.keyActive, st'.
      cbn [SessionKeyManager.isSessionKeyActive SessionKeyManager.with_keys].
      by apply revokeAll_other_user. }
  intros sender Hne.
  unfold SessionKeyManager.emergencyRevokeAllSessionKeys, onlyOwner.
  apply N.eqb_neq in Hne. by rewrite Hne.
Qed.

Lemma executeEach_not_owner tryRecover external_call this now chainid
    gasprice users tos values datas gasLimits nonces signatures i count st :
  SessionKeyManager.owner st ≠ this ->
  SessionKeyManager.executeEach tryRecover external_call this now chainid
    gasprice users tos values datas gasLimits nonces signatures i (S count) st
  = Revert "Ownable: caller is not the owner".
Proof.
  intros Hne. simpl. unfold SessionKeyManager.executeTransaction, onlyOwner.
  assert (E : (this =? SessionKeyManager.owner st) = false)
    by (apply N.eqb_neq; congruence).
  by rewrite E.
Qed.

(** X27. [batchExecuteTransactions] cannot execute anything unless the
    manager is its own owner.  Each entry is run through an external call
    of the manager to itself, so [executeTransaction] sees the manager as
    caller and its owner check fails: while the owner is another account,
    a batch that commits was empty and changed nothing, and a non-empty
    batch with arrays of equal lengths sent by the owner reverts with the
    ownership error. *)
Theorem batch_execution_needs_self_ownership :
  forall tryRecover external_call this sender now chainid gasprice users tos
         values datas gasLimits nonces signatures st,
    SessionKeyManager.owner st ≠ this ->
    (forall st',
       SessionKeyManager.batchExecuteTransactions tryRecover external_call
         this sender now chainid gasprice users tos values datas gasLimits
         nonces signatures st = Ok st' ->
       users = [] /\ st' = st)
    /\ (sender = SessionKeyManager.owner st ->
        users ≠ [] ->
        length tos = length users -> length values = length users ->
        length datas = length users -> length gasLimits = length users ->
        length nonces = length users -> length signatures = length users ->
        SessionKeyManager.batchExecuteTransactions tryRecover external_call
          this sender now chainid gasprice users tos values datas gasLimits
          nonces signatures st
        = Revert "Ownable: caller is not the owner").
Proof.
  intros tryRecover external_call this sender now chainid gasprice users tos
    values datas gasLimits nonces signatures st Hne.
  split.
  - intros st' H. unfold SessionKeyManager.batchExecuteTransactions in H.
    inv_ok H. destruct users as [| u users].
    + simpl in *. by ok_inv.
    + cbn [length] in *.
      match goal with
      | Hx : SessionKeyManager.executeEach _ _ _ _ _ _ _ _ _ _ _ _ _ _ _ _
             = Ok _ |- _ =>
          by rewrite executeEach_not_owner in Hx
      end.
  - intros -> Hu H1 H2 H3 H4 H5 H6.
    unfold SessionKeyManager.batchExecuteTransactions, onlyOwner.
    rewrite N.eqb_refl, H1, H2, H3, H4, H5, H6, Nat.eqb_refl. simpl.
    destruct users as [| u users]; [done |].
    cbn [length]. by apply executeEach_not_owner.
Qed.

Lemma batch_execution_needs_self_ownership_witness :
  SessionKeyManager.batchExecuteTransactions (fun _ _ => Some 7)
    (fun _ _ _ _ s => Some s) 99 7 50 14 1 [5] [8] [0] [[]] [3] [0] [[]]
    (SessionKeyManager.deploy 7 2)
  = Revert "Ownable: caller is not the owner".
Proof.
  apply (batch_execution_needs_self_ownership (fun _ _ => Some 7)
           (fun _ _ _ _ s => Some s) 99 7 50 14 1 [5] [8] [0] [[]] [3] [0]
           [[]] (SessionKeyManager.deploy 7 2)); by vm_compute.
Defined.

Section NoCallback.

Variable tryRecover : bytes32 -> bytes -> option address.
Variable external_call :
  address -> uint256 -> bytes -> uint256 -> SessionKeyManager.State ->
  option SessionKeyManager.State.

(** The called contract does not call back into the manager. *)
Hypothesis no_callback :
  forall t v d g s s', external_call t v d g s = Some s' -> s' = s.

Lemma executeTransaction_keeps_executed sender now chainid gasprice u target
    val dat gas n sig st ok st' u0 n0 :
  SessionKeyManager.executeTransaction tryRecover external_call sender now
    chainid gasprice u target val dat gas n sig st = Ok (ok, st') ->
  SessionKeyManager.executed (SessionKeyManager.transaction st u0 n0) = true ->
  SessionKeyManager.executed (SessionKeyManager.transaction st' u0 n0) = true.
Proof.
  intros H He. unfold SessionKeyManager.executeTransaction in H.
  inv_ok H. ok_inv.
  match goal with
  | Hx : match external_call _ _ _ _ _ with _ => _ end = Ok _ |- _ =>
      rename Hx into Hc
  end.
  set (st1 := SessionKeyManager.mkState _ _ _ _ _ _ _) in Hc.
  assert (H1 : SessionKeyManager.executed
                 (SessionKeyManager.transaction st1 u0 n0) = true).
  { unfold SessionKeyManager.transaction, st1. simpl. rewrite mget_insert.
    by case_decide. }
  destruct (external_call target val dat gas st1) as [st2 |] eqn:Hcall.
  - apply no_callback in Hcall as ->. inv_ok Hc. by ok_inv.
  - by injection Hc as <- <-.
Qed.

Lemma executeEach_keeps_executed this now chainid gasprice users tos values
    datas gasLimits nonces signatures count i st st' u0 n0 :
  SessionKeyManager.executeEach tryRecover external_call this now chainid
    gasprice users tos values datas gasLimits nonces signatures i count st
  = Ok st' ->
  SessionKeyManager.executed (SessionKeyManager.transaction st u0 n0) = true ->
  SessionKeyManager.executed (SessionKeyManager.transaction st' u0 n0) = true.
Proof.
  revert i st. induction count as [| count IH]; intros i st H He; simpl in H.
  - by injection H as <-.
  - apply bind_Ok in H as ([ok st1] & H1 & H2).
    eapply IH; [exact H2 |]. by eapply executeTransaction_keeps_executed.
Qed.

(** No transaction of the manager clears the record of an executed
    transaction. *)
Lemma call_keeps_executed this e c st st' u0 n0 :
  SessionKeyManager.call tryRecover external_call this e c st = Ok st' ->
  SessionKeyManager.executed (SessionKeyManager.transaction st u0 n0) = true ->
  SessionKeyManager.executed (SessionKeyManager.transaction st' u0 n0) = true.
Proof.
  intros H He. destruct c; simpl in H.
  - by apply createSessionKey_Ok in H as (_ & _ & _ & _ & ->).
  - by apply revokeSessionKey_Ok in H as (_ & ->).
  - apply fmap_Ok in H as ([ok st1] & H & ->).
    by eapply executeTransaction_keeps_executed.
  - unfold SessionKeyManager.setFeeSponsor in H. inv_ok H. by ok_inv.
  - unfold SessionKeyManager.emergencyRevokeAllSessionKeys in H. inv_ok H.
    destruct (SessionKeyManager.revokeAll _ _ _). by ok_inv.
  - unfold SessionKeyManager.batchExecuteTransactions in H. inv_ok H.
    match goal with
    | Hx : SessionKeyManager.executeEach _ _ _ _ _ _ _ _ _ _ _ _ _ _ _ _
           = Ok _ |- _ => by eapply executeEach_keeps_executed
    end.
  - unfold SessionKeyManager.transferOwnership in H. inv_ok H. by ok_inv.
  - unfold SessionKeyManager.renounceOwnership in H. inv_ok H. by ok_inv.
Qed.

Lemma run_keeps_executed this txs st u0 n0 :
  SessionKeyManager.executed (SessionKeyManager.transaction st u0 n0) = true ->
  SessionKeyManager.executed
    (SessionKeyManager.transaction
       (SessionKeyManager.run tryRecover external_call this txs st) u0 n0)
  = true.
Proof.
  revert st. induction txs as [| [e c] txs IH]; intros st He; [done |].
  simpl. apply IH. unfold SessionKeyManager.step.
  destruct (SessionKeyManager.call _ _ _ _ _ _) eqn:Hc; [| done..].
  by eapply call_keeps_executed.
Qed.

(** What [executeTransaction] answers for a nonce that is recorded as
    executed: the first check that fails decides. *)
Lemma executeTransaction_executed sender now chainid gasprice u target val
    dat gas n sig st :
  SessionKeyManager.executed (SessionKeyManager.transaction st u n) = true ->
  SessionKeyManager.executeTransaction tryRecover external_call sender now
    chainid gasprice u target val dat gas n sig st
  = if sender =? SessionKeyManager.owner st
    then if SessionKeyManager.keyActive st u sender
         then Revert "Transaction already executed"
         else Revert "Invalid session key"
    else Revert "Ownable: caller is not the owner".
Proof.
  intros He. unfold SessionKeyManager.executeTransaction, onlyOwner.
  destruct (sender =? _); simpl; [| done].
  destruct (SessionKeyManager.keyActive st u sender); simpl; [| done].
  by rewrite He.
Qed.

End NoCallback.

(** X28. A nonce is used once, whether or not the call went through.  When
    [executeTransaction] commits, the caller is the owner and is itself an
    active session key of the user.  If the called contract does not call
    back into the manager, the user's nonce is then one more than the nonce
    executed and the transaction is stored as executed, also when the
    low-level call failed; sponsored gas is counted only for a successful
    call; and no later [executeTransaction] with that nonce for that user
    commits.  Right away a replay by the same caller reverts with
    "Transaction already executed"; after any further transactions of the
    manager, and for any caller, it reverts with the [Ownable] error when
    the caller is not the owner, with "Invalid session key" when the
    caller's key is not active for the user (it was revoked in between,
    say), and with "Transaction already executed" otherwise. *)
Theorem executed_nonce_cannot_be_replayed :
  forall tryRecover
         (external_call : address -> uint256 -> bytes -> uint256 ->
                          SessionKeyManager.State ->
                          option SessionKeyManager.State)
         sender now chainid gasprice u target val dat gas n sig st ok st',
    (forall t v d g s s', external_call t v d g s = Some s' -> s' = s) ->
    SessionKeyManager.executeTransaction tryRecover external_call sender now
      chainid gasprice u target val dat gas n sig st = Ok (ok, st') ->
    sender = SessionKeyManager.owner st
    /\ SessionKeyManager.keyActive st u sender = true
    /\ SessionKeyManager.getUserNonce st u = n
    /\ SessionKeyManager.getUserNonce st' u = n + 1
    /\ SessionKeyManager.transaction st' u n
       = SessionKeyManager.mkTransaction target val dat gas n true
    /\ SessionKeyManager.getSponsoredGasUsed st' u
       = (if ok then SessionKeyManager.getSponsoredGasUsed st u + gas
          else SessionKeyManager.getSponsoredGasUsed st u)
    /\ (forall now' chainid' gasprice' target' val' dat' gas' sig',
          SessionKeyManager.executeTransaction tryRecover external_call
            sender now' chainid' gasprice' u target' val' dat' gas' n sig'
            st'
          = Revert "Transaction already executed")
    /\ (forall this txs sender' now' chainid' gasprice' target' val' dat'
               gas' sig',
          let s := SessionKeyManager.run tryRecover external_call this txs
                     st' in
          SessionKeyManager.executeTransaction tryRecover external_call
            sender' now' chainid' gasprice' u target' val' dat' gas' n sig' s
          = if sender' =? SessionKeyManager.owner s
            then if SessionKeyManager.keyActive s u sender'
                 then Revert "Transaction already executed"
                 else Revert "Invalid session key"
            else Revert "Ownable: caller is not the owner").
Proof.
  intros tryRecover external_call sender now chainid gasprice u target val
    dat gas n sig st ok st' Hnr H.
  assert (Hdone : SessionKeyManager.executed
                    (SessionKeyManager.transaction st' u n) = true).
  { pose proof H as H0. unfold SessionKeyManager.executeTransaction in H0.
    inv_ok H0. ok_inv.
    match goal with
    | Hx : match external_call _ _ _ _ _ with _ => _ end = Ok _ |- _ =>
        rename Hx into Hc
    end.
    set (st1 := SessionKeyManager.mkState _ _ _ _ _ _ _) in Hc.
    assert (H1 : SessionKeyManager.executed
                   (SessionKeyManager.transaction st1 u n) = true).
    { unfold SessionKeyManager.transaction, st1. simpl.
      by rewrite mget_insert_eq. }
    destruct (external_call target val dat gas st1) as [st2 |] eqn:Hcall.
    - apply Hnr in Hcall as ->. inv_ok Hc. by ok_inv.
    - by injection Hc as <- <-. }
  assert (Hlater : forall this txs sender' now' chainid' gasprice' target'
                          val' dat' gas' sig',
            let s := SessionKeyManager.run tryRecover external_call this txs
                       st' in
            SessionKeyManager.executeTransaction tryRecover external_call
              sender' now' chainid' gasprice' u target' val' dat' gas' n
              sig' s
            = if sender' =? SessionKeyManager.owner s
              then if SessionKeyManager.keyActive s u sender'
                   then Revert "Transaction already executed"
                   else Revert "Invalid session key"
              else Revert "Ownable: caller is not the owner").
  { intros this txs sender' now' chainid' gasprice' target' val' dat' gas'
      sig' s.
    apply executeTransaction_executed. by apply run_keeps_executed. }
  unfold SessionKeyManager.executeTransaction in H. inv_ok H. ok_inv.
  arith_inv. subst sender.
  match goal with
  | Hx : (n =? _) = true |- _ => apply N.eqb_eq in Hx; subst n
  end.
  match goal with
  | Hx : SessionKeyManager.keyActive _ _ _ = true |- _ => rename Hx into Hk
  end.
  match goal with
  | Hx : match external_call _ _ _ _ _ with _ => _ end = Ok _ |- _ =>
      rename Hx into Hc
  end.
  set (st1 := SessionKeyManager.mkState _ _ _ _ _ _ _) in Hc.
  assert (Hreplay : forall s,
            SessionKeyManager.owner s = SessionKeyManager.owner st ->
            SessionKeyManager.isSessionKeyActive s
            = SessionKeyManager.isSessionKeyActive st ->
            SessionKeyManager.userTransactions s
            = SessionKeyManager.userTransactions st1 ->
            forall now' chainid' gasprice' target' val' dat' gas' sig',
              SessionKeyManager.executeTransaction tryRecover external_call
                (SessionKeyManager.owner st) now' chainid' gasprice' u
                target' val' dat' gas' (SessionKeyManager.getUserNonce st u)
                sig' s
              = Revert "Transaction already executed").
  { intros s Ho Hf Ht now' chainid' gasprice' target' val' dat' gas' sig'.
    unfold SessionKeyManager.executeTransaction, onlyOwner,
      SessionKeyManager.keyActive, SessionKeyManager.transaction.
    rewrite Ho, Hf, Ht, N.eqb_refl. simpl.
    unfold SessionKeyManager.keyActive in Hk. rewrite Hk. simpl.
    by rewrite mget_insert_eq. }
  split; [done |]. split; [done |]. split; [done |].
  destruct (external_call target val dat gas st1) as [st2 |] eqn:Hcall.
  - apply Hnr in Hcall as ->. inv_ok Hc. ok_inv. arith_inv.
    unfold SessionKeyManager.getUserNonce, SessionKeyManager.transaction,
      SessionKeyManager.getSponsoredGasUsed. simpl.
    rewrite !mget_insert_eq. fold (SessionKeyManager.getUserNonce st u).
    split; [done |]. split; [done |]. split; [done |].
    split; [by apply Hreplay | exact Hlater].
  - injection Hc as <- <-.
    unfold SessionKeyManager.getUserNonce, SessionKeyManager.transaction,
      SessionKeyManager.getSponsoredGasUsed. simpl.
    rewrite !mget_insert_eq. fold (SessionKeyManager.getUserNonce st u).
    split; [done |]. split; [done |]. split; [done |].
    split; [by apply Hreplay | exact Hlater].
Qed.

Lemma executed_nonce_cannot_be_replayed_witness :
  let recovers := fun (_ : bytes32) (_ : bytes) => Some 7 in
  let returns :=
    fun (_ _ : N) (_ : bytes) (_ : N) (s : SessionKeyManager.State) =>
      Some s in
  match SessionKeyManager.createSessionKey recovers 5 10 14 7 100 9 9 []
          (SessionKeyManager.deploy 7 2) with
  | Ok st =>
      match SessionKeyManager.executeTransaction recovers returns 7 50 14 1
              5 8 0 [] 3 0 [] st with
      | Ok (_, st') =>
          SessionKeyManager.getUserNonce st' 5 = 1
          /\ SessionKeyManager.executeTransaction recovers returns 7 60 14 1
               5 8 0 [] 3 0 [] st'
             = Revert "Transaction already executed"
          /\ (let revoked :=
                SessionKeyManager.run recovers returns 99
                  [(SessionKeyManager.mkEnv 5 70 14 1,
                    SessionKeyManager.RevokeSessionKey 7)] st' in
              SessionKeyManager.executeTransaction recovers returns 7 80 14
                1 5 8 0 [] 3 0 [] revoked
              = Revert "Invalid session key"
              /\ SessionKeyManager.executeTransaction recovers returns 9 80
                   14 1 5 8 0 [] 3 0 [] revoked
                 = Revert "Ownable: caller is not the owner")
      | _ => False
      end
  | _ => False
  end.
Proof.
  intros recovers returns.
  destruct (SessionKeyManager.createSessionKey recovers 5 10 14 7 100 9 9 []
              (SessionKeyManager.deploy 7 2)) as [st | |] eqn:H1;
    [| by vm_compute in H1..].
  destruct (SessionKeyManager.executeTransaction recovers returns 7 50 14 1
              5 8 0 [] 3 0 [] st) as [[ok st'] | |] eqn:H2;
    [| vm_compute in H1; injection H1 as <-; by vm_compute in H2..].
  assert (Hnr : forall t v d g s s', returns t v d g s = Some s' -> s' = s).
  { intros t v d g s s' E. by injection E. }
  destruct (executed_nonce_cannot_be_replayed recovers returns 7 50 14 1 5 8
              0 [] 3 0 [] st ok st' Hnr H2)
    as (_ & _ & _ & Hn & _ & _ & Hr & Hlater).
  split; [exact Hn |]. split; [apply Hr |].
  cbv zeta. split.
  - rewrite Hlater.
    vm_compute in H1. injection H1 as <-.
    vm_compute in H2. injection H2 as <- <-.
    vm_compute. reflexivity.
  - rewrite Hlater.
    vm_compute in H1. injection H1 as <-.
    vm_compute in H2. injection H2 as <- <-.
    vm_compute. reflexivity.
Defined.
